(* ===== verification/_CoqProject ===== *)
-Q . S2P
Prelude.v
Db.v
Url.v
Session.v
Credential.v
Migrate.v
Env.v
Seeding.v
Http.v
Json.v
UrlEncoded.v
Queries.v
Auth.v
Login.v
MockApi.v
Clients.v
Appointments.v
Api.v
JsDate.v
Wire.v
Browser.v
App.v
Form.v
Lists.v
Dashboard.v
Views.v
