(* ===== verification/Prelude.v ===== *)
(** * wellness-platform: a verification development

    The repository is an admin dashboard over a PostgreSQL store.  It has
    three parts that talk to each other:
    - the provisioning script src/scripts/migrate.js, which picks one of
      two database clients from the host of DATABASE_URL, opens a
      transaction, optionally drops the schema, creates it, seeds an
      admin and three clients with an overwrite policy chosen by the
      --reset/--redo flags, and commits or rolls back;
    - the Next.js route handlers under src/app/api (login, the clients
      listing, the four appointment handlers) behind the JWT middleware
      src/lib/auth.ts, with the mock API client src/lib/mock-api.ts;
    - the browser side: the hooks src/hooks/use-auth.ts (session in React
      state and localStorage) and src/hooks/use-api.ts (calls with the
      Bearer token), the home page src/app/page.tsx and the dashboard
      components under src/components (dashboard, appointment form,
      appointment and client lists).
    The script establishes the schema invariant the handlers keep; the
    browser reaches the handlers through fetch, JSON and query strings.
    The development models each part as the code is written and composes
    them: the browser against the server, the server against the store.

    ** Files, in dependency order
    - Prelude.v (this file): the [res] type of fallible results, the
      state-and-error monad [SM] with its [x <- m ;; k] notation
      (wellness_scope), the JavaScript string built-ins (trim, ||,
      truthiness), generic lemmas on lists of rows, the hint databases
      [wellness] and [wellness_rw] and the tactics.
    - Db.v, Module [Schema]: the tables of [createSchema] as records in a
      database record [db]; the statements of the program as the
      inductive [stmt] with their SQL meaning (CASCADE, ON CONFLICT, the
      unique external_id, the foreign key, the 32-bit INTEGER); the
      invariant [db_wf] and its preservation by every statement.
    - Url.v ([isLocal], migrate.js lines 33-40, over a model of WHATWG
      [new URL(u).hostname]); Session.v (the pg Client as one connection
      with a server transaction, the Neon HTTP function as one
      transaction per call; the adapter interface [Backend] with
      [BackendLaws] and [TxBackend]); Credential.v ([resolveAdminHash],
      bcrypt as the record [Bcrypt] with [BcryptLaws]); Migrate.v
      ([createSchema], [dropSchema], [seedAdmin], [seedClients], [main],
      the process [run] with its exit status); Seeding.v (the guarantees
      of the seed orchestrator).  Env.v: the loading of the environment
      before the script's code (ENV_PATH, dotenv as the parser interface
      [DotEnv], existing variables kept) and [startup], the script from
      its first line.
    - Http.v, Queries.v: the JavaScript values the handlers read and
      write, and the SQL of [pool.query] with the parameter conversions of
      node-postgres and PostgreSQL.  Json.v: JSON values, the interface
      [JsonCodec] of [JSON.stringify]/[JSON.parse] and an instance with a
      recursive-descent parser.  UrlEncoded.v: [URLSearchParams] on both
      ends.
    - Auth.v (the middleware, jsonwebtoken as [Jwt] with [JwtLaws]),
      Login.v, MockApi.v, Clients.v, Appointments.v: one Module per
      file of src/lib and src/app/api, each handler a function of the
      request and the database.  Api.v: the route table as [serve].
    - JsDate.v: JavaScript dates as the appointment form uses them: the
      proleptic Gregorian calendar ([civil_from_days], [days_from_civil]),
      [toISOString], [toTimeString().slice(0, 5)], and [new Date(s)] on a
      local date-time and on an ISO string.
    - Wire.v: the HTTP boundary: a request and a response as text, the
      route table of the App Router ([route]), the JSON bodies of each
      handler's answer, and [server], one request to the Next.js server.
    - Browser.v: use-auth.ts and use-api.ts with the network as a
      parameter: [restore], [login], [logout], [apiCall], [home].
    - App.v: the browser against [server]: a world (browser and database)
      and the step relation [reachable] of page loads, logins, logouts,
      calls and other clients.
    - Form.v, Lists.v, Dashboard.v: appointment-form.tsx,
      appointment-list.tsx and client-list.tsx, dashboard.tsx; the
      interactions of a dashboard session as the step relation [ui_step].
    - Views.v: what the three components render ([render_client_list],
      [render_appointment_list], [render_form]) as view records or the
      [TypeError] of a property read, the inputs' handlers, the search
      field through a keystroke ([keystroke]), and the [useAuth] guard.

    ** What the theorems show (the claims C1-C40, in this order)
    - The provisioning run (C1-C8): the adapter choice and atomicity on
      a transactional adapter; the refinement of a run by the statement
      list [migrate_stmts]; on Neon, a failed run leaves the schema
      committed whatever the database; idempotence of the default run
      whatever salts bcrypt draws; the admin policy, --reset and --redo.
    - The session (C9-C16): requireAuth refuses what does not verify;
      every reachable browser-and-database world keeps the session
      invariant; a login opens every guarded route for 24 hours, after
      which the dashboard stays up while every call fails; a logout
      closes everything; the fallback JWT secret; uniform login failures;
      the trimmed password.
    - The appointments UI against the API (C17-C28): the insert with its
      default duration; saving an edited appointment unchanged moves it a
      whole day east of UTC, and in every zone by at most one day
      (bounds); edit mode survives every navigation of a reachable
      dashboard; the outcome of a save; an appointment without a
      duration cannot be edited; each keystroke unmounts the search
      field; the list queries reach their routes; the rows against the
      TypeScript interface; one appointment without a status breaks the
      list; "Total Clients" counts a page of ten; a delete overwrites a
      refresh.
    - The environment, the routes' corners and the script's (C29-C40): an
      empty DATABASE_URL hides the file's; the inner join; LIKE
      wildcards; the extension failure; isLocal and the IPv6 loopback;
      the credential; the client policy; the duration select sends
      minutes; the COALESCE update; the clients page and its non-positive
      page; the blank password.

    ** Modelling choices, fuel and bounds
    - Faults of the provisioning run: [s_faults] lists the indices of the
      calls that fail; atomicity holds for every fault list.
    - Ids from gen_random_uuid() are drawn from a counter, NOW() is a
      constant of the run; strings are 8-bit.
    - The JSON parser takes fuel; [json_parse] gives it the length of the
      text plus one, and [Json.json_parse_fuel] proves that enough: a
      parse consumes its opening character before each recursive call.
    - The calendar round trip is proved for every day number, by
      reduction to one 400-year era of 146097 days checked by evaluation.
      A time value is valid within 8.64e15 ms of the epoch (TimeClip).
    - The local time zone is a fixed offset [tz] in milliseconds (no
      daylight saving time), less than a day in absolute value where a
      theorem needs it (real offsets are at most 14 hours); JSON numbers
      are integers (exact below 2^53).
    - A render is the evaluation of the component's JSX; React's
      reconciliation (an object as a child) is not part of it.
    - The network of the browser is a parameter ([net]); App.v and
      Dashboard.v instantiate it with the server model.

    ** Not modelled
    dotenv's parser and Node's path and fs (interfaces or inputs of
    Env.v); the layout and styling of the JSX (class names other than
    the status badge's and the selected row's), the locale formatting of
    toLocaleDateString/toLocaleTimeString; the Content-Type header of
    apiCall; daylight saving time; bcrypt's and jsonwebtoken's
    algorithms (libraries behind their laws); Next.js's decoding of a
    path segment; the PostgreSQL planner beyond the statements above. *)

From stdpp Require Export base list strings decidable.
From Stdlib Require Export ZArith Ascii String.

Declare Scope wellness_scope.
Delimit Scope wellness_scope with wp.
Open Scope string_scope.

Create HintDb wellness discriminated.
Create Rewrite HintDb wellness_rw.

(** ** Results of fallible operations

    A JavaScript promise that rejects, or a SQL statement that raises,
    is a value [Err e]; one that resolves is [Ok a]. *)

Inductive res (E A : Type) : Type :=
| Ok (a : A)
| Err (e : E).
Arguments Ok {E A} a.
Arguments Err {E A} e.

Definition is_ok {E A} (r : res E A) : bool :=
  match r with Ok _ => true | Err _ => false end.

(** [res E] is the error monad of one query or one handler step, with
    stdpp's [x ← m; k]. *)
#[export] Instance res_ret {E} : MRet (res E) := fun A a => Ok a.
#[export] Instance res_bind {E} : MBind (res E) :=
  fun A B f r => match r with Ok a => f a | Err e => Err e end.

Lemma res_bind_ok {E A B} (m : res E A) (f : A -> res E B) a :
  m = Ok a -> (m ≫= f) = f a.
Proof. by intros ->. Qed.

Lemma res_bind_Ok_inv {E A B} (m : res E A) (f : A -> res E B) b :
  (m ≫= f) = Ok b -> exists a, m = Ok a /\ f a = Ok b.
Proof. destruct m; simpl; [eauto|discriminate]. Qed.

(** ** A state-and-error monad

    The provisioning script is a chain of [await]ed calls that share one
    database session and abort at the first rejection; [SM S E] is that
    chain: a function of the session state returning the result and the
    new state. *)

Definition SM (S E A : Type) : Type := S -> res E A * S.

Definition sm_ret {S E A} (a : A) : SM S E A := fun s => (Ok a, s).

Definition sm_bind {S E A B} (m : SM S E A) (k : A -> SM S E B) : SM S E B :=
  fun s => match m s with
           | (Ok a, s') => k a s'
           | (Err e, s') => (Err e, s')
           end.

(** [try { m } catch (e) { h(e) }] *)
Definition sm_catch {S E A} (m : SM S E A) (h : E -> SM S E A) : SM S E A :=
  fun s => match m s with
           | (Ok a, s') => (Ok a, s')
           | (Err e, s') => h e s'
           end.

Definition sm_throw {S E A} (e : E) : SM S E A := fun s => (Err e, s).

Notation "x <- m ;; k" := (sm_bind m (fun x => k))
  (at level 100, m at next level, right associativity) : wellness_scope.
Notation "m ;; k" := (sm_bind m (fun _ => k))
  (at level 100, right associativity) : wellness_scope.
Open Scope wellness_scope.

Lemma sm_bind_ret_l {S E A B} (a : A) (k : A -> SM S E B) s :
  sm_bind (sm_ret a) k s = k a s.
Proof. reflexivity. Qed.

Lemma sm_bind_assoc {S E A B C} (m : SM S E A) (k : A -> SM S E B)
      (k' : B -> SM S E C) s :
  sm_bind (sm_bind m k) k' s = sm_bind m (fun a => sm_bind (k a) k') s.
Proof. unfold sm_bind. by destruct (m s) as [[a|e] s']. Qed.

Lemma sm_bind_ok {S E A B} (m : SM S E A) (k : A -> SM S E B) s a s' :
  m s = (Ok a, s') -> sm_bind m k s = k a s'.
Proof. unfold sm_bind. by intros ->. Qed.

Lemma sm_bind_err {S E A B} (m : SM S E A) (k : A -> SM S E B) s e s' :
  m s = (Err e, s') -> sm_bind m k s = (Err e, s').
Proof. unfold sm_bind. by intros ->. Qed.

Lemma sm_catch_ok {S E A} (m : SM S E A) h s a s' :
  m s = (Ok a, s') -> sm_catch m h s = (Ok a, s').
Proof. unfold sm_catch. by intros ->. Qed.

Lemma sm_catch_err {S E A} (m : SM S E A) h s e s' :
  m s = (Err e, s') -> sm_catch m h s = h e s'.
Proof. unfold sm_catch. by intros ->. Qed.

#[export] Hint Rewrite @sm_bind_ret_l @sm_bind_assoc : wellness_rw.

(** A property [P] of the state kept by every step of a computation. *)
Definition sm_preserves {S E A} (P : S -> Prop) (m : SM S E A) : Prop :=
  forall s, P s -> P (snd (m s)).

Lemma sm_preserves_bind {S E A B} (P : S -> Prop) (m : SM S E A)
      (k : A -> SM S E B) :
  sm_preserves P m -> (forall a, sm_preserves P (k a)) ->
  sm_preserves P (sm_bind m k).
Proof.
  intros Hm Hk s Hs. unfold sm_bind.
  specialize (Hm s Hs). destruct (m s) as [[a|e] s']; simpl in *; auto.
  by apply Hk.
Qed.

Lemma sm_preserves_catch {S E A} (P : S -> Prop) (m : SM S E A)
      (h : E -> SM S E A) :
  sm_preserves P m -> (forall e, sm_preserves P (h e)) ->
  sm_preserves P (sm_catch m h).
Proof.
  intros Hm Hh s Hs. unfold sm_catch.
  specialize (Hm s Hs). destruct (m s) as [[a|e] s']; simpl in *; auto.
  by apply Hh.
Qed.

Lemma sm_preserves_ret {S E A} (P : S -> Prop) (a : A) :
  sm_preserves P (@sm_ret S E A a).
Proof. by intros s Hs. Qed.

#[export] Hint Resolve sm_preserves_bind sm_preserves_catch sm_preserves_ret
  : wellness.

(** ** JavaScript strings

    Strings are Rocq [string]s (one [ascii] per code unit); the
    environment and the seed data of the program are ASCII.  The helpers
    below are the JavaScript built-ins the sources call. *)

(** [String.prototype.trim] removes the white space and line terminators
    at both ends; among 8-bit code units those are TAB, LF, VT, FF, CR,
    SPACE and NO-BREAK SPACE (U+00A0). *)
Definition js_is_ws (c : ascii) : bool :=
  let n := nat_of_ascii c in
  (Nat.eqb n 9 || Nat.eqb n 10 || Nat.eqb n 11 || Nat.eqb n 12 ||
   Nat.eqb n 13 || Nat.eqb n 32 || Nat.eqb n 160)%bool.

Fixpoint ltrim (l : list ascii) : list ascii :=
  match l with
  | [] => []
  | c :: l' => if js_is_ws c then ltrim l' else l
  end.

Definition js_trim (s : string) : string :=
  string_of_list_ascii (rev (ltrim (rev (ltrim (list_ascii_of_string s))))).

(** Truthiness of a string value that may be [undefined]. *)
Definition js_truthy (o : option string) : bool :=
  match o with Some (String _ _) => true | _ => false end.

(** [x || d] on a string that may be [undefined]. *)
Definition js_or (o : option string) (d : string) : string :=
  match o with Some (String c s) => String c s | _ => d end.

Lemma ltrim_app_ws l : forall l', Forall (fun c => js_is_ws c = true) l' ->
  ltrim (l' ++ l) = ltrim l.
Proof. intros l' H. induction H as [|c l' Hc _ IH]; simpl; [done|by rewrite Hc]. Qed.

Lemma ltrim_idem l : ltrim (ltrim l) = ltrim l.
Proof. induction l as [|c l IH]; simpl; [done|]. destruct (js_is_ws c) eqn:E; simpl; rewrite ?E; done. Qed.

Lemma ltrim_head l :
  match ltrim l with [] => True | c :: _ => js_is_ws c = false end.
Proof.
  induction l as [|c l IH]; simpl; [done|].
  destruct (js_is_ws c) eqn:E; [done|]. by rewrite E.
Qed.

Lemma js_or_truthy o d : js_truthy o = true -> js_or o d = match o with Some s => s | None => d end.
Proof. by destruct o as [[|c s]|]. Qed.

Lemma js_or_falsy o d : js_truthy o = false -> js_or o d = d.
Proof. by destruct o as [[|c s]|]. Qed.

#[export] Hint Rewrite ltrim_idem : wellness_rw.

(** ** Tactics of the development *)

Ltac invc H := inversion H; subst; clear H.

(** Case on the innermost scrutinee the goal matches on. *)
Ltac case_step :=
  match goal with
  | |- context [match ?m with _ => _ end] =>
      let E := fresh "E" in destruct m eqn:E
  end.

Open Scope list_scope.

(** ** Lists of rows: keys, fresh ids and updates in place *)

Section RowLists.
Context {A K : Type} `{EqDecision K}.

Lemma existsb_key (f : A -> K) (k : K) (l : list A) :
  existsb (fun r => bool_decide (f r = k)) l = true <-> In k (map f l).
Proof.
  rewrite existsb_exists, in_map_iff. split.
  - intros (x & Hin & Hx). apply bool_decide_eq_true in Hx. eauto.
  - intros (x & Hx & Hin). exists x. split; [done|]. by apply bool_decide_eq_true.
Qed.

Lemma existsb_key_false (f : A -> K) (k : K) (l : list A) :
  existsb (fun r => bool_decide (f r = k)) l = false <-> ~ In k (map f l).
Proof.
  rewrite <- existsb_key. destruct (existsb _ l); split; congruence || tauto.
Qed.

Lemma NoDup_map_snoc (f : A -> K) (l : list A) (x : A) :
  NoDup (map f l) -> ~ In (f x) (map f l) -> NoDup (map f (l ++ [x])).
Proof.
  intros Hnd Hx. rewrite map_app. apply list.NoDup_app. split; [done|]. split.
  - intros y Hy ->%list_elem_of_singleton. by apply Hx, list_elem_of_In.
  - apply NoDup_singleton.
Qed.

Lemma map_update_key (f : A -> K) (P : A -> bool) (g : A -> A) (l : list A) :
  (forall r, f (g r) = f r) ->
  map f (map (fun r => if P r then g r else r) l) = map f l.
Proof.
  intros Hg. induction l as [|r l IH]; simpl; [done|].
  rewrite IH. by destruct (P r); rewrite ?Hg.
Qed.

Lemma NoDup_omap_snoc {B} (f : A -> option B) (l : list A) (x : A) (v : B) :
  NoDup (omap f l) -> f x = Some v -> ~ In v (omap f l) ->
  NoDup (omap f (l ++ [x])).
Proof.
  intros Hnd Hx Hv. rewrite omap_app. simpl. rewrite Hx.
  apply list.NoDup_app. split; [done|]. split.
  - intros y Hy ->%list_elem_of_singleton. by apply Hv, list_elem_of_In.
  - apply NoDup_singleton.
Qed.

Lemma omap_cons_eq {B} (f : A -> option B) (x : A) (l : list A) :
  omap f (x :: l) = match f x with Some y => y :: omap f l | None => omap f l end.
Proof. done. Qed.

(** Updating, in place, the one row whose key is [k] (keys are unique) to
    a row whose optional unique column is [v], which no other row has. *)
Lemma NoDup_omap_update {B} (f : A -> option B) (key : A -> K) (k : K)
      (g : A -> A) (v : B) (l : list A) :
  NoDup (omap f l) -> NoDup (map key l) ->
  (forall r, f (g r) = Some v) ->
  (forall r, In r l -> key r <> k -> f r <> Some v) ->
  NoDup (omap f (map (fun r => if bool_decide (key r = k) then g r else r) l)).
Proof.
  intros Hnd Hkeys Hg Hother. induction l as [|r l IH]; [constructor|].
  change (map key (r :: l)) with (key r :: map key l) in Hkeys.
  apply list.NoDup_cons in Hkeys as [Hr Hkeys].
  set (upd := fun r => if bool_decide (key r = k) then g r else r).
  change (map upd (r :: l)) with (upd r :: map upd l).
  rewrite omap_cons_eq in Hnd |- *.
  assert (Htail : forall y, y ∈ omap f (map upd l) -> y = v \/ y ∈ omap f l).
  { intros y (x & Hx & Hfx)%list_elem_of_omap.
    apply list_elem_of_In, in_map_iff in Hx as (x0 & <- & Hx0).
    unfold upd in Hfx. destruct (bool_decide (key x0 = k)).
    - left. rewrite Hg in Hfx. congruence.
    - right. apply list_elem_of_omap. exists x0. by rewrite list_elem_of_In. }
  assert (Hur : upd r = if bool_decide (key r = k) then g r else r) by done.
  destruct (decide (key r = k)) as [Hk|Hk].
  - rewrite bool_decide_true in Hur by done. rewrite Hur, Hg. subst k.
    assert (Hsame : map upd l = l).
    { rewrite <- (map_id l) at 2. apply map_ext_in. intros x Hx.
      unfold upd. rewrite bool_decide_false; [done|]. intros Heq. apply Hr.
      apply list_elem_of_In. rewrite <- Heq. by apply in_map. }
    rewrite Hsame. apply list.NoDup_cons. split.
    + intros (x & Hx & Hfx)%list_elem_of_omap. apply list_elem_of_In in Hx.
      apply (Hother x); [by right| |done].
      intros Heq. apply Hr. apply list_elem_of_In. rewrite <- Heq. by apply in_map.
    + destruct (f r); [by apply list.NoDup_cons in Hnd as [_ ?]|done].
  - rewrite bool_decide_false in Hur by done. rewrite Hur.
    destruct (f r) as [w|] eqn:Hfr.
    + apply list.NoDup_cons in Hnd as [Hw Hnd]. apply list.NoDup_cons. split.
      * intros [->|Hin]%Htail; [|done]. by apply (Hother r); [left| |].
      * apply IH; [done|done|]. intros x Hx. apply Hother. by right.
    + apply IH; [done|done|]. intros x Hx. apply Hother. by right.
Qed.

Lemma NoDup_map_filter (f : A -> K) (p : A -> bool) (l : list A) :
  NoDup (map f l) -> NoDup (map f (List.filter p l)).
Proof.
  induction l as [|r l IH]; simpl; [done|].
  intros [Hr Hnd]%list.NoDup_cons. destruct (p r); [|by apply IH].
  simpl. apply list.NoDup_cons. split; [|by apply IH].
  intros Hin. apply Hr. apply list_elem_of_In in Hin. apply list_elem_of_In.
  apply in_map_iff in Hin as (x & <- & Hx). apply filter_In in Hx as [Hx _].
  by apply in_map.
Qed.

Lemma NoDup_omap_filter {B} (f : A -> option B) (p : A -> bool) (l : list A) :
  NoDup (omap f l) -> NoDup (omap f (List.filter p l)).
Proof.
  induction l as [|r l IH]; simpl; [done|].
  destruct (p r); simpl; destruct (f r) eqn:Hfr; try by apply IH.
  - intros [Hr Hnd]%list.NoDup_cons. apply list.NoDup_cons. split; [|by apply IH].
    intros (x & Hx & Hfx)%list_elem_of_omap. apply Hr, list_elem_of_omap.
    exists x. split; [|done]. apply list_elem_of_In in Hx.
    apply list_elem_of_In. by apply filter_In in Hx as [? _].
  - intros [_ Hnd]%list.NoDup_cons. by apply IH.
Qed.

Lemma filter_none (p : A -> bool) (l : list A) :
  (forall y, In y l -> p y = false) -> List.filter p l = [].
Proof.
  induction l as [|y l IH]; simpl; intros Hp; [done|].
  rewrite Hp by auto. apply IH. auto.
Qed.

(** A key that is unique in the list selects exactly its row. *)
Lemma filter_unique_key (f : A -> K) (p : A -> bool) (l : list A) (x : A) :
  NoDup (map f l) -> In x l -> (forall y, In y l -> p y = true <-> f y = f x) ->
  List.filter p l = [x].
Proof.
  induction l as [|y l IH]; simpl; [done|]. intros Hnd Hin Hp.
  apply list.NoDup_cons in Hnd as [Hy Hnd]. rewrite list_elem_of_In, in_map_iff in Hy.
  destruct Hin as [<-|Hin].
  - rewrite (proj2 (Hp y (or_introl eq_refl)) eq_refl). f_equal. apply filter_none.
    intros z Hz. destruct (p z) eqn:E; [|done].
    exfalso. apply Hy. exists z. split; [|done]. by apply Hp; auto.
  - destruct (p y) eqn:E.
    + exfalso. apply Hy. exists x. split; [|done]. symmetry. by apply Hp; auto.
    + apply IH; [done|done|]. intros z Hz. apply Hp. auto.
Qed.

End RowLists.

(** Every row's generated id is below the generator's next value. *)
Definition ids_below {A} (f : A -> nat) (n : nat) (l : list A) : Prop :=
  Forall (fun r => f r < n) l.

Lemma ids_below_snoc {A} (f : A -> nat) n l (x : A) :
  ids_below f n l -> f x = n -> ids_below f (S n) (l ++ [x]).
Proof.
  intros Hl Hx. apply Forall_app. split; [|constructor; [lia|constructor]].
  eapply Forall_impl; [|exact Hl]. simpl. lia.
Qed.

Lemma ids_below_fresh {A} (f : A -> nat) n l :
  ids_below f n l -> ~ In n (map f l).
Proof.
  intros Hl (x & Hx & Hin)%in_map_iff.
  unfold ids_below in Hl. rewrite Forall_forall in Hl. apply Hl in Hin. lia.
Qed.

Lemma ids_below_update {A} (f : A -> nat) n (P : A -> bool) g l :
  (forall r, f (g r) = f r) -> ids_below f n l ->
  ids_below f n (map (fun r => if P r then g r else r) l).
Proof.
  intros Hg Hl. apply Forall_map. eapply Forall_impl; [|exact Hl].
  intros r Hr. simpl. by destruct (P r); rewrite ?Hg.
Qed.

Lemma ids_below_filter {A} (f : A -> nat) n (p : A -> bool) l :
  ids_below f n l -> ids_below f n (List.filter p l).
Proof.
  unfold ids_below. rewrite !Forall_forall. intros Hl x Hx.
  apply filter_In in Hx as [Hx _]. by apply Hl.
Qed.

#[export] Hint Resolve NoDup_map_snoc NoDup_omap_snoc NoDup_map_filter
  NoDup_omap_filter ids_below_snoc ids_below_update ids_below_filter : wellness.

Lemma ids_below_mono {A} (f : A -> nat) n m l :
  ids_below f n l -> n <= m -> ids_below f m l.
Proof.
  intros Hl Hnm. eapply Forall_impl; [|exact Hl]. simpl. lia.
Qed.

Lemma existsb_false_In {A} (f : A -> bool) (l : list A) x :
  existsb f l = false -> In x l -> f x = false.
Proof.
  intros H Hin. destruct (f x) eqn:Hx; [|done].
  assert (existsb f l = true) as Ht by (apply existsb_exists; eauto). congruence.
Qed.

Lemma existsb_opt_key_false {A B} `{EqDecision B} (f : A -> option B) (v : B) (l : list A) :
  existsb (fun r => bool_decide (f r = Some v)) l = false -> ~ In v (omap f l).
Proof.
  intros H Hin. apply list_elem_of_In, list_elem_of_omap in Hin as (x & Hx & Hfx).
  apply list_elem_of_In in Hx. pose proof (existsb_false_In _ _ _ H Hx) as Hf.
  simpl in Hf. rewrite bool_decide_true in Hf by done. discriminate.
Qed.

Lemma string_length_list (s : string) :
  String.length s = List.length (list_ascii_of_string s).
Proof. induction s as [|c s IH]; simpl; [done|by rewrite IH]. Qed.

(** Instantiate [exists x, e = Ok x /\ ...] with the value [e] computes. *)
Ltac exists_computed :=
  match goal with
  | |- exists x, ?lhs = Ok x /\ _ =>
      let v := eval vm_compute in lhs in
      match v with Ok ?x0 => exists x0 end
  end.
