(* ===== verification/Db.v ===== *)
(** * The relational store the provisioning script provisions

    The three tables created by [createSchema] in src/scripts/migrate.js
    (lines 80-107), their constraints, and the SQL semantics of every
    statement the script issues: [CREATE ... IF NOT EXISTS],
    [DROP TABLE IF EXISTS ... CASCADE] and the two [INSERT ... ON CONFLICT]
    forms of the seeders, with the appointment insertion and the
    [ON DELETE CASCADE] rule of the schema.  Each statement is a pure
    function of the database returning the rows or a SQL error; the
    invariant [db_wf] (unique keys, fresh ids, referential integrity) is
    kept by all of them. *)

From S2P Require Import Prelude.
Open Scope list_scope.

Module Schema.

(** ** Rows, as declared by the [CREATE TABLE] statements

    A [UUID ... DEFAULT gen_random_uuid()] key is a [nat] drawn from the
    counter [db_next_id]; a [TIMESTAMPTZ DEFAULT NOW()] is a [Z]; a
    nullable column is an [option]. *)

Record admin_row := mkAdmin {
  admin_id : nat;
  admin_email : string;
  admin_password_hash : string;
  admin_name : string;
  admin_created_at : Z
}.

Record client_row := mkClient {
  client_id : nat;
  client_external_id : option string;
  client_name : string;
  client_email : string;
  client_phone : option string;
  client_created_at : Z;
  client_updated_at : Z
}.

Record appointment_row := mkAppointment {
  appt_id : nat;
  appt_external_id : option string;
  appt_client_id : option nat;
  appt_title : string;
  appt_description : option string;
  appt_date : Z;
  appt_duration_minutes : option Z;
  appt_status : option string;
  appt_created_at : Z;
  appt_updated_at : Z
}.

(** The appointments table and whether its foreign key
    [client_id REFERENCES clients(id) ON DELETE CASCADE] still exists
    ([DROP TABLE clients CASCADE] removes that constraint, not the
    table). *)
Record appointments_table := mkAppointmentsTable {
  at_rows : list appointment_row;
  at_fk_client : bool
}.

(** A database: the [pgcrypto] extension, each table ([None] when it does
    not exist), the id generator and the transaction clock [NOW()]. *)
Record db := mkDb {
  db_pgcrypto : bool;
  db_clients : option (list client_row);
  db_appointments : option appointments_table;
  db_admins : option (list admin_row);
  db_next_id : nat;
  db_now : Z
}.

#[export] Instance admin_row_eq_dec : EqDecision admin_row.
Proof. solve_decision. Defined.
#[export] Instance client_row_eq_dec : EqDecision client_row.
Proof. solve_decision. Defined.
#[export] Instance appointment_row_eq_dec : EqDecision appointment_row.
Proof. solve_decision. Defined.
#[export] Instance appointments_table_eq_dec : EqDecision appointments_table.
Proof. solve_decision. Defined.
#[export] Instance db_eq_dec : EqDecision db.
Proof. solve_decision. Defined.

Definition empty_db (now : Z) : db := mkDb false None None None 0 now.

Definition set_pgcrypto (d : db) : db :=
  mkDb true (db_clients d) (db_appointments d) (db_admins d) (db_next_id d) (db_now d).
Definition set_clients (d : db) (c : option (list client_row)) : db :=
  mkDb (db_pgcrypto d) c (db_appointments d) (db_admins d) (db_next_id d) (db_now d).
Definition set_appointments (d : db) (a : option appointments_table) : db :=
  mkDb (db_pgcrypto d) (db_clients d) a (db_admins d) (db_next_id d) (db_now d).
Definition set_admins (d : db) (a : option (list admin_row)) : db :=
  mkDb (db_pgcrypto d) (db_clients d) (db_appointments d) a (db_next_id d) (db_now d).
(** One call of [gen_random_uuid()]. *)
Definition bump_id (d : db) : db :=
  mkDb (db_pgcrypto d) (db_clients d) (db_appointments d) (db_admins d) (S (db_next_id d)) (db_now d).

(** ** Statements and errors *)

Inductive sql_error :=
| UniqueViolation (constraint : string)
| UndefinedTable (table : string)
| ForeignKeyViolation (constraint : string)
| NumericValueOutOfRange
| InFailedSqlTransaction
| InvalidTextRepresentation (type_name : string)
| InvalidRowCountInLimit
| InvalidRowCountInOffset
| NotNullViolation (column : string)
| InvalidEscapeSequence
| InjectedFault (call : nat).

#[export] Instance sql_error_eq_dec : EqDecision sql_error.
Proof. solve_decision. Defined.

Inductive on_conflict := DoNothing | DoUpdate.

#[export] Instance on_conflict_eq_dec : EqDecision on_conflict.
Proof. solve_decision. Defined.

(** The statements of the program, with their bound parameters. *)
Inductive stmt :=
| SBegin | SCommit | SRollback
| SCreateExtensionPgcrypto
| SCreateTableClients | SCreateTableAppointments | SCreateTableAdmins
| SDropTableAppointments | SDropTableClients | SDropTableAdmins
| SInsertAdmin (p : on_conflict) (email password_hash name : string)
| SInsertClient (p : on_conflict) (external_id name email phone : string)
| SInsertAppointment (client : option nat) (title : string)
    (description : option string) (date : Z) (duration_minutes : option Z)
| SDeleteClient (id : nat).

#[export] Instance stmt_eq_dec : EqDecision stmt.
Proof. solve_decision. Defined.

Definition is_control (q : stmt) : bool :=
  match q with SBegin | SCommit | SRollback => true | _ => false end.

Inductive qresult :=
| QNone
| QAppointments (rows : list appointment_row).

Definition sql_res := res sql_error (qresult * db).

(** ** Schema statements *)

Definition create_extension_pgcrypto (d : db) : sql_res := Ok (QNone, set_pgcrypto d).

Definition create_table_clients (d : db) : sql_res :=
  match db_clients d with
  | Some _ => Ok (QNone, d)
  | None => Ok (QNone, set_clients d (Some []))
  end.

(** [REFERENCES clients(id)] needs the clients table. *)
Definition create_table_appointments (d : db) : sql_res :=
  match db_appointments d with
  | Some _ => Ok (QNone, d)
  | None =>
      match db_clients d with
      | None => Err (UndefinedTable "clients")
      | Some _ => Ok (QNone, set_appointments d (Some (mkAppointmentsTable [] true)))
      end
  end.

Definition create_table_admins (d : db) : sql_res :=
  match db_admins d with
  | Some _ => Ok (QNone, d)
  | None => Ok (QNone, set_admins d (Some []))
  end.

Definition drop_table_appointments (d : db) : sql_res :=
  Ok (QNone, set_appointments d None).

Definition drop_fk (t : appointments_table) : appointments_table :=
  mkAppointmentsTable (at_rows t) false.

(** [CASCADE] drops the foreign key of appointments that depends on
    clients. *)
Definition drop_table_clients (d : db) : sql_res :=
  Ok (QNone, set_appointments (set_clients d None) (option_map drop_fk (db_appointments d))).

Definition drop_table_admins (d : db) : sql_res :=
  Ok (QNone, set_admins d None).

(** ** Seeding statements *)

Definition admin_has_email (email : string) (r : admin_row) : bool :=
  bool_decide (admin_email r = email).

(** [SET password_hash=EXCLUDED.password_hash, name=EXCLUDED.name] *)
Definition admin_set_excluded (hash name : string) (r : admin_row) : admin_row :=
  mkAdmin (admin_id r) (admin_email r) hash name (admin_created_at r).

Definition insert_admin (p : on_conflict) (email hash name : string) (d : db) : sql_res :=
  match db_admins d with
  | None => Err (UndefinedTable "admins")
  | Some rows =>
      if existsb (admin_has_email email) rows then
        match p with
        | DoNothing => Ok (QNone, d)
        | DoUpdate =>
            Ok (QNone, set_admins d (Some (map (fun r =>
                  if admin_has_email email r then admin_set_excluded hash name r else r) rows)))
        end
      else
        Ok (QNone, set_admins (bump_id d)
              (Some (rows ++ [mkAdmin (db_next_id d) email hash name (db_now d)])))
  end.

Definition client_has_email (email : string) (r : client_row) : bool :=
  bool_decide (client_email r = email).

Definition client_has_external_id (ext : string) (r : client_row) : bool :=
  bool_decide (client_external_id r = Some ext).

(** [SET external_id=EXCLUDED.external_id, name=EXCLUDED.name,
    phone=EXCLUDED.phone]; [updated_at] is not in the list. *)
Definition client_set_excluded (ext name phone : string) (r : client_row) : client_row :=
  mkClient (client_id r) (Some ext) name (client_email r) (Some phone)
           (client_created_at r) (client_updated_at r).

(** The arbiter is [email]; the other unique index, on [external_id],
    raises when the inserted or updated row would duplicate it. *)
Definition insert_client (p : on_conflict) (ext name email phone : string) (d : db) : sql_res :=
  match db_clients d with
  | None => Err (UndefinedTable "clients")
  | Some rows =>
      if existsb (client_has_email email) rows then
        match p with
        | DoNothing => Ok (QNone, d)
        | DoUpdate =>
            if existsb (fun r => negb (client_has_email email r) && client_has_external_id ext r) rows
            then Err (UniqueViolation "clients_external_id_key")
            else Ok (QNone, set_clients d (Some (map (fun r =>
                   if client_has_email email r then client_set_excluded ext name phone r else r) rows)))
        end
      else if existsb (client_has_external_id ext) rows
      then Err (UniqueViolation "clients_external_id_key")
      else Ok (QNone, set_clients (bump_id d)
                 (Some (rows ++ [mkClient (db_next_id d) (Some ext) name email (Some phone)
                                          (db_now d) (db_now d)])))
  end.

(** ** Appointments and the cascade rule *)

Definition client_ids (d : db) : list nat :=
  match db_clients d with Some rows => map client_id rows | None => [] end.

(** [INTEGER] is a 32-bit column. *)
Definition int4_min : Z := (- 2 ^ 31)%Z.
Definition int4_max : Z := (2 ^ 31 - 1)%Z.
Definition in_int4 (z : Z) : bool := ((int4_min <=? z)%Z && (z <=? int4_max)%Z)%bool.

(** A [NULL] client id passes the foreign key (the column is nullable);
    a [NULL] duration is stored, the column default only applies when the
    column is not listed. *)
Definition fk_refused (t : appointments_table) (c : option nat) (d : db) : bool :=
  match c with
  | Some c => at_fk_client t && negb (bool_decide (c ∈ client_ids d))
  | None => false
  end.

Definition insert_appointment (c : option nat) (title : string) (descr : option string)
           (date : Z) (dur : option Z) (d : db) : sql_res :=
  match db_appointments d with
  | None => Err (UndefinedTable "appointments")
  | Some t =>
      if negb (default true (option_map in_int4 dur)) then Err NumericValueOutOfRange
      else if fk_refused t c d
      then Err (ForeignKeyViolation "appointments_client_id_fkey")
      else
        let row := mkAppointment (db_next_id d) None c title descr date dur
                                 (Some "scheduled") (db_now d) (db_now d) in
        Ok (QAppointments [row],
            set_appointments (bump_id d)
              (Some (mkAppointmentsTable (at_rows t ++ [row]) (at_fk_client t))))
  end.

(** [DELETE FROM clients WHERE id = $1], with [ON DELETE CASCADE]
    removing the appointments that reference the client. *)
Definition delete_client (c : nat) (d : db) : sql_res :=
  match db_clients d with
  | None => Err (UndefinedTable "clients")
  | Some rows =>
      let rows' := List.filter (fun r => negb (bool_decide (client_id r = c))) rows in
      let appts' := option_map (fun t =>
                      if at_fk_client t
                      then mkAppointmentsTable
                             (List.filter (fun a => negb (bool_decide (appt_client_id a = Some c)))
                                     (at_rows t)) true
                      else t) (db_appointments d) in
      Ok (QNone, set_appointments (set_clients d (Some rows')) appts')
  end.

(** ** One data statement *)

Definition step_stmt (q : stmt) (d : db) : sql_res :=
  match q with
  | SBegin | SCommit | SRollback => Ok (QNone, d)
  | SCreateExtensionPgcrypto => create_extension_pgcrypto d
  | SCreateTableClients => create_table_clients d
  | SCreateTableAppointments => create_table_appointments d
  | SCreateTableAdmins => create_table_admins d
  | SDropTableAppointments => drop_table_appointments d
  | SDropTableClients => drop_table_clients d
  | SDropTableAdmins => drop_table_admins d
  | SInsertAdmin p e h n => insert_admin p e h n d
  | SInsertClient p x n e ph => insert_client p x n e ph d
  | SInsertAppointment c t ds dt du => insert_appointment c t ds dt du d
  | SDeleteClient c => delete_client c d
  end.

(** ** The well-formedness invariant

    The constraints of the [CREATE TABLE] statements: [email UNIQUE] on
    admins and clients, [external_id UNIQUE] (NULLs apart) on clients and
    appointments, primary keys, and, while the foreign key exists, every
    appointment's [client_id] naming an existing client.  Generated ids
    are below the generator, so the next one is fresh. *)

Definition opt_wf {A} (P : A -> Prop) (o : option A) : Prop :=
  match o with Some x => P x | None => True end.

Definition admins_wf (n : nat) (rows : list admin_row) : Prop :=
  NoDup (map admin_email rows) /\ NoDup (map admin_id rows) /\ ids_below admin_id n rows.

Definition clients_wf (n : nat) (rows : list client_row) : Prop :=
  NoDup (map client_email rows) /\ NoDup (omap client_external_id rows) /\
  NoDup (map client_id rows) /\ ids_below client_id n rows.

Definition appt_ref_ok (cids : list nat) (a : appointment_row) : Prop :=
  match appt_client_id a with Some c => In c cids | None => True end.

Definition appointments_wf (n : nat) (clients : option (list client_row))
           (t : appointments_table) : Prop :=
  NoDup (omap appt_external_id (at_rows t)) /\ NoDup (map appt_id (at_rows t)) /\
  ids_below appt_id n (at_rows t) /\
  (at_fk_client t = true ->
   exists cs, clients = Some cs /\ Forall (appt_ref_ok (map client_id cs)) (at_rows t)).

Record db_wf (d : db) : Prop := {
  wf_admins : opt_wf (admins_wf (db_next_id d)) (db_admins d);
  wf_clients : opt_wf (clients_wf (db_next_id d)) (db_clients d);
  wf_appointments : opt_wf (appointments_wf (db_next_id d) (db_clients d)) (db_appointments d)
}.

(** ** The invariant is kept by every statement *)

Lemma admins_wf_bump n rows : admins_wf n rows -> admins_wf (S n) rows.
Proof. intros (? & ? & Hb). repeat split; auto. eapply ids_below_mono; [exact Hb|lia]. Qed.

Lemma clients_wf_bump n rows : clients_wf n rows -> clients_wf (S n) rows.
Proof. intros (? & ? & ? & Hb). repeat split; auto. eapply ids_below_mono; [exact Hb|lia]. Qed.

Lemma appointments_wf_bump n cl t : appointments_wf n cl t -> appointments_wf (S n) cl t.
Proof. intros (? & ? & Hb & ?). repeat split; auto. eapply ids_below_mono; [exact Hb|lia]. Qed.

(** Growing the set of client ids keeps every reference valid. *)
Lemma appointments_wf_clients n cs cs' t :
  appointments_wf n (Some cs) t -> incl (map client_id cs) (map client_id cs') ->
  appointments_wf n (Some cs') t.
Proof.
  intros (? & ? & ? & Hfk) Hincl. repeat split; auto.
  intros Hon. destruct (Hfk Hon) as (cs0 & [= <-] & Hrefs). exists cs'. split; [done|].
  eapply Forall_impl; [|exact Hrefs]. intros a. unfold appt_ref_ok.
  destruct (appt_client_id a); auto.
Qed.

#[export] Hint Resolve admins_wf_bump clients_wf_bump appointments_wf_bump : wellness.

Lemma wf_bump_others d :
  db_wf d ->
  opt_wf (clients_wf (S (db_next_id d))) (db_clients d) /\
  opt_wf (appointments_wf (S (db_next_id d)) (db_clients d)) (db_appointments d) /\
  opt_wf (admins_wf (S (db_next_id d))) (db_admins d).
Proof.
  intros [Ha Hc Hp].
  split; [|split]; [destruct (db_clients d) | destruct (db_appointments d)
    | destruct (db_admins d)]; simpl in *; auto with wellness.
Qed.

Lemma insert_admin_wf p e h nm d r d' :
  db_wf d -> insert_admin p e h nm d = Ok (r, d') -> db_wf d'.
Proof.
  intros Hwf H. pose proof (wf_bump_others d Hwf) as (Hc' & Hp' & _).
  destruct Hwf as [Ha Hc Hp]. unfold insert_admin in H.
  destruct (db_admins d) as [rows|] eqn:Hrows; [|discriminate]. simpl in Ha.
  destruct Ha as (He & Hi & Hb).
  destruct (existsb (admin_has_email e) rows) eqn:Hex; [destruct p|]; simplify_eq.
  - constructor; by rewrite ?Hrows.
  - constructor; simpl; [|done|done].
    repeat split; rewrite ?map_update_key by done; auto with wellness.
  - constructor; simpl; [|done|done]. repeat split.
    + apply NoDup_map_snoc; [done|]. by apply existsb_key_false.
    + apply NoDup_map_snoc; [done|]. by apply ids_below_fresh.
    + by apply ids_below_snoc.
Qed.

Lemma insert_client_wf p x nm e ph d r d' :
  db_wf d -> insert_client p x nm e ph d = Ok (r, d') -> db_wf d'.
Proof.
  intros Hwf H. pose proof (wf_bump_others d Hwf) as (_ & Hp' & Ha').
  destruct Hwf as [Ha Hc Hp]. unfold insert_client in H.
  destruct (db_clients d) as [rows|] eqn:Hrows; [|discriminate]. simpl in Hc.
  destruct Hc as (He & Hx & Hi & Hb).
  destruct (existsb (client_has_email e) rows) eqn:Hex; [destruct p|].
  - simplify_eq. constructor; by rewrite ?Hrows.
  - destruct (existsb _ rows) eqn:Hconf in H; simplify_eq.
    assert (Hids : map client_id (map (fun r => if client_has_email e r
                     then client_set_excluded x nm ph r else r) rows) = map client_id rows)
      by (by apply map_update_key).
    constructor; simpl; [done| |].
    + repeat split; rewrite ?map_update_key by done; auto with wellness.
      apply NoDup_omap_update with (key := client_email) (v := x); [done|done|done|].
      intros r0 Hin Hne Hext. pose proof (existsb_false_In _ _ _ Hconf Hin) as Hf.
      unfold client_has_email, client_has_external_id in Hf.
      rewrite bool_decide_false, bool_decide_true in Hf by done. discriminate.
    + destruct (db_appointments d); simpl in *; [|done].
      eapply appointments_wf_clients; [exact Hp|]. rewrite Hids. apply incl_refl.
  - destruct (existsb (client_has_external_id x) rows) eqn:Hxx; simplify_eq.
    constructor; simpl; [done| |].
    + repeat split.
      * apply NoDup_map_snoc; [done|]. by apply existsb_key_false.
      * eapply NoDup_omap_snoc; [done|done|]. by apply existsb_opt_key_false.
      * apply NoDup_map_snoc; [done|]. by apply ids_below_fresh.
      * by apply ids_below_snoc.
    + destruct (db_appointments d); simpl in *; [|done].
      eapply appointments_wf_clients; [exact Hp'|]. rewrite map_app. apply incl_appl, incl_refl.
Qed.

Lemma insert_appointment_wf c ti ds dt du d r d' :
  db_wf d -> insert_appointment c ti ds dt du d = Ok (r, d') -> db_wf d'.
Proof.
  intros Hwf H. pose proof (wf_bump_others d Hwf) as (Hc' & _ & Ha').
  destruct Hwf as [Ha Hc Hp]. unfold insert_appointment in H.
  destruct (db_appointments d) as [t|] eqn:Ht; [|discriminate]. simpl in Hp.
  destruct Hp as (Hx & Hi & Hb & Hfk).
  destruct (negb _); [discriminate|].
  destruct (fk_refused t c d) eqn:Hguard; simplify_eq.
  constructor; simpl; [done|done|]. repeat split; simpl.
  - rewrite omap_app, app_nil_r. done.
  - apply NoDup_map_snoc; [done|]. by apply ids_below_fresh.
  - by apply ids_below_snoc.
  - intros Hon. destruct (Hfk Hon) as (cs & Hcs & Hrefs). exists cs. split; [done|].
    apply Forall_app. split; [done|]. constructor; [|constructor].
    unfold appt_ref_ok; simpl. destruct c as [c|]; [|done].
    unfold fk_refused in Hguard. rewrite Hon in Hguard. simpl in Hguard.
    apply negb_false_iff, bool_decide_eq_true in Hguard.
    unfold client_ids in Hguard. rewrite Hcs in Hguard. by apply list_elem_of_In.
Qed.

Lemma delete_client_wf c d r d' :
  db_wf d -> delete_client c d = Ok (r, d') -> db_wf d'.
Proof.
  intros [Ha Hc Hp] H. unfold delete_client in H.
  destruct (db_clients d) as [rows|] eqn:Hrows; [|discriminate]. simplify_eq.
  destruct Hc as (He & Hx & Hi & Hb).
  constructor; simpl; [done|repeat split; auto with wellness|].
  destruct (db_appointments d) as [t|]; simpl in *; [|done].
  destruct Hp as (Hax & Hai & Hab & Hfk).
  destruct (at_fk_client t) eqn:Hon; repeat split; simpl; auto with wellness; [|by rewrite Hon].
  intros _. destruct (Hfk eq_refl) as (cs & [= <-] & Hrefs). eexists; split; [done|].
  apply Forall_forall. intros a Ha0. apply filter_In in Ha0 as [Ha0 Hneq].
  rewrite Forall_forall in Hrefs. specialize (Hrefs a Ha0). unfold appt_ref_ok in *.
  destruct (appt_client_id a) as [c'|]; [|done].
  apply negb_true_iff, bool_decide_eq_false in Hneq.
  apply in_map_iff in Hrefs as (cl & <- & Hcl). apply in_map. apply filter_In.
  split; [done|]. apply negb_true_iff, bool_decide_eq_false. congruence.
Qed.

(** The schema statements. *)
Lemma schema_stmt_wf q d r d' :
  db_wf d ->
  match q with
  | SCreateExtensionPgcrypto | SCreateTableClients | SCreateTableAppointments
  | SCreateTableAdmins | SDropTableAppointments | SDropTableClients | SDropTableAdmins => True
  | _ => False end ->
  step_stmt q d = Ok (r, d') -> db_wf d'.
Proof.
  intros [Ha Hc Hp] Hq H. destruct d as [pg cl ap ad n now]; simpl in *.
  destruct q; try contradiction; simpl in H; unfold create_extension_pgcrypto,
    create_table_clients, create_table_appointments, create_table_admins,
    drop_table_appointments, drop_table_clients, drop_table_admins in H; simpl in H;
    repeat case_match; simplify_eq; constructor; simpl; auto;
    try (repeat split; constructor).
  - destruct ap as [t|]; simpl in *; [|done].
    destruct Hp as (Hx & Hi & Hb & Hfk). do 3 (split; [done|]).
    intros Hon. destruct (Hfk Hon) as (cs & ? & _). congruence.
  - repeat split; simpl; try constructor. intros _. eexists; split; [done|constructor].
  - destruct ap as [t|]; simpl in *; [|done].
    destruct Hp as (Hx & Hi & Hb & _). do 3 (split; [done|]). discriminate.
Qed.

Lemma step_stmt_preserves_wf q d r d' :
  db_wf d -> step_stmt q d = Ok (r, d') -> db_wf d'.
Proof.
  intros Hwf H. destruct q;
    try (eapply schema_stmt_wf; [exact Hwf| |exact H]; exact I);
    simpl in H; try (simplify_eq; exact Hwf).
  - eapply insert_admin_wf; eauto.
  - eapply insert_client_wf; eauto.
  - eapply insert_appointment_wf; eauto.
  - eapply delete_client_wf; eauto.
Qed.

(** ** Referential integrity and the 32-bit duration *)

(** The row an accepted insertion appends. *)
Lemma insert_appointment_ok c ti ds dt du d t :
  db_appointments d = Some t -> In c (client_ids d) -> in_int4 du = true ->
  insert_appointment (Some c) ti ds dt (Some du) d =
    let row := mkAppointment (db_next_id d) None (Some c) ti ds dt (Some du) (Some "scheduled")
                             (db_now d) (db_now d) in
    Ok (QAppointments [row],
        set_appointments (bump_id d)
          (Some (mkAppointmentsTable (at_rows t ++ [row]) (at_fk_client t)))).
Proof.
  intros Ht Hc Hdu. unfold insert_appointment, fk_refused. rewrite Ht. simpl. rewrite Hdu.
  rewrite bool_decide_true by (by apply list_elem_of_In). by rewrite andb_false_r.
Qed.

(** While the foreign key exists, inserting an appointment
    for a client id that no client has is refused. *)
Theorem insert_appointment_unknown_client c ti ds dt du d t :
  db_appointments d = Some t -> at_fk_client t = true -> ~ In c (client_ids d) ->
  in_int4 du = true ->
  insert_appointment (Some c) ti ds dt (Some du) d =
    Err (ForeignKeyViolation "appointments_client_id_fkey").
Proof.
  intros Ht Hfk Hc Hdu. unfold insert_appointment, fk_refused. rewrite Ht. simpl. rewrite Hdu, Hfk. simpl.
  rewrite bool_decide_false; [done|]. by rewrite list_elem_of_In.
Qed.

(** [duration_minutes] is an [INTEGER]: a value outside
    [-2^31, 2^31 - 1] makes the insertion fail. *)
Theorem insert_appointment_duration_range c ti ds dt du d t :
  db_appointments d = Some t -> (du < int4_min \/ int4_max < du)%Z ->
  insert_appointment c ti ds dt (Some du) d = Err NumericValueOutOfRange.
Proof.
  intros Ht Hdu. unfold insert_appointment. rewrite Ht. simpl.
  replace (in_int4 du) with false; [done|]. unfold in_int4.
  symmetry. apply andb_false_iff. destruct Hdu; [left|right]; apply Z.leb_gt; lia.
Qed.

(** Deleting a client deletes, through [ON DELETE
    CASCADE], exactly the appointments that reference it. *)
Theorem delete_client_cascade c d d' r t :
  db_appointments d = Some t -> at_fk_client t = true ->
  delete_client c d = Ok (r, d') ->
  exists t', db_appointments d' = Some t' /\
  forall a, In a (at_rows t') <-> In a (at_rows t) /\ appt_client_id a <> Some c.
Proof.
  intros Ht Hfk Hdel. unfold delete_client in Hdel.
  destruct (db_clients d); [|discriminate]. simplify_eq. simpl. rewrite Ht. simpl. rewrite Hfk.
  eexists. split; [done|]. intros a. simpl. rewrite filter_In, negb_true_iff.
  by rewrite bool_decide_eq_false.
Qed.

(** ** Witnesses *)

Definition sample_client : client_row :=
  mkClient 0 (Some "client_1") "John Doe" "john.doe@email.com" (Some "+1-555-0101") 0%Z 0%Z.
Definition sample_appointment (id : nat) (c : nat) : appointment_row :=
  mkAppointment id None (Some c) "Check-up" None 0%Z (Some 60%Z) (Some "scheduled") 0%Z 0%Z.
(** Clients 0; appointments 1 (of client 0) and 2 (of no client). *)
Definition sample_db : db :=
  mkDb true (Some [sample_client])
       (Some (mkAppointmentsTable [sample_appointment 1 0;
                                   mkAppointment 2 None None "Walk-in" None 0%Z None None 0%Z 0%Z] true))
       (Some []) 3 0%Z.

Lemma sample_db_wf : db_wf sample_db.
Proof.
  constructor; simpl.
  - repeat split; constructor.
  - repeat split; simpl; try apply NoDup_singleton. repeat constructor; simpl; lia.
  - repeat split; simpl.
    + constructor.
    + apply list.NoDup_cons. split; [|apply NoDup_singleton]. intros Hin.
      apply list_elem_of_In in Hin. destruct Hin as [Hin|[]]. discriminate.
    + repeat constructor; lia.
    + intros _. eexists; split; [done|]. repeat constructor; simpl; auto.
Qed.

Lemma insert_appointment_unknown_client_witness :
  insert_appointment (Some 7) "Check-up" None 0%Z (Some 60%Z) sample_db =
    Err (ForeignKeyViolation "appointments_client_id_fkey").
Proof.
  apply (insert_appointment_unknown_client 7 "Check-up" None 0 60 sample_db
           (mkAppointmentsTable [sample_appointment 1 0;
              mkAppointment 2 None None "Walk-in" None 0%Z None None 0%Z 0%Z] true));
    [reflexivity|reflexivity|simpl; lia|reflexivity].
Defined.

Lemma insert_appointment_duration_range_witness :
  (int4_max < 2 ^ 31)%Z /\
  insert_appointment (Some 0) "Check-up" None 0%Z (Some (2 ^ 31)%Z) sample_db = Err NumericValueOutOfRange.
Proof.
  split; [vm_compute; reflexivity|].
  apply (insert_appointment_duration_range (Some 0) "Check-up" None 0%Z (2 ^ 31)%Z sample_db
           (mkAppointmentsTable [sample_appointment 1 0;
              mkAppointment 2 None None "Walk-in" None 0%Z None None 0%Z 0%Z] true));
    [reflexivity|right; vm_compute; reflexivity].
Defined.

Lemma delete_client_cascade_witness :
  exists t', db_appointments (set_appointments (set_clients sample_db (Some []))
                (Some (mkAppointmentsTable [mkAppointment 2 None None "Walk-in" None 0%Z None None 0%Z 0%Z] true)))
             = Some t' /\
  forall a, In a (at_rows t') <->
    In a [sample_appointment 1 0; mkAppointment 2 None None "Walk-in" None 0%Z None None 0%Z 0%Z] /\
    appt_client_id a <> Some 0.
Proof.
  apply (delete_client_cascade 0 sample_db _ QNone
           (mkAppointmentsTable [sample_appointment 1 0;
              mkAppointment 2 None None "Walk-in" None 0%Z None None 0%Z 0%Z] true));
    [reflexivity|reflexivity|vm_compute; reflexivity].
Defined.

End Schema.
