(* ===== verification/Url.v ===== *)
(** * Backend selection: the host of the connection string

    [isLocal] of src/scripts/migrate.js (lines 33-40) parses
    [DATABASE_URL] with the WHATWG [URL] class and tests its [hostname]
    against [/^(localhost|127\.0\.0\.1|::1)$/i]; a parse failure leaves
    [isLocal] false.  [url_hostname] models [new URL(u).hostname] for
    absolute URLs of a non-special scheme such as [postgres:] (the scheme
    of a connection string): the scheme, the authority after [//], the
    user info before the last [@], a bracketed IPv6 host kept with its
    brackets, the port (digits, at most 65535) and the forbidden host
    code points that make the parse throw. *)

From S2P Require Import Prelude.
Open Scope list_scope.
Open Scope nat_scope.

Module Url.

Definition is_alpha (c : ascii) : bool :=
  let n := nat_of_ascii c in ((65 <=? n) && (n <=? 90)) || ((97 <=? n) && (n <=? 122)).
Definition is_digit (c : ascii) : bool :=
  let n := nat_of_ascii c in (48 <=? n) && (n <=? 57).
Definition is_scheme_char (c : ascii) : bool :=
  is_alpha c || is_digit c || bool_decide (c = "+"%char) || bool_decide (c = "-"%char)
  || bool_decide (c = "."%char).

(** Code points an opaque host may not contain. *)
Definition forbidden_host_char (c : ascii) : bool :=
  let n := nat_of_ascii c in
  (n =? 0) || (n =? 9) || (n =? 10) || (n =? 13) || (n =? 32) ||
  existsb (fun d => bool_decide (c = d))
    ["#"; "/"; ":"; "<"; ">"; "?"; "@"; "["; "\"; "]"; "^"; "|"]%char.

(** The URL parser first strips leading and trailing C0 controls and
    spaces, and removes every TAB, LF and CR. *)
Fixpoint strip_c0 (l : list ascii) : list ascii :=
  match l with
  | c :: l' => if nat_of_ascii c <=? 32 then strip_c0 l' else l
  | [] => []
  end.
Definition preprocess (l : list ascii) : list ascii :=
  List.filter (fun c => negb (existsb (fun n => nat_of_ascii c =? n) [9; 10; 13]))
    (rev (strip_c0 (rev (strip_c0 l)))).

Fixpoint split_scheme (l : list ascii) : option (list ascii * list ascii) :=
  match l with
  | [] => None
  | c :: l' =>
      if bool_decide (c = ":"%char) then Some ([], l')
      else if is_scheme_char c then
        match split_scheme l' with Some (s, r) => Some (c :: s, r) | None => None end
      else None
  end.

(** The authority ends at the first [/], [?] or [#]. *)
Fixpoint take_authority (l : list ascii) : list ascii :=
  match l with
  | [] => []
  | c :: l' => if existsb (fun d => bool_decide (c = d)) ["/"; "?"; "#"]%char then []
               else c :: take_authority l'
  end.

(** The host and port follow the last [@]. *)
Fixpoint after_last_at (l : list ascii) (acc : list ascii) : list ascii :=
  match l with
  | [] => acc
  | c :: l' => after_last_at l' (if bool_decide (c = "@"%char) then [] else acc ++ [c])
  end.

Fixpoint split_at_char (d : ascii) (l : list ascii) : list ascii * option (list ascii) :=
  match l with
  | [] => ([], None)
  | c :: l' => if bool_decide (c = d) then ([], Some l')
               else let '(a, b) := split_at_char d l' in (c :: a, b)
  end.

Definition digits_value (l : list ascii) : N :=
  fold_left (fun acc c => acc * 10 + N.of_nat (nat_of_ascii c - 48))%N l 0%N.

Definition valid_port (p : option (list ascii)) : bool :=
  match p with
  | None => true
  | Some ds => forallb is_digit ds && (digits_value ds <=? 65535)%N
  end.

(** An opaque host and its optional port. *)
Definition parse_opaque (hp : list ascii) : option (list ascii) :=
  let '(host, port) := split_at_char ":"%char hp in
  if existsb forbidden_host_char host then None
  else if valid_port port then Some host else None.

(** [host:port]; a host that starts with [[] runs to the first []] and
    keeps its brackets. *)
Definition parse_hostport (hp : list ascii) : option (list ascii) :=
  match hp with
  | c :: rest =>
      if bool_decide (c = "["%char) then
        match split_at_char "]"%char rest with
        | (_, None) => None
        | (inside, Some []) => Some ("["%char :: inside ++ ["]"%char])
        | (inside, Some (c' :: port)) =>
            if bool_decide (c' = ":"%char) && valid_port (Some port)
            then Some ("["%char :: inside ++ ["]"%char]) else None
        end
      else parse_opaque hp
  | [] => parse_opaque []
  end.

(** [new URL(u).hostname], or [None] when the constructor throws: a
    scheme (a letter, then letters, digits, [+], [-], [.]) and [:]; after
    [//] the authority's host, otherwise an empty host. *)
Definition url_hostname (u : string) : option string :=
  match split_scheme (preprocess (list_ascii_of_string u)) with
  | Some (s :: _, rest) =>
      if negb (is_alpha s) then None else
      match rest with
      | c1 :: c2 :: after =>
          if bool_decide (c1 = "/"%char) && bool_decide (c2 = "/"%char)
          then option_map string_of_list_ascii
                 (parse_hostport (after_last_at (take_authority after) []))
          else Some ""
      | _ => Some ""
      end
  | _ => None
  end.

(** The regular expression's [i] flag folds ASCII letters. *)
Definition ascii_lower (c : ascii) : ascii :=
  let n := nat_of_ascii c in
  if (65 <=? n) && (n <=? 90) then ascii_of_nat (n + 32) else c.

Definition string_lower (s : string) : string :=
  string_of_list_ascii (map ascii_lower (list_ascii_of_string s)).

(** [/^(localhost|127\.0\.0\.1|::1)$/i.test(hostname)] *)
Definition is_local_hostname (h : string) : bool :=
  let h' := string_lower h in
  bool_decide (h' = "localhost") || bool_decide (h' = "127.0.0.1") || bool_decide (h' = "::1").

(** [isLocal]: false unless the URL parses and its host is a loopback name. *)
Definition isLocal (database_url : string) : bool :=
  match url_hostname database_url with
  | Some h => is_local_hostname h
  | None => false
  end.

(** ** The IPv6 alternative of the loopback test never matches *)

Lemma parse_opaque_no_colon hp h :
  parse_opaque hp = Some h -> existsb forbidden_host_char h = false.
Proof.
  unfold parse_opaque. destruct (split_at_char _ hp) as [host port].
  destruct (existsb forbidden_host_char host) eqn:E; [done|].
  destruct (valid_port port); [by intros [= <-]|done].
Qed.

(** What the parser returns is a bracketed IPv6 literal or a host with no
    forbidden code point (so no [:]). *)
Lemma parse_hostport_shape hp h :
  parse_hostport hp = Some h ->
  (exists t, h = "["%char :: t) \/ existsb forbidden_host_char h = false.
Proof.
  unfold parse_hostport. intros Hp.
  destruct hp as [|c rest]; [right; by eapply parse_opaque_no_colon|].
  destruct (bool_decide (c = "["%char)); [|right; by eapply parse_opaque_no_colon].
  left. destruct (split_at_char _ rest) as [inside [[|c' port]|]]; [simplify_eq; eauto| |done].
  destruct (_ && _); [simplify_eq; eauto|done].
Qed.

(** Folding letters never produces a [:]. *)
Lemma ascii_lower_colon c : ascii_lower c = ":"%char -> c = ":"%char.
Proof. destruct c as [[] [] [] [] [] [] [] []]; vm_compute; congruence. Qed.

Lemma string_lower_of_list l : string_lower (string_of_list_ascii l) = string_of_list_ascii (map ascii_lower l).
Proof. unfold string_lower. by rewrite list_ascii_of_string_of_list_ascii. Qed.

(** Nor is its case-folded form: the [::1] alternative never matches. *)
Lemma url_hostname_lower_not_ipv6 u h : url_hostname u = Some h -> string_lower h <> "::1".
Proof.
  unfold url_hostname. destruct (split_scheme _) as [[[|s0 ?] rest]|]; try done.
  destruct (negb (is_alpha s0)); [done|].
  destruct rest as [|c1 [|c2 after]]; try (intros [= <-]; discriminate).
  destruct (_ && _); [|intros [= <-]; discriminate].
  destruct (parse_hostport _) as [hl|] eqn:Hp; [|done]. intros [= <-].
  rewrite string_lower_of_list. apply parse_hostport_shape in Hp.
  destruct Hp as [[t ->]|Hf]; [discriminate|].
  destruct hl as [|a hl]; [discriminate|]. cbn. intros Heq.
  assert (Ha : ascii_lower a = ":"%char) by (injection Heq; auto).
  apply ascii_lower_colon in Ha. subst a. discriminate.
Qed.

(** C33 (safety) [isLocal] holds exactly for a URL that parses and whose
    hostname is [localhost] or [127.0.0.1] in any case: the [::1]
    alternative of the regular expression of line 37 is dead, because
    [URL.hostname] keeps the brackets of an IPv6 literal, so a connection
    string to the IPv6 loopback ([postgres://u@[::1]/db]) selects the
    remote client. *)
Theorem isLocal_loopback_names u :
  isLocal u = true <->
  exists h, url_hostname u = Some h /\ (string_lower h = "localhost" \/ string_lower h = "127.0.0.1").
Proof.
  unfold isLocal, is_local_hostname. destruct (url_hostname u) as [h|] eqn:Hu.
  - pose proof (url_hostname_lower_not_ipv6 u h Hu) as Hn.
    rewrite !orb_true_iff, !bool_decide_eq_true. split.
    + intros [[H1|H2]|H3]; [eauto|eauto|done].
    + intros (h' & [= <-] & [H1|H2]); auto.
  - split; [done|]. by intros (h' & ? & _).
Qed.

(** The IPv6 loopback and an upper-case [LOCALHOST]. *)
Example isLocal_examples :
  isLocal "postgres://app@[::1]:5432/wellness" = false /\ isLocal "postgres://app@LOCALHOST:5432/wellness" = true.
Proof. split; reflexivity. Qed.

End Url.
