(* ===== verification/Session.v ===== *)
(** * The backend adapter: one database session, two access mechanisms

    src/scripts/migrate.js (lines 42-64) binds [exec], [begin], [commit]
    and [rollback] to one of two clients chosen by [isLocal]:
    - a [pg] [Client] (lines 45-55): one connection, on which [BEGIN],
      [COMMIT] and [ROLLBACK] drive a server-side transaction;
    - the Neon serverless [neon()] function (lines 56-64): every call is
      one HTTP request running in its own implicit transaction, so
      [BEGIN], [COMMIT] and [ROLLBACK] sent as plain statements bind
      nothing to the statements that follow.
    [session] is the state of the program's connection (the database, the
    transaction state of the pg connection, the statements issued, and the
    calls that an injected fault makes fail); [pg_exec] and [neon_exec] are
    the two [exec]s.  [Backend] is the interface the run controller uses,
    with its laws in [BackendLaws]; [TxBackend] adds the transactional
    guarantee, which only the pg client satisfies. *)

From S2P Require Import Prelude Db.
Open Scope list_scope.
Import Schema.

Module Session.

(** The server-side state of the pg connection's transaction:
    [InTx snap] and [Aborted snap] remember the committed database. *)
Inductive txstate :=
| Idle
| InTx (snap : db)
| Aborted (snap : db).

Record session := mkSession {
  s_db : db;
  s_tx : txstate;
  s_calls : nat;
  s_faults : list nat;
  s_trace : list stmt
}.

(** What other sessions see: the data as of the last commit. *)
Definition committed (s : session) : db :=
  match s_tx s with Idle => s_db s | InTx snap | Aborted snap => snap end.

Definition M (A : Type) : Type := SM session sql_error A.

Definition set_db (s : session) (d : db) : session :=
  mkSession d (s_tx s) (s_calls s) (s_faults s) (s_trace s).
Definition set_tx (s : session) (t : txstate) : session :=
  mkSession (s_db s) t (s_calls s) (s_faults s) (s_trace s).
(** One call of [exec]: the statement is sent. *)
Definition log_call (q : stmt) (s : session) : session :=
  mkSession (s_db s) (s_tx s) (S (s_calls s)) (s_faults s) (s_trace s ++ [q]).

Definition faulted (s : session) : bool := bool_decide (s_calls s ∈ s_faults s).

(** A statement that fails inside a transaction aborts it. *)
Definition fail_tx (t : txstate) : txstate :=
  match t with InTx snap => Aborted snap | t => t end.

(** [client.query(text, params)] on the pg connection. *)
Definition pg_exec (q : stmt) : M qresult := fun s =>
  let s1 := log_call q s in
  if faulted s then (Err (InjectedFault (s_calls s)), set_tx s1 (fail_tx (s_tx s)))
  else match q with
  | SBegin =>
      match s_tx s with
      | Idle => (Ok QNone, set_tx s1 (InTx (s_db s)))
      | InTx _ => (Ok QNone, s1)
      | Aborted _ => (Err InFailedSqlTransaction, s1)
      end
  | SCommit =>
      match s_tx s with
      | Idle => (Ok QNone, s1)
      | InTx _ => (Ok QNone, set_tx s1 Idle)
      | Aborted snap => (Ok QNone, set_db (set_tx s1 Idle) snap)
      end
  | SRollback =>
      match s_tx s with
      | Idle => (Ok QNone, s1)
      | InTx snap | Aborted snap => (Ok QNone, set_db (set_tx s1 Idle) snap)
      end
  | _ =>
      match s_tx s with
      | Aborted _ => (Err InFailedSqlTransaction, s1)
      | t =>
          match step_stmt q (s_db s) with
          | Ok (r, d') => (Ok r, set_db s1 d')
          | Err e => (Err e, set_tx s1 (fail_tx t))
          end
      end
  end.

(** [params.length ? sql(query, params) : sql([query])]: each call is its
    own HTTP request and transaction. *)
Definition neon_exec (q : stmt) : M qresult := fun s =>
  let s1 := log_call q s in
  if faulted s then (Err (InjectedFault (s_calls s)), s1)
  else if is_control q then (Ok QNone, s1)
  else match step_stmt q (s_db s) with
       | Ok (r, d') => (Ok r, set_db s1 d')
       | Err e => (Err e, s1)
       end.

(** ** The adapter's interface *)

Record Backend := {
  exec : stmt -> M qresult;
  (** whether the adapter holds a socket that keeps Node's event loop
      alive until it is closed *)
  holds_connection : bool
}.

Definition pg : Backend := {| exec := pg_exec; holds_connection := true |}.
Definition neon : Backend := {| exec := neon_exec; holds_connection := false |}.

(** [begin = () => exec("BEGIN")], and likewise [commit], [rollback]. *)
Definition begin_ (B : Backend) : M qresult := exec B SBegin.
Definition commit (B : Backend) : M qresult := exec B SCommit.
Definition rollback (B : Backend) : M qresult := exec B SRollback.

Definition live (t : txstate) : Prop := match t with Aborted _ => False | _ => True end.

(** What the run controller needs from an adapter.  Every call is logged;
    a faulted call fails without touching the data; [ready] are the
    transaction states between a successful [BEGIN] and [COMMIT], in which
    a data statement runs with the SQL semantics of [step_stmt] and keeps
    the state; [COMMIT] there publishes the data. *)
Class BackendLaws (B : Backend) := {
  ready : txstate -> Prop;
  exec_log q s :
    s_trace (snd (exec B q s)) = s_trace s ++ [q] /\
    s_calls (snd (exec B q s)) = S (s_calls s) /\
    s_faults (snd (exec B q s)) = s_faults s;
  exec_fault q s :
    faulted s = true ->
    fst (exec B q s) = Err (InjectedFault (s_calls s)) /\ s_db (snd (exec B q s)) = s_db s;
  exec_data q s :
    faulted s = false -> is_control q = false -> ready (s_tx s) ->
    match step_stmt q (s_db s) with
    | Ok (r, d') => exec B q s = (Ok r, log_call q (set_db s d'))
    | Err e => fst (exec B q s) = Err e /\ s_db (snd (exec B q s)) = s_db s
    end;
  exec_begin s :
    faulted s = false -> s_tx s = Idle ->
    fst (exec B SBegin s) = Ok QNone /\ s_db (snd (exec B SBegin s)) = s_db s /\
    ready (s_tx (snd (exec B SBegin s)));
  exec_commit s :
    faulted s = false -> ready (s_tx s) ->
    fst (exec B SCommit s) = Ok QNone /\ s_db (snd (exec B SCommit s)) = s_db s /\
    s_tx (snd (exec B SCommit s)) = Idle
}.

(** A transaction is open on the server, with snapshot [snap]. *)
Definition pending (snap : db) (t : txstate) : Prop := t = InTx snap \/ t = Aborted snap.

(** The transactional guarantee: [BEGIN] takes a snapshot of the
    committed data; while the transaction is open, no statement but
    [COMMIT] and [ROLLBACK] closes it; [ROLLBACK] restores the snapshot
    (or, when it fails, leaves the transaction open, which the server
    discards with the connection). *)
Class TxBackend (B : Backend) : Prop := {
  tx_begin s :
    faulted s = false -> s_tx s = Idle -> s_tx (snd (exec B SBegin s)) = InTx (s_db s);
  tx_begin_fault s :
    faulted s = true -> s_tx s = Idle -> s_tx (snd (exec B SBegin s)) = Idle;
  tx_pending q snap s :
    q <> SCommit -> q <> SRollback ->
    pending snap (s_tx s) -> pending snap (s_tx (snd (exec B q s)));
  tx_commit_err snap s :
    is_ok (fst (exec B SCommit s)) = false -> pending snap (s_tx s) ->
    pending snap (s_tx (snd (exec B SCommit s)));
  tx_rollback snap s :
    pending snap (s_tx s) ->
    pending snap (s_tx (snd (exec B SRollback s))) \/
    (s_tx (snd (exec B SRollback s)) = Idle /\ s_db (snd (exec B SRollback s)) = snap);
  tx_idle_rollback s :
    s_tx s = Idle -> s_tx (snd (exec B SRollback s)) = Idle /\ s_db (snd (exec B SRollback s)) = s_db s
}.

(** ** The two adapters discharge the interface *)

(** Case on everything [pg_exec] or [neon_exec] branches on. *)
Ltac exec_cases :=
  repeat match goal with
  | |- context [faulted ?s] => is_var s; destruct (faulted s) eqn:?
  | |- context [s_tx ?s] => is_var s; destruct (s_tx s) eqn:?
  | |- context [step_stmt ?q ?d] => destruct (step_stmt q d) as [[? ?]|?] eqn:?
  end; simpl; auto; try discriminate; try contradiction.

#[export] Instance pg_laws : BackendLaws pg.
Proof.
  refine {| ready := live |}; simpl; unfold pg_exec.
  - intros q s. exec_cases; destruct q; exec_cases.
  - intros q s Hf. rewrite Hf. done.
  - intros q s Hf Hc Hl. rewrite Hf. destruct q; try discriminate; exec_cases.
  - intros s Hf Hi. rewrite Hf, Hi. done.
  - intros s Hf Hl. rewrite Hf. exec_cases.
Qed.

#[export] Instance neon_laws : BackendLaws neon.
Proof.
  refine {| ready t := t = Idle |}; simpl; unfold neon_exec.
  - intros q s. exec_cases; destruct q; exec_cases.
  - intros q s Hf. rewrite Hf. done.
  - intros q s Hf Hc Hl. rewrite Hf, Hc. exec_cases.
  - intros s Hf Hi. rewrite Hf. done.
  - intros s Hf Hl. rewrite Hf. done.
Qed.

#[export] Instance pg_tx : TxBackend pg.
Proof.
  constructor; simpl; unfold pg_exec, pending.
  - intros s Hf Hi. by rewrite Hf, Hi.
  - intros s Hf Hi. by rewrite Hf, Hi.
  - intros q snap s Hc Hr [Ht|Ht]; destruct (faulted s); rewrite Ht; simpl; auto;
      destruct q; try congruence;
      repeat match goal with |- context [step_stmt ?q ?d] =>
        destruct (step_stmt q d) as [[? ?]|?] end; simpl; auto.
  - intros snap s Hf [Ht|Ht]; destruct (faulted s); rewrite Ht in *; simpl in *; auto;
      discriminate.
  - intros snap s [Ht|Ht]; destruct (faulted s); rewrite Ht; simpl; auto.
  - intros s Ht. destruct (faulted s); rewrite Ht; simpl; auto.
Qed.

End Session.
