(* ===== verification/Credential.v ===== *)
(** * The credential resolver

    [isBcryptHash] and [resolveAdminHash] of src/scripts/migrate.js
    (lines 66-76), with the process environment they read.  bcrypt is a
    library the script only calls: [Bcrypt] is its interface (hash with a
    cost and a salt; compare), [BcryptLaws] what the script relies on: a
    hash has the modular-crypt format and verifies against its password.
    The salt [bcrypt.hash] draws at random is an input of the run. *)

From S2P Require Import Prelude Url.
Open Scope list_scope.
Open Scope nat_scope.

Module Credential.

(** The variables of [process.env] the script reads; [None] is
    [undefined]. *)
Record process_env := mkEnv {
  DATABASE_URL : option string;
  ADMIN_EMAIL : option string;
  ADMIN_NAME : option string;
  ADMIN_PASSWORD : option string;
  ADMIN_PASSWORD_HASH : option string
}.

Record Bcrypt := {
  bcrypt_hash : nat -> string -> string -> string;   (** cost, salt, password *)
  bcrypt_compare : string -> string -> bool          (** password, hash *)
}.

(** [[./A-Za-z0-9]] *)
Definition is_bcrypt_char (c : ascii) : bool :=
  bool_decide (c = "."%char) || bool_decide (c = "/"%char) || Url.is_alpha c || Url.is_digit c.

(** [/^\$2[aby]\$\d{2}\$[./A-Za-z0-9]{53}$/.test(str)] *)
Definition isBcryptHash (str : string) : bool :=
  match list_ascii_of_string str with
  | s0 :: t :: v :: s1 :: d1 :: d2 :: s2 :: rest =>
      bool_decide (s0 = "$"%char) && bool_decide (t = "2"%char) &&
      existsb (fun c => bool_decide (v = c)) ["a"; "b"; "y"]%char &&
      bool_decide (s1 = "$"%char) && Url.is_digit d1 && Url.is_digit d2 &&
      bool_decide (s2 = "$"%char) &&
      (List.length rest =? 53) && forallb is_bcrypt_char rest
  | _ => false
  end.

Class BcryptLaws (H : Bcrypt) : Prop := {
  hash_format cost salt pwd :
    10 <= cost <= 31 -> isBcryptHash (bcrypt_hash H cost salt pwd) = true;
  compare_hash cost salt pwd :
    bcrypt_compare H pwd (bcrypt_hash H cost salt pwd) = true
}.

Definition default_admin_password : string := "admin123".

(** [resolveAdminHash()]:
    [const explicit = process.env.ADMIN_PASSWORD_HASH?.trim();
     if (explicit) return explicit;
     const pwd = (process.env.ADMIN_PASSWORD || "admin123").trim();
     if (isBcryptHash(pwd)) return pwd;
     return bcrypt.hash(pwd, 10);] *)
Definition resolveAdminHash (H : Bcrypt) (env : process_env) (salt : string) : string :=
  let explicit := option_map js_trim (ADMIN_PASSWORD_HASH env) in
  match explicit with
  | Some (String c s) => String c s
  | _ =>
      let pwd := js_trim (js_or (ADMIN_PASSWORD env) default_admin_password) in
      if isBcryptHash pwd then pwd else bcrypt_hash H 10 salt pwd
  end.

(** A bcrypt for concrete runs: every hash is [$2b$10$] followed by 53
    characters of the class. *)
Definition sample_bcrypt : Bcrypt := {|
  bcrypt_hash cost salt pwd :=
    string_of_list_ascii (list_ascii_of_string "$2b$10$" ++ repeat "."%char 53);
  bcrypt_compare pwd h := isBcryptHash h
|}.

(** ** The resolution order *)

Definition explicit_hash (env : process_env) : option string :=
  option_map js_trim (ADMIN_PASSWORD_HASH env).

Lemma resolve_no_explicit H env salt :
  js_truthy (explicit_hash env) = false ->
  resolveAdminHash H env salt =
    let pwd := js_trim (js_or (ADMIN_PASSWORD env) default_admin_password) in
    if isBcryptHash pwd then pwd else bcrypt_hash H 10 salt pwd.
Proof.
  unfold resolveAdminHash, explicit_hash. intros Hx.
  by destruct (option_map js_trim (ADMIN_PASSWORD_HASH env)) as [[|c s]|].
Qed.

Lemma resolve_explicit H env salt h :
  ADMIN_PASSWORD_HASH env = Some h -> js_trim h <> "" ->
  resolveAdminHash H env salt = js_trim h.
Proof.
  intros Hh Hne. unfold resolveAdminHash. rewrite Hh. simpl.
  by destruct (js_trim h).
Qed.

(** A supplied pre-computed hash, once trimmed and if not
    empty, is the stored credential, verbatim. *)
Theorem resolve_explicit_hash H env salt h :
  ADMIN_PASSWORD_HASH env = Some h -> js_trim h <> "" ->
  resolveAdminHash H env salt = js_trim h.
Proof. apply resolve_explicit. Qed.

(** C34 (safety) The resolver never stores a plaintext password: its
    result is the supplied hash or a string of the bcrypt format. *)
Theorem resolve_never_plaintext H `{!BcryptLaws H} env salt :
  isBcryptHash (resolveAdminHash H env salt) = true \/
  exists h, ADMIN_PASSWORD_HASH env = Some h /\ resolveAdminHash H env salt = js_trim h.
Proof.
  destruct (js_truthy (explicit_hash env)) eqn:Hx.
  - right. unfold explicit_hash in Hx. destruct (ADMIN_PASSWORD_HASH env) as [h|] eqn:Hh;
      [|discriminate]. exists h. split; [done|]. apply resolve_explicit; [done|].
    simpl in Hx. by destruct (js_trim h).
  - left. rewrite (resolve_no_explicit H env salt Hx). simpl.
    set (pwd := js_trim (js_or (ADMIN_PASSWORD env) default_admin_password)).
    destruct (isBcryptHash pwd) eqn:Hb; [done|]. apply hash_format. lia.
Qed.

(** With no credential supplied, the stored credential is
    the hash of the documented default password [admin123]. *)
Theorem resolve_default_password H env salt :
  js_truthy (explicit_hash env) = false -> js_truthy (ADMIN_PASSWORD env) = false ->
  resolveAdminHash H env salt = bcrypt_hash H 10 salt default_admin_password.
Proof.
  intros Hx Hp. rewrite (resolve_no_explicit H env salt Hx), (js_or_falsy _ _ Hp). done.
Qed.

(** C40 (error) A password made only of white space is not the "no input"
    case: [||] keeps it (it is a non-empty string), [trim] empties it, and
    the stored credential is the hash of the empty password, not of the
    default one. *)
Theorem resolve_blank_password H env salt pwd :
  js_truthy (explicit_hash env) = false -> ADMIN_PASSWORD env = Some pwd -> pwd <> "" ->
  js_trim pwd = "" -> resolveAdminHash H env salt = bcrypt_hash H 10 salt "".
Proof.
  intros Hx Hp Hne Ht. rewrite (resolve_no_explicit H env salt Hx), Hp. simpl.
  destruct pwd as [|c s]; [done|]. simpl. by rewrite Ht.
Qed.

(** A string the detector accepts has exactly the 60
    characters of a bcrypt hash. *)
Theorem isBcryptHash_length str :
  isBcryptHash str = true -> String.length str = 60.
Proof.
  unfold isBcryptHash. rewrite string_length_list.
  destruct (list_ascii_of_string str) as [|? [|? [|? [|? [|? [|? [|? rest]]]]]]];
    try discriminate.
  intros Hb. repeat (apply andb_prop in Hb as [Hb ?]).
  match goal with H : (List.length rest =? 53) = true |- _ => apply Nat.eqb_eq in H end.
  simpl. lia.
Qed.

(** ** Witnesses *)

Lemma sample_bcrypt_laws : BcryptLaws sample_bcrypt.
Proof. constructor; intros; vm_compute; reflexivity. Qed.

Definition sample_hash : string :=
  "$2b$10$N9qo8uLOickgx2ZMRZoMyeIjZAgcfl7p92ldGxad68LJZdL17lhWy".

Definition env_with (pwd hash : option string) : process_env :=
  mkEnv (Some "postgres://localhost/wellness") None None pwd hash.

Lemma resolve_never_plaintext_witness :
  isBcryptHash (resolveAdminHash sample_bcrypt (env_with (Some "hunter2") None) "salt") = true \/
  exists h, ADMIN_PASSWORD_HASH (env_with (Some "hunter2") None) = Some h /\
            resolveAdminHash sample_bcrypt (env_with (Some "hunter2") None) "salt" = js_trim h.
Proof. apply (resolve_never_plaintext sample_bcrypt (BcryptLaws0 := sample_bcrypt_laws)). Defined.

Lemma resolve_explicit_hash_witness :
  js_trim (String.append " " sample_hash) <> "" /\
  resolveAdminHash sample_bcrypt (env_with None (Some (String.append " " sample_hash))) "salt" =
    js_trim (String.append " " sample_hash).
Proof.
  split; [vm_compute; discriminate|].
  apply (resolve_explicit_hash sample_bcrypt _ "salt" (String.append " " sample_hash));
    [reflexivity|vm_compute; discriminate].
Defined.

Lemma resolve_default_password_witness :
  resolveAdminHash sample_bcrypt (env_with (Some "") None) "salt" =
    bcrypt_hash sample_bcrypt 10 "salt" default_admin_password.
Proof. apply resolve_default_password; reflexivity. Defined.

Lemma resolve_blank_password_witness :
  js_trim "   " = "" /\
  resolveAdminHash sample_bcrypt (env_with (Some "   ") None) "salt" = bcrypt_hash sample_bcrypt 10 "salt" "".
Proof.
  split; [vm_compute; reflexivity|].
  apply (resolve_blank_password _ _ _ "   "); [reflexivity|reflexivity|discriminate|vm_compute; reflexivity].
Defined.

Lemma isBcryptHash_length_witness :
  isBcryptHash sample_hash = true /\ String.length sample_hash = 60.
Proof.
  split; [vm_compute; reflexivity|]. apply isBcryptHash_length. vm_compute. reflexivity.
Defined.

End Credential.
