(* ===== verification/Migrate.v ===== *)
(** * The run controller: schema manager, seed orchestrator and [main]

    The operations of src/scripts/migrate.js that issue statements:
    [createSchema] (lines 78-108, the failure of [CREATE EXTENSION]
    swallowed by [.catch(() => {})]), [dropSchema] (110-114), [seedAdmin]
    (116-129), [seedClients] (131-146) and [main] (148-165), over any
    adapter [B : Backend]; and the process around them (lines 12-40 and
    the exit status): the [DATABASE_URL] check, the flags, the choice of
    the adapter by [isLocal].  [migrate_stmts] lists the data statements a
    run sends and [run_stmts] is their SQL meaning: the refinement
    theorems say that a run without faults does exactly that, on either
    adapter. *)

From S2P Require Import Prelude Db Url Session Credential.
Open Scope list_scope.
Import Schema Session Credential.

Module Migrate.

(** [const argFlags = new Set(process.argv.slice(2))] and the two flags. *)
Record flags := mkFlags { reset : bool; redo : bool }.

Definition parse_flags (args : list string) : flags :=
  mkFlags (bool_decide ("--reset" ∈ args)) (bool_decide ("--redo" ∈ args)).

(** The fixed baseline of [seedClients]. *)
Record seed_client := mkSeed {
  sc_external_id : string; sc_name : string; sc_email : string; sc_phone : string
}.

Definition seed_clients : list seed_client :=
  [ mkSeed "client_1" "John Doe" "john.doe@email.com" "+1-555-0101";
    mkSeed "client_2" "Jane Smith" "jane.smith@email.com" "+1-555-0102";
    mkSeed "client_3" "Bob Johnson" "bob.johnson@email.com" "+1-555-0103" ].

Definition policy (update : bool) : on_conflict := if update then DoUpdate else DoNothing.

Definition seed_admin_email (env : process_env) : string := js_or (ADMIN_EMAIL env) "admin@wellness.com".
Definition seed_admin_name (env : process_env) : string := js_or (ADMIN_NAME env) "Admin User".

Definition seed_stmt (p : on_conflict) (c : seed_client) : stmt :=
  SInsertClient p (sc_external_id c) (sc_name c) (sc_email c) (sc_phone c).

Section Run.
Context (B : Backend) (H : Bcrypt) (env : process_env) (salt : string).

(** [await exec(...)], the rows ignored. *)
Definition exec_ (q : stmt) : M unit := _ <- exec B q ;; sm_ret tt.

Definition createSchema : M unit :=
  sm_catch (exec_ SCreateExtensionPgcrypto) (fun _ => sm_ret tt) ;;
  exec_ SCreateTableClients ;;
  exec_ SCreateTableAppointments ;;
  exec_ SCreateTableAdmins.

Definition dropSchema : M unit :=
  exec_ SDropTableAppointments ;;
  exec_ SDropTableClients ;;
  exec_ SDropTableAdmins.

Definition seedAdmin (update : bool) : M unit :=
  let hash := resolveAdminHash H env salt in
  exec_ (SInsertAdmin (policy update) (seed_admin_email env) hash (seed_admin_name env)).

(** [for (const c of clients) await exec(q, [...])] *)
Fixpoint seed_each (p : on_conflict) (cs : list seed_client) : M unit :=
  match cs with
  | [] => sm_ret tt
  | c :: cs' => exec_ (seed_stmt p c) ;; seed_each p cs'
  end.

Definition seedClients (redo : bool) : M unit := seed_each (policy redo) seed_clients.

(** The statements of the [try] block between [begin()] and [commit()]. *)
Definition provision (f : flags) : M unit :=
  (if reset f then dropSchema else sm_ret tt) ;;
  createSchema ;;
  seedAdmin (reset f || redo f) ;;
  seedClients (redo f).

(** The [try] block of [main]. *)
Definition main_body (f : flags) : M unit :=
  exec_ SBegin ;; provision f ;; exec_ SCommit.

(** [catch (err) { await rollback(); ... process.exit(1); }]: the run
    fails with the error (or with the rollback's own). *)
Definition main (f : flags) : M unit :=
  sm_catch (main_body f) (fun e => exec_ SRollback ;; sm_throw e).

End Run.

(** ** The statements of a run and their meaning *)

Definition drop_stmts : list stmt :=
  [SDropTableAppointments; SDropTableClients; SDropTableAdmins].
Definition create_stmts : list stmt :=
  [SCreateExtensionPgcrypto; SCreateTableClients; SCreateTableAppointments; SCreateTableAdmins].

Definition migrate_stmts (H : Bcrypt) (env : process_env) (salt : string) (f : flags) : list stmt :=
  (if reset f then drop_stmts else []) ++ create_stmts ++
  [SInsertAdmin (policy (reset f || redo f)) (seed_admin_email env)
                (resolveAdminHash H env salt) (seed_admin_name env)] ++
  map (seed_stmt (policy (redo f))) seed_clients.

Fixpoint run_stmts (qs : list stmt) (d : db) : res sql_error db :=
  match qs with
  | [] => Ok d
  | q :: qs' =>
      match step_stmt q d with
      | Ok (_, d') => run_stmts qs' d'
      | Err e => Err e
      end
  end.

(** ** The process *)

Inductive exit_status :=
| Exited (code : Z)
| Running.  (** the event loop is held by an open connection *)

(** The adapter [isLocal] selects. *)
Definition select_backend (url : string) : Backend :=
  if Url.isLocal url then pg else neon.

(** [node migrate.js args]: [DATABASE_URL] unset or empty exits with 1
    before any statement; otherwise [main] runs on the selected adapter;
    a failure exits with 1; a success leaves the process running while
    the pg connection is open (it is never closed), and exits with 0
    otherwise. *)
Definition run (H : Bcrypt) (env : process_env) (args : list string) (salt : string)
           (s : session) : exit_status * session :=
  match DATABASE_URL env with
  | Some (String c u) =>
      let B := select_backend (String c u) in
      match main B H env salt (parse_flags args) s with
      | (Ok _, s') => (if holds_connection B then Running else Exited 0, s')
      | (Err _, s') => (Exited 1, s')
      end
  | _ => (Exited 1, s)
  end.

(** ** What a piece of the run does on a healthy connection

    [runs_as B m qs]: on a connection with no injected fault, in a ready
    transaction state, [m] sends the statements [qs] in order and ends as
    their SQL meaning [run_stmts qs] says: with the resulting data, or
    with the first statement's error. *)
Definition runs_as (B : Backend) `{!BackendLaws B} (m : M unit) (qs : list stmt) : Prop :=
  forall s, s_faults s = [] -> ready (s_tx s) ->
  match run_stmts qs (s_db s) with
  | Ok d => exists s', m s = (Ok tt, s') /\ s_db s' = d /\ s_tx s' = s_tx s /\
                       s_faults s' = [] /\ s_trace s' = s_trace s ++ qs
  | Err e => exists s', m s = (Err e, s')
  end.

Lemma run_stmts_app qs1 qs2 d :
  run_stmts (qs1 ++ qs2) d =
  match run_stmts qs1 d with Ok d' => run_stmts qs2 d' | Err e => Err e end.
Proof.
  revert d. induction qs1 as [|q qs1 IH]; intros d; simpl; [done|].
  destruct (step_stmt q d) as [[? d']|e]; [apply IH|done].
Qed.

Section Refinement.
Context (B : Backend) `{!BackendLaws B}.

Lemma healthy_not_faulted s : s_faults s = [] -> faulted s = false.
Proof. intros Hf. unfold faulted. rewrite Hf. apply bool_decide_eq_false. intros Hin. inversion Hin. Qed.

Lemma runs_as_ret : runs_as B (sm_ret tt) [].
Proof. intros s Hf Hr. simpl. exists s. by rewrite app_nil_r. Qed.

Lemma runs_as_exec q : is_control q = false -> runs_as B (exec_ B q) [q].
Proof.
  intros Hc s Hf Hr. pose proof (exec_data q s (healthy_not_faulted s Hf) Hc Hr) as Hd.
  simpl. unfold exec_, sm_bind.
  destruct (step_stmt q (s_db s)) as [[r d']|e].
  - rewrite Hd. eexists. repeat split; simpl; auto.
  - destruct Hd as [He _]. destruct (exec B q s) as [o s'] eqn:Hx. simpl in He. subst o.
    by eexists.
Qed.

Lemma runs_as_seq m1 qs1 m2 qs2 :
  runs_as B m1 qs1 -> runs_as B m2 qs2 -> runs_as B (m1 ;; m2) (qs1 ++ qs2).
Proof.
  intros H1 H2 s Hf Hr. specialize (H1 s Hf Hr). rewrite run_stmts_app.
  destruct (run_stmts qs1 (s_db s)) as [d1|e].
  - destruct H1 as (s1 & Hm1 & Hd1 & Ht1 & Hf1 & Htr1).
    specialize (H2 s1 Hf1 ltac:(by rewrite Ht1)). rewrite Hd1 in H2.
    unfold sm_bind. rewrite Hm1.
    destruct (run_stmts qs2 d1) as [d2|e2]; [|done].
    destruct H2 as (s2 & Hm2 & Hd2 & Ht2 & Hf2 & Htr2). exists s2.
    repeat split; try congruence. by rewrite Htr2, Htr1, app_assoc.
  - destruct H1 as (s1 & Hm1). exists s1. unfold sm_bind. by rewrite Hm1.
Qed.

(** A [.catch] around statements that cannot fail changes nothing. *)
Lemma runs_as_catch m qs h :
  (forall d, is_ok (run_stmts qs d) = true) -> runs_as B m qs -> runs_as B (sm_catch m h) qs.
Proof.
  intros Hok Hm s Hf Hr. specialize (Hm s Hf Hr). specialize (Hok (s_db s)).
  destruct (run_stmts qs (s_db s)) as [d|e]; [|done].
  destruct Hm as (s' & Hm & ?). exists s'. unfold sm_catch. by rewrite Hm.
Qed.

Lemma runs_as_createSchema : runs_as B (createSchema B) create_stmts.
Proof.
  unfold createSchema, create_stmts.
  change [SCreateExtensionPgcrypto; SCreateTableClients; SCreateTableAppointments; SCreateTableAdmins]
    with ([SCreateExtensionPgcrypto] ++ [SCreateTableClients] ++ [SCreateTableAppointments] ++ [SCreateTableAdmins]).
  repeat apply runs_as_seq; try (apply runs_as_exec; done).
  apply runs_as_catch; [done|]. by apply runs_as_exec.
Qed.

Lemma runs_as_dropSchema : runs_as B (dropSchema B) drop_stmts.
Proof.
  unfold dropSchema, drop_stmts.
  change [SDropTableAppointments; SDropTableClients; SDropTableAdmins]
    with ([SDropTableAppointments] ++ [SDropTableClients] ++ [SDropTableAdmins]).
  repeat apply runs_as_seq; apply runs_as_exec; done.
Qed.

Lemma runs_as_seed_each p cs : runs_as B (seed_each B p cs) (map (seed_stmt p) cs).
Proof.
  induction cs as [|c cs IH]; simpl; [apply runs_as_ret|].
  change (seed_stmt p c :: map (seed_stmt p) cs) with ([seed_stmt p c] ++ map (seed_stmt p) cs).
  apply runs_as_seq; [by apply runs_as_exec|done].
Qed.

Lemma runs_as_provision H env salt f :
  runs_as B (provision B H env salt f) (migrate_stmts H env salt f).
Proof.
  unfold provision, migrate_stmts. apply runs_as_seq; [destruct (reset f)|].
  - apply runs_as_dropSchema.
  - apply runs_as_ret.
  - apply runs_as_seq; [apply runs_as_createSchema|].
    apply runs_as_seq; [by apply runs_as_exec|apply runs_as_seed_each].
Qed.

Lemma exec_begin_healthy s :
  s_faults s = [] -> s_tx s = Idle ->
  exists s1, exec_ B SBegin s = (Ok tt, s1) /\ s_db s1 = s_db s /\ ready (s_tx s1) /\
             s_faults s1 = [] /\ s_trace s1 = s_trace s ++ [SBegin].
Proof.
  intros Hf Hi. destruct (exec_begin s (healthy_not_faulted s Hf) Hi) as (Ho & Hd & Hr).
  destruct (exec_log SBegin s) as (Htr & _ & Hfl).
  unfold exec_, sm_bind. destruct (exec B SBegin s) as [o s1]. simpl in *. subst o.
  exists s1. repeat split; congruence.
Qed.

Lemma exec_commit_healthy s :
  s_faults s = [] -> ready (s_tx s) ->
  exists s1, exec_ B SCommit s = (Ok tt, s1) /\ s_db s1 = s_db s /\ s_tx s1 = Idle /\
             s_faults s1 = [] /\ s_trace s1 = s_trace s ++ [SCommit].
Proof.
  intros Hf Hr. destruct (exec_commit s (healthy_not_faulted s Hf) Hr) as (Ho & Hd & Hi).
  destruct (exec_log SCommit s) as (Htr & _ & Hfl).
  unfold exec_, sm_bind. destruct (exec B SCommit s) as [o s1]. simpl in *. subst o.
  exists s1. repeat split; congruence.
Qed.

End Refinement.

(** ** Refinement: a run does what its statements mean *)

Lemma run_healthy (B : Backend) `{!BackendLaws B} H env salt f s :
  s_faults s = [] -> s_tx s = Idle ->
  match run_stmts (migrate_stmts H env salt f) (s_db s) with
  | Ok d => exists s', main B H env salt f s = (Ok tt, s') /\ s_db s' = d /\ s_tx s' = Idle /\
                       s_faults s' = [] /\
                       s_trace s' = s_trace s ++ [SBegin] ++ migrate_stmts H env salt f ++ [SCommit]
  | Err e => exists e' s', main B H env salt f s = (Err e', s')
  end.
Proof.
  intros Hf Hi. destruct (exec_begin_healthy B s Hf Hi) as (s1 & Hb & Hd1 & Hr1 & Hf1 & Htr1).
  pose proof (runs_as_provision B H env salt f s1 Hf1 Hr1) as Hp. rewrite Hd1 in Hp.
  unfold main, main_body, sm_catch. rewrite (sm_bind_ok _ _ _ _ _ Hb).
  destruct (run_stmts _ (s_db s)) as [d|e].
  - destruct Hp as (s2 & Hp & Hd2 & Ht2 & Hf2 & Htr2). rewrite (sm_bind_ok _ _ _ _ _ Hp).
    destruct (exec_commit_healthy B s2 Hf2 ltac:(by rewrite Ht2))
      as (s3 & Hc & Hd3 & Hi3 & Hf3 & Htr3).
    rewrite Hc. exists s3. repeat split; try congruence.
    rewrite Htr3, Htr2, Htr1. by rewrite <- !app_assoc.
  - destruct Hp as (s2 & Hp). rewrite (sm_bind_err _ _ _ _ _ Hp).
    unfold sm_bind, sm_throw. destruct (exec_ B SRollback s2) as [[[]|e'] s3]; eauto.
Qed.

(** C3 (refinement) On any adapter that implements the interface, a run
    with no injected fault, started outside a transaction, sends [BEGIN],
    the statements [migrate_stmts] in order and [COMMIT], and ends with
    the data [run_stmts] computes for them; when one of them raises, the
    run fails. *)
Theorem main_refines (B : Backend) `{!BackendLaws B} H env salt f s :
  s_faults s = [] -> s_tx s = Idle ->
  match run_stmts (migrate_stmts H env salt f) (s_db s) with
  | Ok d => exists s', main B H env salt f s = (Ok tt, s') /\ s_db s' = d /\ s_tx s' = Idle /\
                       s_faults s' = [] /\
                       s_trace s' = s_trace s ++ [SBegin] ++ migrate_stmts H env salt f ++ [SCommit]
  | Err e => exists e' s', main B H env salt f s = (Err e', s')
  end.
Proof. apply run_healthy; assumption. Qed.

(** ** Atomicity on a transactional adapter *)

Section Atomicity.
Context (B : Backend) `{!BackendLaws B} `{!TxBackend B}.

Definition pend (snap : db) (s : session) : Prop := pending snap (s_tx s).

Lemma exec_pending q snap :
  q <> SCommit -> q <> SRollback -> sm_preserves (pend snap) (exec_ B q).
Proof.
  intros Hc Hr s Hs. unfold exec_, sm_bind, pend in *.
  pose proof (tx_pending q snap s Hc Hr Hs) as Hp.
  by destruct (exec B q s) as [[] s'].
Qed.

Lemma provision_pending H env salt f snap :
  sm_preserves (pend snap) (provision B H env salt f).
Proof.
  assert (Hseed : forall p cs, sm_preserves (pend snap) (seed_each B p cs)).
  { intros p cs. induction cs as [|c cs IH]; simpl; auto with wellness.
    apply sm_preserves_bind; [|intros; exact IH]. by apply exec_pending. }
  unfold provision, createSchema, dropSchema, seedAdmin, seedClients.
  destruct (reset f);
    repeat first [ apply exec_pending; discriminate | apply Hseed | apply sm_preserves_ret
                 | apply sm_preserves_catch; [|intros ?] | apply sm_preserves_bind; [|intros ?] ].
Qed.

(** Where the [try] block can fail: at [BEGIN], before any transaction,
    or later, with the transaction still open on the snapshot. *)
Lemma main_body_err_state H env salt f s e s2 :
  s_tx s = Idle -> main_body B H env salt f s = (Err e, s2) ->
  (s_tx s2 = Idle /\ s_db s2 = s_db s) \/ pend (s_db s) s2.
Proof.
  intros Hi Hm. unfold main_body in Hm. unfold sm_bind at 1 in Hm.
  unfold exec_ at 1 in Hm. unfold sm_bind at 1 in Hm.
  destruct (faulted s) eqn:Hf.
  - destruct (exec_fault SBegin s Hf) as [Ho Hd]. pose proof (tx_begin_fault s Hf Hi) as Ht.
    destruct (exec B SBegin s) as [o s1]. simpl in *. subst o. simplify_eq. by left.
  - destruct (exec_begin s Hf Hi) as (Ho & _). pose proof (tx_begin s Hf Hi) as Ht.
    destruct (exec B SBegin s) as [o s1]. simpl in Ho, Ht. subst o. right.
    assert (Hp1 : pend (s_db s) s1) by (left; done).
    pose proof (provision_pending H env salt f (s_db s) s1 Hp1) as Hp2.
    unfold sm_bind in Hm. cbn [sm_ret] in Hm.
    destruct (provision B H env salt f s1) as [[[]|e2] s2'] eqn:Ep;
      simpl in Hp2; [|by simplify_eq].
    unfold exec_, sm_bind in Hm. pose proof (tx_commit_err (s_db s) s2') as Hc.
    destruct (exec B SCommit s2') as [[r|e3] s3]; simpl in Hc; [discriminate|].
    simplify_eq. by apply Hc.
Qed.

Lemma rollback_restores snap e s2 :
  pend snap s2 -> committed (snd ((exec_ B SRollback ;; sm_throw (A:=unit) e) s2)) = snap.
Proof.
  intros Hp. pose proof (tx_rollback snap s2 Hp) as Hr.
  unfold exec_, sm_bind, sm_throw. unfold pend, pending, committed in *.
  destruct (exec B SRollback s2) as [[] s3]; simpl in *;
    destruct Hr as [[-> | ->] | [-> ->]]; done.
Qed.

Lemma rollback_idle e s2 :
  s_tx s2 = Idle -> committed (snd ((exec_ B SRollback ;; sm_throw (A:=unit) e) s2)) = s_db s2.
Proof.
  intros Hi. destruct (tx_idle_rollback s2 Hi) as [Ht Hd].
  unfold exec_, sm_bind, sm_throw, committed. destruct (exec B SRollback s2) as [[] s3];
    simpl in *; by rewrite Ht.
Qed.

Lemma failed_run_committed H env salt f s e s' :
  s_tx s = Idle -> main B H env salt f s = (Err e, s') -> committed s' = s_db s.
Proof.
  intros Hi Hm. unfold main, sm_catch in Hm.
  destruct (main_body B H env salt f s) as [[[]|e2] s2] eqn:Hb; [discriminate|].
  destruct (main_body_err_state H env salt f s e2 s2 Hi Hb) as [[Ht Hd]|Hp].
  - rewrite <- Hd. replace s' with (snd ((exec_ B SRollback ;; sm_throw (A:=unit) e2) s2)) by (by rewrite Hm).
    by apply rollback_idle.
  - replace s' with (snd ((exec_ B SRollback ;; sm_throw (A:=unit) e2) s2)) by (by rewrite Hm).
    by apply rollback_restores.
Qed.

(** C2 (safety) On a transactional adapter, a run that fails, whatever
    statement failed and whether or not the [ROLLBACK] itself succeeded,
    leaves the committed data exactly as it was before the run. *)
Theorem main_atomic H env salt f s e s' :
  s_tx s = Idle -> main B H env salt f s = (Err e, s') -> committed s' = s_db s.
Proof. apply failed_run_committed. Qed.

End Atomicity.

(** ** The process *)

Lemma isLocal_empty : Url.isLocal "" = false.
Proof. reflexivity. Qed.

Lemma run_selects H env args salt s url :
  DATABASE_URL env = Some url -> url <> "" ->
  run H env args salt s =
  match main (select_backend url) H env salt (parse_flags args) s with
  | (Ok _, s') => (if holds_connection (select_backend url) then Running else Exited 0, s')
  | (Err _, s') => (Exited 1, s')
  end.
Proof. intros Hu Hne. unfold run. rewrite Hu. by destruct url. Qed.

(** Without a connection string (unset or empty) the process
    exits with status 1 and sends no statement. *)
Theorem run_without_url H env args salt s :
  (DATABASE_URL env = None \/ DATABASE_URL env = Some "") ->
  run H env args salt s = (Exited 1, s).
Proof. unfold run. by intros [-> | ->]. Qed.

(** C1 (safety) On a loopback connection string the pg client is used,
    and a run that exits with status 1 has committed nothing. *)
Theorem run_local_atomic H env args salt s url :
  DATABASE_URL env = Some url -> Url.isLocal url = true -> s_tx s = Idle ->
  fst (run H env args salt s) = Exited 1 -> committed (snd (run H env args salt s)) = s_db s.
Proof.
  intros Hu Hl Hi. destruct (decide (url = "")) as [->|Hne]; [by rewrite isLocal_empty in Hl|].
  rewrite (run_selects H env args salt s url Hu Hne). unfold select_backend. rewrite Hl.
  destruct (main pg H env salt (parse_flags args) s) as [[[]|e] s'] eqn:Hm; simpl; [discriminate|].
  intros _. exact (failed_run_committed pg H env salt _ s e s' Hi Hm).
Qed.

(** C32 (error) On the pg client, a failure of [CREATE EXTENSION] is not
    recovered by its [.catch(() => {})]: it aborts the transaction, the
    next statement is refused, the run rolls back and exits with 1, and
    nothing is committed.  (The same failure on the stateless client is
    swallowed.) *)
Theorem run_local_extension_failure H env url d tr :
  DATABASE_URL env = Some url -> Url.isLocal url = true ->
  run H env [] "" (mkSession d Idle 0 [1] tr) =
  (Exited 1, mkSession d Idle 4 [1]
               (tr ++ [SBegin; SCreateExtensionPgcrypto; SCreateTableClients; SRollback])).
Proof.
  intros Hu Hl. destruct (decide (url = "")) as [->|Hne]; [by rewrite isLocal_empty in Hl|].
  rewrite (run_selects H env [] "" _ url Hu Hne). unfold select_backend. rewrite Hl.
  simpl. unfold set_db, set_tx, log_call. simpl. by rewrite <- !app_assoc.
Qed.

(** A remote connection string and an empty database. *)
Definition remote_env : process_env :=
  mkEnv (Some "postgres://app@ep-wellness.neon.tech/neondb") None None None None.
Definition fresh_session (faults : list nat) : session :=
  mkSession (empty_db 0) Idle 0 faults [].

(** On the stateless client a failed [CREATE EXTENSION]
    is swallowed by its [.catch] and the run (of an empty database)
    completes with status 0. *)
Theorem remote_extension_failure_recovered :
  fst (run sample_bcrypt remote_env [] "" (fresh_session [1])) = Exited 0.
Proof. vm_compute. reflexivity. Qed.

(** Hide the admin's email, credential and name (computed from the
    environment) before evaluating a run on a symbolic database. *)
Ltac generalize_admin H env salt :=
  unfold migrate_stmts;
  generalize (resolveAdminHash H env salt) (seed_admin_email env) (seed_admin_name env);
  let h := fresh "h" in let e := fresh "e" in let n := fresh "n" in intros h e n.

(** C35 (equivalence) The spec forces the client overwrite under
    [--reset]; the code passes only [redo] to [seedClients].  The two
    agree: after the drop the tables are empty, so [DO NOTHING] and
    [DO UPDATE] never meet a conflict. *)
Theorem reset_clients_policy_irrelevant H env salt d :
  run_stmts (migrate_stmts H env salt (mkFlags true false)) d =
  run_stmts (migrate_stmts H env salt (mkFlags true true)) d.
Proof. generalize_admin H env salt. destruct d. vm_compute. reflexivity. Qed.

(** ** Witnesses *)

Definition local_url : string := "postgres://admin@localhost:5432/wellness".
Definition local_env : process_env := mkEnv (Some local_url) None None None None.

Lemma run_local_atomic_witness :
  Url.isLocal local_url = true /\
  fst (run sample_bcrypt local_env [] "" (fresh_session [5])) = Exited 1 /\
  committed (snd (run sample_bcrypt local_env [] "" (fresh_session [5]))) = empty_db 0.
Proof.
  split; [vm_compute; reflexivity|]. split; [vm_compute; reflexivity|].
  apply (run_local_atomic sample_bcrypt local_env [] "" (fresh_session [5]) local_url);
    [reflexivity|vm_compute; reflexivity|reflexivity|vm_compute; reflexivity].
Defined.

Lemma run_local_extension_failure_witness :
  run sample_bcrypt local_env [] "" (mkSession (empty_db 0) Idle 0 [1] []) =
  (Exited 1, mkSession (empty_db 0) Idle 4 [1]
               ([] ++ [SBegin; SCreateExtensionPgcrypto; SCreateTableClients; SRollback])).
Proof.
  apply (run_local_extension_failure sample_bcrypt local_env local_url);
    [reflexivity|vm_compute; reflexivity].
Defined.

Lemma run_without_url_witness :
  run sample_bcrypt (mkEnv (Some "") None None None None) ["--reset"] "" (fresh_session []) =
  (Exited 1, fresh_session []).
Proof. apply run_without_url. right. reflexivity. Defined.

Lemma main_refines_witness :
  match run_stmts (migrate_stmts sample_bcrypt local_env "" (mkFlags false true)) (empty_db 0) with
  | Ok d => exists s', main pg sample_bcrypt local_env "" (mkFlags false true) (fresh_session []) =
                       (Ok tt, s') /\ s_db s' = d /\ s_tx s' = Idle /\ s_faults s' = [] /\
                       s_trace s' = [] ++ [SBegin] ++
                         migrate_stmts sample_bcrypt local_env "" (mkFlags false true) ++ [SCommit]
  | Err e => exists e' s', main pg sample_bcrypt local_env "" (mkFlags false true) (fresh_session []) =
                           (Err e', s')
  end.
Proof.
  exact (main_refines pg sample_bcrypt local_env "" (mkFlags false true) (fresh_session [])
           eq_refl eq_refl).
Defined.

Lemma main_atomic_witness :
  fst (main pg sample_bcrypt local_env "" (mkFlags true true) (fresh_session [7])) =
    Err (InjectedFault 7) /\
  committed (snd (main pg sample_bcrypt local_env "" (mkFlags true true) (fresh_session [7]))) =
    empty_db 0.
Proof.
  split; [vm_compute; reflexivity|].
  apply (main_atomic pg sample_bcrypt local_env "" (mkFlags true true) (fresh_session [7])
           (InjectedFault 7)); [reflexivity|vm_compute; reflexivity].
Defined.

End Migrate.
