(* ===== verification/Env.v ===== *)
(** * Loading the environment: src/scripts/migrate.js lines 12-24

    Before anything else the script picks an environment file
    ([ENV_PATH], or [../.env] beside the script), lets dotenv load it
    when it exists and the [.env] of the working directory otherwise, and
    then reads [DATABASE_URL].  [process.env] is a map from names to
    strings; the file system is a partial map from paths to contents.
    dotenv is a library the script only calls: [DotEnv] is the parser it
    provides, and [dotenv_config] writes out what [config] does with the
    parse (a variable already in [process.env] is kept: dotenv's default
    [override: false]).  [startup] composes the loading with [run] of
    Migrate.v. *)

From S2P Require Import Prelude Session Credential Migrate.
From stdpp Require Import gmap.
Open Scope list_scope.

Module Env.
Import Session Credential Migrate.

Abbreviation env_map := (gmap string string).

(** The parser of dotenv: the assignments of a file, in file order. *)
Class DotEnv := dotenv_parse : string -> list (string * string).

(** The paths the script knows: [path.resolve(__dirname, "../.env")] and
    the [.env] of [process.cwd()] that [config()] reads. *)
Record paths := mkPaths { script_env : string; cwd_env : string }.

Section Load.
Context `{!DotEnv} (fs : string -> option string) (P : paths).

(** [dotenv.parse]: a later assignment of a name replaces an earlier one. *)
Definition parsed (contents : string) : env_map :=
  foldl (fun m '(k, v) => <[k:=v]> m) ∅ (dotenv_parse contents).

(** [dotenv.config({ path })]: an unreadable file changes nothing; the
    variables of a readable one are added where [process.env] has no
    entry (the union keeps the left entry). *)
Definition dotenv_config (path : string) (env : env_map) : env_map :=
  match fs path with
  | Some contents => env ∪ parsed contents
  | None => env
  end.

(** [process.env.ENV_PATH || path.resolve(__dirname, "../.env")]. *)
Definition envPath (env : env_map) : string :=
  match env !! "ENV_PATH" with
  | Some p => if String.eqb p "" then script_env P else p
  | None => script_env P
  end.

(** Lines 13-18: [fs.existsSync(envPath)] picks the file. *)
Definition load_env (env : env_map) : env_map :=
  let p := envPath env in
  match fs p with
  | Some _ => dotenv_config p env
  | None => dotenv_config (cwd_env P) env
  end.

(** The variables the rest of the script reads. *)
Definition process_env_of (env : env_map) : process_env :=
  mkEnv (env !! "DATABASE_URL") (env !! "ADMIN_EMAIL") (env !! "ADMIN_NAME")
        (env !! "ADMIN_PASSWORD") (env !! "ADMIN_PASSWORD_HASH").

(** [node migrate.js args] from its start. *)
Definition startup (H : Bcrypt) (env : env_map) (args : list string) (salt : string) (s : session)
  : exit_status * session :=
  run H (process_env_of (load_env env)) args salt s.

End Load.

(** ** What the loaded environment holds *)

Section Facts.
Context `{!DotEnv} (fs : string -> option string) (P : paths).

(** A variable of the process environment survives the loading. *)
Lemma load_env_keeps env k v : env !! k = Some v -> load_env fs P env !! k = Some v.
Proof.
  intros Hk. unfold load_env, dotenv_config.
  by repeat case_match; try apply lookup_union_Some_l.
Qed.

(** A variable the process environment lacks comes from the chosen file. *)
Lemma load_env_file env k c :
  env !! k = None -> fs (envPath P env) = Some c -> load_env fs P env !! k = parsed c !! k.
Proof.
  intros Hk Hc. unfold load_env, dotenv_config. rewrite Hc, lookup_union, Hk.
  by destruct (parsed c !! k).
Qed.

(** An [ENV_PATH] naming no file is passed over silently: the [.env] of
    the working directory is loaded instead. *)
Lemma load_env_missing_path env p :
  env !! "ENV_PATH" = Some p -> p <> "" -> fs p = None ->
  load_env fs P env = dotenv_config fs (cwd_env P) env.
Proof.
  intros Hp Hne Hf. unfold load_env, envPath. rewrite Hp.
  by rewrite (proj2 (String.eqb_neq p "") Hne), Hf.
Qed.

(** C29 (error) An empty [DATABASE_URL] in the process environment hides
    the connection string of the environment file: dotenv does not
    replace a variable that is present, and the script exits with status
    1 before any statement, whatever the files hold. *)
Theorem empty_url_masks_file Hb env args salt s :
  env !! "DATABASE_URL" = Some "" -> startup fs P Hb env args salt s = (Exited 1, s).
Proof. intros Hu. apply run_without_url. right. by apply load_env_keeps. Qed.

(** When the process environment has no [DATABASE_URL]
    and the chosen file assigns a non-empty one, the run is [main] of
    Migrate.v on the adapter that string selects. *)
Theorem startup_file_url Hb env args salt s c url :
  env !! "DATABASE_URL" = None -> fs (envPath P env) = Some c ->
  parsed c !! "DATABASE_URL" = Some url -> url <> "" ->
  startup fs P Hb env args salt s =
  match main (select_backend url) Hb (process_env_of (load_env fs P env)) salt (parse_flags args) s with
  | (Ok _, s') => (if holds_connection (select_backend url) then Running else Exited 0, s')
  | (Err _, s') => (Exited 1, s')
  end.
Proof.
  intros Hu Hc Hp Hne. apply run_selects; [|done]. cbn [process_env_of DATABASE_URL].
  by rewrite (load_env_file env _ c Hu Hc).
Qed.

End Facts.

(** ** Concrete runs *)

(** A parser of [NAME=value] lines, enough for the files below. *)
Fixpoint split_eq (l : list ascii) : option (list ascii * list ascii) :=
  match l with
  | [] => None
  | c :: r => if Ascii.eqb c "=" then Some ([], r) else
               option_map (fun '(k, v) => (c :: k, v)) (split_eq r)
  end.

Fixpoint lines_of (acc : list ascii) (l : list ascii) : list (list ascii) :=
  match l with
  | [] => [acc]
  | c :: r => if Ascii.eqb c "010"%char then acc :: lines_of [] r else lines_of (acc ++ [c]) r
  end.

#[local] Instance line_dotenv : DotEnv := fun s =>
  omap (fun l => option_map (fun '(k, v) => (string_of_list_ascii k, string_of_list_ascii v)) (split_eq l))
       (lines_of [] (list_ascii_of_string s)).

Definition demo_fs (p : string) : option string :=
  if String.eqb p "/srv/app/src/.env" then Some "DATABASE_URL=postgres://localhost/wellness" else None.

Definition demo_paths : paths := mkPaths "/srv/app/src/.env" "/srv/app/.env".

(** The file beside the script holds a connection string; an empty
    [DATABASE_URL] exported in the shell wins over it. *)
Lemma empty_url_masks_file_witness :
  load_env demo_fs demo_paths ∅ !! "DATABASE_URL" = Some "postgres://localhost/wellness" /\
  startup demo_fs demo_paths sample_bcrypt (<["DATABASE_URL":=""]> ∅) [] "" (fresh_session []) =
    (Exited 1, fresh_session []).
Proof.
  split; [vm_compute; reflexivity|].
  apply (empty_url_masks_file demo_fs demo_paths sample_bcrypt (<["DATABASE_URL":=""]> ∅)).
  reflexivity.
Defined.

(** Without the variable in the shell, the file's loopback string selects
    the pg adapter. *)
Lemma startup_file_url_witness :
  select_backend "postgres://localhost/wellness" = pg /\
  startup demo_fs demo_paths sample_bcrypt ∅ [] "" (fresh_session []) =
  match main (select_backend "postgres://localhost/wellness") sample_bcrypt
             (process_env_of (load_env demo_fs demo_paths ∅)) "" (parse_flags []) (fresh_session []) with
  | (Ok _, s') => (if holds_connection (select_backend "postgres://localhost/wellness") then Running else Exited 0, s')
  | (Err _, s') => (Exited 1, s')
  end.
Proof.
  split; [reflexivity|].
  apply (startup_file_url demo_fs demo_paths sample_bcrypt ∅ [] "" (fresh_session [])
           "DATABASE_URL=postgres://localhost/wellness");
    [reflexivity|reflexivity|vm_compute; reflexivity|discriminate].
Defined.

End Env.
