(* ===== verification/Seeding.v ===== *)
(** * The seed orchestrator's guarantees

    Properties of the statements a run sends ([Migrate.migrate_stmts])
    under their SQL meaning ([Migrate.run_stmts]): the conflict policy of
    [seedAdmin] and [seedClients] (src/scripts/migrate.js lines 116-146),
    idempotence of the default run, the [--reset] scenario, and that
    [seedClients(redo)] under [--reset] behaves as the spec's forced
    overwrite.  [Migrate.main_refines] carries each of them to the runs of
    either adapter. *)

From S2P Require Import Prelude Db Url Session Credential Migrate.
Open Scope list_scope.
Import Schema Session Credential Migrate.

Module Seeding.

Definition default_flags : flags := mkFlags false false.

(** The data after the four [CREATE ... IF NOT EXISTS]. *)
Definition create_all (d : db) : db :=
  mkDb true (Some (default [] (db_clients d)))
       (Some (default (mkAppointmentsTable [] true) (db_appointments d)))
       (Some (default [] (db_admins d))) (db_next_id d) (db_now d).

(** The data after the three [DROP TABLE IF EXISTS ... CASCADE]. *)
Definition dropped (d : db) : db :=
  mkDb (db_pgcrypto d) None None None (db_next_id d) (db_now d).

(** A database a run has provisioned for [env]. *)
Definition seeded (env : process_env) (d : db) : Prop :=
  db_pgcrypto d = true /\
  (exists cs, db_clients d = Some cs /\
              Forall (fun c => In (sc_email c) (map client_email cs)) seed_clients) /\
  is_Some (db_appointments d) /\
  (exists rows, db_admins d = Some rows /\ In (seed_admin_email env) (map Schema.admin_email rows)).

(** The external id, email and phone of every client, in table order,
    and those of the seed. *)
Definition client_keys (d : db) : option (list (option string * string * option string)) :=
  option_map (map (fun c => (client_external_id c, client_email c, client_phone c))) (db_clients d).

Definition seed_keys : list (option string * string * option string) :=
  map (fun c => (Some (sc_external_id c), sc_email c, Some (sc_phone c))) seed_clients.

(** A client row holds the data of seed [c]. *)
Definition carries_seed (c : seed_client) (r : client_row) : Prop :=
  client_email r = sc_email c /\ client_name r = sc_name c /\
  client_external_id r = Some (sc_external_id c) /\ client_phone r = Some (sc_phone c).

Definition admin_row_of (env : process_env) (d : db) : option admin_row :=
  match db_admins d with
  | Some rows => find (admin_has_email (seed_admin_email env)) rows
  | None => None
  end.

(** ** Lemmas on the statements *)

Lemma run_drop_stmts d : run_stmts drop_stmts d = Ok (dropped d).
Proof. by destruct d. Qed.

Lemma run_create_stmts d : run_stmts create_stmts d = Ok (create_all d).
Proof.
  destruct d as [pg [cl|] [ap|] [ad|] n now]; reflexivity.
Qed.

Lemma find_map_update {A} (P : A -> bool) (g : A -> A) (l : list A) :
  (forall r, P (g r) = P r) ->
  find P (map (fun r => if P r then g r else r) l) = option_map g (find P l).
Proof.
  intros Hg. induction l as [|r l IH]; simpl; [done|].
  destruct (P r) eqn:E; simpl; [by rewrite Hg, E|by rewrite E].
Qed.

Lemma find_snoc_new {A} (P : A -> bool) (l : list A) (x : A) :
  find P l = None -> P x = true -> find P (l ++ [x]) = Some x.
Proof.
  intros Hl Hx. induction l as [|r l IH]; simpl in *; [by rewrite Hx|].
  destruct (P r); [discriminate|auto].
Qed.

Lemma find_none_existsb {A} (P : A -> bool) (l : list A) :
  existsb P l = false -> find P l = None.
Proof. induction l as [|r l IH]; simpl; [done|]. by destruct (P r). Qed.

Lemma find_some_existsb {A} (P : A -> bool) (l : list A) :
  existsb P l = true -> exists r, find P l = Some r.
Proof. induction l as [|r l IH]; simpl; [done|]. destruct (P r); eauto. Qed.

Lemma admin_has_email_set e h n r :
  admin_has_email e (admin_set_excluded h n r) = admin_has_email e r.
Proof. done. Qed.

(** [INSERT INTO admins ... ON CONFLICT (email) DO NOTHING / DO UPDATE]:
    the row of the email afterwards. *)
Lemma insert_admin_row p e h n d rows r d' :
  db_admins d = Some rows -> insert_admin p e h n d = Ok (r, d') ->
  exists rows', db_admins d' = Some rows' /\
  find (admin_has_email e) rows' =
    match find (admin_has_email e) rows with
    | Some old => Some (if p is DoNothing then old else admin_set_excluded h n old)
    | None => Some (mkAdmin (db_next_id d) e h n (db_now d))
    end.
Proof.
  intros Hrows Hins. unfold insert_admin in Hins. rewrite Hrows in Hins.
  destruct (existsb (admin_has_email e) rows) eqn:Hex.
  - destruct (find_some_existsb _ _ Hex) as (old & Hold). rewrite Hold.
    destruct p; simplify_eq; eexists; split; [done|done|done|].
    rewrite find_map_update; [by rewrite Hold|]. intros; apply admin_has_email_set.
  - rewrite (find_none_existsb _ _ Hex). simplify_eq. eexists; split; [done|].
    apply find_snoc_new; [by apply find_none_existsb|]. by apply bool_decide_eq_true.
Qed.

Lemma insert_client_admins p x nm e ph d r d' :
  insert_client p x nm e ph d = Ok (r, d') -> db_admins d' = db_admins d.
Proof. unfold insert_client. repeat case_match; intros; by simplify_eq. Qed.

Lemma run_seed_admins p cs d d' :
  run_stmts (map (seed_stmt p) cs) d = Ok d' -> db_admins d' = db_admins d.
Proof.
  revert d. induction cs as [|c cs IH]; intros d; simpl; [by intros [= ->]|].
  destruct (insert_client _ _ _ _ _ d) as [[r d1]|e] eqn:Hi; [|discriminate].
  intros Hrun. rewrite (IH d1 Hrun). by apply insert_client_admins in Hi.
Qed.

Lemma run_prefix f d :
  run_stmts ((if reset f then drop_stmts else []) ++ create_stmts) d =
  Ok (create_all (if reset f then dropped d else d)).
Proof.
  rewrite run_stmts_app. destruct (reset f); [rewrite run_drop_stmts|]; apply run_create_stmts.
Qed.

Lemma admin_row_of_create env d :
  find (admin_has_email (seed_admin_email env)) (default [] (db_admins d)) = admin_row_of env d.
Proof. unfold admin_row_of. by destruct (db_admins d). Qed.

(** The run as its three phases: schema, admin seed, client seeds. *)
Lemma run_migrate_split H env salt f d d' :
  run_stmts (migrate_stmts H env salt f) d = Ok d' ->
  let d0 := create_all (if reset f then dropped d else d) in
  exists r d1, insert_admin (policy (reset f || redo f)) (seed_admin_email env)
                 (resolveAdminHash H env salt) (seed_admin_name env) d0 = Ok (r, d1) /\
               run_stmts (map (seed_stmt (policy (redo f))) seed_clients) d1 = Ok d'.
Proof.
  unfold migrate_stmts. rewrite app_assoc, run_stmts_app, (run_prefix f d).
  simpl. destruct (insert_admin _ _ _ _ _) as [[r d1]|e]; [|discriminate]. eauto.
Qed.

(** C6 (functional) The conflict policy of [seedAdmin]: after a run, the
    row of [ADMIN_EMAIL] exists; when it existed before (and [--reset]
    did not drop it) it keeps its id, and its credential is replaced by
    the resolved one exactly when the run overwrites ([--reset] or
    [--redo]); otherwise it is the resolved credential. *)
Theorem seed_admin_policy H env salt f d d' :
  run_stmts (migrate_stmts H env salt f) d = Ok d' ->
  exists r, admin_row_of env d' = Some r /\
  match admin_row_of env (if reset f then dropped d else d) with
  | Some old => admin_id r = admin_id old /\
                admin_password_hash r = (if reset f || redo f then resolveAdminHash H env salt
                                         else admin_password_hash old)
  | None => admin_password_hash r = resolveAdminHash H env salt
  end.
Proof.
  intros Hrun. destruct (run_migrate_split H env salt f d d' Hrun) as (r & d1 & Hins & Hseeds).
  destruct (insert_admin_row _ _ _ _ (create_all (if reset f then dropped d else d)) _ _ _
              eq_refl Hins) as (rows' & Hr' & Hfind).
  rewrite admin_row_of_create in Hfind. unfold admin_row_of at 1.
  rewrite (run_seed_admins _ _ _ _ Hseeds), Hr', Hfind.
  destruct (admin_row_of env _) as [old|]; eexists; split; try done.
  destruct (reset f || redo f); simpl; done.
Qed.

(** ** The [--reset] scenario *)

(** C7 (functional) [--reset] on any database always succeeds and leaves
    exactly one admin (with the resolved credential), the three baseline
    clients and no appointment, whatever [--redo] says. *)
Theorem reset_scenario H env salt d r :
  exists d', run_stmts (migrate_stmts H env salt (mkFlags true r)) d = Ok d' /\
  db_admins d' = Some [mkAdmin (db_next_id d) (seed_admin_email env) (resolveAdminHash H env salt)
                               (seed_admin_name env) (db_now d)] /\
  client_keys d' = Some seed_keys /\
  db_appointments d' = Some (mkAppointmentsTable [] true).
Proof.
  generalize_admin H env salt. destruct d, r;
  match goal with
  | |- exists d', ?run = Ok d' /\ _ =>
      let v := eval vm_compute in run in
      match v with Ok ?d0 => exists d0 end
  end; (split; [vm_compute; reflexivity|]); vm_compute; repeat split.
Qed.



(** ** Idempotence of the default run *)

Lemma find_some_in e rows r :
  find (admin_has_email e) rows = Some r -> In e (map Schema.admin_email rows).
Proof.
  intros Hf. apply find_some in Hf as [Hin He]. apply bool_decide_eq_true in He.
  subst e. by apply in_map.
Qed.

Lemma insert_client_emails p x nm e ph d r d' cs :
  db_clients d = Some cs -> insert_client p x nm e ph d = Ok (r, d') ->
  exists cs', db_clients d' = Some cs' /\ incl (map client_email cs) (map client_email cs') /\
              In e (map client_email cs') /\
              db_pgcrypto d' = db_pgcrypto d /\ db_appointments d' = db_appointments d.
Proof.
  intros Hcs Hins. unfold insert_client in Hins. rewrite Hcs in Hins.
  destruct (existsb (client_has_email e) cs) eqn:Hex; [destruct p|].
  - simplify_eq. exists cs. repeat split; auto using incl_refl. by apply existsb_key.
  - destruct (existsb (fun r => negb (client_has_email e r) && client_has_external_id x r) cs);
      simplify_eq. eexists. split; [done|].
    rewrite map_update_key by (by intros). repeat split; auto using incl_refl. by apply existsb_key.
  - destruct (existsb (client_has_external_id x) cs); simplify_eq. eexists. split; [done|].
    rewrite map_app. repeat split; auto using incl_appl, incl_refl.
    apply in_or_app. right. by left.
Qed.

Lemma run_seed_emails p cs d d' cl :
  db_clients d = Some cl -> run_stmts (map (seed_stmt p) cs) d = Ok d' ->
  exists cl', db_clients d' = Some cl' /\ incl (map client_email cl) (map client_email cl') /\
              Forall (fun c => In (sc_email c) (map client_email cl')) cs /\
              db_pgcrypto d' = db_pgcrypto d /\ db_appointments d' = db_appointments d.
Proof.
  revert d cl. induction cs as [|c cs IH]; intros d cl Hcl Hrun; simpl in Hrun.
  - simplify_eq. exists cl. repeat split; auto using incl_refl.
  - destruct (insert_client _ _ _ _ _ d) as [[r d1]|e] eqn:Hi; [|discriminate].
    destruct (insert_client_emails _ _ _ _ _ _ _ _ _ Hcl Hi) as (cl1 & Hcl1 & Hinc1 & Hin1 & Hp1 & Ha1).
    destruct (IH d1 cl1 Hcl1 Hrun) as (cl2 & Hcl2 & Hinc2 & Hall & Hp2 & Ha2).
    exists cl2. repeat split; try congruence.
    + by apply (incl_tran Hinc1).
    + constructor; [by apply Hinc2|done].
Qed.

Lemma run_seeded H env salt f d d' :
  run_stmts (migrate_stmts H env salt f) d = Ok d' -> seeded env d'.
Proof.
  intros Hrun. destruct (run_migrate_split H env salt f d d' Hrun) as (r & d1 & Hins & Hseeds).
  destruct (insert_admin_row _ _ _ _ (create_all (if reset f then dropped d else d)) _ _ _
              eq_refl Hins) as (rows' & Hr' & Hfind).
  assert (Hd1 : db_pgcrypto d1 = true /\ is_Some (db_clients d1) /\ is_Some (db_appointments d1)).
  { unfold insert_admin in Hins. simpl in Hins. repeat case_match; simplify_eq; simpl; eauto. }
  destruct Hd1 as (Hpg & [cl Hcl] & Hap).
  destruct (run_seed_emails _ _ _ _ _ Hcl Hseeds) as (cl' & Hcl' & _ & Hall & Hp' & Ha').
  repeat split.
  - congruence.
  - eauto.
  - by rewrite Ha'.
  - exists rows'. rewrite (run_seed_admins _ _ _ _ Hseeds). split; [done|].
    destruct (find _ (default [] _)) in Hfind; eapply find_some_in; exact Hfind.
Qed.

(** ** [--redo] restores the seeded clients *)

Lemma create_all_clients d cl : db_clients d = Some cl -> db_clients (create_all d) = Some cl.
Proof. unfold create_all. simpl. by intros ->. Qed.

Lemma insert_admin_clients p e h n d q d' :
  insert_admin p e h n d = Ok (q, d') -> db_clients d' = db_clients d.
Proof. unfold insert_admin. repeat case_match; intros; by simplify_eq. Qed.

(** Where a client row is after one client upsert. *)
Lemma insert_client_row p x nm e ph d q d' cs r :
  db_clients d = Some cs -> insert_client p x nm e ph d = Ok (q, d') -> In r cs ->
  exists cs', db_clients d' = Some cs' /\
    In (if bool_decide (client_email r = e) && bool_decide (p = DoUpdate)
        then client_set_excluded x nm ph r else r) cs'.
Proof.
  intros Hcs Hins Hr. unfold insert_client in Hins. rewrite Hcs in Hins.
  destruct (existsb (client_has_email e) cs) eqn:Hex; [destruct p|].
  - simplify_eq. exists cs. split; [done|].
    rewrite (bool_decide_false (DoNothing = DoUpdate)) by discriminate. by rewrite andb_false_r.
  - destruct (existsb (fun r0 => negb (client_has_email e r0) && client_has_external_id x r0) cs);
      simplify_eq. eexists. split; [reflexivity|].
    rewrite (bool_decide_true (DoUpdate = DoUpdate)), andb_true_r by done.
    apply (in_map (fun r => if client_has_email e r then client_set_excluded x nm ph r else r)) in Hr.
    exact Hr.
  - destruct (existsb (client_has_external_id x) cs); simplify_eq. eexists. split; [reflexivity|].
    assert (He : bool_decide (client_email r = e) = false).
    { apply bool_decide_eq_false. intros Hre. apply existsb_false_In with (x := r) in Hex; [|done].
      unfold client_has_email in Hex. by rewrite bool_decide_true in Hex. }
    rewrite He. simpl. apply in_or_app. by left.
Qed.

Lemma find_key_absent {A} (key : A -> string) (l : list A) e :
  ~ In e (map key l) -> List.find (fun c => bool_decide (key c = e)) l = None.
Proof.
  induction l as [|c l IH]; intros Hn; [done|]. simpl in *.
  rewrite bool_decide_false by (intros E; apply Hn; by left). apply IH. tauto.
Qed.

Lemma run_seeds_row cs d d' cl r :
  db_clients d = Some cl -> In r cl -> NoDup (map sc_email cs) ->
  run_stmts (map (seed_stmt DoUpdate) cs) d = Ok d' ->
  exists cl', db_clients d' = Some cl' /\
    In (match List.find (fun c => bool_decide (sc_email c = client_email r)) cs with
        | Some c => client_set_excluded (sc_external_id c) (sc_name c) (sc_phone c) r
        | None => r
        end) cl'.
Proof.
  revert d r cl. induction cs as [|c cs IH]; intros d r cl Hcl Hr Hnd Hrun; simpl in Hrun.
  - injection Hrun as <-. eauto.
  - destruct (insert_client _ _ _ _ _ d) as [[q d1]|e] eqn:Hi; [|discriminate].
    apply list.NoDup_cons in Hnd as [Hc Hnd]. rewrite list_elem_of_In in Hc.
    destruct (insert_client_row _ _ _ _ _ _ _ _ _ r Hcl Hi Hr) as (cl1 & Hcl1 & Hr1).
    simpl. destruct (decide (client_email r = sc_email c)) as [Hm|Hm].
    + rewrite bool_decide_true in Hr1 by done. rewrite bool_decide_true by done. simpl in Hr1.
      destruct (IH d1 _ cl1 Hcl1 Hr1 Hnd Hrun) as (cl2 & Hcl2 & Hr2). exists cl2. split; [done|].
      by rewrite find_key_absent in Hr2 by (simpl; by rewrite Hm).
    + rewrite bool_decide_false in Hr1 by done. rewrite bool_decide_false by congruence.
      exact (IH d1 r cl1 Hcl1 Hr1 Hnd Hrun).
Qed.

(** C8 (functional) [--redo] puts every seeded client back: a client row
    whose email is a seed's keeps its id and gets the seed's name,
    external id and phone again (spec section 8, the [--redo]
    scenario). *)
Theorem redo_restores_seeded_clients H env salt d d' cl r c :
  run_stmts (migrate_stmts H env salt (mkFlags false true)) d = Ok d' ->
  db_clients d = Some cl -> In r cl -> In c seed_clients -> client_email r = sc_email c ->
  exists cl' r', db_clients d' = Some cl' /\ In r' cl' /\
    client_id r' = client_id r /\ carries_seed c r'.
Proof.
  intros Hrun Hcl Hr Hc He. destruct (run_migrate_split H env salt _ d d' Hrun) as (q & d1 & Hins & Hseeds).
  simpl in Hins, Hseeds. pose proof (insert_admin_clients _ _ _ _ _ _ _ Hins) as Hd1.
  rewrite (create_all_clients d cl Hcl) in Hd1.
  assert (Hnd : NoDup (map sc_email seed_clients)) by (apply (bool_decide_unpack _); reflexivity).
  destruct (run_seeds_row _ _ _ _ r Hd1 Hr Hnd Hseeds) as (cl' & Hcl' & Hr').
  exists cl'. eexists. split; [done|]. split; [exact Hr'|].
  unfold carries_seed. destruct Hc as [<-|[<-|[<-|[]]]]; rewrite He; simpl; rewrite ?He; repeat split.
Qed.


Lemma seed_each_noop cs cl d :
  db_clients d = Some cl -> Forall (fun c => In (sc_email c) (map client_email cl)) cs ->
  run_stmts (map (seed_stmt DoNothing) cs) d = Ok d.
Proof.
  intros Hcl Hall. induction Hall as [|c cs Hc _ IH]; [done|]. simpl.
  unfold insert_client, client_has_email. rewrite Hcl. apply existsb_key in Hc. by rewrite Hc.
Qed.

Lemma default_run_noop H env salt d :
  seeded env d -> run_stmts (migrate_stmts H env salt default_flags) d = Ok d.
Proof.
  intros (Hpg & (cl & Hcl & Hall) & [t Ht] & (rows & Hrows & Hin)).
  unfold migrate_stmts. rewrite app_assoc, run_stmts_app.
  change ((if reset default_flags then drop_stmts else []) ++ create_stmts) with create_stmts.
  rewrite run_create_stmts.
  assert (Hc : create_all d = d) by (destruct d; simpl in *; by subst).
  rewrite Hc. simpl. unfold insert_admin. rewrite Hrows.
  apply existsb_key in Hin. unfold admin_has_email. rewrite Hin.
  exact (seed_each_noop seed_clients cl d Hcl Hall).
Qed.

(** The default run is idempotent: a second default run after a
    successful one succeeds and changes nothing, whatever salt each
    run's [bcrypt.hash] draws. *)
Lemma default_run_idempotent H env salt1 salt2 d d1 :
  run_stmts (migrate_stmts H env salt1 default_flags) d = Ok d1 ->
  run_stmts (migrate_stmts H env salt2 default_flags) d1 = Ok d1.
Proof. intros Hrun. by apply default_run_noop, (run_seeded H env salt1 default_flags d). Qed.

Lemma main_ok_run (B : Backend) `{!BackendLaws B} H env salt f s s1 :
  s_faults s = [] -> s_tx s = Idle -> main B H env salt f s = (Ok tt, s1) ->
  run_stmts (migrate_stmts H env salt f) (s_db s) = Ok (s_db s1) /\
  s_tx s1 = Idle /\ s_faults s1 = [].
Proof.
  intros Hf Hi Hm. pose proof (run_healthy B H env salt f s Hf Hi) as Hr.
  destruct (run_stmts _ (s_db s)) as [d|e].
  - destruct Hr as (s' & Hm' & Hd & Hi' & Hf' & _). rewrite Hm in Hm'. simplify_eq. auto.
  - destruct Hr as (e' & s' & Hm'). congruence.
Qed.

(** C5 (functional) On either adapter, running the default mode twice
    in a row without faults gives the same data as running it once, the
    admin's [password_hash] included, although each run hashes the
    password with its own random salt ([salt1], [salt2]): the second
    run's [DO NOTHING] keeps the first hash. *)
Theorem main_default_idempotent (B : Backend) `{!BackendLaws B} H env salt1 salt2 s s1 :
  s_faults s = [] -> s_tx s = Idle -> main B H env salt1 default_flags s = (Ok tt, s1) ->
  exists s2, main B H env salt2 default_flags s1 = (Ok tt, s2) /\ s_db s2 = s_db s1.
Proof.
  intros Hf Hi Hm. destruct (main_ok_run B H env salt1 _ s s1 Hf Hi Hm) as (Hrun & Hi1 & Hf1).
  pose proof (run_healthy B H env salt2 default_flags s1 Hf1 Hi1) as Hr.
  rewrite (default_run_idempotent H env salt1 salt2 _ _ Hrun) in Hr.
  destruct Hr as (s2 & Hm2 & Hd2 & _). eauto.
Qed.

(** ** The stateless client is not atomic *)

(** C4 (safety) On the stateless client the run is not atomic: whatever
    the database, the credential and the salt, when the sixth call (the
    admin seed) fails, the process exits with 1, yet the extension and
    the three tables created before it stay committed: [BEGIN] and
    [ROLLBACK] are separate HTTP calls that bind nothing. *)
Theorem remote_partial_commit H env url salt d tr :
  DATABASE_URL env = Some url -> url <> "" -> Url.isLocal url = false ->
  fst (run H env [] salt (mkSession d Idle 0 [5] tr)) = Exited 1 /\
  committed (snd (run H env [] salt (mkSession d Idle 0 [5] tr))) = create_all d.
Proof.
  intros Hu Hne Hl. rewrite (run_selects H env [] salt _ url Hu Hne). unfold select_backend. rewrite Hl.
  destruct d as [pg [cl|] [ap|] [ad|] n now]; split; reflexivity.
Qed.

(** ** Witnesses *)

(** A remote run on an empty database whose admin seed fails. *)
Lemma remote_partial_commit_witness :
  (fst (run sample_bcrypt remote_env [] "" (fresh_session [5])) = Exited 1 /\
   committed (snd (run sample_bcrypt remote_env [] "" (fresh_session [5]))) = create_all (empty_db 0)) /\
  create_all (empty_db 0) = mkDb true (Some []) (Some (mkAppointmentsTable [] true)) (Some []) 0 0.
Proof.
  split; [|reflexivity].
  apply (remote_partial_commit sample_bcrypt remote_env "postgres://app@ep-wellness.neon.tech/neondb");
    [reflexivity|discriminate|vm_compute; reflexivity].
Defined.

(** A database whose admin was seeded with an older credential. *)
Definition stale_admin_db : db :=
  mkDb true (Some []) (Some (mkAppointmentsTable [] true))
       (Some [mkAdmin 0 "admin@wellness.com" "$2b$10$old" "Admin User" 0]) 1 0.

Lemma seed_admin_policy_witness :
  exists d', run_stmts (migrate_stmts sample_bcrypt local_env "" (mkFlags false true)) stale_admin_db = Ok d' /\
  exists r, admin_row_of local_env d' = Some r /\
  match admin_row_of local_env stale_admin_db with
  | Some old => admin_id r = admin_id old /\
                admin_password_hash r = resolveAdminHash sample_bcrypt local_env ""
  | None => admin_password_hash r = resolveAdminHash sample_bcrypt local_env ""
  end.
Proof.
  exists_computed. split; [vm_compute; reflexivity|].
  apply (seed_admin_policy sample_bcrypt local_env "" (mkFlags false true) stale_admin_db).
  vm_compute. reflexivity.
Defined.

(** A bcrypt whose hash carries the salt, as bcrypt's output does. *)
Definition salted_bcrypt : Bcrypt := {|
  bcrypt_hash cost salt pwd :=
    string_of_list_ascii (list_ascii_of_string "$2b$10$" ++ list_ascii_of_string salt ++
                          repeat "."%char (53 - String.length salt));
  bcrypt_compare pwd h := isBcryptHash h
|}.

(** Two runs whose salts differ: the hashes they compute differ, and the
    second run keeps the first. *)
Lemma main_default_idempotent_witness :
  resolveAdminHash salted_bcrypt local_env "" <> resolveAdminHash salted_bcrypt local_env "x" /\
  exists s1, main pg salted_bcrypt local_env "" default_flags (fresh_session []) = (Ok tt, s1) /\
  exists s2, main pg salted_bcrypt local_env "x" default_flags s1 = (Ok tt, s2) /\ s_db s2 = s_db s1.
Proof.
  split; [vm_compute; discriminate|].
  match goal with
  | |- exists x, ?lhs = (Ok tt, x) /\ _ =>
      let v := eval vm_compute in lhs in
      match v with (Ok tt, ?x0) => exists x0 end
  end.
  split; [vm_compute; reflexivity|].
  apply (main_default_idempotent pg salted_bcrypt local_env "" "x" (fresh_session []));
    [reflexivity|reflexivity|vm_compute; reflexivity].
Defined.

Definition first_run : db :=
  match run_stmts (migrate_stmts sample_bcrypt local_env "" default_flags) (empty_db 0) with
  | Ok d => d
  | Err _ => empty_db 0
  end.

(** John Doe's phone changed by hand. *)
Definition edit_phone (r : client_row) : client_row :=
  if bool_decide (client_email r = "john.doe@email.com")
  then mkClient (client_id r) (client_external_id r) (client_name r) (client_email r)
                (Some "+1-555-9999") (client_created_at r) (client_updated_at r)
  else r.

Definition edited : db := set_clients first_run (option_map (map edit_phone) (db_clients first_run)).

Definition edited_john : client_row :=
  edit_phone (hd (mkClient 0 None "" "" None 0 0) (default [] (db_clients first_run))).

Definition after_redo : db :=
  match run_stmts (migrate_stmts sample_bcrypt local_env "" (mkFlags false true)) edited with
  | Ok d => d
  | Err _ => edited
  end.

Lemma redo_restores_seeded_clients_witness :
  exists cl' r', db_clients after_redo = Some cl' /\ In r' cl' /\
    client_id r' = client_id edited_john /\
    carries_seed (mkSeed "client_1" "John Doe" "john.doe@email.com" "+1-555-0101") r'.
Proof.
  apply (redo_restores_seeded_clients sample_bcrypt local_env "" edited after_redo
           (default [] (db_clients edited)) edited_john
           (mkSeed "client_1" "John Doe" "john.doe@email.com" "+1-555-0101"));
    [vm_compute; reflexivity|reflexivity|vm_compute; left; reflexivity|simpl; tauto
    |vm_compute; reflexivity].
Defined.

End Seeding.
