(* ===== verification/Http.v ===== *)
(** * JavaScript values at the HTTP boundary of the route handlers

    The request data the handlers under src/app/api read: the JSON body
    ([await request.json()] destructured into fields), the query string
    ([new URL(request.url).searchParams]), the [Authorization] header;
    the JavaScript operations they apply to them ([!x], [x || d],
    [Number.parseInt], [(page - 1) * limit], [Math.ceil]); and the
    responses they build ([NextResponse.json(body, { status })]).

    JSON numbers are modelled as integers; a JavaScript number that is
    [NaN] is [None] in [js_num].  Arithmetic on [js_num] is exact, which
    is what the doubles compute while the operands stay below 2^53. *)

From S2P Require Import Prelude.
From stdpp Require Import pretty.
Open Scope list_scope.

Module Http.

(** A field of a JSON body.  An array or an object is [JOther], carried
    with the text node-postgres sends when it is bound to a parameter. *)
Inductive jval :=
| JUndefined
| JNull
| JBool (b : bool)
| JNum (n : Z)
| JStr (s : string)
| JOther (text : string).

(** [!v] is false *)
Definition jv_truthy (v : jval) : bool :=
  match v with
  | JUndefined | JNull => false
  | JBool b => b
  | JNum n => negb (Z.eqb n 0)
  | JStr s => negb (String.eqb s "")
  | JOther _ => true
  end.

(** [v || d] *)
Definition jv_or (v d : jval) : jval := if jv_truthy v then v else d.

(** [String(v)] of a defined scalar, as node-postgres' [prepareValue]
    binds it to a parameter; [null] and [undefined] bind SQL [NULL]. *)
Definition jv_param (v : jval) : option string :=
  match v with
  | JUndefined | JNull => None
  | JBool b => Some (if b then "true" else "false")
  | JNum n => Some (pretty n)
  | JStr s => Some s
  | JOther t => Some t
  end.

(** The parsed body: [request.json()] rejects on malformed JSON; the
    destructuring [const { a, b } = body] throws on [null]; on a
    primitive or an array every field is [undefined]; [JSON.parse] keeps
    the last of duplicate keys. *)
Inductive json_body :=
| BodyMalformed
| BodyNull
| BodyObject (fields : list (string * jval))
| BodyOther.

Definition lookup_last (k : string) (fs : list (string * jval)) : jval :=
  fold_left (fun acc '(k', v) => if String.eqb k k' then v else acc) fs JUndefined.

(** [await request.json()] then one field of the destructuring. *)
Definition body_fields (b : json_body) : option (string -> jval) :=
  match b with
  | BodyMalformed | BodyNull => None
  | BodyObject fs => Some (fun k => lookup_last k fs)
  | BodyOther => Some (fun _ => JUndefined)
  end.

(** [URLSearchParams.get]: the first value of the name, [null] if none. *)
Definition search_params := list (string * string).

Definition sp_get (k : string) (sp : search_params) : option string :=
  option_map snd (List.find (fun '(k', _) => String.eqb k k') sp).

(** ** Numbers *)

(** A JavaScript number: [None] is [NaN]. *)
Definition js_num := option Z.

(** The value of a digit in base [radix] (2..36). *)
Definition digit_value (radix : Z) (c : ascii) : option Z :=
  let n := Z.of_nat (nat_of_ascii c) in
  let v := if ((48 <=? n) && (n <=? 57))%Z%bool then Some (n - 48)%Z
           else if ((97 <=? n) && (n <=? 122))%Z%bool then Some (n - 87)%Z
           else if ((65 <=? n) && (n <=? 90))%Z%bool then Some (n - 55)%Z
           else None in
  match v with Some d => if (d <? radix)%Z then Some d else None | None => None end.

(** The value of the longest prefix of digits; [None] when it is empty. *)
Fixpoint digits_prefix (radix : Z) (acc : option Z) (l : list ascii) : option Z :=
  match l with
  | [] => acc
  | c :: l' =>
      match digit_value radix c with
      | Some d => digits_prefix radix (Some (radix * default 0 acc + d)%Z) l'
      | None => acc
      end
  end.

(** Steps 4-10 of [Number.parseInt]: the sign, then the radix prefix. *)
Definition js_sign (l : list ascii) : Z * list ascii :=
  match l with
  | "-"%char :: r => ((-1)%Z, r)
  | "+"%char :: r => (1%Z, r)
  | _ => (1%Z, l)
  end.

Definition js_radix (l : list ascii) : Z * list ascii :=
  match l with
  | "0"%char :: x :: r =>
      if bool_decide (x = "x"%char) || bool_decide (x = "X"%char)
      then (16%Z, r) else (10%Z, l)
  | _ => (10%Z, l)
  end.

(** [Number.parseInt(s)] with no radix (ECMA-262 19.2.5): skip leading
    white space, take a sign, a [0x]/[0X] prefix selects base 16, then the
    longest prefix of digits; [NaN] when there is none. *)
Definition js_parseInt (s : string) : js_num :=
  let '(sign, l1) := js_sign (ltrim (list_ascii_of_string s)) in
  let '(radix, l2) := js_radix l1 in
  option_map (Z.mul sign) (digits_prefix radix None l2).

Definition num_sub (a b : js_num) : js_num :=
  match a, b with Some x, Some y => Some (x - y)%Z | _, _ => None end.
Definition num_mul (a b : js_num) : js_num :=
  match a, b with Some x, Some y => Some (x * y)%Z | _, _ => None end.

(** [Math.ceil(count / limit)] as [JSON.stringify] writes it: a division
    by zero gives [Infinity] or [NaN], both written [null] ([None]). *)
Definition json_ceil_div (count limit : Z) : option Z :=
  if Z.eqb limit 0 then None else Some (- ((- count) / limit))%Z.

(** ** Decimal printing and parsing *)

Definition is_dec_digit (c : ascii) : Prop := is_Some (digit_value 10 c).

Lemma dec_digit_cases c :
  is_dec_digit c ->
  c = "0"%char \/ c = "1"%char \/ c = "2"%char \/ c = "3"%char \/ c = "4"%char \/
  c = "5"%char \/ c = "6"%char \/ c = "7"%char \/ c = "8"%char \/ c = "9"%char.
Proof.
  unfold is_dec_digit. destruct c as [[] [] [] [] [] [] [] []]; vm_compute;
    intros [d Hd]; try discriminate; auto 10.
Qed.

Lemma pretty_N_char_value x :
  (x < 10)%N -> digit_value 10 (pretty_N_char x) = Some (Z.of_N x).
Proof.
  intros Hx. assert (x = 0 \/ x = 1 \/ x = 2 \/ x = 3 \/ x = 4 \/ x = 5 \/ x = 6 \/
                     x = 7 \/ x = 8 \/ x = 9)%N as Hc by lia.
  repeat destruct Hc as [->|Hc]; subst; reflexivity.
Qed.

Lemma pretty_N_go_digits x s :
  Forall is_dec_digit (list_ascii_of_string s) ->
  Forall is_dec_digit (list_ascii_of_string (pretty_N_go x s)).
Proof.
  revert s. induction (N.lt_wf_0 x) as [x _ IH]; intros s Hs.
  destruct (decide (x = 0)%N) as [->|Hx]; [by rewrite pretty_N_go_0|].
  rewrite pretty_N_go_step by lia. apply IH; [apply N.div_lt; lia|].
  simpl. constructor; [|done]. eexists. apply pretty_N_char_value, N.mod_lt. lia.
Qed.

(** Reading the digits [pretty] writes, most significant first. *)
Lemma digits_prefix_pretty_N_go x s acc :
  (0 < x)%N ->
  exists k, digits_prefix 10 acc (list_ascii_of_string (pretty_N_go x s)) =
            digits_prefix 10 (Some (default 0 acc * 10 ^ Z.of_nat k + Z.of_N x)%Z) (list_ascii_of_string s).
Proof.
  revert s acc. induction (N.lt_wf_0 x) as [x _ IH]; intros s acc Hx.
  rewrite pretty_N_go_step by done.
  pose proof (N.div_mod x 10 ltac:(lia)) as Hdm. pose proof (N.mod_lt x 10 ltac:(lia)).
  destruct (decide (x `div` 10 = 0)%N) as [Hq|Hq].
  - rewrite Hq, pretty_N_go_0. exists 1. simpl. rewrite pretty_N_char_value by done.
    f_equal. f_equal. rewrite Hq in Hdm. lia.
  - destruct (IH (N.div x 10) ltac:(apply N.div_lt; lia)
                 (String (pretty_N_char (N.modulo x 10)) s) acc ltac:(lia)) as [k Hk].
    exists (S k). rewrite Hk. simpl. rewrite pretty_N_char_value by done.
    f_equal. f_equal. rewrite Nat2Z.inj_succ, Z.pow_succ_r by lia. lia.
Qed.

Ltac dec_digit_cases c Hc :=
  let Hcs := fresh "Hcs" in
  pose proof (dec_digit_cases c Hc) as Hcs; repeat destruct Hcs as [->|Hcs]; subst.

Lemma digits_js_sign l : Forall is_dec_digit l -> js_sign l = (1%Z, l).
Proof. intros [|c l' Hc _]; [done|]. by dec_digit_cases c Hc. Qed.

Lemma digits_js_radix l : Forall is_dec_digit l -> js_radix l = (10%Z, l).
Proof.
  intros [|c l' Hc Hl]; [done|].
  destruct Hl as [|c' l'' Hc' _]; dec_digit_cases c Hc; try done.
  by dec_digit_cases c' Hc'.
Qed.

Lemma digits_ltrim l : Forall is_dec_digit l -> ltrim l = l.
Proof. intros [|c l' Hc _]; [done|]. by dec_digit_cases c Hc. Qed.

(** The decimal text of a positive number, as [pretty] writes it. *)
Lemma pretty_pos_text p :
  pretty (Zpos p) = pretty_N_go (Npos p) "" /\
  Forall is_dec_digit (list_ascii_of_string (pretty_N_go (Npos p) "")) /\
  digits_prefix 10 None (list_ascii_of_string (pretty_N_go (Npos p) "")) = Some (Zpos p).
Proof.
  split; [reflexivity|].
  split; [by apply pretty_N_go_digits|].
  destruct (digits_prefix_pretty_N_go (Npos p) "" None ltac:(lia)) as [k ->]. done.
Qed.

Lemma jv_truthy_str s : s <> "" -> jv_truthy (JStr s) = true.
Proof. intros Hs. simpl. destruct (String.eqb_spec s ""); done. Qed.

Lemma parseInt_pretty (z : Z) : js_parseInt (pretty z) = Some z.
Proof.
  destruct z as [|p|p]; [reflexivity| |].
  - destruct (pretty_pos_text p) as (-> & Hd & Hv). unfold js_parseInt.
    rewrite (digits_ltrim _ Hd), (digits_js_sign _ Hd), (digits_js_radix _ Hd), Hv. done.
  - destruct (pretty_pos_text p) as (_ & Hd & Hv).
    change (pretty (Zneg p)) with ("-" +:+ pretty_N_go (Npos p) ""). unfold js_parseInt.
    change (js_sign (ltrim (list_ascii_of_string ("-" +:+ ?t)))) with
      ((-1)%Z, list_ascii_of_string t). cbv beta iota.
    rewrite (digits_js_radix _ Hd), Hv. done.
Qed.

Lemma pretty_nonempty (z : Z) : pretty z <> "".
Proof. intros E. pose proof (parseInt_pretty z) as H. rewrite E in H. discriminate. Qed.

(** ** Responses *)

(** [NextResponse.json(body, { status })]: an error object
    [{ error: msg }] or the handler's data. *)
Inductive http_body (A : Type) :=
| HError (msg : string)
| HData (a : A).
Arguments HError {A} msg.
Arguments HData {A} a.

Record response (A : Type) := mkResponse { status : Z; payload : http_body A }.
Arguments mkResponse {A} status payload.
Arguments status {A} r.
Arguments payload {A} r.

Definition error_response {A} (code : Z) (msg : string) : response A :=
  mkResponse code (HError msg).

(** [Number.parseInt(String(n))] is [n] for every integer:
    the page and limit numbers survive the print-parse cycle of a URL. *)
Theorem js_parseInt_pretty (z : Z) : js_parseInt (pretty z) = Some z.
Proof. apply parseInt_pretty. Qed.

Lemma js_or_pretty (z : Z) d : js_or (Some (pretty z)) d = pretty z.
Proof. pose proof (pretty_nonempty z). by destruct (pretty z). Qed.

End Http.
