(* ===== verification/Json.v ===== *)
(** * JSON texts between the browser and the route handlers

    The values [JSON.stringify] writes and [JSON.parse] reads: the
    bodies of [fetch] requests and responses, and the [admin_data] entry
    of [localStorage] (src/hooks/use-auth.ts).  [JsonCodec] is the
    interface of the two built-ins the program calls, with the law that
    the parse of a printed value is the value; [json_codec] is an
    instance: a printer that writes what [JSON.stringify] writes for
    these values (no white space, the escapes of the JSON grammar) and a
    recursive-descent parser with fuel, whose round trip is proved for
    every value.  Also the JavaScript operations the client code applies
    to parsed values: truthiness, [String(v)], [v || d] and property
    access. *)

From S2P Require Import Prelude Http.
From stdpp Require Import pretty.
Open Scope list_scope.

Module Json.
Import Http.

#[local] Set Warnings "-register-all".

(** A value of [JSON.parse].  Numbers are integers (see [Http.js_num]). *)
Inductive json :=
| JsNull
| JsBool (b : bool)
| JsNum (n : Z)
| JsStr (s : string)
| JsArr (l : list json)
| JsObj (fields : list (string * json)).

(** Induction with hypotheses on the elements of arrays and objects. *)
Section json_ind.
Variable P : json -> Prop.
Hypotheses (Hnull : P JsNull) (Hbool : forall b, P (JsBool b)) (Hnum : forall n, P (JsNum n))
  (Hstr : forall s, P (JsStr s)) (Harr : forall l, Forall P l -> P (JsArr l))
  (Hobj : forall fs, Forall (fun kv => P kv.2) fs -> P (JsObj fs)).

Fixpoint json_ind' (v : json) : P v :=
  match v with
  | JsNull => Hnull
  | JsBool b => Hbool b
  | JsNum n => Hnum n
  | JsStr s => Hstr s
  | JsArr l => Harr l ((fix go l : Forall P l :=
      match l with
      | [] => @List.Forall_nil _ _
      | x :: l' => @List.Forall_cons _ _ x l' (json_ind' x) (go l')
      end) l)
  | JsObj fs => Hobj fs ((fix go fs : Forall (fun kv => P kv.2) fs :=
      match fs with
      | [] => @List.Forall_nil _ _
      | kv :: fs' => @List.Forall_cons _ _ kv fs' (json_ind' kv.2) (go fs')
      end) fs)
  end.
End json_ind.

(** ** JavaScript operations on parsed values *)

(** [v ? a : b]; an absent property ([undefined]) is [None]. *)
Definition json_truthy (v : json) : bool :=
  match v with
  | JsNull => false
  | JsBool b => b
  | JsNum n => negb (Z.eqb n 0)
  | JsStr s => negb (String.eqb s "")
  | JsArr _ | JsObj _ => true
  end.

Definition opt_truthy (o : option json) : bool := default false (option_map json_truthy o).

(** [o.k]: the value of the last key [k] of an object ([JSON.parse] keeps
    the last of duplicate keys); [undefined] on any other value. *)
Definition get (k : string) (v : json) : option json :=
  match v with
  | JsObj fs => option_map snd (List.find (fun kv => String.eqb k kv.1) (rev fs))
  | _ => None
  end.

(** [String(v)], as [localStorage.setItem] converts its value; an array
    joins its elements with commas, [null] elements as the empty string. *)
Fixpoint js_String (v : json) : string :=
  match v with
  | JsNull => "null"
  | JsBool b => if b then "true" else "false"
  | JsNum n => pretty n
  | JsStr s => s
  | JsArr l =>
      (fix go l := match l with
                   | [] => ""
                   | [x] => match x with JsNull => "" | _ => js_String x end
                   | x :: l' => String.append (match x with JsNull => "" | _ => js_String x end)
                                             (String.append "," (go l'))
                   end) l
  | JsObj _ => "[object Object]"
  end.

(** [String(o)] of a value that may be [undefined]. *)
Definition js_String_opt (o : option json) : string :=
  match o with Some v => js_String v | None => "undefined" end.

(** ** The built-ins [JSON.stringify] and [JSON.parse] *)

Class JsonCodec := {
  stringify : json -> string;
  parse : string -> option json;   (** [None]: [JSON.parse] throws *)
  parse_stringify v : parse (stringify v) = Some v;
  stringify_nonempty v : stringify v <> ""
}.

(** *** A printer *)

Definition quote_char : ascii := "034"%char.
Definition backslash : ascii := "092"%char.

Definition hex_digit (n : nat) : ascii :=
  if n <? 10 then ascii_of_nat (48 + n) else ascii_of_nat (87 + n).

Definition hex_value (c : ascii) : option nat :=
  let n := nat_of_ascii c in
  if (48 <=? n) && (n <=? 57) then Some (n - 48)
  else if (97 <=? n) && (n <=? 102) then Some (n - 87)
  else None.

(** The escapes [JSON.stringify] writes in a string. *)
Definition esc (c : ascii) : list ascii :=
  let n := nat_of_ascii c in
  if (n =? 34) || (n =? 92) then [backslash; c]
  else if n =? 8 then [backslash; "b"%char]
  else if n =? 12 then [backslash; "f"%char]
  else if n =? 10 then [backslash; "n"%char]
  else if n =? 13 then [backslash; "r"%char]
  else if n =? 9 then [backslash; "t"%char]
  else if n <? 32 then [backslash; "u"%char; "0"%char; "0"%char; hex_digit (n / 16); hex_digit (n mod 16)]
  else [c].

Definition pr_str (s : string) : list ascii :=
  quote_char :: flat_map esc (list_ascii_of_string s) ++ [quote_char].

Fixpoint pr (v : json) : list ascii :=
  match v with
  | JsNull => list_ascii_of_string "null"
  | JsBool b => list_ascii_of_string (if b then "true" else "false")
  | JsNum n => list_ascii_of_string (pretty n)
  | JsStr s => pr_str s
  | JsArr [] => ["["%char; "]"%char]
  | JsArr (x :: l) =>
      "["%char :: pr x ++
        (fix go l := match l with
                     | [] => ["]"%char]
                     | y :: l' => ","%char :: pr y ++ go l'
                     end) l
  | JsObj [] => ["{"%char; "}"%char]
  | JsObj ((k, x) :: fs) =>
      "{"%char :: pr_str k ++ ":"%char :: pr x ++
        (fix go fs := match fs with
                      | [] => ["}"%char]
                      | (k', y) :: fs' => ","%char :: pr_str k' ++ ":"%char :: pr y ++ go fs'
                      end) fs
  end.

Fixpoint pr_elems (l : list json) : list ascii :=
  match l with [] => ["]"%char] | y :: l' => ","%char :: pr y ++ pr_elems l' end.

Fixpoint pr_members (fs : list (string * json)) : list ascii :=
  match fs with
  | [] => ["}"%char]
  | (k, y) :: fs' => ","%char :: pr_str k ++ ":"%char :: pr y ++ pr_members fs'
  end.

(** *** A parser *)

(** One escape after a backslash. *)
Definition unesc (e : ascii) : option ascii :=
  let n := nat_of_ascii e in
  if (n =? 34) || (n =? 92) || (n =? 47) then Some e
  else if Ascii.eqb e "b" then Some (ascii_of_nat 8)
  else if Ascii.eqb e "f" then Some (ascii_of_nat 12)
  else if Ascii.eqb e "n" then Some (ascii_of_nat 10)
  else if Ascii.eqb e "r" then Some (ascii_of_nat 13)
  else if Ascii.eqb e "t" then Some (ascii_of_nat 9)
  else None.

Definition cons_fst {A B} (a : A) (o : option (list A * B)) : option (list A * B) :=
  option_map (fun p => (a :: p.1, p.2)) o.

(** The characters of a string up to its closing quote. *)
Fixpoint pstr (l : list ascii) : option (list ascii * list ascii) :=
  match l with
  | [] => None
  | c :: r =>
      if Ascii.eqb c quote_char then Some ([], r)
      else if Ascii.eqb c backslash then
        match r with
        | "u"%char :: "0"%char :: "0"%char :: h1 :: h2 :: r' =>
            match hex_value h1, hex_value h2 with
            | Some a, Some b => cons_fst (ascii_of_nat (16 * a + b)) (pstr r')
            | _, _ => None
            end
        | e :: r' => match unesc e with Some c' => cons_fst c' (pstr r') | None => None end
        | [] => None
        end
      else if nat_of_ascii c <? 32 then None
      else cons_fst c (pstr r)
  end.

Definition num_char (c : ascii) : bool :=
  let n := nat_of_ascii c in (n =? 45) || ((48 <=? n) && (n <=? 57)).

Fixpoint span_num (l : list ascii) : list ascii * list ascii :=
  match l with
  | c :: r => if num_char c then let '(a, b) := span_num r in (c :: a, b) else ([], l)
  | [] => ([], [])
  end.

(** An integer literal in its canonical form. *)
Definition canonical_int (a : list ascii) : option Z :=
  let s := string_of_list_ascii a in
  match js_parseInt s with
  | Some z => if String.eqb (pretty z) s then Some z else None
  | None => None
  end.

Fixpoint pv (fuel : nat) (l : list ascii) {struct fuel} : option (json * list ascii) :=
  match fuel with
  | O => None
  | S f =>
      match l with
      | [] => None
      | c :: r =>
          if num_char c then
            let '(a, r') := span_num l in option_map (fun z => (JsNum z, r')) (canonical_int a)
          else if Ascii.eqb c quote_char then
            option_map (fun p => (JsStr (string_of_list_ascii p.1), p.2)) (pstr r)
          else
            match l with
            | "n"%char :: "u"%char :: "l"%char :: "l"%char :: r' => Some (JsNull, r')
            | "t"%char :: "r"%char :: "u"%char :: "e"%char :: r' => Some (JsBool true, r')
            | "f"%char :: "a"%char :: "l"%char :: "s"%char :: "e"%char :: r' => Some (JsBool false, r')
            | "["%char :: r' =>
                match r' with
                | c2 :: r'' =>
                    if Ascii.eqb c2 "]" then Some (JsArr [], r'')
                    else option_map (fun p => (JsArr p.1, p.2)) (pelems f r')
                | [] => None
                end
            | "{"%char :: r' =>
                match r' with
                | c2 :: r'' =>
                    if Ascii.eqb c2 "}" then Some (JsObj [], r'')
                    else option_map (fun p => (JsObj p.1, p.2)) (pmembers f r')
                | [] => None
                end
            | _ => None
            end
      end
  end
with pelems (fuel : nat) (l : list ascii) {struct fuel} : option (list json * list ascii) :=
  match fuel with
  | O => None
  | S f =>
      match pv f l with
      | Some (v, ","%char :: r) => option_map (fun p => (v :: p.1, p.2)) (pelems f r)
      | Some (v, "]"%char :: r) => Some ([v], r)
      | _ => None
      end
  end
with pmembers (fuel : nat) (l : list ascii) {struct fuel} : option (list (string * json) * list ascii) :=
  match fuel with
  | O => None
  | S f =>
      match l with
      | q :: r =>
          if Ascii.eqb q quote_char then
            match pstr r with
            | Some (k, ":"%char :: r1) =>
                match pv f r1 with
                | Some (v, ","%char :: r2) =>
                    option_map (fun p => ((string_of_list_ascii k, v) :: p.1, p.2)) (pmembers f r2)
                | Some (v, "}"%char :: r2) => Some ([(string_of_list_ascii k, v)], r2)
                | _ => None
                end
            | _ => None
            end
          else None
      | [] => None
      end
  end.


(** *** The round trip *)

Lemma pr_arr x l : pr (JsArr (x :: l)) = "["%char :: pr x ++ pr_elems l.
Proof. reflexivity. Qed.

Lemma pr_obj k x fs :
  pr (JsObj ((k, x) :: fs)) = "{"%char :: pr_str k ++ ":"%char :: pr x ++ pr_members fs.
Proof. reflexivity. Qed.

Lemma pstr_esc c l : pstr (esc c ++ l) = cons_fst c (pstr l).
Proof. destruct c as [[] [] [] [] [] [] [] []]; reflexivity. Qed.

Lemma pstr_chars cs rest : pstr (flat_map esc cs ++ quote_char :: rest) = Some (cs, rest).
Proof. induction cs as [|c cs IH]; [done|]. simpl. by rewrite <- app_assoc, pstr_esc, IH. Qed.

Lemma pstr_pr_str k rest :
  pr_str k ++ rest = quote_char :: flat_map esc (list_ascii_of_string k) ++ quote_char :: rest.
Proof. unfold pr_str. simpl. by rewrite <- app_assoc. Qed.

(** Normalise the lengths of concatenations, then [lia]. *)
Ltac len_lia := unfold pr_str in *; do 4 (rewrite ?length_app in *; cbn [length] in * ); lia.

(** What may follow a value: anything but a character of a number. *)
Definition stop (rest : list ascii) : Prop :=
  match rest with [] => True | c :: _ => num_char c = false end.

Lemma pretty_num_chars (z : Z) : Forall (fun c => num_char c = true) (list_ascii_of_string (pretty z)).
Proof.
  assert (Hd : forall l, Forall is_dec_digit l -> Forall (fun c => num_char c = true) l).
  { intros l Hl. eapply Forall_impl; [exact Hl|]. intros c Hc. by dec_digit_cases c Hc. }
  destruct z as [|p|p]; [by repeat constructor| |].
  - destruct (pretty_pos_text p) as (-> & Hp & _). by apply Hd.
  - destruct (pretty_pos_text p) as (_ & Hp & _).
    change (pretty (Zneg p)) with ("-" +:+ pretty_N_go (Npos p) "").
    constructor; [done|]. by apply Hd.
Qed.

Lemma span_num_all l rest :
  Forall (fun c => num_char c = true) l -> stop rest -> span_num (l ++ rest) = (l, rest).
Proof.
  intros Hl Hr. induction Hl as [|c l Hc _ IH]; simpl.
  - destruct rest as [|c rest]; [done|]. simpl in Hr. simpl. by rewrite Hr.
  - by rewrite Hc, IH.
Qed.

Lemma canonical_int_pretty (z : Z) : canonical_int (list_ascii_of_string (pretty z)) = Some z.
Proof.
  unfold canonical_int. rewrite string_of_list_ascii_of_string, parseInt_pretty.
  by rewrite String.eqb_refl.
Qed.

Lemma pv_num (z : Z) f rest :
  stop rest -> pv (S f) (list_ascii_of_string (pretty z) ++ rest) = Some (JsNum z, rest).
Proof.
  intros Hr. pose proof (pretty_num_chars z) as Hc.
  destruct (list_ascii_of_string (pretty z)) as [|c l] eqn:E.
  - exfalso. apply (pretty_nonempty z). rewrite <- (string_of_list_ascii_of_string (pretty z)), E. done.
  - inversion Hc as [|? ? Hc0 _]; subst. cbn [pv app]. rewrite Hc0.
    change (c :: l ++ rest) with ((c :: l) ++ rest). rewrite (span_num_all _ _ Hc Hr).
    rewrite <- E, canonical_int_pretty. done.
Qed.

(** The first character of a printed value never closes a bracket. *)
Lemma pr_head v :
  exists c t, pr v = c :: t /\ Ascii.eqb c "]" = false /\ Ascii.eqb c "}" = false.
Proof.
  destruct v as [| [] | z | s | [|x l] | [|[k x] fs]]; try by do 2 eexists.
  pose proof (pretty_num_chars z) as Hc. simpl.
  destruct (list_ascii_of_string (pretty z)) as [|c l] eqn:E.
  - exfalso. apply (pretty_nonempty z). rewrite <- (string_of_list_ascii_of_string (pretty z)), E. done.
  - inversion Hc as [|? ? Hc0 _]; subst. exists c, l. split; [done|].
    destruct c as [[] [] [] [] [] [] [] []]; done.
Qed.

Lemma pv_open_arr f l :
  (exists c t, l = c :: t /\ Ascii.eqb c "]" = false) ->
  pv (S f) ("["%char :: l) = option_map (fun p => (JsArr p.1, p.2)) (pelems f l).
Proof. intros (c & t & -> & Hc). simpl. by rewrite Hc. Qed.

Lemma pv_open_obj f l :
  (exists c t, l = c :: t /\ Ascii.eqb c "}" = false) ->
  pv (S f) ("{"%char :: l) = option_map (fun p => (JsObj p.1, p.2)) (pmembers f l).
Proof. intros (c & t & -> & Hc). simpl. by rewrite Hc. Qed.

Definition parses (v : json) : Prop :=
  forall f rest, length (pr v) < f -> stop rest -> pv f (pr v ++ rest) = Some (v, rest).

Definition json_stringify (v : json) : string := string_of_list_ascii (pr v).

Definition json_parse (s : string) : option json :=
  let l := list_ascii_of_string s in
  match pv (S (length l)) l with Some (v, []) => Some v | _ => None end.

Lemma app_member {A} (a b c rest : list A) ch :
  (a ++ ch :: b ++ c) ++ rest = a ++ ch :: b ++ c ++ rest.
Proof. rewrite <- app_assoc. simpl. by rewrite <- app_assoc. Qed.

Lemma app_head {A} (l r : list A) c t : l = c :: t -> l ++ r = c :: t ++ r.
Proof. by intros ->. Qed.

Lemma pelems_pr l : forall x f rest,
  parses x -> Forall parses l -> length (pr x ++ pr_elems l) < f ->
  pelems f (pr x ++ pr_elems l ++ rest) = Some (x :: l, rest).
Proof.
  induction l as [|y l IH]; intros x f rest Hx Hl Hlen;
    destruct f as [|f]; rewrite ?length_app in Hlen; simpl in Hlen; try lia.
  - change (pr_elems [] ++ rest) with ("]"%char :: rest). cbn [pelems].
    by rewrite (Hx f ("]"%char :: rest)) by (done || lia).
  - inversion Hl as [|? ? Hy Hl']; subst.
    replace (pr_elems (y :: l) ++ rest) with (","%char :: pr y ++ pr_elems l ++ rest)
      by (simpl; by rewrite <- app_assoc).
    cbn [pelems]. rewrite (Hx f _) by (done || lia). cbn -[pr pelems].
    rewrite IH; [done|done|done|]. rewrite !length_app in *. lia.
Qed.

Lemma pmembers_pr fs : forall k x f rest,
  parses x -> Forall (fun kv => parses kv.2) fs ->
  length (pr_str k ++ ":"%char :: pr x ++ pr_members fs) < f ->
  pmembers f (pr_str k ++ ":"%char :: pr x ++ pr_members fs ++ rest) = Some ((k, x) :: fs, rest).
Proof.
  induction fs as [|[k' y] fs IH]; intros k x f rest Hx Hl Hlen;
    destruct f as [|f]; rewrite ?length_app in Hlen; simpl in Hlen; try lia.
  - rewrite pstr_pr_str. cbn [pmembers]. rewrite (Ascii.eqb_refl quote_char), pstr_chars.
    change (pr_members [] ++ rest) with ("}"%char :: rest).
    rewrite (Hx f ("}"%char :: rest)) by (done || (rewrite !length_app in Hlen; simpl in Hlen; lia)).
    by rewrite string_of_list_ascii_of_string.
  - inversion Hl as [|? ? Hy Hl']; subst.
    rewrite pstr_pr_str. cbn [pmembers]. rewrite (Ascii.eqb_refl quote_char), pstr_chars.
    assert (E : pr_members ((k', y) :: fs) ++ rest =
                ","%char :: pr_str k' ++ ":"%char :: pr y ++ pr_members fs ++ rest).
    { cbn [pr_members app]. by rewrite app_member. }
    rewrite E.
    rewrite (Hx f _) by (done || (rewrite !length_app in Hlen; simpl in Hlen; lia)).
    cbn -[pr pmembers pr_str].
    rewrite string_of_list_ascii_of_string, IH; [done|done|done|].
    len_lia.
Qed.

(** Every printed value parses back, with fuel its length. *)
Lemma pv_pr v : parses v.
Proof.
  induction v as [| b | z | s | l Hl | fs Hfs] using json_ind';
    intros f rest Hlen Hr; destruct f as [|f]; try (simpl in Hlen; lia).
  - reflexivity.
  - by destruct b.
  - by apply pv_num.
  - cbn [pr]. rewrite pstr_pr_str. cbn [pv]. simpl num_char. cbn iota.
    rewrite Ascii.eqb_refl, pstr_chars. simpl. by rewrite string_of_list_ascii_of_string.
  - destruct l as [|x l]; [reflexivity|]. inversion Hl as [|? ? Hx Hl']; subst.
    rewrite pr_arr in Hlen |- *. simpl in Hlen.
    change (("["%char :: pr x ++ pr_elems l) ++ rest) with ("["%char :: (pr x ++ pr_elems l) ++ rest).
    rewrite pv_open_arr.
    + rewrite <- app_assoc, pelems_pr; [done|done|done|lia].
    + destruct (pr_head x) as (c & t & Ht & Hc & _). exists c, (t ++ pr_elems l ++ rest).
      split; [|done]. rewrite <- app_assoc. by apply app_head.
  - destruct fs as [|[k x] fs]; [reflexivity|]. inversion Hfs as [|? ? Hx Hfs']; subst.
    rewrite pr_obj in Hlen |- *. simpl in Hlen.
    change (("{"%char :: pr_str k ++ ":"%char :: pr x ++ pr_members fs) ++ rest)
      with ("{"%char :: (pr_str k ++ ":"%char :: pr x ++ pr_members fs) ++ rest).
    rewrite pv_open_obj.
    + rewrite app_member, pmembers_pr; [done|done|done|len_lia].
    + exists quote_char. eexists. split; [|done]. by rewrite <- app_assoc, pstr_pr_str.
Qed.

Lemma json_parse_stringify v : json_parse (json_stringify v) = Some v.
Proof.
  unfold json_parse, json_stringify. rewrite list_ascii_of_string_of_list_ascii.
  pose proof (pv_pr v (S (length (pr v))) [] ltac:(lia) I) as H.
  rewrite app_nil_r in H. by rewrite H.
Qed.

Lemma json_stringify_nonempty v : json_stringify v <> "".
Proof. unfold json_stringify. destruct (pr_head v) as (c & t & -> & _). discriminate. Qed.

#[export] Instance json_codec : JsonCodec := {|
  stringify := json_stringify;
  parse := json_parse;
  parse_stringify := json_parse_stringify;
  stringify_nonempty := json_stringify_nonempty
|}.

Lemma span_num_app l a b : span_num l = (a, b) -> l = a ++ b.
Proof.
  revert a b. induction l as [|c l IH]; intros a b; cbn; [by intros [= <- <-]|].
  destruct (num_char c); [|by intros [= <- <-]].
  destruct (span_num l) as [a' b'] eqn:E. intros [= <- <-]. cbn. by rewrite (IH a' b').
Qed.

Lemma pstr_suffix l : forall p r, pstr l = Some (p, r) -> List.length r < List.length l.
Proof.
  induction l as [l IH] using (induction_ltof1 _ (@List.length ascii)); unfold ltof in IH.
  intros p r. destruct l as [|c l]; [done|]. cbn [pstr].
  destruct (Ascii.eqb c quote_char); [intros [= _ <-]; cbn; lia|].
  destruct (Ascii.eqb c backslash).
  - destruct l as [|e l]; [done|].
    assert (Hcf : forall x q, cons_fst x (pstr q) = Some (p, r) -> List.length q < List.length (c :: e :: l) ->
                  List.length r < List.length (c :: e :: l)).
    { intros x q Hq Hlt. unfold cons_fst in Hq. destruct (pstr q) as [[p' r']|] eqn:E; [|done].
      injection Hq as _ <-. pose proof (IH q Hlt p' r' E). lia. }
    repeat case_match; try done; intros Hq; (eapply Hcf; [exact Hq|]); cbn in *; simplify_eq; cbn; lia.
  - case_match; [done|]. unfold cons_fst. destruct (pstr l) as [[p' r']|] eqn:E; [|done].
    intros [= _ <-]. pose proof (IH l ltac:(cbn; lia) p' r' E). cbn. lia.
Qed.

(** ** The fuel of [json_parse] is enough

    A parse that succeeds with some fuel succeeds with any fuel larger
    than the number of characters it consumes: [pv] consumes its opening
    character before [pelems] and [pmembers] run, and each of these
    consumes a value and a separator before running again. *)

Definition pv_fuel (n : nat) : Prop := forall l v r, pv n l = Some (v, r) ->
  List.length r <= List.length l /\ forall m, List.length l - List.length r < m -> pv m l = Some (v, r).
Definition pelems_fuel (n : nat) : Prop := forall l vs r, pelems n l = Some (vs, r) ->
  List.length r <= List.length l /\ forall m, List.length l - List.length r < m -> pelems m l = Some (vs, r).
Definition pmembers_fuel (n : nat) : Prop := forall l fs r, pmembers n l = Some (fs, r) ->
  List.length r <= List.length l /\ forall m, List.length l - List.length r < m -> pmembers m l = Some (fs, r).

Lemma pv_fuel_S f : pelems_fuel f -> pmembers_fuel f -> pv_fuel (S f).
Proof.
  intros IHe IHm l v r H0. destruct l as [|c l]; [done|].
  pose proof H0 as H. cbn [pv] in H.
  destruct (num_char c) eqn:Hn.
  { destruct (span_num (c :: l)) as [a b] eqn:Es. destruct (canonical_int a) eqn:Ec; [|done].
    injection H as <- <-. apply span_num_app in Es.
    split; [rewrite Es, length_app; lia|]. intros [|m] Hm; [lia|]. rewrite <- H0. cbn [pv]. by rewrite Hn. }
  destruct (Ascii.eqb c quote_char) eqn:Hq.
  { destruct (pstr l) as [[p r']|] eqn:Ep; [|done]. injection H as <- <-.
    pose proof (pstr_suffix _ _ _ Ep). split; [cbn; lia|].
    intros [|m] Hm; [lia|]. rewrite <- H0. cbn [pv]. by rewrite Hn, Hq. }
  destruct c as [[] [] [] [] [] [] [] []]; try discriminate H.
  all: try (split; [revert H; repeat case_match; intros; simplify_eq; cbn; lia
                   |intros [|m] Hm; [lia|]; rewrite <- H0; reflexivity]).
  all: destruct l as [|c2 l]; [done|]; cbn in H.
  all: destruct (Ascii.eqb c2 _) eqn:Hb;
    [injection H as <- <-; split; [cbn; lia|]; intros [|m] Hm; [lia|]; rewrite <- H0; cbn; by rewrite Hb|].
  all: match type of H with
       | context [pelems ?g ?x] => destruct (pelems g x) as [[vs r']|] eqn:Ee; [|done];
           destruct (IHe _ _ _ Ee) as [Hl Hm']
       | context [pmembers ?g ?x] => destruct (pmembers g x) as [[vs r']|] eqn:Ee; [|done];
           destruct (IHm _ _ _ Ee) as [Hl Hm']
       end.
  all: injection H as <- <-; split; [cbn in *; lia|]; intros [|m] Hm; [lia|]; cbn; rewrite Hb;
    rewrite (Hm' m) by (cbn in *; lia); reflexivity.
Qed.

Lemma pelems_fuel_S f : pv_fuel f -> pelems_fuel f -> pelems_fuel (S f).
Proof.
  intros IHv IHe l vs r H0. pose proof H0 as H. cbn [pelems] in H.
  destruct (pv f l) as [[v r1]|] eqn:Ev; [|done]. destruct (IHv _ _ _ Ev) as [Hl1 Hm1].
  destruct r1 as [|c r1]; [done|]. destruct c as [[] [] [] [] [] [] [] []]; try discriminate H.
  - injection H as <- <-. cbn in *. split; [lia|]. intros [|m] Hm; [lia|].
    cbn [pelems]. rewrite (Hm1 m) by (cbn; lia). reflexivity.
  - destruct (pelems f r1) as [[vs' r2]|] eqn:Ee; [|done]. injection H as <- <-.
    destruct (IHe _ _ _ Ee) as [Hl2 Hm2]. cbn in *. split; [lia|]. intros [|m] Hm; [lia|].
    cbn [pelems]. rewrite (Hm1 m) by (cbn; lia). cbn. by rewrite (Hm2 m) by lia.
Qed.

Lemma pmembers_fuel_S f : pv_fuel f -> pmembers_fuel f -> pmembers_fuel (S f).
Proof.
  intros IHv IHm l fs r H0. pose proof H0 as H. cbn [pmembers] in H.
  destruct l as [|q l]; [done|]. destruct (Ascii.eqb q quote_char) eqn:Hq; [|done].
  destruct (pstr l) as [[k r1]|] eqn:Ep; [|done]. pose proof (pstr_suffix _ _ _ Ep) as Hs.
  destruct r1 as [|c r1]; [done|]. destruct c as [[] [] [] [] [] [] [] []]; try discriminate H.
  destruct (pv f r1) as [[v r2]|] eqn:Ev; [|done]. destruct (IHv _ _ _ Ev) as [Hl1 Hm1].
  destruct r2 as [|c r2]; [done|]. destruct c as [[] [] [] [] [] [] [] []]; try discriminate H.
  - injection H as <- <-. cbn in *. split; [lia|]. intros [|m] Hm; [lia|].
    cbn [pmembers]. rewrite Hq, Ep. cbn. by rewrite (Hm1 m) by lia.
  - destruct (pmembers f r2) as [[fs' r3]|] eqn:Ee; [|done]. injection H as <- <-.
    destruct (IHm _ _ _ Ee) as [Hl2 Hm2]. cbn in *. split; [lia|]. intros [|m] Hm; [lia|].
    cbn [pmembers]. rewrite Hq, Ep. cbn. rewrite (Hm1 m) by lia. cbn. by rewrite (Hm2 m) by lia.
Qed.

Lemma parser_fuel n : pv_fuel n /\ pelems_fuel n /\ pmembers_fuel n.
Proof.
  induction n as [|f (Hv & He & Hm)]; [done|].
  split; [|split]; [apply pv_fuel_S|apply pelems_fuel_S|apply pmembers_fuel_S]; done.
Qed.

(** The fuel [json_parse] gives the parser, one more
    than the length of the text, is enough: a text the recursive-descent
    parser reads as a whole value with any fuel is read by [json_parse]. *)
Theorem json_parse_fuel l v n : pv n l = Some (v, []) -> json_parse (string_of_list_ascii l) = Some v.
Proof.
  intros H. unfold json_parse. rewrite list_ascii_of_string_of_list_ascii.
  destruct (proj1 (parser_fuel n) l v [] H) as [_ Hm]. rewrite (Hm (S (List.length l))) by (cbn; lia). done.
Qed.

Lemma json_parse_fuel_witness :
  pv 100 (list_ascii_of_string "[1,[2,{}],null]") =
    Some (JsArr [JsNum 1; JsArr [JsNum 2; JsObj []]; JsNull], []) /\
  json_parse (string_of_list_ascii (list_ascii_of_string "[1,[2,{}],null]")) =
    Some (JsArr [JsNum 1; JsArr [JsNum 2; JsObj []]; JsNull]).
Proof.
  assert (H : pv 100 (list_ascii_of_string "[1,[2,{}],null]") =
                Some (JsArr [JsNum 1; JsArr [JsNum 2; JsObj []]; JsNull], [])) by (vm_compute; reflexivity).
  split; [exact H|]. exact (json_parse_fuel _ _ _ H).
Defined.

End Json.
