(* ===== verification/UrlEncoded.v ===== *)
(** * Query strings: [URLSearchParams] on both ends

    The list components build their query with [new URLSearchParams()],
    [params.append(k, v)] and [`${params}`]
    (src/components/client-list.tsx lines 36-39,
    src/components/appointment-list.tsx lines 36-40); the route handlers
    read it back with [new URL(request.url).searchParams] and [get(k)].
    Both are the [application/x-www-form-urlencoded] serializer and parser
    of the URL standard, modelled here on byte strings, with the theorem
    that the parser inverts the serializer: a search text reaches the
    handler unchanged whatever it contains. *)

From S2P Require Import Prelude Http.
Open Scope list_scope.
Open Scope nat_scope.

Module UrlEncoded.
Import Http.

Definition hex_upper (n : nat) : ascii :=
  if (n <? 10)%nat then ascii_of_nat (48 + n) else ascii_of_nat (55 + n).

Definition hexv (c : ascii) : option nat :=
  let n := nat_of_ascii c in
  if (48 <=? n) && (n <=? 57) then Some (n - 48)
  else if (65 <=? n) && (n <=? 70) then Some (n - 55)
  else if (97 <=? n) && (n <=? 102) then Some (n - 87)
  else None.

(** The bytes the serializer leaves as they are: [*-._], digits, letters. *)
Definition unreserved (c : ascii) : bool :=
  let n := nat_of_ascii c in
  (n =? 42) || (n =? 45) || (n =? 46) || (n =? 95) ||
  ((48 <=? n) && (n <=? 57)) || ((65 <=? n) && (n <=? 90)) || ((97 <=? n) && (n <=? 122)).

Definition enc_byte (c : ascii) : list ascii :=
  if Nat.eqb (nat_of_ascii c) 32 then ["+"%char]
  else if unreserved c then [c]
  else ["%"%char; hex_upper (nat_of_ascii c / 16); hex_upper (nat_of_ascii c mod 16)].

Definition enc_text (s : string) : list ascii := flat_map enc_byte (list_ascii_of_string s).

Fixpoint join_amp (ps : list (list ascii)) : list ascii :=
  match ps with
  | [] => []
  | [p] => p
  | p :: ps' => p ++ "&"%char :: join_amp ps'
  end.

(** [params.toString()] *)
Definition serialize (sp : search_params) : string :=
  string_of_list_ascii (join_amp (map (fun '(k, v) => enc_text k ++ "="%char :: enc_text v) sp)).

(** Percent-decoding, with [+] read as a space. *)
Fixpoint pct_decode (l : list ascii) : list ascii :=
  match l with
  | [] => []
  | "%"%char :: ((h1 :: h2 :: r) as t) =>
      match hexv h1, hexv h2 with
      | Some a, Some b => ascii_of_nat (16 * a + b) :: pct_decode r
      | _, _ => "%"%char :: pct_decode t
      end
  | "+"%char :: r => " "%char :: pct_decode r
  | c :: r => c :: pct_decode r
  end.

(** The sequences between the [&]s. *)
Fixpoint split_amp (l : list ascii) : list (list ascii) :=
  match l with
  | [] => [[]]
  | c :: r =>
      if Ascii.eqb c "&" then [] :: split_amp r
      else match split_amp r with p :: ps => (c :: p) :: ps | [] => [[c]] end
  end.

(** Name and value: the bytes before and after the first [=]. *)
Fixpoint split_eq (l : list ascii) : list ascii * list ascii :=
  match l with
  | [] => ([], [])
  | c :: r => if Ascii.eqb c "=" then ([], r) else let '(a, b) := split_eq r in (c :: a, b)
  end.

(** [new URLSearchParams(query)]: empty sequences are skipped. *)
Definition parse_query (q : string) : search_params :=
  map (fun p => let '(a, b) := split_eq p in
                (string_of_list_ascii (pct_decode a), string_of_list_ascii (pct_decode b)))
      (List.filter (fun p => negb (bool_decide (p = []))) (split_amp (list_ascii_of_string q))).

(** ** The parser inverts the serializer *)

Definition no_amp (c : ascii) : bool := negb (Ascii.eqb c "&").
Definition no_eq (c : ascii) : bool := negb (Ascii.eqb c "=").

Lemma enc_byte_decode c l : pct_decode (enc_byte c ++ l) = c :: pct_decode l.
Proof. destruct c as [[] [] [] [] [] [] [] []]; reflexivity. Qed.

Lemma enc_byte_plain c : Forall (fun c' => no_amp c' && no_eq c' = true) (enc_byte c).
Proof. destruct c as [[] [] [] [] [] [] [] []]; vm_compute; repeat constructor. Qed.

Lemma enc_text_decode s : pct_decode (enc_text s) = list_ascii_of_string s.
Proof.
  unfold enc_text. induction (list_ascii_of_string s) as [|c l IH]; [done|].
  simpl. by rewrite enc_byte_decode, IH.
Qed.

Lemma enc_text_plain s : Forall (fun c => no_amp c && no_eq c = true) (enc_text s).
Proof.
  unfold enc_text. induction (list_ascii_of_string s) as [|c l IH]; [constructor|].
  simpl. apply Forall_app. split; [apply enc_byte_plain|done].
Qed.

Lemma split_amp_app p rest :
  Forall (fun c => no_amp c = true) p -> split_amp (p ++ "&"%char :: rest) = p :: split_amp rest.
Proof.
  induction 1 as [|c p Hc _ IH]; [done|]. simpl. unfold no_amp in Hc.
  destruct (Ascii.eqb c "&"); [done|]. by rewrite IH.
Qed.

Lemma split_amp_last p : Forall (fun c => no_amp c = true) p -> split_amp p = [p].
Proof.
  induction 1 as [|c p Hc _ IH]; [done|]. simpl. unfold no_amp in Hc.
  destruct (Ascii.eqb c "&"); [done|]. by rewrite IH.
Qed.

Lemma split_amp_join ps :
  ps <> [] -> Forall (Forall (fun c => no_amp c = true)) ps -> split_amp (join_amp ps) = ps.
Proof.
  intros Hne Hps. induction Hps as [|p ps Hp Hps IH]; [done|].
  destruct ps as [|p' ps]; [by apply split_amp_last|].
  change (join_amp (p :: p' :: ps)) with (p ++ "&"%char :: join_amp (p' :: ps)).
  rewrite split_amp_app by done. by rewrite IH.
Qed.

Lemma split_eq_app a b : Forall (fun c => no_eq c = true) a -> split_eq (a ++ "="%char :: b) = (a, b).
Proof.
  induction 1 as [|c a Hc _ IH]; [done|]. simpl. unfold no_eq in Hc.
  destruct (Ascii.eqb c "="); [done|]. by rewrite IH.
Qed.

Lemma pair_text_plain k v :
  Forall (fun c => no_amp c = true) (enc_text k ++ "="%char :: enc_text v).
Proof.
  apply Forall_app. split; [|constructor; [done|]].
  - refine (List.Forall_impl _ _ (enc_text_plain k)). intros c Hc. by destruct (no_amp c), (no_eq c).
  - refine (List.Forall_impl _ _ (enc_text_plain v)). intros c Hc. by destruct (no_amp c), (no_eq c).
Qed.

Lemma parse_serialize_pairs (sp : search_params) :
  sp <> [] ->
  parse_query (serialize sp) = sp.
Proof.
  intros Hne. unfold parse_query, serialize. rewrite list_ascii_of_string_of_list_ascii.
  rewrite split_amp_join.
  - induction sp as [|[k v] sp IH]; [done|]. simpl.
    rewrite bool_decide_false by (destruct (enc_text k); discriminate).
    simpl. rewrite split_eq_app.
    + rewrite !enc_text_decode, !string_of_list_ascii_of_string. f_equal.
      destruct sp as [|kv sp]; [done|]. by apply IH.
    + refine (List.Forall_impl _ _ (enc_text_plain k)). intros c Hc. by destruct (no_amp c), (no_eq c).
  - destruct sp; [done|discriminate].
  - apply List.Forall_forall. intros p (kv & <- & _)%in_map_iff. destruct kv. apply pair_text_plain.
Qed.

(** [new URLSearchParams(`${params}`)] reads back the
    pairs [params] holds, in order, whatever bytes they contain: the
    search text of the client list reaches [searchParams.get("search")]
    of the clients route unchanged. *)
Theorem parse_serialize (sp : search_params) : parse_query (serialize sp) = sp.
Proof. destruct sp as [|kv sp]; [reflexivity|]. by apply parse_serialize_pairs. Qed.

End UrlEncoded.
