(* ===== verification/Queries.v ===== *)
(** * The queries of the route handlers

    The SQL the handlers under src/app/api send through [pool.query], over
    the store the provisioning script creates ([Schema.db]).  A parameter
    is bound as text (node-postgres' [prepareValue]) and converted by the
    input function of the type PostgreSQL infers for it: [uuid],
    [timestamptz], [integer] or [bigint]; a conversion that fails is an
    error of the query.  Table names are resolved before the parameters
    are converted, the constraints are checked after.

    [ORDER BY] is modelled by stdpp's stable [merge_sort] over the table
    order: PostgreSQL leaves the order of ties unspecified, and no theorem
    depends on it.  [ILIKE] folds ASCII letters only. *)

From S2P Require Import Prelude Db Url Http.
From stdpp Require Import pretty sorting.
Open Scope list_scope.

Module Queries.
Import Schema Http.

(** PostgreSQL's text input of [uuid] and [timestamptz], and JavaScript's
    [Date.prototype.toISOString], which the handlers only call; an ISO
    string is read back as the instant it prints. *)
Class PgTypes := {
  uuid_in : string -> option nat;
  uuid_out : nat -> string;
  timestamptz_in : string -> option Z;
  iso_string : Z -> string;
  uuid_in_out u : uuid_in (uuid_out u) = Some u;
  timestamptz_in_iso t : timestamptz_in (iso_string t) = Some t
}.

(** ** The orders of the listings *)

(** [ORDER BY created_at DESC] *)
Definition created_desc (a b : client_row) : Prop := (client_created_at b <= client_created_at a)%Z.

(** A row of [SELECT a.*, c.name as client_name, c.email as client_email]. *)
Definition appointment_view : Type := appointment_row * string * string.

(** [ORDER BY a.appointment_date ASC] *)
Definition date_asc (a b : appointment_view) : Prop := (appt_date a.1.1 <= appt_date b.1.1)%Z.

#[export] Instance created_desc_dec : RelDecision created_desc.
Proof. intros a b. unfold created_desc. apply _. Defined.
#[export] Instance created_desc_total : Total created_desc.
Proof. intros a b. unfold created_desc. lia. Qed.
#[export] Instance created_desc_trans : Transitive created_desc.
Proof. intros a b c. unfold created_desc. lia. Qed.
#[export] Instance date_asc_dec : RelDecision date_asc.
Proof. intros a b. unfold date_asc. apply _. Defined.
#[export] Instance date_asc_total : Total date_asc.
Proof. intros a b. unfold date_asc. lia. Qed.
#[export] Instance date_asc_trans : Transitive date_asc.
Proof. intros a b c. unfold date_asc. lia. Qed.

Section Queries.
Context `{!PgTypes}.

(** ** Parameters *)

Definition uuid_param (p : option string) : res sql_error (option nat) :=
  match p with
  | None => Ok None
  | Some s => match uuid_in s with
              | Some n => Ok (Some n)
              | None => Err (InvalidTextRepresentation "uuid")
              end
  end.

Definition timestamptz_param (p : option string) : res sql_error (option Z) :=
  match p with
  | None => Ok None
  | Some s => match timestamptz_in s with
              | Some t => Ok (Some t)
              | None => Err (InvalidTextRepresentation "timestamp with time zone")
              end
  end.

(** [int4in] / [int8in]: white space around, a sign, at least one decimal
    digit, and the value in the type's range. *)
Definition pg_isspace (c : ascii) : bool :=
  let n := nat_of_ascii c in (Nat.eqb n 32 || (Nat.leb 9 n && Nat.leb n 13))%bool.

Fixpoint drop_space (l : list ascii) : list ascii :=
  match l with
  | c :: l' => if pg_isspace c then drop_space l' else l
  | [] => []
  end.

Definition pg_strip (l : list ascii) : list ascii := rev (drop_space (rev (drop_space l))).

Definition dec_digitb (c : ascii) : bool :=
  match digit_value 10 c with Some _ => true | None => false end.

Definition int8_min : Z := (- 2 ^ 63)%Z.
Definition int8_max : Z := (2 ^ 63 - 1)%Z.

Definition pg_int_in (ty : string) (lo hi : Z) (s : string) : res sql_error Z :=
  let '(sign, ds) := js_sign (pg_strip (list_ascii_of_string s)) in
  match ds with
  | [] => Err (InvalidTextRepresentation ty)
  | _ :: _ =>
      if forallb dec_digitb ds then
        let v := (sign * default 0 (digits_prefix 10 None ds))%Z in
        if ((lo <=? v) && (v <=? hi))%Z then Ok v else Err NumericValueOutOfRange
      else Err (InvalidTextRepresentation ty)
  end.

Definition int4_param (p : option string) : res sql_error (option Z) :=
  match p with
  | None => Ok None
  | Some s => z ← pg_int_in "integer" int4_min int4_max s; Ok (Some z)
  end.

(** A JavaScript number bound to a parameter: [String(n)]. *)
Definition js_num_text (n : js_num) : string :=
  match n with Some z => pretty z | None => "NaN" end.

(** [LIMIT $n OFFSET $m]: [bigint] parameters; PostgreSQL checks the
    offset, then the limit. *)
Definition limit_offset {A} (limit offset : js_num) (rows : list A) : res sql_error (list A) :=
  l ← pg_int_in "bigint" int8_min int8_max (js_num_text limit);
  o ← pg_int_in "bigint" int8_min int8_max (js_num_text offset);
  if (o <? 0)%Z then Err InvalidRowCountInOffset
  else if (l <? 0)%Z then Err InvalidRowCountInLimit
  else Ok (take (Z.to_nat l) (drop (Z.to_nat o) rows)).

(** ** [ILIKE] *)

(** [LIKE] with the default escape character [\]: [%] matches any
    sequence, [_] one character, [\c] the character [c]. *)
Fixpoint like_match (p s : list ascii) : bool :=
  match p with
  | [] => match s with [] => true | _ :: _ => false end
  | c :: p' =>
      if bool_decide (c = "%"%char) then
        existsb (fun k => like_match p' (drop k s)) (seq 0 (S (List.length s)))
      else if bool_decide (c = "_"%char) then
        match s with [] => false | _ :: s' => like_match p' s' end
      else if bool_decide (c = "\"%char) then
        match p' with
        | [] => false
        | e :: p'' => match s with
                      | [] => false
                      | c' :: s' => bool_decide (e = c') && like_match p'' s'
                      end
        end
      else match s with
           | [] => false
           | c' :: s' => bool_decide (c = c') && like_match p' s'
           end
  end.

(** PostgreSQL refuses a pattern that ends with the escape character. *)
Fixpoint like_escape_ok (p : list ascii) : bool :=
  match p with
  | [] => true
  | c :: p' =>
      if bool_decide (c = "\"%char) then
        match p' with [] => false | _ :: p'' => like_escape_ok p'' end
      else like_escape_ok p'
  end.

Definition lower (s : string) : list ascii := map Url.ascii_lower (list_ascii_of_string s).

Definition ilike (text pat : string) : bool := like_match (lower pat) (lower text).

(** [`%${search}%`] *)
Definition like_pattern (search : string) : string := "%" ++ search ++ "%".

(** [name ILIKE $1 OR email ILIKE $1 OR phone ILIKE $1]; a [NULL] phone
    makes its disjunct [NULL], which [WHERE] reads as false. *)
Definition client_matches (pat : string) (r : client_row) : bool :=
  ilike (client_name r) pat || ilike (client_email r) pat ||
  match client_phone r with Some ph => ilike ph pat | None => false end.

(** ** [GET /api/clients] *)


(** [if (search)] adds the [WHERE] clause. *)
Definition search_filter (search : string) (rows : list client_row) : list client_row :=
  if String.eqb search "" then rows else List.filter (client_matches (like_pattern search)) rows.

(** [SELECT * FROM clients [WHERE ...] ORDER BY created_at DESC LIMIT $n OFFSET $m] *)
Definition select_clients (search : string) (limit offset : js_num) (d : db)
  : res sql_error (list client_row) :=
  match db_clients d with
  | None => Err (UndefinedTable "clients")
  | Some rows => limit_offset limit offset (merge_sort created_desc (search_filter search rows))
  end.

(** [SELECT COUNT( * ) FROM clients [WHERE ...]] *)
Definition count_clients (search : string) (d : db) : res sql_error Z :=
  match db_clients d with
  | None => Err (UndefinedTable "clients")
  | Some rows => Ok (Z.of_nat (List.length (search_filter search rows)))
  end.

(** ** [GET /api/appointments] *)


(** [appointments a JOIN clients c ON a.client_id = c.id] *)
Definition join_clients (rows : list appointment_row) (cs : list client_row)
  : list appointment_view :=
  flat_map (fun a => map (fun c => (a, client_name c, client_email c))
                         (List.filter (fun c => bool_decide (appt_client_id a = Some (client_id c))) cs))
           rows.

(** [a.client_id = $1] when [clientId] is given, [a.appointment_date >= $k]
    when [upcoming] is. *)
Definition view_filter (cid : option nat) (since : option Z) (v : appointment_view) : bool :=
  (match cid with Some c => bool_decide (appt_client_id v.1.1 = Some c) | None => true end &&
   match since with Some t => (t <=? appt_date v.1.1)%Z | None => true end)%bool.


Definition joined_views (cid since : option string) (d : db)
  : res sql_error (list appointment_view) :=
  match db_appointments d, db_clients d with
  | None, _ => Err (UndefinedTable "appointments")
  | _, None => Err (UndefinedTable "clients")
  | Some t, Some cs =>
      c ← uuid_param cid;
      ts ← timestamptz_param since;
      Ok (List.filter (view_filter c ts) (join_clients (at_rows t) cs))
  end.

(** The listing and its [COUNT( * )]. *)
Definition select_appointments (cid since : option string) (limit offset : js_num) (d : db)
  : res sql_error (list appointment_view) :=
  vs ← joined_views cid since d; limit_offset limit offset (merge_sort date_asc vs).

Definition count_appointments (cid since : option string) (d : db) : res sql_error Z :=
  vs ← joined_views cid since d; Ok (Z.of_nat (List.length vs)).

(** ** [POST /api/appointments] *)

(** [SELECT id FROM clients WHERE id = $1] *)
Definition select_client_id (client : option string) (d : db) : res sql_error (list nat) :=
  match db_clients d with
  | None => Err (UndefinedTable "clients")
  | Some rows =>
      c ← uuid_param client;
      Ok (map client_id (List.filter (fun r => bool_decide (Some (client_id r) = c)) rows))
  end.

(** [INSERT INTO appointments (client_id, title, description,
    appointment_date, duration_minutes) VALUES ($1, ..., $5) RETURNING *] *)
Definition insert_appointment_query (client title descr date dur : option string) (d : db)
  : res sql_error (qresult * db) :=
  match db_appointments d with
  | None => Err (UndefinedTable "appointments")
  | Some _ =>
      c ← uuid_param client;
      dt ← timestamptz_param date;
      du ← int4_param dur;
      match title, dt with
      | None, _ => Err (NotNullViolation "title")
      | _, None => Err (NotNullViolation "appointment_date")
      | Some ti, Some dt => insert_appointment c ti descr dt du d
      end
  end.

(** ** [PUT] and [DELETE /api/appointments/[id]] *)

Definition coalesce {A} (p : option A) (v : A) : A := match p with Some x => x | None => v end.

(** [SET title = COALESCE($1, title), ..., status = COALESCE($5, status)];
    [updated_at] is not in the list. *)
Definition apply_update (title descr : option string) (dt du : option Z) (status : option string)
           (r : appointment_row) : appointment_row :=
  mkAppointment (appt_id r) (appt_external_id r) (appt_client_id r)
    (coalesce title (appt_title r))
    (coalesce (option_map Some descr) (appt_description r))
    (coalesce dt (appt_date r))
    (coalesce (option_map Some du) (appt_duration_minutes r))
    (coalesce (option_map Some status) (appt_status r))
    (appt_created_at r) (appt_updated_at r).

Definition has_id (i : option nat) (r : appointment_row) : bool := bool_decide (Some (appt_id r) = i).

Definition set_appt_rows (d : db) (t : appointments_table) (rows : list appointment_row) : db :=
  set_appointments d (Some (mkAppointmentsTable rows (at_fk_client t))).

(** [UPDATE appointments SET ... WHERE id = $6 RETURNING *] *)
Definition update_appointment_query (title descr date dur status : option string) (id : string)
           (d : db) : res sql_error (list appointment_row * db) :=
  match db_appointments d with
  | None => Err (UndefinedTable "appointments")
  | Some t =>
      dt ← timestamptz_param date;
      du ← int4_param dur;
      i ← uuid_param (Some id);
      let upd := apply_update title descr dt du status in
      Ok (map upd (List.filter (has_id i) (at_rows t)),
          set_appt_rows d t (map (fun r => if has_id i r then upd r else r) (at_rows t)))
  end.

(** [DELETE FROM appointments WHERE id = $1 RETURNING *] *)
Definition delete_appointment_query (id : string) (d : db)
  : res sql_error (list appointment_row * db) :=
  match db_appointments d with
  | None => Err (UndefinedTable "appointments")
  | Some t =>
      i ← uuid_param (Some id);
      Ok (List.filter (has_id i) (at_rows t),
          set_appt_rows d t (List.filter (fun r => negb (has_id i r)) (at_rows t)))
  end.

(** ** [POST /api/auth/login] *)

(** [SELECT id, email, password_hash, name FROM admins WHERE email = $1] *)
Definition select_admin_by_email (email : option string) (d : db) : res sql_error (list admin_row) :=
  match db_admins d with
  | None => Err (UndefinedTable "admins")
  | Some rows => Ok (List.filter (fun r => bool_decide (Some (admin_email r) = email)) rows)
  end.

(** ** Parameters written by JavaScript *)

Lemma drop_space_keep c r : pg_isspace c = false -> drop_space (c :: r) = c :: r.
Proof. simpl. by intros ->. Qed.

Lemma digit_not_space c : is_dec_digit c -> pg_isspace c = false.
Proof. intros Hc. by dec_digit_cases c Hc. Qed.

Lemma digits_forallb l : Forall is_dec_digit l -> forallb dec_digitb l = true.
Proof.
  induction 1 as [|c l [d Hd] _ IH]; [done|]. simpl. by rewrite IH; unfold dec_digitb; rewrite Hd.
Qed.

Lemma pg_strip_digits l :
  Forall is_dec_digit l -> l <> [] ->
  pg_strip l = l /\ pg_strip ("-"%char :: l) = "-"%char :: l.
Proof.
  intros Hl Hne. destruct l as [|c r]; [done|]. inversion Hl as [|? ? Hc Hr]; subst.
  unfold pg_strip. rewrite (drop_space_keep c r (digit_not_space c Hc)).
  rewrite (drop_space_keep "-"%char (c :: r) eq_refl).
  assert (Hlast : forall c' r', rev (c :: r) = c' :: r' -> pg_isspace c' = false).
  { intros c' r' E. apply digit_not_space. rewrite Forall_forall in Hl. apply Hl.
    apply list_elem_of_In, in_rev. rewrite E. by left. }
  destruct (rev (c :: r)) as [|c' r'] eqn:E; [by destruct (app_cons_not_nil (rev r) [] c)|].
  split.
  - rewrite drop_space_keep by eauto. by rewrite <- E, rev_involutive.
  - change (rev ("-"%char :: c :: r)) with (rev (c :: r) ++ ["-"%char]). rewrite E.
    change ((c' :: r') ++ ["-"%char]) with (c' :: (r' ++ ["-"%char])).
    rewrite (drop_space_keep c') by eauto.
    change (c' :: (r' ++ ["-"%char])) with ((c' :: r') ++ ["-"%char]). rewrite <- E.
    by rewrite rev_app_distr, rev_involutive.
Qed.

(** The text [String(n)] of an integer in range is read back by
    [int4in]/[int8in]. *)
Lemma pg_int_in_pretty ty lo hi z :
  (lo <= z <= hi)%Z -> pg_int_in ty lo hi (pretty z) = Ok z.
Proof.
  intros Hz. unfold pg_int_in.
  destruct z as [|p|p].
  - simpl. change (1 * (10 * 0 + (Z.of_nat (nat_of_ascii "0") - 48)))%Z with 0%Z.
    destruct ((lo <=? 0) && (0 <=? hi))%Z eqn:E; [done|].
    apply andb_false_iff in E as [E|E]; apply Z.leb_gt in E; lia.
  - destruct (pretty_pos_text p) as (-> & Hd & Hv).
    assert (Hne : list_ascii_of_string (pretty_N_go (N.pos p) "") <> []) by (by intros E; rewrite E in Hv).
    rewrite (proj1 (pg_strip_digits _ Hd Hne)), (digits_js_sign _ Hd), (digits_forallb _ Hd), Hv.
    destruct (list_ascii_of_string (pretty_N_go (N.pos p) "")) eqn:El; [congruence|]. simpl.
    rewrite Z.mul_1_l. replace ((lo <=? Z.pos p) && (Z.pos p <=? hi))%Z with true; [done|].
    symmetry. apply andb_true_intro. split; apply Z.leb_le; lia.
  - destruct (pretty_pos_text p) as (_ & Hd & Hv).
    assert (Hne : list_ascii_of_string (pretty_N_go (N.pos p) "") <> []) by (by intros E; rewrite E in Hv).
    change (list_ascii_of_string (pretty (Z.neg p)))
      with ("-"%char :: list_ascii_of_string (pretty_N_go (N.pos p) "")).
    rewrite (proj2 (pg_strip_digits _ Hd Hne)). cbv [js_sign].
    rewrite (digits_forallb _ Hd), Hv.
    destruct (list_ascii_of_string (pretty_N_go (N.pos p) "")) eqn:El; [congruence|]. simpl.
    change (-1 * Z.pos p)%Z with (Z.neg p).
    replace ((lo <=? Z.neg p) && (Z.neg p <=? hi))%Z with true; [done|].
    symmetry. apply andb_true_intro. split; apply Z.leb_le; lia.
Qed.

(** A page of an ordered result: sorted, drawn from the rows, and of the
    length [LIMIT]/[OFFSET] give. *)
Lemma page_of_sorted {A} (R : relation A) `{!Transitive R, !Total R, !RelDecision R}
      (rows : list A) (l o : nat) :
  let pg := take l (drop o (merge_sort R rows)) in
  StronglySorted R pg /\ (forall x, In x pg -> In x rows) /\
  List.length pg = Nat.min l (List.length rows - o).
Proof.
  pose proof (StronglySorted_merge_sort R rows) as Hs.
  pose proof (merge_sort_Permutation R rows) as Hp. split; [|split].
  - rewrite <- (take_drop o (merge_sort R rows)) in Hs. apply StronglySorted_app_1_r in Hs.
    rewrite <- (take_drop l (drop o _)) in Hs. by apply StronglySorted_app_1_l in Hs.
  - intros x Hx. apply list_elem_of_In. rewrite <- Hp.
    apply (elem_of_sublist (drop o (merge_sort R rows))); [|apply sublist_drop].
    apply (elem_of_sublist (take l (drop o (merge_sort R rows)))); [|apply sublist_take].
    by apply list_elem_of_In.
  - by rewrite length_take, length_drop, (Permutation_length Hp).
Qed.

Lemma limit_offset_incl {A} l o (xs ys : list A) :
  limit_offset l o xs = Ok ys -> forall y, In y ys -> In y xs.
Proof.
  unfold limit_offset. intros Hq y Hy.
  apply res_bind_Ok_inv in Hq as (l' & _ & Hq). apply res_bind_Ok_inv in Hq as (o' & _ & Hq).
  destruct (o' <? 0)%Z; [discriminate|]. destruct (l' <? 0)%Z; [discriminate|]. injection Hq as <-.
  apply list_elem_of_In.
  apply (elem_of_sublist (drop (Z.to_nat o') xs)); [|apply sublist_drop].
  apply (elem_of_sublist (take (Z.to_nat l') (drop (Z.to_nat o') xs))); [|apply sublist_take].
  by apply list_elem_of_In.
Qed.

Lemma In_merge_sort {A} (R : relation A) `{!RelDecision R} (xs : list A) y :
  In y (merge_sort R xs) -> In y xs.
Proof.
  intros Hy. apply list_elem_of_In. rewrite <- (merge_sort_Permutation R xs).
  by apply list_elem_of_In.
Qed.

Lemma In_join_clients rows cs a n e :
  In (a, n, e) (join_clients rows cs) ->
  In a rows /\ exists c, In c cs /\ appt_client_id a = Some (client_id c) /\
                         client_name c = n /\ client_email c = e.
Proof.
  unfold join_clients. intros (a' & Ha' & Hv)%in_flat_map.
  apply in_map_iff in Hv as (c & [= <- <- <-] & Hc). apply filter_In in Hc as [Hc Hac].
  apply bool_decide_eq_true in Hac. split; [done|]. eauto.
Qed.

(** ** [ILIKE] *)

Lemma like_match_pct s : like_match ["%"%char] s = true.
Proof.
  change (like_match ["%"%char] s) with
    (existsb (fun k => like_match [] (drop k s)) (seq 0 (S (List.length s)))).
  apply existsb_exists. exists (List.length s). split.
  - apply in_seq. lia.
  - by rewrite drop_all.
Qed.

Lemma like_match_pct_cons p s : like_match p s = true -> like_match ("%"%char :: p) s = true.
Proof.
  intros Hp. change (like_match ("%"%char :: p) s) with
    (existsb (fun k => like_match p (drop k s)) (seq 0 (S (List.length s)))).
  apply existsb_exists. exists 0. split; [apply in_seq; lia|done].
Qed.

(** The search text goes into the pattern unescaped: "%" matches every
    row. *)
Lemma client_matches_pct r : client_matches (like_pattern "%") r = true.
Proof.
  assert (H3 : forall s, like_match ["%"%char; "%"%char; "%"%char] s = true)
    by (intros s; exact (like_match_pct_cons _ _ (like_match_pct_cons _ _ (like_match_pct s)))).
  unfold client_matches, ilike. change (lower (like_pattern "%")) with ["%"%char; "%"%char; "%"%char].
  by rewrite !H3.
Qed.

Lemma search_filter_pct rows : search_filter "%" rows = search_filter "" rows.
Proof.
  unfold search_filter. simpl. induction rows as [|r rows IH]; [done|].
  simpl. by rewrite client_matches_pct, IH.
Qed.

(** ** The schema invariant *)

Lemma omap_map_keep {A B} (g : A -> option B) (f : A -> A) (l : list A) :
  (forall x, g (f x) = g x) -> omap g (map f l) = omap g l.
Proof.
  intros Hf. induction l as [|x l IH]; [done|].
  change (map f (x :: l)) with (f x :: map f l). by rewrite !omap_cons_eq, Hf, IH.
Qed.

(** Rewriting rows in place, keeping their keys and references. *)
Lemma appointments_wf_map n cl t (f : appointment_row -> appointment_row) :
  appointments_wf n cl t ->
  (forall r, appt_id (f r) = appt_id r /\ appt_external_id (f r) = appt_external_id r /\
             appt_client_id (f r) = appt_client_id r) ->
  appointments_wf n cl (mkAppointmentsTable (map f (at_rows t)) (at_fk_client t)).
Proof.
  intros (Hx & Hi & Hb & Hfk) Hf. unfold appointments_wf. simpl.
  assert (Hids : map appt_id (map f (at_rows t)) = map appt_id (at_rows t)).
  { rewrite map_map. apply map_ext. intros r. apply Hf. }
  rewrite (omap_map_keep _ f) by (intros r; apply Hf). repeat split; [done|by rewrite Hids| |].
  - unfold ids_below in *. apply Forall_map. eapply Forall_impl; [exact Hb|].
    intros r Hr. simpl. by rewrite (proj1 (Hf r)).
  - intros Hon. destruct (Hfk Hon) as (cs & Hcs & Hrefs). exists cs. split; [done|].
    apply Forall_map. eapply Forall_impl; [exact Hrefs|]. intros r. unfold appt_ref_ok.
    by rewrite (proj2 (proj2 (Hf r))).
Qed.

Lemma appointments_wf_filter n cl t (p : appointment_row -> bool) :
  appointments_wf n cl t ->
  appointments_wf n cl (mkAppointmentsTable (List.filter p (at_rows t)) (at_fk_client t)).
Proof.
  intros (Hx & Hi & Hb & Hfk). unfold appointments_wf. simpl. repeat split; auto with wellness.
  intros Hon. destruct (Hfk Hon) as (cs & Hcs & Hrefs). exists cs. split; [done|].
  apply Forall_forall. intros a Ha. apply list_elem_of_In, filter_In in Ha as [Ha _].
  rewrite Forall_forall in Hrefs. apply Hrefs. by apply list_elem_of_In.
Qed.

Lemma set_appt_rows_wf d t rows :
  db_wf d -> db_appointments d = Some t ->
  (appointments_wf (db_next_id d) (db_clients d) t ->
   appointments_wf (db_next_id d) (db_clients d) (mkAppointmentsTable rows (at_fk_client t))) ->
  db_wf (set_appt_rows d t rows).
Proof.
  intros [Ha Hc Hp] Ht Hrows. constructor; [done|done|]. simpl. rewrite Ht in Hp. auto.
Qed.

Lemma update_appointment_query_wf ti ds dt du st id d rs d' :
  db_wf d -> update_appointment_query ti ds dt du st id d = Ok (rs, d') -> db_wf d'.
Proof.
  intros Hwf Hq. unfold update_appointment_query in Hq.
  destruct (db_appointments d) as [t|] eqn:Ht; [|discriminate].
  apply res_bind_Ok_inv in Hq as (x & _ & Hq). apply res_bind_Ok_inv in Hq as (y & _ & Hq).
  apply res_bind_Ok_inv in Hq as (i & _ & Hq). injection Hq as <- <-.
  apply set_appt_rows_wf; [done|done|]. intros Hp. apply appointments_wf_map; [done|].
  intros r. by destruct (has_id i r).
Qed.

Lemma delete_appointment_query_wf id d rs d' :
  db_wf d -> delete_appointment_query id d = Ok (rs, d') -> db_wf d'.
Proof.
  intros Hwf Hq. unfold delete_appointment_query in Hq.
  destruct (db_appointments d) as [t|] eqn:Ht; [|discriminate].
  apply res_bind_Ok_inv in Hq as (i & _ & Hq). injection Hq as <- <-.
  apply set_appt_rows_wf; [done|done|]. apply appointments_wf_filter.
Qed.

Lemma insert_appointment_query_wf c ti ds dt du d r d' :
  db_wf d -> insert_appointment_query c ti ds dt du d = Ok (r, d') -> db_wf d'.
Proof.
  intros Hwf Hq. unfold insert_appointment_query in Hq.
  destruct (db_appointments d); [|discriminate].
  apply res_bind_Ok_inv in Hq as (x & _ & Hq). apply res_bind_Ok_inv in Hq as (y & _ & Hq).
  apply res_bind_Ok_inv in Hq as (z & _ & Hq).
  destruct ti, y; try discriminate. by eapply insert_appointment_wf.
Qed.

Lemma int8_text n : (int8_min <= n <= int8_max)%Z ->
  pg_int_in "bigint" int8_min int8_max (js_num_text (Some n)) = Ok n.
Proof. apply pg_int_in_pretty. Qed.

Lemma limit_offset_ok {A} l o (rows : list A) :
  (0 <= l <= int8_max)%Z -> (0 <= o <= int8_max)%Z ->
  limit_offset (Some l) (Some o) rows = Ok (take (Z.to_nat l) (drop (Z.to_nat o) rows)).
Proof.
  intros Hl Ho. unfold limit_offset.
  rewrite (int8_text l), (int8_text o) by (unfold int8_min in *; lia). simpl.
  rewrite (proj2 (Z.ltb_ge o 0)), (proj2 (Z.ltb_ge l 0)) by lia. done.
Qed.

Lemma limit_offset_negative_offset {A} l o (rows : list A) :
  (int8_min <= l <= int8_max)%Z -> (int8_min <= o < 0)%Z ->
  limit_offset (Some l) (Some o) rows = Err InvalidRowCountInOffset.
Proof.
  intros Hl Ho. unfold limit_offset.
  rewrite (int8_text l), (int8_text o) by (unfold int8_max in *; lia). simpl.
  by rewrite (proj2 (Z.ltb_lt o 0)) by lia.
Qed.

End Queries.

(** C31 (safety) The search text is put into the [ILIKE] pattern
    unescaped: searching for "%" lists and counts every client, exactly
    as no search does ([_] likewise matches any character). *)
Theorem search_wildcard_lists_all limit offset d :
  select_clients "%" limit offset d = select_clients "" limit offset d /\
  count_clients "%" d = count_clients "" d.
Proof.
  unfold select_clients, count_clients. destruct (db_clients d) as [rows|]; [|done].
  by rewrite search_filter_pct.
Qed.

(** Text forms for concrete runs: ids and instants in decimal. *)
Lemma sample_uuid_in_out (n : nat) :
  match js_parseInt (pretty (Z.of_nat n)) with
  | Some z => if (0 <=? z)%Z then Some (Z.to_nat z) else None
  | None => None
  end = Some n.
Proof. rewrite parseInt_pretty. destruct (Z.leb_spec 0 (Z.of_nat n)); [by rewrite Nat2Z.id|lia]. Qed.

#[export] Instance sample_pg_types : PgTypes := {|
  uuid_in s := match js_parseInt s with
               | Some z => if (0 <=? z)%Z then Some (Z.to_nat z) else None
               | None => None
               end;
  uuid_out n := pretty (Z.of_nat n);
  timestamptz_in := js_parseInt;
  iso_string := pretty;
  uuid_in_out := sample_uuid_in_out;
  timestamptz_in_iso := parseInt_pretty
|}.

End Queries.
