(* ===== verification/Auth.v ===== *)
(** * The JWT session middleware (src/lib/auth.ts)

    [generateToken], [verifyToken], [comparePassword],
    [getTokenFromRequest] and the [requireAuth] wrapper that guards every
    route handler but login.  jsonwebtoken is a library auth.ts only
    calls: [Jwt] is its interface (sign at an instant, verify at an
    instant) and [JwtLaws] what the middleware relies on: a token verifies
    to its payload for the 24 hours of [expiresIn: "24h"] and not after.
    A handler is a function of the request and the database, returning
    the response and the database. *)

From S2P Require Import Prelude Db Http Credential.
Open Scope list_scope.

Module Auth.
Import Schema Http Credential.

(** [JWTPayload] without [iat] and [exp], which only jsonwebtoken reads. *)
Record jwt_payload := mkPayload { adminId : nat; email : string }.

Record Jwt := {
  jwt_sign : jwt_payload -> string -> Z -> string;            (** payload, secret, now *)
  jwt_verify : string -> string -> Z -> option jwt_payload    (** token, secret, now *)
}.

(** [expiresIn: "24h"], in seconds: jsonwebtoken's clock is
    [Math.floor(Date.now() / 1000)]. *)
Definition expires_in : Z := 86400.

Class JwtLaws (J : Jwt) : Prop := {
  verify_sign p sec iat now :
    (now < iat + expires_in)%Z -> jwt_verify J (jwt_sign J p sec iat) sec now = Some p;
  verify_expired p sec iat now :
    (iat + expires_in <= now)%Z -> jwt_verify J (jwt_sign J p sec iat) sec now = None;
  sign_nonempty p sec iat : jwt_sign J p sec iat <> ""
}.

(** What a handler sees of a [NextRequest]. *)
Record request := mkRequest {
  req_authorization : option string;   (** [request.headers.get("authorization")] *)
  req_search : search_params;          (** [new URL(request.url).searchParams] *)
  req_body : json_body;                (** [await request.json()] *)
  req_time : Z;                        (** the clock, [Date.now()], in milliseconds *)
  req_user : option jwt_payload        (** [(request as any).user] *)
}.

Definition with_user (r : request) (p : jwt_payload) : request :=
  mkRequest (req_authorization r) (req_search r) (req_body r) (req_time r) (Some p).

Definition handler (A : Type) : Type := request -> db -> response A * db.

Section Middleware.
Variable J : Jwt.
(** [process.env.JWT_SECRET] *)
Variable jwt_secret_env : option string.

(** [const JWT_SECRET = process.env.JWT_SECRET || "fallback-secret"] *)
Definition JWT_SECRET : string := js_or jwt_secret_env "fallback-secret".

Definition jwt_clock (now : Z) : Z := (now / 1000)%Z.

Definition generateToken (p : jwt_payload) (now : Z) : string :=
  jwt_sign J p JWT_SECRET (jwt_clock now).

(** [try { return jwt.verify(token, JWT_SECRET) } catch { return null }] *)
Definition verifyToken (token : string) (now : Z) : option jwt_payload :=
  jwt_verify J token JWT_SECRET (jwt_clock now).

(** [authHeader && authHeader.startsWith("Bearer ") ? authHeader.substring(7) : null] *)
Definition getTokenFromRequest (authorization : option string) : option string :=
  match authorization with
  | Some h => if String.prefix "Bearer " h then Some (String.substring 7 (String.length h) h) else None
  | None => None
  end.

Definition requireAuth {A} (h : handler A) : handler A := fun req d =>
  match getTokenFromRequest (req_authorization req) with
  | None | Some "" => (error_response 401 "Authentication required", d)
  | Some token =>
      match verifyToken token (req_time req) with
      | None => (error_response 401 "Invalid or expired token", d)
      | Some p => h (with_user req p) d
      end
  end.

(** ** The middleware's behaviour *)

(** [requireAuth] runs the handler or answers without touching the
    database. *)
Lemma requireAuth_preserves {A} (P : db -> Prop) (h : handler A) req d :
  P d -> (forall req', P (snd (h req' d))) -> P (snd (requireAuth h req d)).
Proof.
  intros Hd Hh. unfold requireAuth.
  destruct (getTokenFromRequest _) as [[|c s]|]; [done| |done].
  destruct (verifyToken _ _); [apply Hh|done].
Qed.

Lemma substring_0_all (t : string) m :
  String.length t <= m -> String.substring 0 m t = t.
Proof.
  revert m. induction t as [|c t IH]; intros m Hm; destruct m; simpl in *; try done; [lia|].
  rewrite IH; [done|lia].
Qed.

Lemma getToken_bearer t : getTokenFromRequest (Some (String.append "Bearer " t)) = Some t.
Proof.
  unfold getTokenFromRequest.
  assert (Hp : String.prefix "Bearer " (String.append "Bearer " t) = true) by (simpl; by destruct t).
  rewrite Hp.
  change (String.substring 7 (String.length (String.append "Bearer " t)) (String.append "Bearer " t))
    with (String.substring 0 (7 + String.length t) t).
  rewrite substring_0_all; [done|lia].
Qed.

Lemma requireAuth_accepts {A} (h : handler A) req d token p :
  getTokenFromRequest (req_authorization req) = Some token -> token <> "" ->
  verifyToken token (req_time req) = Some p ->
  requireAuth h req d = h (with_user req p) d.
Proof.
  intros Ht Hne Hv. unfold requireAuth. rewrite Ht.
  destruct token as [|c s]; [done|]. by rewrite Hv.
Qed.

Lemma requireAuth_denies {A} req d :
  (forall token, getTokenFromRequest (req_authorization req) = Some token -> token <> "" ->
                 verifyToken token (req_time req) = None) ->
  exists msg, forall h : handler A, requireAuth h req d = (error_response 401 msg, d).
Proof.
  intros Hv. unfold requireAuth.
  destruct (getTokenFromRequest _) as [[|c s]|] eqn:Ht; eauto.
  rewrite (Hv _ eq_refl) by done. eauto.
Qed.

(** C9 (safety) A request without a bearer token that verifies is
    answered 401 by [requireAuth]: the wrapped handler does not run, the
    database is untouched. *)
Theorem requireAuth_rejects {A} (h : handler A) req d :
  (forall token, getTokenFromRequest (req_authorization req) = Some token -> token <> "" ->
                 verifyToken token (req_time req) = None) ->
  status (fst (requireAuth h req d)) = 401%Z /\ snd (requireAuth h req d) = d /\
  forall h' : handler A, requireAuth h' req d = requireAuth h req d.
Proof.
  intros Hv. destruct (requireAuth_denies (A:=A) req d Hv) as [msg Hm].
  rewrite !Hm. split; [done|]. split; [done|]. intros h'. by rewrite !Hm.
Qed.

(** A request carrying a token signed with the server's secret. *)
Lemma requireAuth_signed {A} `{!JwtLaws J} (h : handler A) p iat req d :
  req_authorization req = Some (String.append "Bearer " (jwt_sign J p JWT_SECRET iat)) ->
  ((jwt_clock (req_time req) < iat + expires_in)%Z -> requireAuth h req d = h (with_user req p) d) /\
  ((iat + expires_in <= jwt_clock (req_time req))%Z ->
   requireAuth h req d = (error_response 401 "Invalid or expired token", d)).
Proof.
  intros Hh. split; intros Ht.
  - eapply requireAuth_accepts; [by rewrite Hh, getToken_bearer|apply sign_nonempty|].
    by apply verify_sign.
  - unfold requireAuth. rewrite Hh, getToken_bearer.
    destruct (jwt_sign J p JWT_SECRET iat) as [|c s] eqn:Hs; [by apply sign_nonempty in Hs|].
    unfold verifyToken. rewrite <- Hs, verify_expired by done. done.
Qed.

(** A token from [generateToken] at instant [t0] opens
    every guarded handler while jsonwebtoken's clock is within 24 hours of
    [t0], and is answered 401 "Invalid or expired token" afterwards. *)
Theorem token_lifetime {A} `{!JwtLaws J} (h : handler A) p t0 req d :
  req_authorization req = Some (String.append "Bearer " (generateToken p t0)) ->
  ((jwt_clock (req_time req) < jwt_clock t0 + expires_in)%Z ->
   requireAuth h req d = h (with_user req p) d) /\
  ((jwt_clock t0 + expires_in <= jwt_clock (req_time req))%Z ->
   requireAuth h req d = (error_response 401 "Invalid or expired token", d)).
Proof. apply requireAuth_signed. Qed.

(** C12 (safety) Without [JWT_SECRET] (unset or empty) the signing key is
    the constant "fallback-secret" written in the source: a token anyone
    signs with it, for any payload, passes [requireAuth]. *)
Theorem fallback_secret_forgery {A} `{!JwtLaws J} (h : handler A) p iat req d :
  js_truthy jwt_secret_env = false ->
  req_authorization req = Some (String.append "Bearer " (jwt_sign J p "fallback-secret" iat)) ->
  (jwt_clock (req_time req) < iat + expires_in)%Z ->
  requireAuth h req d = h (with_user req p) d.
Proof.
  intros He Hh Ht. assert (Hs : JWT_SECRET = "fallback-secret") by (apply js_or_falsy, He).
  rewrite <- Hs in Hh. by apply (requireAuth_signed h p iat req d Hh).
Qed.

End Middleware.

(** ** A token format for concrete runs

    Numbers in unary, strings with their length: the payload, the secret
    and the issue time, read back by [sample_verify]. *)

Fixpoint enc_nat (n : nat) : list ascii :=
  match n with 0 => ["0"%char] | S n => "1"%char :: enc_nat n end.

Fixpoint dec_nat (l : list ascii) : option (nat * list ascii) :=
  match l with
  | "1"%char :: r => option_map (fun '(n, r') => (S n, r')) (dec_nat r)
  | "0"%char :: r => Some (0, r)
  | _ => None
  end.

Definition enc_str (s : string) : list ascii := enc_nat (String.length s) ++ list_ascii_of_string s.

Definition dec_str (l : list ascii) : option (string * list ascii) :=
  match dec_nat l with
  | Some (n, r) => if Nat.leb n (List.length r) then Some (string_of_list_ascii (take n r), drop n r)
                   else None
  | None => None
  end.

Definition enc_token (p : jwt_payload) (sec : string) (iat : Z) : list ascii :=
  enc_nat (adminId p) ++ enc_str (email p) ++ enc_str sec ++
  enc_nat (Z.to_nat iat) ++ enc_nat (Z.to_nat (- iat)).

Definition dec_token (l : list ascii) : option (jwt_payload * string * Z) :=
  match dec_nat l with
  | Some (n, r1) =>
      match dec_str r1 with
      | Some (e, r2) =>
          match dec_str r2 with
          | Some (sec, r3) =>
              match dec_nat r3 with
              | Some (a, r4) =>
                  match dec_nat r4 with
                  | Some (b, _) => Some (mkPayload n e, sec, (Z.of_nat a - Z.of_nat b)%Z)
                  | None => None
                  end
              | None => None
              end
          | None => None
          end
      | None => None
      end
  | None => None
  end.

Definition sample_jwt : Jwt := {|
  jwt_sign p sec iat := string_of_list_ascii (enc_token p sec iat);
  jwt_verify tok sec now :=
    match dec_token (list_ascii_of_string tok) with
    | Some (p, sec', iat) =>
        if String.eqb sec' sec && (now <? iat + expires_in)%Z then Some p else None
    | None => None
    end
|}.

Lemma dec_enc_nat n r : dec_nat (enc_nat n ++ r) = Some (n, r).
Proof. induction n as [|n IH]; simpl; [done|by rewrite IH]. Qed.

Lemma dec_enc_str s r : dec_str (enc_str s ++ r) = Some (s, r).
Proof.
  unfold dec_str, enc_str. rewrite <- app_assoc, dec_enc_nat, string_length_list, length_app.
  destruct (Nat.leb_spec (List.length (list_ascii_of_string s))
                         (List.length (list_ascii_of_string s) + List.length r)); [|lia].
  by rewrite take_app_length, drop_app_length, string_of_list_ascii_of_string.
Qed.

Lemma dec_enc_token p sec iat r :
  dec_token (enc_token p sec iat ++ r) = Some (p, sec, iat).
Proof.
  unfold enc_token, dec_token. rewrite <- !app_assoc, dec_enc_nat, dec_enc_str, dec_enc_str,
    dec_enc_nat, dec_enc_nat. destruct p. repeat f_equal. lia.
Qed.

#[export] Instance sample_jwt_laws : JwtLaws sample_jwt.
Proof.
  constructor; simpl; [intros p sec iat now..|intros p sec iat];
    rewrite ?list_ascii_of_string_of_list_ascii.
  - intros Ht. rewrite <- (app_nil_r (enc_token _ _ _)), dec_enc_token, String.eqb_refl.
    by rewrite (proj2 (Z.ltb_lt _ _) Ht).
  - intros Ht. rewrite <- (app_nil_r (enc_token _ _ _)), dec_enc_token, String.eqb_refl.
    by rewrite (proj2 (Z.ltb_ge _ _) Ht).
  - unfold enc_token. destruct (adminId p); discriminate.
Qed.

(** [hashPassword(password)] is [bcrypt.hash(password, 10)]; no route
    calls it. *)
Definition hashPassword (H : Bcrypt) (salt password : string) : string := bcrypt_hash H 10 salt password.

(** [comparePassword(password, hash)] is [bcrypt.compare]. *)
Definition comparePassword (H : Bcrypt) (password hash : string) : bool :=
  bcrypt_compare H password hash.

(** ** Witnesses *)

Definition ok_handler : handler unit := fun req d => (mkResponse 200 (HData tt), d).
Definition sample_payload : jwt_payload := mkPayload 1 "admin@wellness.com".
Definition request_at (auth : option string) (t : Z) : request := mkRequest auth [] BodyOther t None.
Definition sample_token : string := generateToken sample_jwt None sample_payload 0.

Lemma requireAuth_rejects_witness :
  status (fst (requireAuth sample_jwt None ok_handler (request_at (Some "Bearer forged") 0)
                 (empty_db 0))) = 401%Z /\
  snd (requireAuth sample_jwt None ok_handler (request_at (Some "Bearer forged") 0) (empty_db 0)) =
    empty_db 0 /\
  forall h' : handler unit,
    requireAuth sample_jwt None h' (request_at (Some "Bearer forged") 0) (empty_db 0) =
    requireAuth sample_jwt None ok_handler (request_at (Some "Bearer forged") 0) (empty_db 0).
Proof.
  apply requireAuth_rejects. intros token Ht _. simpl in Ht. injection Ht as <-.
  vm_compute. reflexivity.
Defined.

Lemma token_lifetime_witness :
  requireAuth sample_jwt None ok_handler
    (request_at (Some (String.append "Bearer " sample_token)) 3600000) (empty_db 0) =
  ok_handler (with_user (request_at (Some (String.append "Bearer " sample_token)) 3600000)
                        sample_payload) (empty_db 0).
Proof.
  apply (proj1 (token_lifetime sample_jwt None ok_handler sample_payload 0
           (request_at (Some (String.append "Bearer " sample_token)) 3600000) (empty_db 0) eq_refl)).
  vm_compute. reflexivity.
Defined.

Lemma fallback_secret_forgery_witness :
  requireAuth sample_jwt None ok_handler
    (request_at (Some (String.append "Bearer " (jwt_sign sample_jwt sample_payload "fallback-secret" 0)))
                1000) (empty_db 0) =
  ok_handler (with_user (request_at (Some (String.append "Bearer "
                (jwt_sign sample_jwt sample_payload "fallback-secret" 0))) 1000) sample_payload)
             (empty_db 0).
Proof.
  apply (fallback_secret_forgery sample_jwt None ok_handler sample_payload 0);
    [reflexivity|reflexivity|vm_compute; reflexivity].
Defined.

End Auth.
