(* ===== verification/Login.v ===== *)
(** * The login route (src/app/api/auth/login/route.ts)

    [POST /api/auth/login]: the credentials of the JSON body are checked
    against the [admins] row of the email with [comparePassword], and a
    24-hour JWT is issued.  The theorems connect it with the middleware
    ([Auth.requireAuth]) and with the credential the provisioning script
    stores ([Credential.resolveAdminHash]). *)

From S2P Require Import Prelude Db Http Credential Queries Auth.
Open Scope list_scope.

Module Login.
Import Schema Http Credential Queries Auth.

(** [{ token, admin: { id, email, name } }] *)
Record login_data := mkLoginData {
  ld_token : string;
  ld_id : nat;
  ld_email : string;
  ld_name : string
}.

Section Login.
Variables (H : Bcrypt) (J : Jwt) (jwt_secret_env : option string).

Definition login : handler login_data := fun req d =>
  match body_fields (req_body req) with
  | None => (error_response 500 "Internal server error", d)
  | Some field =>
      let email := field "email" in
      let password := field "password" in
      if negb (jv_truthy email) || negb (jv_truthy password) then
        (error_response 400 "Email and password are required", d)
      else match select_admin_by_email (jv_param email) d with
      | Err _ => (error_response 500 "Internal server error", d)
      | Ok [] => (error_response 401 "Invalid credentials", d)
      | Ok (admin :: _) =>
          (** bcryptjs rejects a password that is not a string *)
          match password with
          | JStr pwd =>
              if comparePassword H pwd (admin_password_hash admin) then
                let token := generateToken J jwt_secret_env
                               (mkPayload (admin_id admin) (admin_email admin)) (req_time req) in
                (mkResponse 200 (HData (mkLoginData token (admin_id admin) (admin_email admin)
                                                    (admin_name admin))), d)
              else (error_response 401 "Invalid credentials", d)
          | _ => (error_response 500 "Internal server error", d)
          end
      end
  end.

(** ** Behaviour *)

Definition login_body (e pwd : string) : json_body :=
  BodyObject [("email", JStr e); ("password", JStr pwd)].

(** The checks of the body pass; what remains is the lookup. *)
Lemma login_credentials req d e pwd :
  req_body req = login_body e pwd -> e <> "" -> pwd <> "" ->
  login req d =
    match select_admin_by_email (Some e) d with
    | Err _ => (error_response 500 "Internal server error", d)
    | Ok [] => (error_response 401 "Invalid credentials", d)
    | Ok (admin :: _) =>
        if comparePassword H pwd (admin_password_hash admin) then
          (mkResponse 200 (HData (mkLoginData
             (generateToken J jwt_secret_env (mkPayload (admin_id admin) (admin_email admin))
                            (req_time req))
             (admin_id admin) (admin_email admin) (admin_name admin))), d)
        else (error_response 401 "Invalid credentials", d)
    end.
Proof.
  intros Hb He Hp. unfold login. rewrite Hb. cbv beta iota delta [body_fields login_body].
  change (lookup_last "email" [("email", JStr e); ("password", JStr pwd)]) with (JStr e).
  change (lookup_last "password" [("email", JStr e); ("password", JStr pwd)]) with (JStr pwd).
  rewrite (jv_truthy_str e He), (jv_truthy_str pwd Hp). done.
Qed.

Lemma select_admin_unique d rows r :
  db_admins d = Some rows -> NoDup (map admin_email rows) -> In r rows ->
  select_admin_by_email (Some (admin_email r)) d = Ok [r].
Proof.
  intros Hd Hnd Hin. unfold select_admin_by_email. rewrite Hd. f_equal.
  apply (filter_unique_key admin_email); [done|done|]. intros y _.
  rewrite bool_decide_eq_true. split; [by intros [=]|by intros ->].
Qed.

(** Logging in with the password the stored hash was
    made from answers 200 with the admin's id, email and name and a token
    that, sent as [Authorization: Bearer <token>], opens every handler
    guarded by [requireAuth] for the next 24 hours; the database is not
    changed. *)
Theorem login_token_authenticates `{!BcryptLaws H} `{!JwtLaws J} {A} (g : handler A)
    req d rows r cost salt pwd req' d' :
  db_admins d = Some rows -> NoDup (map admin_email rows) -> In r rows ->
  req_body req = login_body (admin_email r) pwd -> admin_email r <> "" -> pwd <> "" ->
  admin_password_hash r = bcrypt_hash H cost salt pwd ->
  exists token,
    login req d = (mkResponse 200 (HData (mkLoginData token (admin_id r) (admin_email r)
                                                     (admin_name r))), d) /\
    (req_authorization req' = Some (String.append "Bearer " token) ->
     (jwt_clock (req_time req') < jwt_clock (req_time req) + expires_in)%Z ->
     requireAuth J jwt_secret_env g req' d' =
       g (with_user req' (mkPayload (admin_id r) (admin_email r))) d').
Proof.
  intros Hd Hnd Hin Hb He Hp Hh. rewrite (login_credentials req d _ pwd Hb He Hp).
  rewrite (select_admin_unique d rows r Hd Hnd Hin). unfold comparePassword.
  rewrite Hh, compare_hash. eexists. split; [reflexivity|].
  intros Ha Ht. by apply (requireAuth_signed J jwt_secret_env g _ _ _ d' Ha).
Qed.

(** C13 (safety) A wrong password and an unknown email get the same
    answer, 401 "Invalid credentials": the route does not tell which
    emails are admins. *)
Theorem login_uniform_failure req d rows e pwd :
  db_admins d = Some rows -> req_body req = login_body e pwd -> e <> "" -> pwd <> "" ->
  (forall r, In r rows -> admin_email r = e -> comparePassword H pwd (admin_password_hash r) = false) ->
  login req d = (error_response 401 "Invalid credentials", d).
Proof.
  intros Hd Hb He Hp Hno. rewrite (login_credentials req d e pwd Hb He Hp).
  unfold select_admin_by_email. rewrite Hd.
  destruct (List.filter _ rows) as [|r rs] eqn:Hf; [done|].
  assert (Hr : In r (List.filter (fun r => bool_decide (Some (admin_email r) = Some e)) rows))
    by (rewrite Hf; left; done).
  apply filter_In in Hr as [Hr Hre]. apply bool_decide_eq_true in Hre. injection Hre as Hre.
  by rewrite (Hno r Hr Hre).
Qed.

(** C16 (error) The provisioning script stores the hash of the trimmed
    [ADMIN_PASSWORD] (migrate.js line 73), the login route compares the
    password as typed: an admin whose configured password has white space
    at either end is refused with it and must type the trimmed one. *)
Theorem login_requires_trimmed_password `{!BcryptLaws H} env salt p req d rows r :
  db_admins d = Some rows -> NoDup (map admin_email rows) -> In r rows -> admin_email r <> "" ->
  admin_password_hash r = resolveAdminHash H env salt ->
  js_truthy (explicit_hash env) = false -> ADMIN_PASSWORD env = Some p -> p <> "" ->
  isBcryptHash (js_trim p) = false -> js_trim p <> "" ->
  comparePassword H p (bcrypt_hash H 10 salt (js_trim p)) = false ->
  (req_body req = login_body (admin_email r) p ->
   login req d = (error_response 401 "Invalid credentials", d)) /\
  (req_body req = login_body (admin_email r) (js_trim p) -> status (fst (login req d)) = 200%Z).
Proof.
  intros Hd Hnd Hin He Hh Hx Hp Hne Hb Ht Hc.
  rewrite (resolve_no_explicit H env salt Hx), Hp, (js_or_truthy (Some p)) in Hh
    by (destruct p; done).
  simpl in Hh. rewrite Hb in Hh.
  split; intros Hbody; rewrite (login_credentials req d _ _ Hbody He) by done;
    rewrite (select_admin_unique d rows r Hd Hnd Hin), Hh.
  - by rewrite Hc.
  - unfold comparePassword. by rewrite compare_hash.
Qed.

End Login.

(** ** Witnesses *)

(** A bcrypt for concrete runs that tells passwords apart by their
    first 53 characters. *)
Definition bcrypt_char (c : ascii) : ascii := if is_bcrypt_char c then c else "."%char.

Definition enc53 (pwd : string) : list ascii :=
  take 53 (map bcrypt_char (list_ascii_of_string pwd) ++ repeat "."%char 53).

Definition tag_bcrypt : Bcrypt := {|
  bcrypt_hash cost salt pwd := String.append "$2b$10$" (string_of_list_ascii (enc53 pwd));
  bcrypt_compare pwd h := String.eqb h (String.append "$2b$10$" (string_of_list_ascii (enc53 pwd)))
|}.

Lemma forallb_take {A} (f : A -> bool) n l : forallb f l = true -> forallb f (take n l) = true.
Proof.
  revert l. induction n as [|n IH]; intros [|x l]; simpl; try done.
  intros [Hx Hl]%andb_prop. rewrite Hx. by apply IH.
Qed.

Lemma enc53_chars pwd : List.length (enc53 pwd) = 53 /\ forallb is_bcrypt_char (enc53 pwd) = true.
Proof.
  unfold enc53. split; [rewrite length_take, length_app, repeat_length; lia|].
  apply forallb_take. rewrite forallb_app. apply andb_true_intro. split.
  - induction (list_ascii_of_string pwd) as [|c l IH]; [done|]. simpl. rewrite IH.
    unfold bcrypt_char. by destruct (is_bcrypt_char c) eqn:E; rewrite ?E.
  - apply forallb_forall. intros c Hc. apply repeat_spec in Hc. by subst.
Qed.

#[export] Instance tag_bcrypt_laws : BcryptLaws tag_bcrypt.
Proof.
  constructor; simpl.
  - intros _ _ pwd _. destruct (enc53_chars pwd) as [Hl Hf]. unfold isBcryptHash.
    change (list_ascii_of_string (String.append "$2b$10$" ?x)) with
      ("$"%char :: "2"%char :: "b"%char :: "$"%char :: "1"%char :: "0"%char :: "$"%char ::
       list_ascii_of_string x).
    rewrite list_ascii_of_string_of_list_ascii. cbv beta iota. rewrite Hl, Hf. reflexivity.
  - intros _ _ pwd. apply String.eqb_refl.
Qed.


Definition sample_admin (h : string) : admin_row := mkAdmin 1 "admin@wellness.com" h "Admin User" 0.
Definition db_with_admin (h : string) : db :=
  mkDb true (Some []) (Some (mkAppointmentsTable [] true)) (Some [sample_admin h]) 2 0.
Definition login_request (e pwd : string) : request := mkRequest None [] (login_body e pwd) 0 None.
Definition admin123_hash : string := bcrypt_hash tag_bcrypt 10 "salt" "admin123".

Definition sample_login_token : string :=
  generateToken sample_jwt None (mkPayload 1 "admin@wellness.com") 0.
Definition bearer_request : request :=
  request_at (Some (String.append "Bearer " sample_login_token)) 60000.

Lemma login_token_authenticates_witness :
  exists token,
    login tag_bcrypt sample_jwt None (login_request "admin@wellness.com" "admin123")
          (db_with_admin admin123_hash) =
      (mkResponse 200 (HData (mkLoginData token 1 "admin@wellness.com" "Admin User")),
       db_with_admin admin123_hash) /\
    (req_authorization bearer_request = Some (String.append "Bearer " token) ->
     (jwt_clock (req_time bearer_request) < jwt_clock 0 + expires_in)%Z ->
     requireAuth sample_jwt None ok_handler bearer_request (empty_db 0) =
       ok_handler (with_user bearer_request (mkPayload 1 "admin@wellness.com")) (empty_db 0)).
Proof.
  apply (login_token_authenticates tag_bcrypt sample_jwt None ok_handler
           (login_request "admin@wellness.com" "admin123") (db_with_admin admin123_hash)
           [sample_admin admin123_hash] (sample_admin admin123_hash) 10 "salt" "admin123"
           bearer_request (empty_db 0));
    [reflexivity|apply NoDup_singleton|left; reflexivity|reflexivity|discriminate
    |discriminate|reflexivity].
Defined.

Lemma login_uniform_failure_witness :
  login tag_bcrypt sample_jwt None (login_request "admin@wellness.com" "admin12")
        (db_with_admin admin123_hash) =
    (error_response 401 "Invalid credentials", db_with_admin admin123_hash).
Proof.
  apply (login_uniform_failure tag_bcrypt sample_jwt None _ _ [sample_admin admin123_hash]
           "admin@wellness.com" "admin12"); [reflexivity|reflexivity|discriminate|discriminate|].
  intros r [<-|[]] _. vm_compute. reflexivity.
Defined.

Definition spaced_env : process_env :=
  mkEnv (Some "postgres://localhost/wellness") None None (Some " s3cret ") None.
Definition spaced_hash : string := resolveAdminHash tag_bcrypt spaced_env "salt".

Lemma login_requires_trimmed_password_witness :
  (req_body (login_request "admin@wellness.com" " s3cret ") = login_body "admin@wellness.com" " s3cret " ->
   login tag_bcrypt sample_jwt None (login_request "admin@wellness.com" " s3cret ")
         (db_with_admin spaced_hash) =
     (error_response 401 "Invalid credentials", db_with_admin spaced_hash)) /\
  (req_body (login_request "admin@wellness.com" " s3cret ") =
     login_body "admin@wellness.com" (js_trim " s3cret ") ->
   status (fst (login tag_bcrypt sample_jwt None (login_request "admin@wellness.com" " s3cret ")
                      (db_with_admin spaced_hash))) = 200%Z).
Proof.
  apply (login_requires_trimmed_password tag_bcrypt sample_jwt None spaced_env "salt" " s3cret "
           _ _ [sample_admin spaced_hash] (sample_admin spaced_hash));
    [reflexivity|apply NoDup_singleton|left; reflexivity|discriminate|reflexivity
    |reflexivity|reflexivity|discriminate|vm_compute; reflexivity|vm_compute; discriminate
    |vm_compute; reflexivity].
Defined.

End Login.
