(* ===== verification/MockApi.v ===== *)
(** * The mock API client (src/lib/mock-api.ts)

    [MockApiClient] talks to a third-party appointment source over HTTP
    and falls back to built-in data when the call fails.  [fetch] is the
    network, an input of each operation: it maps the request sent to the
    outcome (a rejection, or a status and a body that [response.json()]
    parses or rejects).  Each operation returns its result and the
    requests it sent. *)

From S2P Require Import Prelude Http.
From stdpp Require Import pretty.
Open Scope list_scope.

Module MockApi.
Import Http.

Record MockClient := mkMockClient { mc_id : string; mc_name : string; mc_email : string; mc_phone : string }.

(** [Omit<MockAppointment, "id">], as the appointments route fills it. *)
Record appointment_input := mkAppointmentInput {
  ai_clientId : jval; ai_title : jval; ai_description : jval; ai_date : jval;
  ai_duration : jval; ai_status : jval
}.

(** [{ id, ...appointment }] *)
Record MockAppointment := mkMockAppointment { ma_id : string; ma_fields : appointment_input }.

(** A request [fetch] is called with: method, URL, JSON body. *)
Record outbound := mkOutbound { ob_method : string; ob_url : string; ob_body : option appointment_input }.

Inductive fetch_outcome (A : Type) :=
| FetchRejected
| FetchResponse (status : Z) (json : option A).
Arguments FetchRejected {A}.
Arguments FetchResponse {A} status json.

Definition fetch_fn (A : Type) : Type := outbound -> fetch_outcome A.

(** [response.ok] *)
Definition response_ok (status : Z) : bool := ((200 <=? status) && (status <=? 299))%Z.

(** [try { if (!response.ok) throw ...; return await response.json() }
    catch { return fallback }] *)
Definition or_fallback {A} (o : fetch_outcome A) (fallback : A) : A :=
  match o with
  | FetchResponse st (Some a) => if response_ok st then a else fallback
  | _ => fallback
  end.

(** [process.env.MOCK_API_BASE_URL || "https://mock.api"] *)
Definition MOCK_API_BASE_URL (env : option string) : string := js_or env "https://mock.api".

Definition fallback_clients : list MockClient :=
  [mkMockClient "mock_1" "John Doe" "john@example.com" "+1-555-0101";
   mkMockClient "mock_2" "Jane Smith" "jane@example.com" "+1-555-0102"].

Section Client.
(** [this.baseUrl] *)
Variable baseUrl : string.

Definition get_request (path : string) : outbound := mkOutbound "GET" (baseUrl +:+ path) None.

Definition fetchClients (fetch : fetch_fn (list MockClient)) : list MockClient * list outbound :=
  (or_fallback (fetch (get_request "/clients")) fallback_clients, [get_request "/clients"]).

Definition fetchAppointments (fetch : fetch_fn (list MockAppointment))
  : list MockAppointment * list outbound :=
  (or_fallback (fetch (get_request "/appointments")) [], [get_request "/appointments"]).

(** The fallback is [{ id: `mock_${Date.now()}`, ...appointment }]. *)
Definition mockApiClient_createAppointment (fetch : fetch_fn MockAppointment) (now : Z)
           (appointment : appointment_input) : MockAppointment * list outbound :=
  let req := mkOutbound "POST" (baseUrl +:+ "/appointments") (Some appointment) in
  (or_fallback (fetch req) (mkMockAppointment ("mock_" +:+ pretty now) appointment), [req]).

End Client.

(** [export const mockApiClient = new MockApiClient()] *)
Definition mockApiClient_baseUrl (env : option string) : string := MOCK_API_BASE_URL env.

End MockApi.
