(* ===== verification/Clients.v ===== *)
(** * The clients listing (src/app/api/clients/route.ts)

    [GET /api/clients]: an optional [search] matched with [ILIKE] against
    name, email and phone, [page] and [limit] read with
    [Number.parseInt], the rows [ORDER BY created_at DESC] with
    [LIMIT]/[OFFSET], the [COUNT( * )] of the matching rows and
    [totalPages = Math.ceil(total / limit)]; a background call of
    [mockApiClient.fetchClients()] whose result is discarded.  The export
    is the handler behind [requireAuth]. *)

From S2P Require Import Prelude Db Http Queries Auth MockApi.
From stdpp Require Import pretty sorting.
Open Scope list_scope.

Module Clients.
Import Schema Http Queries Auth MockApi.

(** [{ clients, total, page, limit, totalPages }] *)
Record clients_page := mkClientsPage {
  cp_clients : list client_row;
  cp_total : js_num;
  cp_page : js_num;
  cp_limit : js_num;
  cp_totalPages : option Z
}.

(** [Math.ceil(total / limit)] as written to JSON. *)
Definition total_pages (total limit : js_num) : option Z :=
  match total, limit with Some c, Some l => json_ceil_div c l | _, _ => None end.

Section Clients.
Variables (J : Jwt) (jwt_secret_env : option string).
(** the mock API's base URL and the network *)
Variables (baseUrl : string) (fetch : fetch_fn (list MockClient)).

Definition getClients : handler clients_page := fun req d =>
  let sp := req_search req in
  let search := js_or (sp_get "search" sp) "" in
  let page := js_parseInt (js_or (sp_get "page" sp) "1") in
  let limit := js_parseInt (js_or (sp_get "limit" sp) "10") in
  let offset := num_mul (num_sub page (Some 1%Z)) limit in
  match select_clients search limit offset d, count_clients search d with
  | Ok rows, Ok count =>
      (** the sync's result is not used, and [fetchClients] never rejects *)
      let _mock := fetchClients baseUrl fetch in
      let total := js_parseInt (pretty count) in
      (mkResponse 200 (HData (mkClientsPage rows total page limit (total_pages total limit))), d)
  | _, _ => (error_response 500 "Failed to fetch clients", d)
  end.

(** [export const GET = requireAuth(getClients)] *)
Definition clients_GET : handler clients_page := requireAuth J jwt_secret_env getClients.

(** ** Behaviour *)

Lemma getClients_params req d p l :
  sp_get "page" (req_search req) = Some (pretty p) ->
  sp_get "limit" (req_search req) = Some (pretty l) ->
  getClients req d =
    let search := js_or (sp_get "search" (req_search req)) "" in
    match select_clients search (Some l) (Some ((p - 1) * l)%Z) d, count_clients search d with
    | Ok rows, Ok count =>
        (mkResponse 200 (HData (mkClientsPage rows (js_parseInt (pretty count)) (Some p) (Some l)
                                  (total_pages (js_parseInt (pretty count)) (Some l)))), d)
    | _, _ => (error_response 500 "Failed to fetch clients", d)
    end.
Proof.
  intros Hp Hl. unfold getClients. cbv zeta. rewrite Hp, Hl, !js_or_pretty, !parseInt_pretty.
  done.
Qed.

(** C38 (functional) A valid page request ([page >= 1], [limit >= 0], the
    offset within [bigint]) answers 200 with [total] the number of clients
    matching the search, the clients of the page ordered by [created_at]
    descending, all of them matching, as many as [LIMIT]/[OFFSET] leave,
    and [totalPages = ceil(total / limit)] ([null] when [limit] is 0). *)
Theorem getClients_page req d rows p l :
  db_clients d = Some rows ->
  sp_get "page" (req_search req) = Some (pretty p) ->
  sp_get "limit" (req_search req) = Some (pretty l) ->
  (1 <= p)%Z -> (0 <= l <= int8_max)%Z -> ((p - 1) * l <= int8_max)%Z ->
  let matching := search_filter (js_or (sp_get "search" (req_search req)) "") rows in
  let total := Z.of_nat (List.length matching) in
  exists pg, getClients req d = (mkResponse 200 (HData pg), d) /\
    cp_total pg = Some total /\ cp_page pg = Some p /\ cp_limit pg = Some l /\
    cp_totalPages pg = json_ceil_div total l /\
    StronglySorted created_desc (cp_clients pg) /\
    (forall r, In r (cp_clients pg) -> In r matching) /\
    Z.of_nat (List.length (cp_clients pg)) = Z.min l (Z.max 0 (total - (p - 1) * l)).
Proof.
  intros Hd Hp Hl Hp1 Hl0 Ho. cbv zeta. rewrite (getClients_params req d p l Hp Hl). cbv zeta.
  unfold select_clients, count_clients. rewrite Hd.
  rewrite limit_offset_ok by nia. rewrite parseInt_pretty.
  destruct (page_of_sorted created_desc
              (search_filter (js_or (sp_get "search" (req_search req)) "") rows)
              (Z.to_nat l) (Z.to_nat ((p - 1) * l))) as (Hs & Hin & Hlen).
  eexists. split; [reflexivity|]. simpl. do 5 (split; [done|]). split; [done|].
  rewrite Hlen. assert (0 <= (p - 1) * l)%Z by nia. set (o := ((p - 1) * l)%Z) in *. lia.
Qed.

(** C39 (error) [page=0] (or below) with a positive [limit] makes the
    offset [(page - 1) * limit] negative: PostgreSQL refuses the
    [OFFSET] and the route answers 500 instead of a client error. *)
Theorem getClients_nonpositive_page req d p l :
  sp_get "page" (req_search req) = Some (pretty p) ->
  sp_get "limit" (req_search req) = Some (pretty l) ->
  (p <= 0)%Z -> (0 < l <= int8_max)%Z -> (int8_min <= (p - 1) * l)%Z ->
  getClients req d = (error_response 500 "Failed to fetch clients", d).
Proof.
  intros Hp Hl Hp0 Hl0 Ho. rewrite (getClients_params req d p l Hp Hl). cbv zeta.
  unfold select_clients. destruct (db_clients d); [|done].
  rewrite limit_offset_negative_offset by (unfold int8_min in *; nia). done.
Qed.

(** A request without query parameters reads the first page of ten of
    all the clients. *)
Lemma getClients_default req d rows :
  req_search req = [] -> db_clients d = Some rows ->
  exists pg, getClients req d = (mkResponse 200 (HData pg), d) /\
    cp_total pg = Some (Z.of_nat (List.length rows)) /\
    Z.of_nat (List.length (cp_clients pg)) = Z.min 10 (Z.of_nat (List.length rows)).
Proof.
  intros Hsp Hd. unfold getClients. rewrite Hsp. cbv zeta.
  change (js_parseInt (js_or (sp_get "page" []) "1")) with (js_parseInt (pretty 1%Z)).
  change (js_parseInt (js_or (sp_get "limit" []) "10")) with (js_parseInt (pretty 10%Z)).
  rewrite !parseInt_pretty. unfold select_clients, count_clients. rewrite Hd.
  change (js_or (sp_get "search" []) "") with "". cbn [search_filter String.eqb].
  cbn [num_mul num_sub]. rewrite limit_offset_ok by (cbn; unfold int8_max; lia). rewrite parseInt_pretty.
  destruct (page_of_sorted created_desc rows (Z.to_nat 10) (Z.to_nat ((1 - 1) * 10))) as (_ & _ & Hlen).
  eexists. split; [reflexivity|]. split; [done|]. cbn [cp_clients]. rewrite Hlen. change (Z.to_nat ((1 - 1) * 10)) with 0%nat. rewrite Nat.sub_0_r. lia.
Qed.

End Clients.

(** ** Witnesses *)

Definition offline : fetch_fn (list MockClient) := fun _ => FetchRejected.

Definition sample_clients_db : db :=
  mkDb true
    (Some [mkClient 1 (Some "client_1") "John Doe" "john.doe@email.com" (Some "+1-555-0101") 10 10;
           mkClient 2 (Some "client_2") "Jane Smith" "jane.smith@email.com" (Some "+1-555-0102") 30 30;
           mkClient 3 (Some "client_3") "Bob Johnson" "bob.johnson@email.com" None 20 20])
    (Some (mkAppointmentsTable [] true)) (Some []) 4 40.

Definition page_request (sp : search_params) : request := mkRequest None sp BodyOther 0 None.

Lemma getClients_page_witness :
  let req := page_request [("search", "o"); ("page", "2"); ("limit", "2")] in
  let matching := search_filter (js_or (sp_get "search" (req_search req)) "")
                    (default [] (db_clients sample_clients_db)) in
  let total := Z.of_nat (List.length matching) in
  exists pg, getClients "https://mock.api" offline req sample_clients_db =
               (mkResponse 200 (HData pg), sample_clients_db) /\
    cp_total pg = Some total /\ cp_page pg = Some 2%Z /\ cp_limit pg = Some 2%Z /\
    cp_totalPages pg = json_ceil_div total 2 /\
    StronglySorted created_desc (cp_clients pg) /\
    (forall r, In r (cp_clients pg) -> In r matching) /\
    Z.of_nat (List.length (cp_clients pg)) = Z.min 2 (Z.max 0 (total - (2 - 1) * 2)).
Proof.
  apply (getClients_page "https://mock.api" offline _ sample_clients_db
           (default [] (db_clients sample_clients_db)) 2 2);
    [reflexivity|reflexivity|reflexivity|lia|unfold int8_max; lia|unfold int8_max; lia].
Defined.

Lemma getClients_nonpositive_page_witness :
  getClients "https://mock.api" offline (page_request [("page", "0"); ("limit", "10")])
    sample_clients_db =
    (error_response 500 "Failed to fetch clients", sample_clients_db).
Proof.
  apply (getClients_nonpositive_page "https://mock.api" offline _ _ 0 10);
    [reflexivity|reflexivity|lia|unfold int8_max; lia|unfold int8_min; lia].
Defined.

End Clients.
