(* ===== verification/Appointments.v ===== *)
(** * The appointments routes (src/app/api/appointments/route.ts and
      src/app/api/appointments/[id]/route.ts)

    [GET /api/appointments] lists appointments joined with their client,
    optionally of one client and only upcoming ones, paginated like the
    clients listing; [POST] checks the body, that the client exists,
    inserts the appointment and mirrors it to the mock API in the
    background; [PUT /api/appointments/[id]] updates the fields given with
    [COALESCE]; [DELETE] removes the row.  All four are exported behind
    [requireAuth]; the dynamic segment [id] is an argument of the two
    last. *)

From S2P Require Import Prelude Db Http Queries Auth MockApi Clients.
From stdpp Require Import pretty sorting.
Open Scope list_scope.

Module Appointments.
Import Schema Http Queries Auth MockApi Clients.

(** [{ appointments, total, page, limit, totalPages }] *)
Record appointments_page := mkAppointmentsPage {
  ap_appointments : list appointment_view;
  ap_total : js_num;
  ap_page : js_num;
  ap_limit : js_num;
  ap_totalPages : option Z
}.

Section Appointments.
Context `{!PgTypes}.
Variables (J : Jwt) (jwt_secret_env : option string).
(** the mock API's base URL and the network *)
Variables (baseUrl : string) (fetch : fetch_fn MockAppointment).

Definition getAppointments : handler appointments_page := fun req d =>
  let sp := req_search req in
  let clientId := sp_get "clientId" sp in
  let upcoming := bool_decide (sp_get "upcoming" sp = Some "true") in
  let page := js_parseInt (js_or (sp_get "page" sp) "1") in
  let limit := js_parseInt (js_or (sp_get "limit" sp) "10") in
  let offset := num_mul (num_sub page (Some 1%Z)) limit in
  (** [if (clientId)], [if (upcoming)]: the conditions and their parameters *)
  let cid := if js_truthy clientId then clientId else None in
  let since := if upcoming then Some (iso_string (req_time req)) else None in
  match select_appointments cid since limit offset d, count_appointments cid since d with
  | Ok rows, Ok count =>
      let total := js_parseInt (pretty count) in
      (mkResponse 200 (HData (mkAppointmentsPage rows total page limit
                                (total_pages total limit))), d)
  | _, _ => (error_response 500 "Failed to fetch appointments", d)
  end.

Definition createAppointment : handler appointment_row := fun req d =>
  match body_fields (req_body req) with
  | None => (error_response 500 "Failed to create appointment", d)
  | Some field =>
      let clientId := field "clientId" in
      let title := field "title" in
      let description := field "description" in
      let appointmentDate := field "appointmentDate" in
      let durationMinutes := field "durationMinutes" in
      if negb (jv_truthy clientId) || negb (jv_truthy title) || negb (jv_truthy appointmentDate)
      then (error_response 400 "Client ID, title, and appointment date are required", d)
      else match select_client_id (jv_param clientId) d with
      | Err _ => (error_response 500 "Failed to create appointment", d)
      | Ok [] => (error_response 404 "Client not found", d)
      | Ok (_ :: _) =>
          match insert_appointment_query (jv_param clientId) (jv_param title)
                  (jv_param description) (jv_param appointmentDate)
                  (jv_param (jv_or durationMinutes (JNum 60))) d with
          | Ok (QAppointments (appointment :: _), d') =>
              (** the sync's result is not used, and [createAppointment]
                  of the mock client never rejects *)
              let _mock := mockApiClient_createAppointment baseUrl fetch (req_time req)
                             (mkAppointmentInput clientId title (jv_or description (JStr ""))
                                appointmentDate (jv_or durationMinutes (JNum 60))
                                (JStr "scheduled")) in
              (mkResponse 201 (HData appointment), d')
          (** [INSERT ... RETURNING *] returns its row: not reached *)
          | Ok _ => (error_response 500 "Failed to create appointment", d)
          | Err _ => (error_response 500 "Failed to create appointment", d)
          end
      end
  end.

Definition updateAppointment (id : string) : handler appointment_row := fun req d =>
  match body_fields (req_body req) with
  | None => (error_response 500 "Failed to update appointment", d)
  | Some field =>
      match update_appointment_query (jv_param (field "title")) (jv_param (field "description"))
              (jv_param (field "appointmentDate")) (jv_param (field "durationMinutes"))
              (jv_param (field "status")) id d with
      | Err _ => (error_response 500 "Failed to update appointment", d)
      | Ok ([], d') => (error_response 404 "Appointment not found", d')
      | Ok (row :: _, d') => (mkResponse 200 (HData row), d')
      end
  end.

Definition deleteAppointment (id : string) : handler string := fun req d =>
  match delete_appointment_query id d with
  | Err _ => (error_response 500 "Failed to delete appointment", d)
  | Ok ([], d') => (error_response 404 "Appointment not found", d')
  | Ok (_ :: _, d') => (mkResponse 200 (HData "Appointment deleted successfully"), d')
  end.

(** The exports: [requireAuth(getAppointments)], ... *)
Definition appointments_GET : handler appointments_page := requireAuth J jwt_secret_env getAppointments.
Definition appointments_POST : handler appointment_row := requireAuth J jwt_secret_env createAppointment.
Definition appointment_PUT (id : string) : handler appointment_row :=
  requireAuth J jwt_secret_env (updateAppointment id).
Definition appointment_DELETE (id : string) : handler string :=
  requireAuth J jwt_secret_env (deleteAppointment id).

(** ** Creation *)

Definition appt_body (cid title date : string) (dur : Z) : json_body :=
  BodyObject [("clientId", JStr cid); ("title", JStr title); ("appointmentDate", JStr date);
              ("durationMinutes", JNum dur)].

(** Evaluate the fields of a literal JSON body. *)
Ltac lookup_fields :=
  repeat match goal with
  | |- context [lookup_last ?k ?fs] =>
      let v := eval cbv in (lookup_last k fs) in change (lookup_last k fs) with v
  end.

Lemma select_client_id_some d cs s c :
  db_clients d = Some cs -> uuid_in s = Some c -> In c (map client_id cs) ->
  exists x xs, select_client_id (Some s) d = Ok (x :: xs).
Proof.
  intros Hd Hu Hc. unfold select_client_id. rewrite Hd. simpl. rewrite Hu. simpl.
  apply in_map_iff in Hc as (r & <- & Hr).
  destruct (List.filter _ cs) as [|x xs] eqn:E; [|eauto].
  assert (Hin : In r (List.filter (fun r0 => bool_decide (Some (client_id r0) = Some (client_id r))) cs))
    by (apply filter_In; split; [done|by apply bool_decide_eq_true]).
  by rewrite E in Hin.
Qed.

Lemma select_client_id_none d cs s c :
  db_clients d = Some cs -> uuid_in s = Some c -> ~ In c (map client_id cs) ->
  select_client_id (Some s) d = Ok [].
Proof.
  intros Hd Hu Hc. unfold select_client_id. rewrite Hd. simpl. rewrite Hu. simpl.
  rewrite filter_none; [done|]. intros r Hr. apply bool_decide_eq_false. intros [= E].
  apply Hc. rewrite <- E. by apply in_map.
Qed.

Lemma int4_param_duration n :
  in_int4 n = true ->
  int4_param (jv_param (jv_or (JNum n) (JNum 60))) = Ok (Some (if Z.eqb n 0 then 60 else n)%Z).
Proof.
  intros Hn. unfold jv_or. change (jv_truthy (JNum n)) with (negb (Z.eqb n 0)).
  unfold in_int4 in Hn. apply andb_prop in Hn as [H1 H2]. apply Z.leb_le in H1, H2.
  destruct (Z.eqb_spec n 0) as [->|Hn0]; cbn [negb jv_param int4_param];
    rewrite pg_int_in_pretty; try done; unfold int4_min, int4_max in *; lia.
Qed.

(** C17 (functional) A complete request for an existing client inserts
    one appointment (fresh id, the client, title, date, status
    "scheduled", no description) and answers 201 with it; the stored
    duration is [durationMinutes || 60], so a duration of 0 is stored
    as 60. *)
Theorem createAppointment_inserts req d cs t cid c title date ts n :
  db_clients d = Some cs -> db_appointments d = Some t -> In c (map client_id cs) ->
  uuid_in cid = Some c -> timestamptz_in date = Some ts -> in_int4 n = true ->
  req_body req = appt_body cid title date n -> cid <> "" -> title <> "" -> date <> "" ->
  let row := mkAppointment (db_next_id d) None (Some c) title None ts
                           (Some (if Z.eqb n 0 then 60 else n)%Z) (Some "scheduled")
                           (db_now d) (db_now d) in
  createAppointment req d =
    (mkResponse 201 (HData row),
     set_appointments (bump_id d) (Some (mkAppointmentsTable (at_rows t ++ [row]) (at_fk_client t)))).
Proof.
  intros Hd Ht Hc Hu Hts Hn Hb Hcid Hti Hda. unfold createAppointment. rewrite Hb.
  cbv beta iota delta [body_fields appt_body]. lookup_fields.
  rewrite (jv_truthy_str cid Hcid), (jv_truthy_str title Hti), (jv_truthy_str date Hda).
  cbv [negb orb]. change (jv_param JUndefined) with (@None string).
  repeat match goal with |- context [jv_param (JStr ?s)] => change (jv_param (JStr s)) with (Some s) end.
  destruct (select_client_id_some d cs cid c Hd Hu Hc) as (x & xs & ->).
  unfold insert_appointment_query. rewrite Ht. simpl. rewrite Hu, Hts. simpl.
  rewrite (int4_param_duration n Hn). simpl.
  rewrite (insert_appointment_ok c title None ts _ d t Ht); [done| |].
  - unfold client_ids. by rewrite Hd.
  - destruct (Z.eqb n 0); [reflexivity|done].
Qed.

(** A request naming a client id that no client has is
    answered 404 "Client not found" and inserts nothing. *)
Theorem createAppointment_unknown_client req d cs cid c title date n :
  db_clients d = Some cs -> uuid_in cid = Some c -> ~ In c (map client_id cs) ->
  req_body req = appt_body cid title date n -> cid <> "" -> title <> "" -> date <> "" ->
  createAppointment req d = (error_response 404 "Client not found", d).
Proof.
  intros Hd Hu Hc Hb Hcid Hti Hda. unfold createAppointment. rewrite Hb.
  cbv beta iota delta [body_fields appt_body]. lookup_fields.
  rewrite (jv_truthy_str cid Hcid), (jv_truthy_str title Hti), (jv_truthy_str date Hda).
  cbv [negb orb]. change (jv_param (JStr cid)) with (Some cid).
  by rewrite (select_client_id_none d cs cid c Hd Hu Hc).
Qed.

(** ** The listing *)

(** C30 (safety) Every appointment [GET /api/appointments] lists is a row
    of the table shown with the name and email of the client it
    references (appointments without a client are not listed); with
    [clientId] it is that client's, with [upcoming=true] it is not
    before the request's instant; the database is not changed. *)
Theorem getAppointments_rows req d pg d' :
  getAppointments req d = (mkResponse 200 (HData pg), d') ->
  d' = d /\
  forall a n e, In (a, n, e) (ap_appointments pg) ->
    (exists t, db_appointments d = Some t /\ In a (at_rows t)) /\
    (exists cs c, db_clients d = Some cs /\ In c cs /\ appt_client_id a = Some (client_id c) /\
                  client_name c = n /\ client_email c = e) /\
    (forall s, sp_get "clientId" (req_search req) = Some s -> s <> "" ->
               exists k, uuid_in s = Some k /\ appt_client_id a = Some k) /\
    (sp_get "upcoming" (req_search req) = Some "true" -> (req_time req <= appt_date a)%Z).
Proof.
  intros H200. unfold getAppointments in H200. cbv zeta in H200.
  destruct (select_appointments _ _ _ _ d) as [rows|] eqn:Hs; [|discriminate].
  destruct (count_appointments _ _ d) as [cnt|]; [|discriminate]. injection H200 as <- <-.
  split; [done|]. intros a n e Hin. simpl in Hin.
  unfold select_appointments in Hs. apply res_bind_Ok_inv in Hs as (vs & Hvs & Hlo).
  apply (limit_offset_incl _ _ _ _ Hlo), In_merge_sort in Hin.
  unfold joined_views in Hvs.
  destruct (db_appointments d) as [t|] eqn:Ht; [|discriminate].
  destruct (db_clients d) as [cs|] eqn:Hcs; [|discriminate].
  apply res_bind_Ok_inv in Hvs as (k & Hk & Hvs). apply res_bind_Ok_inv in Hvs as (ts & Hts & Hvs).
  injection Hvs as <-. apply filter_In in Hin as [Hin Hf].
  apply In_join_clients in Hin as (Ha & c & Hc & Hac & Hn & He).
  unfold view_filter in Hf. simpl in Hf. apply andb_prop in Hf as [Hfk Hft].
  split; [eauto|]. split; [eauto 10|]. split.
  - intros s Hs Hne. rewrite Hs in Hk. simpl in Hk. destruct s as [|ch s']; [done|].
    simpl in Hk. destruct (uuid_in (String ch s')) as [k'|]; [|discriminate].
    injection Hk as <-. exists k'. split; [done|]. by apply bool_decide_eq_true in Hfk.
  - intros Hup. rewrite Hup in Hts. simpl in Hts. rewrite timestamptz_in_iso in Hts.
    injection Hts as <-. by apply Z.leb_le in Hft.
Qed.

(** ** Update and deletion *)

Lemma set_appt_rows_same d t : db_appointments d = Some t -> set_appt_rows d t (at_rows t) = d.
Proof. destruct d, t. simpl. by intros ->. Qed.



(** [DELETE] removes exactly the row of the id and
    answers 200; when no row has the id it answers 404 and the database
    is unchanged. *)
Theorem deleteAppointment_removes id i req d t :
  db_appointments d = Some t -> uuid_in id = Some i ->
  ((exists r, In r (at_rows t) /\ appt_id r = i) ->
   deleteAppointment id req d =
     (mkResponse 200 (HData "Appointment deleted successfully"),
      set_appt_rows d t (List.filter (fun r => negb (has_id (Some i) r)) (at_rows t)))) /\
  ((forall r, In r (at_rows t) -> appt_id r <> i) ->
   deleteAppointment id req d = (error_response 404 "Appointment not found", d)).
Proof.
  intros Ht Hu. unfold deleteAppointment, delete_appointment_query. rewrite Ht. simpl. rewrite Hu.
  simpl. split.
  - intros (r & Hr & Hi). destruct (List.filter (has_id (Some i)) (at_rows t)) eqn:E; [|done].
    assert (Hin : In r (List.filter (has_id (Some i)) (at_rows t)))
      by (apply filter_In; split; [done|by apply bool_decide_eq_true; rewrite Hi]).
    by rewrite E in Hin.
  - intros Hno. rewrite filter_none.
    + rewrite (filter_ext_in _ (fun _ => true)), filter_true, set_appt_rows_same; [done|done|].
      intros r Hr. apply negb_true_iff, bool_decide_eq_false. intros [= E]. by apply (Hno r).
    + intros r Hr. apply bool_decide_eq_false. intros [= E]. by apply (Hno r).
Qed.

End Appointments.

(** ** Witnesses *)

Definition mock_offline : fetch_fn MockAppointment := fun _ => FetchRejected.
Definition appt_request (b : json_body) (sp : search_params) : request := mkRequest None sp b 0 None.

Definition check_up : appointment_row :=
  mkAppointment 4 None (Some 1) "Check-up" None 100 (Some 60%Z) (Some "scheduled") 0 0.
Definition therapy : appointment_row :=
  mkAppointment 5 None (Some 2) "Therapy" (Some "weekly") 50 (Some 45%Z) (Some "scheduled") 0 0.
Definition walk_in : appointment_row :=
  mkAppointment 6 None None "Walk-in" None 70 None None 0 0.
Definition sample_appointments : list appointment_row := [check_up; therapy; walk_in].

Definition appt_db : db :=
  set_appointments sample_clients_db (Some (mkAppointmentsTable sample_appointments true)).

Lemma createAppointment_inserts_witness :
  let row := mkAppointment (db_next_id sample_clients_db) None (Some 1) "Check-up" None 1700000000000
               (Some (if Z.eqb 0 0 then 60 else 0)%Z) (Some "scheduled")
               (db_now sample_clients_db) (db_now sample_clients_db) in
  createAppointment "https://mock.api" mock_offline
    (appt_request (appt_body "1" "Check-up" "1700000000000" 0) []) sample_clients_db =
    (mkResponse 201 (HData row),
     set_appointments (bump_id sample_clients_db)
       (Some (mkAppointmentsTable ([] ++ [row]) true))).
Proof.
  apply (createAppointment_inserts "https://mock.api" mock_offline _ sample_clients_db
           (default [] (db_clients sample_clients_db)) (mkAppointmentsTable [] true)
           "1" 1 "Check-up" "1700000000000" 1700000000000 0);
    [reflexivity|reflexivity|simpl; tauto|reflexivity|reflexivity|reflexivity|reflexivity
    |discriminate|discriminate|discriminate].
Defined.

Lemma createAppointment_unknown_client_witness :
  createAppointment "https://mock.api" mock_offline
    (appt_request (appt_body "9" "Check-up" "1700000000000" 30) []) sample_clients_db =
    (error_response 404 "Client not found", sample_clients_db).
Proof.
  apply (createAppointment_unknown_client "https://mock.api" mock_offline _ sample_clients_db
           (default [] (db_clients sample_clients_db)) "9" 9 "Check-up" "1700000000000" 30);
    [reflexivity|reflexivity|simpl; lia|reflexivity|discriminate|discriminate|discriminate].
Defined.



Lemma deleteAppointment_removes_witness :
  ((exists r, In r sample_appointments /\ appt_id r = 4) ->
   deleteAppointment "4" (appt_request BodyOther []) appt_db =
     (mkResponse 200 (HData "Appointment deleted successfully"),
      set_appt_rows appt_db (mkAppointmentsTable sample_appointments true)
        (List.filter (fun r => negb (has_id (Some 4) r)) sample_appointments))) /\
  ((forall r, In r sample_appointments -> appt_id r <> 4) ->
   deleteAppointment "4" (appt_request BodyOther []) appt_db =
     (error_response 404 "Appointment not found", appt_db)).
Proof.
  apply (deleteAppointment_removes "4" 4 (appt_request BodyOther []) appt_db
           (mkAppointmentsTable sample_appointments true)); reflexivity.
Defined.

Definition listing_request : request :=
  appt_request BodyOther [("clientId", "1"); ("upcoming", "true")].

Lemma getAppointments_rows_witness :
  exists pg,
    getAppointments listing_request appt_db = (mkResponse 200 (HData pg), appt_db) /\
    (appt_db = appt_db /\
     forall a n e, In (a, n, e) (ap_appointments pg) ->
       (exists t, db_appointments appt_db = Some t /\ In a (at_rows t)) /\
       (exists cs c, db_clients appt_db = Some cs /\ In c cs /\ appt_client_id a = Some (client_id c) /\
                     client_name c = n /\ client_email c = e) /\
       (forall s, sp_get "clientId" (req_search listing_request) = Some s -> s <> "" ->
                  exists k, uuid_in s = Some k /\ appt_client_id a = Some k) /\
       (sp_get "upcoming" (req_search listing_request) = Some "true" ->
        (req_time listing_request <= appt_date a)%Z)).
Proof.
  match goal with
  | |- exists pg, ?lhs = _ /\ _ =>
      let v := eval vm_compute in lhs in
      match v with (mkResponse _ (HData ?p), _) => exists p end
  end.
  assert (Heq : getAppointments listing_request appt_db =
                (mkResponse 200 (HData (mkAppointmentsPage [(check_up, "John Doe", "john.doe@email.com")]
                   (Some 1%Z) (Some 1%Z) (Some 10%Z) (Some 1%Z))), appt_db))
    by (vm_compute; reflexivity).
  split; [exact Heq|]. exact (getAppointments_rows listing_request appt_db _ appt_db Heq).
Defined.

End Appointments.
