(* ===== verification/Api.v ===== *)
(** * The HTTP API as a whole

    The route table of src/app/api (login, the clients listing, the four
    appointment handlers, all but login behind [requireAuth]) as one
    function [serve] of a call and the database, and a sequence of calls
    as [serve_all].  The theorems say what holds of every sequence: the
    schema invariant [Schema.db_wf] that the provisioning script
    establishes is kept by every request. *)

From S2P Require Import Prelude Db Http Credential Migrate Queries Auth Login MockApi.
From S2P Require Import Clients Appointments.
Open Scope list_scope.

Module Api.
Import Schema Http Credential Migrate Queries Auth Login MockApi Clients Appointments.

(** A request to one of the exported route handlers. *)
Inductive api_call :=
| CallLogin (req : request)                       (** POST /api/auth/login *)
| CallClientsGet (req : request)                  (** GET /api/clients *)
| CallAppointmentsGet (req : request)             (** GET /api/appointments *)
| CallAppointmentsPost (req : request)            (** POST /api/appointments *)
| CallAppointmentPut (id : string) (req : request)     (** PUT /api/appointments/[id] *)
| CallAppointmentDelete (id : string) (req : request). (** DELETE /api/appointments/[id] *)

Section Api.
Context `{!PgTypes}.
Variables (B : Bcrypt) (J : Jwt) (jwt_secret_env : option string).
Variables (baseUrl : string) (fetch_clients : fetch_fn (list MockClient))
          (fetch_appt : fetch_fn MockAppointment).

(** The database after one request. *)
Definition serve (c : api_call) (d : db) : db :=
  match c with
  | CallLogin req => snd (login B J jwt_secret_env req d)
  | CallClientsGet req => snd (clients_GET J jwt_secret_env baseUrl fetch_clients req d)
  | CallAppointmentsGet req => snd (appointments_GET J jwt_secret_env req d)
  | CallAppointmentsPost req => snd (appointments_POST J jwt_secret_env baseUrl fetch_appt req d)
  | CallAppointmentPut id req => snd (appointment_PUT J jwt_secret_env id req d)
  | CallAppointmentDelete id req => snd (appointment_DELETE J jwt_secret_env id req d)
  end.

Fixpoint serve_all (cs : list api_call) (d : db) : db :=
  match cs with [] => d | c :: cs' => serve_all cs' (serve c d) end.

(** ** Every handler keeps the invariant *)

Lemma login_wf req d : db_wf d -> db_wf (snd (login B J jwt_secret_env req d)).
Proof. intros Hwf. unfold login. by repeat (case_match; simpl; try done). Qed.

Lemma getClients_wf req d : db_wf d -> db_wf (snd (getClients baseUrl fetch_clients req d)).
Proof. intros Hwf. unfold getClients. by repeat (case_match; simpl; try done). Qed.

Lemma getAppointments_wf req d : db_wf d -> db_wf (snd (getAppointments req d)).
Proof. intros Hwf. unfold getAppointments. by repeat (case_match; simpl; try done). Qed.

Lemma createAppointment_wf req d :
  db_wf d -> db_wf (snd (createAppointment baseUrl fetch_appt req d)).
Proof.
  intros Hwf. unfold createAppointment.
  destruct (body_fields _); [|done]. cbv zeta. case_match; [done|].
  destruct (select_client_id _ d) as [[|? ?]|]; [done| |done].
  destruct (insert_appointment_query _ _ _ _ _ d) as [[r d']|] eqn:Hq; [|done].
  pose proof (insert_appointment_query_wf _ _ _ _ _ _ _ _ Hwf Hq).
  by destruct r as [|[|? ?]].
Qed.

Lemma updateAppointment_wf id req d : db_wf d -> db_wf (snd (updateAppointment id req d)).
Proof.
  intros Hwf. unfold updateAppointment. destruct (body_fields _); [|done].
  destruct (update_appointment_query _ _ _ _ _ _ d) as [[rs d']|] eqn:Hq; [|done].
  pose proof (update_appointment_query_wf _ _ _ _ _ _ _ _ _ Hwf Hq). by destruct rs.
Qed.

Lemma deleteAppointment_wf id req d : db_wf d -> db_wf (snd (deleteAppointment id req d)).
Proof.
  intros Hwf. unfold deleteAppointment.
  destruct (delete_appointment_query id d) as [[rs d']|] eqn:Hq; [|done].
  pose proof (delete_appointment_query_wf _ _ _ _ Hwf Hq). by destruct rs.
Qed.

Lemma serve_wf c d : db_wf d -> db_wf (serve c d).
Proof.
  intros Hwf. destruct c; unfold serve, clients_GET, appointments_GET, appointments_POST,
    appointment_PUT, appointment_DELETE;
    try (apply (requireAuth_preserves J jwt_secret_env db_wf); [done|intros]).
  - by apply login_wf.
  - by apply getClients_wf.
  - by apply getAppointments_wf.
  - by apply createAppointment_wf.
  - by apply updateAppointment_wf.
  - by apply deleteAppointment_wf.
Qed.

Lemma serve_all_wf cs d : db_wf d -> db_wf (serve_all cs d).
Proof. revert d. induction cs as [|c cs IH]; intros d Hwf; simpl; auto using serve_wf. Qed.

(** ** From provisioning to service *)

Lemma run_stmts_wf qs d d' : db_wf d -> run_stmts qs d = Ok d' -> db_wf d'.
Proof.
  revert d. induction qs as [|q qs IH]; intros d Hwf Hrun; simpl in Hrun; [by injection Hrun as <-|].
  destruct (step_stmt q d) as [[r d1]|e] eqn:Hq; [|discriminate].
  exact (IH d1 (step_stmt_preserves_wf q d r d1 Hwf Hq) Hrun).
Qed.

Lemma empty_db_wf now : db_wf (empty_db now).
Proof. by constructor. Qed.

End Api.

(** ** Witnesses *)

Definition provision_env : process_env := env_with (Some "admin123") None.

Definition provisioned : db :=
  match run_stmts (migrate_stmts sample_bcrypt provision_env "salt" (mkFlags false false)) (empty_db 0) with
  | Ok d => d
  | Err _ => empty_db 0
  end.

Definition sample_session : list api_call :=
  [CallLogin (login_request "admin@wellness.com" "admin123");
   CallAppointmentsPost (appt_request (appt_body "3" "Check-up" "1700000000000" 0) []);
   CallAppointmentDelete "3" (appt_request BodyOther [])].

End Api.
