(* ===== verification/JsDate.v ===== *)
(** * JavaScript dates as the appointment form handles them

    A [Date] is a time value: milliseconds since 1970-01-01T00:00Z.  The
    form (src/components/appointment-form.tsx) turns one into the value
    of an [<input type="date">] with [toISOString().split("T")[0]] (the
    UTC calendar date) and into that of an [<input type="time">] with
    [toTimeString().slice(0, 5)] (the local hour and minute), and builds
    one back with [new Date(`${date}T${time}`)], which reads a date-time
    without offset as local time.  The local time zone is a fixed offset
    [tz] in milliseconds (a zone without daylight saving time).

    The calendar is the proleptic Gregorian one of ECMAScript, computed
    with the era-based day-number conversions ([civil_from_days],
    [days_from_civil]); their round trip is proved for every day number,
    by reduction to one 400-year era checked by evaluation. *)

From S2P Require Import Prelude.
From stdpp Require Import pretty.
Open Scope Z_scope.

Module JsDate.

Definition ms_per_day : Z := 86400000.

(** ** Day numbers and civil dates *)

(** Year of era, month and day of a day of era (0 is March 1st of a
    year divisible by 400). *)
Definition era_civil (doe : Z) : Z * Z * Z :=
  let yoe := (doe - doe / 1460 + doe / 36524 - doe / 146096) / 365 in
  let doy := doe - (365 * yoe + yoe / 4 - yoe / 100) in
  let mp := (5 * doy + 2) / 153 in
  let d := doy - (153 * mp + 2) / 5 + 1 in
  let m := if mp <? 10 then mp + 3 else mp - 9 in
  (yoe, m, d).

Definition era_days (yoe m d : Z) : Z :=
  let doy := (153 * (if 2 <? m then m - 3 else m + 9) + 2) / 5 + d - 1 in
  yoe * 365 + yoe / 4 - yoe / 100 + doy.

(** The date (year, month 1-12, day 1-31) of a day number. *)
Definition civil_from_days (z : Z) : Z * Z * Z :=
  let z' := z + 719468 in
  let era := z' / 146097 in
  let '(yoe, m, d) := era_civil (z' - era * 146097) in
  (yoe + era * 400 + (if m <=? 2 then 1 else 0), m, d).

Definition days_from_civil (y m d : Z) : Z :=
  let y' := if m <=? 2 then y - 1 else y in
  let era := y' / 400 in
  era * 146097 + era_days (y' - era * 400) m d - 719468.

(** *** One era, checked day by day *)

Definition era_ok (doe : Z) : bool :=
  let '(yoe, m, d) := era_civil doe in
  (0 <=? yoe) && (yoe <? 400) && (1 <=? m) && (m <=? 12) && (1 <=? d) && (d <=? 31) &&
  (era_days yoe m d =? doe).

(** [era_ok] holds on the [n] days from [z]. *)
Fixpoint all_days (n : nat) (z : Z) : bool :=
  match n with O => true | S k => era_ok z && all_days k (z + 1) end.

Lemma all_days_spec n z k : all_days n z = true -> z <= k < z + Z.of_nat n -> era_ok k = true.
Proof.
  revert z. induction n as [|n IH]; simpl; intros z; [lia|]. intros [Hz Hn]%andb_prop Hk.
  destruct (Z.eq_dec k z) as [->|Hne]; [done|]. apply (IH (z + 1)); [done|lia].
Qed.

Lemma all_days_era : all_days (Z.to_nat 146097) 0 = true.
Proof. vm_compute. reflexivity. Qed.

Lemma era_civil_ok doe :
  0 <= doe < 146097 ->
  let '(yoe, m, d) := era_civil doe in
  0 <= yoe < 400 /\ 1 <= m <= 12 /\ 1 <= d <= 31 /\ era_days yoe m d = doe.
Proof.
  intros Hd. pose proof (all_days_spec _ _ doe all_days_era ltac:(rewrite Z2Nat.id; lia)) as H.
  unfold era_ok in H.
  destruct (era_civil doe) as [[yoe m] d].
  repeat match goal with H : _ && _ = true |- _ => apply andb_prop in H as [? ?] end.
  repeat match goal with
         | H : (_ <=? _) = true |- _ => apply Z.leb_le in H
         | H : (_ <? _) = true |- _ => apply Z.ltb_lt in H
         | H : (_ =? _) = true |- _ => apply Z.eqb_eq in H
         end.
  lia.
Qed.

(** The day number of a date is recovered from it, for every day. *)
Lemma days_from_civil_from_days z :
  let '(y, m, d) := civil_from_days z in days_from_civil y m d = z.
Proof.
  unfold civil_from_days.
  pose proof (Z.div_mod (z + 719468) 146097 ltac:(lia)) as Hdm.
  pose proof (Z.mod_pos_bound (z + 719468) 146097 ltac:(lia)) as Hb.
  set (era := (z + 719468) / 146097) in *.
  assert (Hdoe : 0 <= z + 719468 - era * 146097 < 146097) by lia.
  pose proof (era_civil_ok _ Hdoe) as Hok.
  destruct (era_civil _) as [[yoe m] d]. destruct Hok as (Hy & Hm & Hd & Hinv).
  assert (Hq : (yoe + era * 400) / 400 = era).
  { rewrite Z.div_add by lia. rewrite Z.div_small by lia. lia. }
  unfold days_from_civil.
  destruct (m <=? 2).
  - replace (yoe + era * 400 + 1 - 1) with (yoe + era * 400) by lia.
    rewrite Hq. replace (yoe + era * 400 - era * 400) with yoe by lia. lia.
  - rewrite Z.add_0_r, Hq. replace (yoe + era * 400 - era * 400) with yoe by lia. lia.
Qed.

(** ** Text *)

Definition digit_char (n : Z) : ascii := ascii_of_nat (48 + Z.to_nat n).

(** The last [k] decimal digits of [n]. *)
Fixpoint digits (k : nat) (n : Z) : list ascii :=
  match k with O => [] | S k' => digits k' (n / 10) ++ [digit_char (n mod 10)] end.

Definition digit_val (c : ascii) : option Z :=
  let n := nat_of_ascii c in
  if ((48 <=? n) && (n <=? 57))%nat then Some (Z.of_nat n - 48) else None.

(** Exactly [k] digits. *)
Fixpoint read_digits (k : nat) (acc : Z) (l : list ascii) : option (Z * list ascii) :=
  match k with
  | O => Some (acc, l)
  | S k' =>
      match l with
      | c :: r => match digit_val c with Some v => read_digits k' (acc * 10 + v) r | None => None end
      | [] => None
      end
  end.

Lemma digit_val_char n : 0 <= n < 10 -> digit_val (digit_char n) = Some n.
Proof.
  intros Hn. unfold digit_val, digit_char. rewrite nat_ascii_embedding by lia.
  replace ((48 <=? 48 + Z.to_nat n) && (48 + Z.to_nat n <=? 57))%nat with true.
  - f_equal. lia.
  - symmetry. apply andb_true_iff. split; apply Nat.leb_le; lia.
Qed.

Lemma read_digits_app k : forall j acc n l,
  read_digits (k + j) acc (digits k n ++ l) = read_digits j (acc * 10 ^ Z.of_nat k + n mod 10 ^ Z.of_nat k) l.
Proof.
  induction k as [|k IH]; intros j acc n l.
  - simpl. f_equal. rewrite Z.mod_1_r. lia.
  - cbn [digits]. rewrite <- app_assoc. simpl app.
    replace (S k + j)%nat with (k + S j)%nat by lia. rewrite IH. cbn [read_digits].
    rewrite digit_val_char by (apply Z.mod_pos_bound; lia). f_equal.
    rewrite Nat2Z.inj_succ, Z.pow_succ_r by lia.
    rewrite Z.rem_mul_r by (lia || apply Z.pow_pos_nonneg; lia).
    ring.
Qed.

Lemma read_digits_exact k acc n l :
  0 <= n < 10 ^ Z.of_nat k -> read_digits k acc (digits k n ++ l) = Some (acc * 10 ^ Z.of_nat k + n, l).
Proof.
  intros Hn. rewrite <- (Nat.add_0_r k) at 1. rewrite read_digits_app.
  by rewrite (Z.mod_small n) by done.
Qed.

(** A digit is not a sign. *)
Lemma digit_char_sign n : 0 <= n < 10 ->
  Ascii.eqb (digit_char n) "+" = false /\ Ascii.eqb (digit_char n) "-" = false.
Proof.
  intros Hn. unfold digit_char. assert (Hk : (Z.to_nat n < 10)%nat) by lia.
  remember (Z.to_nat n) as k eqn:Ek. clear Ek Hn.
  do 10 (destruct k as [|k]; [split; reflexivity|]). lia.
Qed.

(** ** [toISOString().split("T")[0]] and [toTimeString().slice(0, 5)] *)

(** A year of 0 to 9999 has four digits, any other a sign and six. *)
Definition year_chars (y : Z) : list ascii :=
  if (0 <=? y) && (y <=? 9999) then digits 4 y
  else (if y <? 0 then "-"%char else "+"%char) :: digits 6 (Z.abs y).

Definition iso_date (t : Z) : string :=
  let '(y, m, d) := civil_from_days (t / ms_per_day) in
  string_of_list_ascii (year_chars y ++ "-"%char :: digits 2 m ++ "-"%char :: digits 2 d).

Definition local_hhmm (tz t : Z) : string :=
  let r := (t + tz) mod ms_per_day in
  string_of_list_ascii (digits 2 (r / 3600000) ++ ":"%char :: digits 2 ((r / 60000) mod 60)).

(** [toISOString()] of a valid date: [YYYY-MM-DDTHH:mm:ss.sssZ]. *)
Definition to_iso_string (t : Z) : string :=
  let r := t mod ms_per_day in
  String.append (iso_date t) (String.append "T" (string_of_list_ascii
    (digits 2 (r / 3600000) ++ ":"%char :: digits 2 ((r / 60000) mod 60) ++ ":"%char ::
     digits 2 ((r / 1000) mod 60) ++ "."%char :: digits 3 (r mod 1000) ++ ["Z"%char]))).

(** ** [new Date(`${date}T${time}`)] in the local time zone *)

Definition read_year (l : list ascii) : option (Z * list ascii) :=
  match l with
  | c :: r =>
      if Ascii.eqb c "+" then read_digits 6 0 r
      else if Ascii.eqb c "-" then option_map (fun p => (- p.1, p.2)) (read_digits 6 0 r)
      else read_digits 4 0 l
  | [] => None
  end.

Definition expect (c : ascii) (l : list ascii) : option (list ascii) :=
  match l with c' :: r => if Ascii.eqb c' c then Some r else None | [] => None end.

(** [TimeClip]: a time value more than 8.64e15 ms away from the epoch is
    an Invalid Date ([None]). *)
Definition max_time : Z := 8640000000000000.
Definition time_clip (t : Z) : option Z := if Z.abs t <=? max_time then Some t else None.

(** [None] is an Invalid Date. *)
Definition parse_local (tz : Z) (s : string) : option Z :=
  '(y, r) ← read_year (list_ascii_of_string s);
  r ← expect "-" r; '(m, r) ← read_digits 2 0 r;
  r ← expect "-" r; '(d, r) ← read_digits 2 0 r;
  r ← expect "T" r; '(hh, r) ← read_digits 2 0 r;
  r ← expect ":" r; '(mi, r) ← read_digits 2 0 r;
  if bool_decide (r = [] /\ 1 <= m <= 12 /\ 1 <= d <= 31 /\ 0 <= hh <= 23 /\ 0 <= mi <= 59)
  then time_clip (days_from_civil y m d * ms_per_day + hh * 3600000 + mi * 60000 - tz)
  else None.

(** [new Date(s)] on a date-time string with the [Z] offset, the format
    [toISOString] writes and the API sends.  ECMAScript's parser accepts
    other forms too (a date alone, an offset other than [Z]); no value of
    this program is in them, and they are an Invalid Date here. *)
Definition parse_iso (s : string) : option Z :=
  '(y, r) ← read_year (list_ascii_of_string s);
  r ← expect "-" r; '(m, r) ← read_digits 2 0 r;
  r ← expect "-" r; '(d, r) ← read_digits 2 0 r;
  r ← expect "T" r; '(hh, r) ← read_digits 2 0 r;
  r ← expect ":" r; '(mi, r) ← read_digits 2 0 r;
  r ← expect ":" r; '(ss, r) ← read_digits 2 0 r;
  r ← expect "." r; '(ms, r) ← read_digits 3 0 r;
  r ← expect "Z" r;
  if bool_decide (r = [] /\ 1 <= m <= 12 /\ 1 <= d <= 31 /\ 0 <= hh <= 23 /\ 0 <= mi <= 59 /\
                  0 <= ss <= 59)
  then time_clip (days_from_civil y m d * ms_per_day + hh * 3600000 + mi * 60000 + ss * 1000 + ms)
  else None.

(** ** The edit form's round trip *)

Lemma civil_from_days_spec z :
  let '(y, m, d) := civil_from_days z in
  days_from_civil y m d = z /\ 1 <= m <= 12 /\ 1 <= d <= 31 /\
  400 * ((z + 719468) / 146097) <= y <= 400 * ((z + 719468) / 146097) + 400.
Proof.
  pose proof (days_from_civil_from_days z) as Hr. revert Hr. unfold civil_from_days.
  pose proof (Z.div_mod (z + 719468) 146097 ltac:(lia)) as Hdm.
  pose proof (Z.mod_pos_bound (z + 719468) 146097 ltac:(lia)) as Hb.
  assert (Hdoe : 0 <= z + 719468 - (z + 719468) / 146097 * 146097 < 146097) by lia.
  pose proof (era_civil_ok _ Hdoe) as Hok.
  destruct (era_civil _) as [[yoe m] d]. destruct Hok as (Hy & Hm & Hd & _).
  intros Hr. repeat split; try lia; destruct (m <=? 2); lia.
Qed.

Lemma digits_head k n : (0 < k)%nat -> exists n0 t, digits k n = digit_char n0 :: t /\ 0 <= n0 < 10.
Proof.
  revert n. induction k as [|k IH]; intros n Hk; [lia|].
  destruct k as [|k].
  - exists (n mod 10), []. split; [done|]. apply Z.mod_pos_bound. lia.
  - destruct (IH (n / 10) ltac:(lia)) as (n0 & t & Ht & Hn0).
    exists n0, (t ++ [digit_char (n mod 10)]). split; [|done].
    change (digits (S (S k)) n) with (digits (S k) (n / 10) ++ [digit_char (n mod 10)]). by rewrite Ht.
Qed.

Lemma read_year_chars y rest :
  - 10 ^ 6 < y < 10 ^ 6 -> read_year (year_chars y ++ rest) = Some (y, rest).
Proof.
  intros Hy. unfold year_chars.
  destruct ((0 <=? y) && (y <=? 9999)) eqn:E.
  - apply andb_prop in E as [E1 E2]. apply Z.leb_le in E1, E2.
    destruct (digits_head 4 y ltac:(lia)) as (n0 & t & Ht & Hn0).
    pose proof (digit_char_sign n0 Hn0) as Hs.
    rewrite Ht. simpl app. unfold read_year. destruct Hs as [-> ->].
    change (digit_char n0 :: t ++ rest) with ((digit_char n0 :: t) ++ rest). rewrite <- Ht.
    by rewrite read_digits_exact by (simpl; lia).
  - destruct (Z.ltb_spec y 0).
    + cbn [app read_year Ascii.eqb Bool.eqb andb].
      rewrite read_digits_exact by (simpl; lia). cbn [option_map fst snd]. do 2 f_equal. lia.
    + cbn [app read_year Ascii.eqb Bool.eqb andb].
      rewrite read_digits_exact by (simpl; lia). do 2 f_equal. lia.
Qed.

Lemma hhmm_split r :
  0 <= r < ms_per_day -> r mod 60000 = 0 ->
  0 <= r / 3600000 <= 23 /\ 0 <= (r / 60000) mod 60 <= 59 /\
  r / 3600000 * 3600000 + (r / 60000) mod 60 * 60000 = r.
Proof.
  unfold ms_per_day. intros Hr Hm.
  pose proof (Z.div_mod r 60000 ltac:(lia)) as Hq. rewrite Hm, Z.add_0_r in Hq.
  replace 3600000 with (60000 * 60) by lia. rewrite <- Z.div_div by lia.
  pose proof (Z.div_mod (r / 60000) 60 ltac:(lia)) as Hq2.
  pose proof (Z.mod_pos_bound (r / 60000) 60 ltac:(lia)) as Hb.
  repeat split; lia.
Qed.

Lemma append_T a b :
  String.append (string_of_list_ascii a) (String.append "T" (string_of_list_ascii b)) =
  string_of_list_ascii (a ++ "T"%char :: b).
Proof. induction a as [|c a IH]; [done|]. exact (f_equal (String c) IH). Qed.

(** One step of the parser: a separator, then [k] digits. *)
Ltac parse_step :=
  cbn [mbind option_bind expect Ascii.eqb Bool.eqb andb];
  rewrite ?read_digits_exact by (simpl; lia).

(** [new Date(`${date}T${time}`)] on the text the form writes. *)
Lemma parse_local_digits tz y m d hh mi :
  - 10 ^ 6 < y < 10 ^ 6 -> 0 <= m < 100 -> 0 <= d < 100 -> 0 <= hh < 100 -> 0 <= mi < 100 ->
  parse_local tz (string_of_list_ascii (year_chars y ++ "-"%char :: digits 2 m ++ "-"%char :: digits 2 d
                   ++ "T"%char :: digits 2 hh ++ ":"%char :: digits 2 mi)) =
  if bool_decide (1 <= m <= 12 /\ 1 <= d <= 31 /\ 0 <= hh <= 23 /\ 0 <= mi <= 59)
  then time_clip (days_from_civil y m d * ms_per_day + hh * 3600000 + mi * 60000 - tz) else None.
Proof.
  intros Hy Hm Hd Hh Hmi. unfold parse_local. rewrite list_ascii_of_string_of_list_ascii.
  rewrite <- (app_nil_r (digits 2 mi)), read_year_chars by done.
  do 5 parse_step. rewrite !Z.mul_0_l, !Z.add_0_l.
  do 2 case_bool_decide; first [reflexivity | tauto].
Qed.

(** The calendar date of a valid time value, with a year the ISO format
    writes in at most six digits. *)
Lemma civil_of_time t :
  - max_time <= t <= max_time ->
  let '(y, m, d) := civil_from_days (t / ms_per_day) in
  days_from_civil y m d = t / ms_per_day /\ 1 <= m <= 12 /\ 1 <= d <= 31 /\ - 10 ^ 6 < y < 10 ^ 6.
Proof.
  intros Ht. pose proof (civil_from_days_spec (t / ms_per_day)) as Hc.
  destruct (civil_from_days (t / ms_per_day)) as [[y m] d]. destruct Hc as (Hinv & Hm12 & Hd31 & Hy).
  do 3 (split; [done|]).
  pose proof (Z.div_mod t ms_per_day ltac:(unfold ms_per_day; lia)) as H1.
  pose proof (Z.mod_pos_bound t ms_per_day ltac:(unfold ms_per_day; lia)) as H2.
  pose proof (Z.div_mod (t / ms_per_day + 719468) 146097 ltac:(lia)) as H3.
  pose proof (Z.mod_pos_bound (t / ms_per_day + 719468) 146097 ltac:(lia)) as H4.
  unfold ms_per_day, max_time in *. simpl. lia.
Qed.

Lemma hms_split r :
  0 <= r < ms_per_day ->
  0 <= r / 3600000 <= 23 /\ 0 <= (r / 60000) mod 60 <= 59 /\ 0 <= (r / 1000) mod 60 <= 59 /\
  0 <= r mod 1000 < 1000 /\
  r / 3600000 * 3600000 + (r / 60000) mod 60 * 60000 + (r / 1000) mod 60 * 1000 + r mod 1000 = r.
Proof.
  unfold ms_per_day. intros Hr.
  replace 3600000 with (1000 * 60 * 60) by lia. replace 60000 with (1000 * 60) by lia.
  rewrite <- !Z.div_div by lia.
  pose proof (Z.div_mod r 1000 ltac:(lia)). pose proof (Z.mod_pos_bound r 1000 ltac:(lia)).
  pose proof (Z.div_mod (r / 1000) 60 ltac:(lia)). pose proof (Z.mod_pos_bound (r / 1000) 60 ltac:(lia)).
  pose proof (Z.div_mod (r / 1000 / 60) 60 ltac:(lia)).
  pose proof (Z.mod_pos_bound (r / 1000 / 60) 60 ltac:(lia)).
  repeat split; lia.
Qed.

(** Reading back what the edit form wrote: the UTC date of [t] with the
    local time of [t]. *)
Lemma parse_local_edit tz t :
  - max_time <= t <= max_time -> (t + tz) mod 60000 = 0 ->
  parse_local tz (String.append (iso_date t) (String.append "T" (local_hhmm tz t))) =
    time_clip (t - ms_per_day * ((t mod ms_per_day + tz) / ms_per_day)).
Proof.
  intros Ht Hm. unfold iso_date, local_hhmm. pose proof (civil_of_time t Ht) as Hc.
  destruct (civil_from_days (t / ms_per_day)) as [[y m] d]. destruct Hc as (Hinv & Hm12 & Hd31 & Hyb).
  set (r := (t + tz) mod ms_per_day).
  assert (Hr : 0 <= r < ms_per_day) by (apply Z.mod_pos_bound; unfold ms_per_day; lia).
  assert (Hr60 : r mod 60000 = 0).
  { unfold r, ms_per_day. replace 86400000 with (60000 * 1440) by lia.
    rewrite Z.rem_mul_r, Hm, Z.add_0_l by lia. apply Z.mod_divide; [lia|]. apply Z.divide_factor_l. }
  destruct (hhmm_split r Hr Hr60) as (Hhh & Hmi & Hsum).
  rewrite append_T, <- app_assoc. change (("-"%char :: ?a) ++ ?b) with ("-"%char :: a ++ b).
  rewrite <- app_assoc. change (("-"%char :: ?a) ++ ?b) with ("-"%char :: a ++ b).
  rewrite parse_local_digits by lia. rewrite bool_decide_true by lia. rewrite Hinv. f_equal.
  assert (Er : r = (t mod ms_per_day + tz) mod ms_per_day) by (unfold r; by rewrite Zplus_mod_idemp_l).
  pose proof (Z.div_mod t ms_per_day ltac:(unfold ms_per_day; lia)).
  pose proof (Z.div_mod (t mod ms_per_day + tz) ms_per_day ltac:(unfold ms_per_day; lia)).
  unfold ms_per_day in *. lia.
Qed.

Lemma parse_iso_digits y m d hh mi ss ms :
  - 10 ^ 6 < y < 10 ^ 6 -> 0 <= m < 100 -> 0 <= d < 100 -> 0 <= hh < 100 -> 0 <= mi < 100 ->
  0 <= ss < 100 -> 0 <= ms < 1000 ->
  parse_iso (String.append (string_of_list_ascii (year_chars y ++ "-"%char :: digits 2 m ++ "-"%char :: digits 2 d))
    (String.append "T" (string_of_list_ascii (digits 2 hh ++ ":"%char :: digits 2 mi ++ ":"%char ::
       digits 2 ss ++ "."%char :: digits 3 ms ++ ["Z"%char])))) =
  if bool_decide (1 <= m <= 12 /\ 1 <= d <= 31 /\ 0 <= hh <= 23 /\ 0 <= mi <= 59 /\ 0 <= ss <= 59)
  then time_clip (days_from_civil y m d * ms_per_day + hh * 3600000 + mi * 60000 + ss * 1000 + ms)
  else None.
Proof.
  intros Hy Hm Hd Hh Hmi Hs Hms. unfold parse_iso. rewrite append_T, list_ascii_of_string_of_list_ascii.
  rewrite <- app_assoc, read_year_chars by done. cbn [app].
  rewrite <- !app_assoc. cbn [app].
  do 7 parse_step. rewrite !Z.mul_0_l, !Z.add_0_l.
  do 2 case_bool_decide; first [reflexivity | tauto].
Qed.

(** [new Date(d.toISOString())] is [d]. *)
Lemma parse_iso_to_iso t : - max_time <= t <= max_time -> parse_iso (to_iso_string t) = Some t.
Proof.
  intros Ht. unfold to_iso_string, iso_date. pose proof (civil_of_time t Ht) as Hc.
  destruct (civil_from_days (t / ms_per_day)) as [[y m] d]. destruct Hc as (Hinv & Hm12 & Hd31 & Hyb).
  assert (Hr : 0 <= t mod ms_per_day < ms_per_day) by (apply Z.mod_pos_bound; unfold ms_per_day; lia).
  destruct (hms_split _ Hr) as (Hhh & Hmi & Hss & Hms & Hsum).
  rewrite parse_iso_digits by lia. rewrite bool_decide_true by lia. rewrite Hinv.
  pose proof (Z.div_mod t ms_per_day ltac:(unfold ms_per_day; lia)).
  unfold time_clip. rewrite (proj2 (Z.leb_le _ _)) by (unfold max_time in *; lia). f_equal. lia.
Qed.

End JsDate.
