(* ===== verification/Wire.v ===== *)
(** * The HTTP boundary: the route table as the network sees it

    What [fetch] sends and receives.  A request is a method, a URL (path
    and query string), an [Authorization] header and a body text; a
    response is a status and a body text.  The server side is the App
    Router of src/app/api: the directory of a [route.ts] and its
    exported [GET]/[POST]/[PUT]/[DELETE] choose the handler
    ([route]); [new URL(request.url).searchParams] reads the query
    ([UrlEncoded.parse_query]); [request.json()] parses the body; the
    handler's [NextResponse.json(body, { status })] is written with
    [JSON.stringify] after node-postgres has turned each row into an
    object with one property per column ([enc_client], [enc_appt],
    [enc_view]): UUIDs and text as strings, [timestamptz] as a [Date]
    (its ISO string in JSON), [INTEGER] as a number, SQL [NULL] as
    [null].  [server] is one request; it changes the database exactly as
    [Api.serve] does. *)

From S2P Require Import Prelude Db Http Json UrlEncoded Credential Queries Auth Login MockApi.
From S2P Require Import Clients Appointments Api.
From stdpp Require Import pretty.
Open Scope list_scope.

Module Wire.
Import Schema Http Json UrlEncoded Credential Queries Auth Login MockApi Clients Appointments Api.

Record http_request := mkHttpRequest {
  hr_method : string;
  hr_url : string;                    (** path and query string *)
  hr_authorization : option string;   (** the [Authorization] header *)
  hr_body : option string             (** the body text; [None] without a body *)
}.

Record http_response := mkHttpResponse { hs_status : Z; hs_body : string }.

(** [response.ok] *)
Definition http_ok (r : http_response) : bool := ((200 <=? hs_status r) && (hs_status r <=? 299))%Z.

(** ** URLs *)

Fixpoint split_on (sep : ascii) (l : list ascii) : list (list ascii) :=
  match l with
  | [] => [[]]
  | c :: r =>
      if Ascii.eqb c sep then [] :: split_on sep r
      else match split_on sep r with p :: ps => (c :: p) :: ps | [] => [[c]] end
  end.

Fixpoint split_query (l : list ascii) : list ascii * option (list ascii) :=
  match l with
  | [] => ([], None)
  | c :: r => if Ascii.eqb c "?" then ([], Some r) else let '(a, b) := split_query r in (c :: a, b)
  end.

(** The segments of the path: ["/api/clients"] is [""; "api"; "clients"]. *)
Definition url_path (u : string) : list string :=
  map string_of_list_ascii (split_on "/" (split_query (list_ascii_of_string u)).1).

Definition url_query (u : string) : search_params :=
  match (split_query (list_ascii_of_string u)).2 with
  | Some q => parse_query (string_of_list_ascii q)
  | None => []
  end.

(** ** The route table *)

Inductive routed :=
| Found (call : request -> api_call)
| MethodNotAllowed
| NotFound.

(** src/app/api/auth/login/route.ts exports [POST]; clients/route.ts
    [GET]; appointments/route.ts [GET] and [POST];
    appointments/[id]/route.ts [PUT] and [DELETE], with the segment as
    [params.id]. *)
Definition route (m : string) (path : list string) : routed :=
  match path with
  | root :: api :: rest =>
      if negb (String.eqb root "" && String.eqb api "api") then NotFound else
      match rest with
      | [r1] =>
          if String.eqb r1 "clients" then
            (if String.eqb m "GET" then Found CallClientsGet else MethodNotAllowed)
          else if String.eqb r1 "appointments" then
            (if String.eqb m "GET" then Found CallAppointmentsGet
             else if String.eqb m "POST" then Found CallAppointmentsPost
             else MethodNotAllowed)
          else NotFound
      | [r1; r2] =>
          if String.eqb r1 "auth" && String.eqb r2 "login" then
            (if String.eqb m "POST" then Found CallLogin else MethodNotAllowed)
          else if String.eqb r1 "appointments" then
            (if String.eqb m "PUT" then Found (CallAppointmentPut r2)
             else if String.eqb m "DELETE" then Found (CallAppointmentDelete r2)
             else MethodNotAllowed)
          else NotFound
      | _ => NotFound
      end
  | _ => NotFound
  end.

(** ** Bodies *)

(** node-postgres' [prepareValue] of an array ([arrayString]): elements
    between braces, [null] as [NULL], nested arrays as arrays, any other
    element as its text, quoted with [\] and the quote escaped. *)
Definition pg_escape_element (s : string) : string :=
  string_of_list_ascii
    (quote_char :: flat_map (fun c => if Ascii.eqb c backslash || Ascii.eqb c quote_char
                                      then [backslash; c] else [c]) (list_ascii_of_string s)
     ++ [quote_char]).

Section Bodies.
Context `{!JsonCodec}.

Fixpoint pg_elem (v : json) : string :=
  match v with
  | JsNull => "NULL"
  | JsArr l =>
      String.append "{"
        (String.append
           ((fix go l := match l with
                         | [] => ""
                         | [x] => pg_elem x
                         | x :: l' => String.append (pg_elem x) (String.append "," (go l'))
                         end) l) "}")
  | JsObj _ => pg_escape_element (stringify v)
  | _ => pg_escape_element (js_String v)
  end.

(** A field of the parsed body as a parameter of [pool.query]. *)
Definition jval_of (v : json) : jval :=
  match v with
  | JsNull => JNull
  | JsBool b => JBool b
  | JsNum n => JNum n
  | JsStr s => JStr s
  | JsArr _ => JOther (pg_elem v)
  | JsObj _ => JOther (stringify v)
  end.

(** [await request.json()] *)
Definition body_of (t : option string) : json_body :=
  match match t with Some s => parse s | None => None end with
  | None => BodyMalformed
  | Some JsNull => BodyNull
  | Some (JsObj fs) => BodyObject (map (fun kv => (kv.1, jval_of kv.2)) fs)
  | Some _ => BodyOther
  end.

End Bodies.

(** ** Responses *)

Section Server.
Context `{!PgTypes} `{!JsonCodec}.
Variables (B : Bcrypt) (J : Jwt) (jwt_secret_env : option string).
Variables (baseUrl : string) (fetch_clients : fetch_fn (list MockClient))
          (fetch_appt : fetch_fn MockAppointment).

Definition enc_opt_str (o : option string) : json :=
  match o with Some s => JsStr s | None => JsNull end.
Definition enc_uuid (u : nat) : json := JsStr (uuid_out u).
Definition enc_time (t : Z) : json := JsStr (iso_string t).
(** [JSON.stringify(NaN)] and of [Infinity] is [null]. *)
Definition enc_num (n : js_num) : json := match n with Some z => JsNum z | None => JsNull end.

(** A row of [SELECT * FROM clients]. *)
Definition enc_client (r : client_row) : json :=
  JsObj [("id", enc_uuid (client_id r)); ("external_id", enc_opt_str (client_external_id r));
         ("name", JsStr (client_name r)); ("email", JsStr (client_email r));
         ("phone", enc_opt_str (client_phone r)); ("created_at", enc_time (client_created_at r));
         ("updated_at", enc_time (client_updated_at r))].

(** The columns of [appointments], in the order of [CREATE TABLE]. *)
Definition appt_fields (r : appointment_row) : list (string * json) :=
  [("id", enc_uuid (appt_id r)); ("external_id", enc_opt_str (appt_external_id r));
   ("client_id", match appt_client_id r with Some c => enc_uuid c | None => JsNull end);
   ("title", JsStr (appt_title r)); ("description", enc_opt_str (appt_description r));
   ("appointment_date", enc_time (appt_date r));
   ("duration_minutes", enc_num (appt_duration_minutes r));
   ("status", enc_opt_str (appt_status r)); ("created_at", enc_time (appt_created_at r));
   ("updated_at", enc_time (appt_updated_at r))].

(** [RETURNING *] *)
Definition enc_appt (r : appointment_row) : json := JsObj (appt_fields r).

(** [SELECT a.*, c.name as client_name, c.email as client_email] *)
Definition enc_view (v : appointment_view) : json :=
  JsObj (appt_fields v.1.1 ++ [("client_name", JsStr v.1.2); ("client_email", JsStr v.2)]).

Definition enc_clients_page (p : clients_page) : json :=
  JsObj [("clients", JsArr (map enc_client (cp_clients p))); ("total", enc_num (cp_total p));
         ("page", enc_num (cp_page p)); ("limit", enc_num (cp_limit p));
         ("totalPages", enc_num (cp_totalPages p))].

Definition enc_appointments_page (p : appointments_page) : json :=
  JsObj [("appointments", JsArr (map enc_view (ap_appointments p))); ("total", enc_num (ap_total p));
         ("page", enc_num (ap_page p)); ("limit", enc_num (ap_limit p));
         ("totalPages", enc_num (ap_totalPages p))].

(** [{ token, admin: { id, email, name } }] *)
Definition enc_login (d : login_data) : json :=
  JsObj [("token", JsStr (ld_token d));
         ("admin", JsObj [("id", enc_uuid (ld_id d)); ("email", JsStr (ld_email d));
                          ("name", JsStr (ld_name d))])].

(** [{ message: "Appointment deleted successfully" }] *)
Definition enc_message (m : string) : json := JsObj [("message", JsStr m)].

Definition enc_response {A} (enc : A -> json) (r : response A) : Z * json :=
  (status r, match payload r with HError m => JsObj [("error", JsStr m)] | HData a => enc a end).

(** One call of an exported handler: the status, the JSON body and the
    database after it. *)
Definition respond (c : api_call) (d : db) : (Z * json) * db :=
  match c with
  | CallLogin req => let '(r, d') := login B J jwt_secret_env req d in (enc_response enc_login r, d')
  | CallClientsGet req =>
      let '(r, d') := clients_GET J jwt_secret_env baseUrl fetch_clients req d in
      (enc_response enc_clients_page r, d')
  | CallAppointmentsGet req =>
      let '(r, d') := appointments_GET J jwt_secret_env req d in
      (enc_response enc_appointments_page r, d')
  | CallAppointmentsPost req =>
      let '(r, d') := appointments_POST J jwt_secret_env baseUrl fetch_appt req d in
      (enc_response enc_appt r, d')
  | CallAppointmentPut id req =>
      let '(r, d') := appointment_PUT J jwt_secret_env id req d in (enc_response enc_appt r, d')
  | CallAppointmentDelete id req =>
      let '(r, d') := appointment_DELETE J jwt_secret_env id req d in (enc_response enc_message r, d')
  end.

(** The request object a handler receives at the instant [now]. *)
Definition to_request (now : Z) (hr : http_request) : request :=
  mkRequest (hr_authorization hr) (url_query (hr_url hr)) (body_of (hr_body hr)) now None.

(** The page Next.js answers for a path without a route. *)
Definition not_found_page : string := "<!DOCTYPE html><html><body>404: This page could not be found.</body></html>".

(** One request reaching the Next.js server at the instant [now]. *)
Definition server (now : Z) (hr : http_request) (d : db) : http_response * db :=
  match route (hr_method hr) (url_path (hr_url hr)) with
  | Found call =>
      let '((st, body), d') := respond (call (to_request now hr)) d in
      (mkHttpResponse st (stringify body), d')
  | MethodNotAllowed => (mkHttpResponse 405 "", d)
  | NotFound => (mkHttpResponse 404 not_found_page, d)
  end.

Lemma respond_serve c d : snd (respond c d) = serve B J jwt_secret_env baseUrl fetch_clients fetch_appt c d.
Proof. destruct c; simpl; by repeat match goal with |- context [let '(_, _) := ?p in _] => destruct p end. Qed.

(** Every request keeps the schema invariant. *)
Lemma server_wf now hr d : db_wf d -> db_wf (snd (server now hr d)).
Proof.
  intros Hwf. unfold server. destruct (route _ _) as [call| |]; simpl; [|done|done].
  pose proof (respond_serve (call (to_request now hr)) d) as E.
  destruct (respond _ d) as [[st body] d']. simpl in *. subst d'. by apply serve_wf.
Qed.

End Server.

End Wire.
