(* ===== verification/Browser.v ===== *)
(** * The browser side of the session: useAuth, useApi and the home page

    src/hooks/use-auth.ts keeps the signed-in admin in React state
    ([admin], [token], [isLoading]) and in [localStorage] ([auth_token],
    [admin_data]); its mount effect restores the state from the storage,
    [login] posts the credentials and stores the answer, [logout] clears
    both.  src/hooks/use-api.ts sends every other call with the token as a
    [Bearer] header and turns a failed response into a rejected promise.
    src/app/page.tsx shows "Loading...", the dashboard or the login form.

    The network is a parameter: [net] takes a request and the state of
    the other side and answers; App.v plugs in the Next.js server of
    Wire.v.  A JavaScript value that may be [undefined] or [null] is an
    [option json] ([None] for both: no code of these files tells them
    apart except [JSON.stringify] and [String], written out where they
    are used).  A rejected promise is [Err] of a [js_error]. *)

From S2P Require Import Prelude Http Json Wire.
From stdpp Require Import gmap.
Open Scope list_scope.

Module Browser.
Import Http Json Wire.

(** [localStorage]: string keys, string values. *)
Abbreviation storage := (gmap string string).

Definition getItem (k : string) (m : storage) : option string := m !! k.
Definition setItem (k v : string) (m : storage) : storage := <[k := v]> m.
Definition removeItem (k : string) (m : storage) : storage := delete k m.
Arguments getItem : simpl never.
Arguments setItem : simpl never.
Arguments removeItem : simpl never.

Lemma getItem_remove_eq k m : getItem k (removeItem k m) = None.
Proof. apply lookup_delete_eq. Qed.
Lemma getItem_remove_ne k k' m : k <> k' -> getItem k (removeItem k' m) = getItem k m.
Proof. intros Hk. by apply lookup_delete_ne. Qed.
Lemma getItem_set_eq k v m : getItem k (setItem k v m) = Some v.
Proof. apply lookup_insert_eq. Qed.
Lemma getItem_set_ne k k' v m : k <> k' -> getItem k (setItem k' v m) = getItem k m.
Proof. intros Hk. by apply lookup_insert_ne. Qed.

#[export] Hint Rewrite getItem_remove_eq getItem_set_eq : wellness_rw.


(** The state hooks of [AuthProvider] (use-auth.ts lines 32-34). *)
Record auth_state := mkAuth {
  admin : option json;      (** [useState<Admin | null>(null)] *)
  token : option json;      (** [useState<string | null>(null)] *)
  isLoading : bool          (** [useState(true)] *)
}.

Definition initial_auth : auth_state := mkAuth None None true.

Record browser := mkBrowser { ls : storage; auth : auth_state }.

(** Why a promise rejected: an [Error] with its message, or the
    [SyntaxError] of [JSON.parse] / [response.json()], or the [TypeError]
    of reading a property of [null]. *)
Inductive js_error :=
| JsError (message : string)
| JsSyntaxError
| JsTypeError.

(** [null] and [undefined] are the same state. *)
Definition nullish (o : option json) : option json :=
  match o with Some JsNull => None | _ => o end.

(** [x?.error || d] as the message of [new Error(...)]. *)
Definition error_message (o : option json) (d : string) : string :=
  match o with Some v => if json_truthy v then js_String v else d | None => d end.

(** [err instanceof Error ? err.message : ...] in a [catch]: every
    rejection of these hooks is an [Error]; the message of an engine's
    [SyntaxError] or [TypeError] is the engine's text [builtin_message]. *)
Definition err_message (builtin_message : js_error -> string) (e : js_error) : string :=
  match e with JsError m => m | _ => builtin_message e end.

Section Client.
Context `{!JsonCodec}.
(** The other side of the network and its state. *)
Variables (S : Type) (net : http_request -> S -> http_response * S).

(** ** The mount effect (use-auth.ts lines 37-53) *)

Definition str_truthy (o : option string) : bool :=
  match o with Some s => negb (String.eqb s "") | None => false end.

Definition restore (b : browser) : browser :=
  let storedToken := getItem "auth_token" (ls b) in
  let storedAdmin := getItem "admin_data" (ls b) in
  let a := auth b in
  let tok := if str_truthy storedToken then option_map JsStr storedToken else token a in
  let '(adm, ls') :=
    match storedAdmin with
    | Some text =>
        if str_truthy storedAdmin then
          match parse text with
          | Some v => (nullish (Some v), ls b)
          | None => (admin a, removeItem "admin_data" (ls b))
          end
        else (admin a, ls b)
    | None => (admin a, ls b)
    end in
  mkBrowser ls' (mkAuth adm tok false).

(** ** [login] (use-auth.ts lines 55-72) *)

Definition login_request (email password : string) : http_request :=
  mkHttpRequest "POST" "/api/auth/login" None
    (Some (stringify (JsObj [("email", JsStr email); ("password", JsStr password)]))).

(** [JSON.stringify(x)] as [setItem] stores it: [undefined] gives
    [undefined], stored as the text "undefined". *)
Definition stringify_opt (o : option json) : string :=
  match o with Some v => stringify v | None => "undefined" end.

Definition login (email password : string) (b : browser) (s : S) : res js_error unit * browser * S :=
  let '(resp, s') := net (login_request email password) s in
  if negb (http_ok resp) then
    (** [await response.json().catch(() => ({}))] *)
    let error := default (JsObj []) (parse (hs_body resp)) in
    (Err (JsError (error_message (get "error" error) "Login failed")), b, s')
  else
    match parse (hs_body resp) with
    | None => (Err JsSyntaxError, b, s')
    | Some JsNull => (Err JsTypeError, b, s')
    | Some v =>
        let tok := get "token" v in
        let adm := get "admin" v in
        let ls' := setItem "admin_data" (stringify_opt adm) (setItem "auth_token" (js_String_opt tok) (ls b)) in
        (Ok tt, mkBrowser ls' (mkAuth (nullish adm) (nullish tok) (isLoading (auth b))), s')
    end.

(** ** [logout] (use-auth.ts lines 74-79) *)

Definition logout (b : browser) : browser :=
  mkBrowser (removeItem "admin_data" (removeItem "auth_token" (ls b)))
            (mkAuth None None (isLoading (auth b))).

(** ** [apiCall] (use-api.ts lines 8-26) *)

(** [...(token && { Authorization: `Bearer ${token}` })] *)
Definition auth_header (tok : option json) : option string :=
  if opt_truthy tok then Some (String.append "Bearer " (js_String_opt tok)) else None.

(** [apiCall(url, { method, body })]; no caller passes headers. *)
Definition apiCall (tok : option json) (method url : string) (body : option string) (s : S)
  : res js_error json * S :=
  let '(resp, s') := net (mkHttpRequest method url (auth_header tok) body) s in
  if negb (http_ok resp) then
    (** [const error = await response.json()] *)
    match parse (hs_body resp) with
    | None => (Err JsSyntaxError, s')
    | Some JsNull => (Err JsTypeError, s')
    | Some v => (Err (JsError (error_message (get "error" v) "API call failed")), s')
    end
  else
    match parse (hs_body resp) with
    | None => (Err JsSyntaxError, s')
    | Some v => (Ok v, s')
    end.

End Client.

Arguments str_truthy : simpl never.

(** ** Reloading the page *)

Section Reload.
Context `{!JsonCodec}.

(** A new page load: fresh React state, then the mount effect. *)
Definition reload (b : browser) : browser := restore (mkBrowser (ls b) initial_auth).

Lemma str_truthy_nonempty s : s <> "" -> str_truthy (Some s) = true.
Proof. intros Hs. unfold str_truthy. by rewrite (proj2 (String.eqb_neq s "") Hs). Qed.

Lemma reload_loading b : isLoading (auth (reload b)) = false.
Proof. unfold reload, restore. by repeat case_match. Qed.

(** After a reload the storage holds nothing the next reload would drop. *)
Lemma reload_idem b : reload (reload b) = reload b.
Proof.
  destruct b as [m a]. unfold reload, restore. simpl.
  destruct (getItem "admin_data" m) as [t|] eqn:Ea; simpl; rewrite ?Ea; try done.
  destruct (str_truthy (Some t)) eqn:Hta; simpl; rewrite ?Ea, ?Hta; try done.
  destruct (parse t) as [v|] eqn:Hp; simpl; rewrite ?Ea, ?Hta, ?Hp; try done.
  by rewrite getItem_remove_eq, getItem_remove_ne.
Qed.

End Reload.

(** ** What the server must answer to a login *)

(** [{ token, admin }] with a non-empty token string. *)
Definition login_answer (v : json) : Prop :=
  exists t a, get "token" v = Some (JsStr t) /\ t <> "" /\ get "admin" v = Some a.

Section LoginContract.
Context `{!JsonCodec}.
Variables (S : Type) (net : http_request -> S -> http_response * S).

(** Every successful answer of [net] to a login request has that shape. *)
Definition login_contract : Prop :=
  forall e p s, http_ok (net (login_request e p) s).1 = true ->
    exists v, parse (hs_body (net (login_request e p) s).1) = Some v /\ login_answer v.

Hypothesis Hnet : login_contract.

(** A login keeps the browser in the state a reload would give. *)
Lemma login_reload e p b s :
  reload b = b -> reload (login S net e p b s).1.2 = (login S net e p b s).1.2.
Proof.
  intros Hb. unfold login. specialize (Hnet e p s).
  destruct (net (login_request e p) s) as [resp s'] eqn:En. cbn [fst snd] in Hnet |- *.
  destruct (http_ok resp) eqn:Hok; cbn [negb fst snd]; [|exact Hb].
  destruct (Hnet eq_refl) as (v & Hv & t & a & Ht & Htne & Ha). rewrite Hv.
  assert (v <> JsNull) as Hnn by (intros ->; discriminate).
  assert (Hl : isLoading (auth b) = false) by (rewrite <- Hb; apply reload_loading).
  destruct v; try done. rewrite Ht, Ha. cbn [fst snd]. unfold reload, restore. simpl.
  rewrite !getItem_set_eq, getItem_set_ne, getItem_set_eq by done.
  rewrite (str_truthy_nonempty t Htne), (str_truthy_nonempty _ (stringify_nonempty a)), parse_stringify.
  by rewrite Hl.
Qed.

End LoginContract.

(** The other side sees exactly one request of a login or an [apiCall]. *)
Lemma login_net `{!JsonCodec} S net e p b s :
  snd (Browser.login S net e p b s) = snd (net (login_request e p) s).
Proof. unfold login. destruct (net _ s) as [resp s']. simpl. by repeat case_match. Qed.

Lemma apiCall_net `{!JsonCodec} S net tok m u body s :
  snd (apiCall S net tok m u body s) = snd (net (mkHttpRequest m u (auth_header tok) body) s).
Proof. unfold apiCall. destruct (net _ s) as [resp s']. simpl. by repeat case_match. Qed.

(** A logout keeps it too. *)
Lemma logout_reload `{!JsonCodec} b : reload b = b -> reload (logout b) = logout b.
Proof.
  intros Hb. unfold reload, restore, logout. simpl.
  rewrite !getItem_remove_eq, getItem_remove_ne, getItem_remove_eq by done. simpl. f_equal. f_equal.
  rewrite <- Hb. by rewrite reload_loading.
Qed.

(** ** The home page (src/app/page.tsx) *)

Inductive home_view := HomeLoading | HomeDashboard | HomeLoginForm.

Definition home (mounted : bool) (a : auth_state) : home_view :=
  if negb mounted || isLoading a then HomeLoading
  else if opt_truthy (admin a) then HomeDashboard else HomeLoginForm.

End Browser.
