(* ===== verification/App.v ===== *)
(** * The application: the browser session against the server

    Browser.v with its network instantiated by the Next.js server of
    Wire.v.  A [world] is the browser (its [localStorage] and the state of
    [AuthProvider]) and the database; an [action] is what can happen to
    it at an instant: a page load, a login or logout from the UI, a call
    of [apiCall] by the dashboard, or a request of any other client.  The
    theorems: every reachable world keeps both the schema invariant and
    the browser in the state a reload would give; a login opens every
    guarded route for 24 hours as the admin who logged in; after that
    the dashboard stays up while every call fails. *)

From S2P Require Import Prelude Db Http Json Credential Queries Auth Login MockApi.
From S2P Require Import Clients Appointments Api Wire Browser.
Open Scope list_scope.

Module App.
Import Schema Http Json Credential Queries Auth Login MockApi Clients Appointments Api Wire Browser.

Section App.
Context `{!PgTypes} `{!JsonCodec}.
Variables (B : Bcrypt) (J : Jwt) (jwt_secret_env : option string).
Variables (baseUrl : string) (fetch_clients : fetch_fn (list MockClient))
          (fetch_appt : fetch_fn MockAppointment).

(** The server answering at the instant [now]. *)
Definition net (now : Z) : http_request -> db -> http_response * db :=
  server B J jwt_secret_env baseUrl fetch_clients fetch_appt now.

Record world := mkWorld { w_browser : browser; w_db : db }.

Inductive action :=
| PageLoad
| SignIn (email password : string)
| SignOut
| ApiCall (method url : string) (body : option string)
| OtherClient (hr : http_request).

Definition act (now : Z) (a : action) (w : world) : world :=
  match a with
  | PageLoad => mkWorld (reload (w_browser w)) (w_db w)
  | SignIn e p =>
      let '(_, b', d') := Browser.login db (net now) e p (w_browser w) (w_db w) in mkWorld b' d'
  | SignOut => mkWorld (logout (w_browser w)) (w_db w)
  | ApiCall m u body =>
      mkWorld (w_browser w)
              (snd (apiCall db (net now) (token (auth (w_browser w))) m u body (w_db w)))
  | OtherClient hr => mkWorld (w_browser w) (snd (net now hr (w_db w)))
  end.

(** The first page load on a provisioned database, then any actions. *)
Inductive reachable : world -> Prop :=
| reach_init m d : db_wf d -> reachable (mkWorld (reload (mkBrowser m initial_auth)) d)
| reach_step w now a : reachable w -> reachable (act now a w).

(** ** A signed-in session *)

(** The handlers behind [requireAuth], run as the user [p]. *)
Definition respond_as (p : jwt_payload) (c : api_call) (d : db) : (Z * json) * db :=
  match c with
  | CallLogin _ => respond B J jwt_secret_env baseUrl fetch_clients fetch_appt c d
  | CallClientsGet req =>
      let '(r, d') := getClients baseUrl fetch_clients (with_user req p) d in
      (enc_response enc_clients_page r, d')
  | CallAppointmentsGet req =>
      let '(r, d') := getAppointments (with_user req p) d in (enc_response enc_appointments_page r, d')
  | CallAppointmentsPost req =>
      let '(r, d') := createAppointment baseUrl fetch_appt (with_user req p) d in (enc_response enc_appt r, d')
  | CallAppointmentPut id req =>
      let '(r, d') := updateAppointment id (with_user req p) d in (enc_response enc_appt r, d')
  | CallAppointmentDelete id req =>
      let '(r, d') := deleteAppointment id (with_user req p) d in (enc_response enc_message r, d')
  end.

Definition guarded (c : api_call) : Prop := match c with CallLogin _ => False | _ => True end.

Definition call_request (c : api_call) : request :=
  match c with
  | CallLogin r | CallClientsGet r | CallAppointmentsGet r | CallAppointmentsPost r
  | CallAppointmentPut _ r | CallAppointmentDelete _ r => r
  end.

(** The body of an error answer. *)
Definition error_json (msg : string) : json := JsObj [("error", JsStr msg)].

Section Session.
Context `{!JwtLaws J}.

(** A route under [requireAuth] sees a token signed at [iat] as its user
    until it expires, and answers 401 after. *)
Lemma respond_signed p iat c d :
  req_authorization (call_request c) = Some (String.append "Bearer " (jwt_sign J p (JWT_SECRET jwt_secret_env) iat)) ->
  ((jwt_clock (req_time (call_request c)) < iat + expires_in)%Z ->
   respond B J jwt_secret_env baseUrl fetch_clients fetch_appt c d = respond_as p c d) /\
  (guarded c -> (iat + expires_in <= jwt_clock (req_time (call_request c)))%Z ->
   respond B J jwt_secret_env baseUrl fetch_clients fetch_appt c d = ((401%Z, error_json "Invalid or expired token"), d)).
Proof.
  intros Ha. split; intros Ht; destruct c as [req|req|req|req|id req|id req]; simpl in *; try done;
    unfold clients_GET, appointments_GET, appointments_POST, appointment_PUT, appointment_DELETE.
  all: try (intros Hexp).
  all: first [ rewrite (proj1 (requireAuth_signed J jwt_secret_env _ p iat req d Ha) Ht); reflexivity
             | rewrite (proj2 (requireAuth_signed J jwt_secret_env _ p iat req d Ha) Hexp); reflexivity ].
Qed.

(** A route under [requireAuth] refuses a request without a token. *)
Lemma respond_anonymous c d :
  guarded c -> req_authorization (call_request c) = None ->
  respond B J jwt_secret_env baseUrl fetch_clients fetch_appt c d = ((401%Z, error_json "Authentication required"), d).
Proof.
  intros Hg Ha. destruct c as [req|req|req|req|id req|id req]; simpl in *; try done;
    unfold clients_GET, appointments_GET, appointments_POST, appointment_PUT, appointment_DELETE,
      requireAuth; by rewrite Ha.
Qed.

End Session.

Lemma server_found now hr d call :
  route (hr_method hr) (url_path (hr_url hr)) = Found call ->
  net now hr d =
    let '((st, body), d') := respond B J jwt_secret_env baseUrl fetch_clients fetch_appt
                                    (call (to_request now hr)) d in
    (mkHttpResponse st (stringify body), d').
Proof. intros Hr. unfold net, server. by rewrite Hr. Qed.

Lemma body_of_login e p :
  body_of (Some (stringify (JsObj [("email", JsStr e); ("password", JsStr p)]))) = login_body e p.
Proof. unfold body_of. by rewrite parse_stringify. Qed.

Lemma auth_header_token t : t <> "" -> auth_header (Some (JsStr t)) = Some (String.append "Bearer " t).
Proof. intros Ht. unfold auth_header, opt_truthy. simpl. by rewrite (proj2 (String.eqb_neq t "") Ht). Qed.

(** [apiCall] rejects with the message of an error answer. *)
Lemma apiCall_error S (net' : http_request -> S -> http_response * S) tok m u body s st msg s' :
  net' (mkHttpRequest m u (auth_header tok) body) s = (mkHttpResponse st (stringify (error_json msg)), s') ->
  http_ok (mkHttpResponse st "") = false -> msg <> "" ->
  apiCall S net' tok m u body s = (Err (JsError msg), s').
Proof.
  intros Hn Hok Hm. unfold apiCall. rewrite Hn. unfold http_ok in *. simpl in *. rewrite Hok. simpl.
  rewrite parse_stringify. unfold error_message. simpl.
  by rewrite (proj2 (String.eqb_neq msg "") Hm).
Qed.

Lemma route_request m path call :
  route m path = Found call -> forall req, call_request (call req) = req.
Proof. unfold route. intros Hr req. repeat case_match; simplify_eq; reflexivity. Qed.

Lemma url_login : url_path "/api/auth/login" = [""; "api"; "auth"; "login"].
Proof. reflexivity. Qed.

Lemma route_login : route "POST" (url_path "/api/auth/login") = Found CallLogin.
Proof. by rewrite url_login. Qed.

(** The admin's data and token, as the login route answers them. *)
Definition login_data_of (r : admin_row) (now : Z) : login_data :=
  mkLoginData (generateToken J jwt_secret_env (mkPayload (admin_id r) (admin_email r)) now)
              (admin_id r) (admin_email r) (admin_name r).

Section SignIn.
Context `{!BcryptLaws B} `{!JwtLaws J}.
Variables (d : db) (rows : list admin_row) (r : admin_row) (cost : nat) (salt pwd : string).
Hypotheses (Hd : db_admins d = Some rows) (Hnd : NoDup (map admin_email rows)) (Hin : In r rows)
           (He : admin_email r <> "") (Hp : pwd <> "")
           (Hh : admin_password_hash r = bcrypt_hash B cost salt pwd).

(** The server's answer to the login form. *)
Lemma sign_in_answer now :
  net now (login_request (admin_email r) pwd) d =
    (mkHttpResponse 200 (stringify (enc_login (login_data_of r now))), d).
Proof.
  rewrite (server_found now (login_request (admin_email r) pwd) d CallLogin route_login). simpl respond.
  rewrite (login_credentials B J jwt_secret_env _ d (admin_email r) pwd) by (done || apply body_of_login).
  rewrite (select_admin_unique d rows r Hd Hnd Hin). unfold comparePassword. by rewrite Hh, compare_hash.
Qed.

(** The browser after the login: both entries stored, both states set. *)
Definition signed_in (b : browser) (now : Z) : browser :=
  let ld := login_data_of r now in
  let adm := JsObj [("id", enc_uuid (ld_id ld)); ("email", JsStr (ld_email ld)); ("name", JsStr (ld_name ld))] in
  mkBrowser (setItem "admin_data" (stringify adm) (setItem "auth_token" (ld_token ld) (ls b)))
            (mkAuth (Some adm) (Some (JsStr (ld_token ld))) (isLoading (auth b))).

Lemma sign_in b now :
  Browser.login db (net now) (admin_email r) pwd b d = (Ok tt, signed_in b now, d).
Proof. unfold Browser.login. rewrite sign_in_answer. simpl. by rewrite parse_stringify. Qed.

Lemma signed_in_header b now :
  auth_header (token (auth (signed_in b now))) =
    Some (String.append "Bearer " (jwt_sign J (mkPayload (admin_id r) (admin_email r))
                                     (JWT_SECRET jwt_secret_env) (jwt_clock now))).
Proof. apply auth_header_token, sign_nonempty. Qed.

(** The request a signed-in browser sends carries the token of the login. *)
Lemma signed_in_request b t0 t1 m u body call :
  route m (url_path u) = Found call ->
  req_authorization (call_request (call (to_request t1 (mkHttpRequest m u (auth_header (token (auth (signed_in b t0)))) body)))) =
    Some (String.append "Bearer " (jwt_sign J (mkPayload (admin_id r) (admin_email r))
                                     (JWT_SECRET jwt_secret_env) (jwt_clock t0))) /\
  req_time (call_request (call (to_request t1 (mkHttpRequest m u (auth_header (token (auth (signed_in b t0)))) body)))) = t1.
Proof. intros Hr. rewrite (route_request _ _ _ Hr). split; [apply signed_in_header|done]. Qed.

(** What a session opened at [t0] for the user [p] gives: until the token
    expires, every request the dashboard sends through [useApi] is
    answered by the handler of its route, run as [p]. *)
Definition opens_routes (b : browser) (t0 : Z) (p : jwt_payload) : Prop :=
  forall t1 m u body call d1,
    route m (url_path u) = Found call ->
    (jwt_clock t1 < jwt_clock t0 + expires_in)%Z ->
    let hr := mkHttpRequest m u (auth_header (token (auth b))) body in
    net t1 hr d1 =
      let '((st, v), d2) := respond_as p (call (to_request t1 hr)) d1 in (mkHttpResponse st (stringify v), d2).

Lemma signed_in_opens b t0 : opens_routes (signed_in b t0) t0 (mkPayload (admin_id r) (admin_email r)).
Proof.
  intros t1 m u body call d1 Hr Ht. cbv zeta.
  rewrite (server_found t1 (mkHttpRequest m u _ body) d1 call Hr).
  destruct (signed_in_request b t0 t1 m u body call Hr) as [Ha Hti].
  rewrite (proj1 (respond_signed _ _ _ d1 Ha)); [done|]. by rewrite Hti.
Qed.

(** C11 (refinement) Signing in from the login form with the password
    the stored hash was made from succeeds, stores the session and
    changes no data; from then on, for 24 hours, every call [useApi]
    makes is handled by its route's handler as the admin who signed in,
    exactly as if [requireAuth] were not there. *)
Theorem sign_in_opens_routes b t0 :
  Browser.login db (net t0) (admin_email r) pwd b d = (Ok tt, signed_in b t0, d) /\
  opens_routes (signed_in b t0) t0 (mkPayload (admin_id r) (admin_email r)).
Proof.
  split; [apply sign_in|apply signed_in_opens].
Qed.

(** C14 (error) A session is never ended by the client: 24 hours after
    signing in, a reload still shows the dashboard (the stored admin is
    restored), while every call [useApi] makes to a guarded route
    rejects with "Invalid or expired token" and changes nothing. *)
Theorem stale_session b t0 :
  Browser.login db (net t0) (admin_email r) pwd b d = (Ok tt, signed_in b t0, d) /\
  home true (auth (reload (signed_in b t0))) = HomeDashboard /\
  forall t1 m u body call d1,
    route m (url_path u) = Found call -> (forall req, guarded (call req)) ->
    (jwt_clock t0 + expires_in <= jwt_clock t1)%Z ->
    apiCall db (net t1) (token (auth (signed_in b t0))) m u body d1 =
      (Err (JsError "Invalid or expired token"), d1).
Proof.
  split; [apply sign_in|]. split.
  - unfold reload, restore, signed_in. simpl.
    rewrite !getItem_set_eq, (str_truthy_nonempty _ (stringify_nonempty _)), parse_stringify.
    by unfold home.
  - intros t1 m u body call d1 Hr Hg Ht.
    apply (apiCall_error _ _ _ _ _ _ _ 401%Z); [|done|done].
    rewrite (server_found t1 (mkHttpRequest m u _ body) d1 call Hr).
    destruct (signed_in_request b t0 t1 m u body call Hr) as [Ha Hti].
    rewrite (proj2 (respond_signed _ _ _ d1 Ha)); [done|apply Hg|]. by rewrite Hti.
Qed.

End SignIn.

(** C15 (safety) After [logout] every call [useApi] makes to a guarded
    route rejects with "Authentication required" and changes nothing,
    and a reload shows the login form: nothing of the session is left in
    the browser. *)
Theorem signed_out b t1 m u body call d1 :
  route m (url_path u) = Found call -> (forall req, guarded (call req)) ->
  apiCall db (net t1) (token (auth (logout b))) m u body d1 = (Err (JsError "Authentication required"), d1) /\
  home true (auth (reload (logout b))) = HomeLoginForm.
Proof.
  intros Hr Hg. split.
  - apply (apiCall_error _ _ _ _ _ _ _ 401%Z); [|done|done]. rewrite (server_found t1 (mkHttpRequest m u _ body) d1 call Hr).
    rewrite respond_anonymous; [done|apply Hg|]. by rewrite (route_request _ _ _ Hr).
  - unfold reload, restore, logout. simpl. by rewrite !getItem_remove_eq, getItem_remove_ne, getItem_remove_eq.
Qed.

(** ** The session invariant *)

Section Invariant.
Context `{!JwtLaws J}.

(** The login route answers 2xx only with its data and a token. *)
Lemma login_ok_data req d :
  (200 <= status (Login.login B J jwt_secret_env req d).1 <= 299)%Z ->
  exists ld, payload (Login.login B J jwt_secret_env req d).1 = HData ld /\ ld_token ld <> "".
Proof.
  unfold Login.login. repeat case_match; simpl; try lia.
  intros _. eexists. split; [reflexivity|]. apply sign_nonempty.
Qed.

(** The server keeps the contract [Browser.login] relies on. *)
Lemma server_login_contract now : login_contract db (net now).
Proof.
  intros e p d. unfold net, server. simpl hr_method. cbn [hr_url login_request]. rewrite url_login.
  simpl route. cbn iota beta. simpl respond.
  destruct (Login.login B J jwt_secret_env _ d) as [r d'] eqn:Hl. simpl.
  intros Hok. unfold http_ok in Hok. simpl in Hok.
  assert (Hr : (200 <= status r <= 299)%Z) by (apply andb_prop in Hok as [H1 H2]; lia).
  pose proof (login_ok_data (to_request now (login_request e p)) d) as Hd.
  rewrite Hl in Hd. simpl in Hd. destruct (Hd Hr) as (ld & Hp & Ht).
  unfold enc_response. rewrite Hp, parse_stringify. eexists. split; [done|].
  exists (ld_token ld). eexists. done.
Qed.

(** C10 (invariant) In every reachable world the database satisfies the
    schema invariant and the browser is in the state a page reload would
    put it in: what the dashboard shows and the [Authorization] header
    [useApi] sends are those a reload restores from [localStorage]. *)
Theorem session_invariant w :
  reachable w ->
  reload (w_browser w) = w_browser w /\ db_wf (w_db w).
Proof.
  induction 1 as [m d Hwf|w now a _ [Hb Hwf]]; [split; [apply reload_idem|done]|].
  destruct a as [| e p | | m u body | hr]; simpl.
  - split; [apply reload_idem|done].
  - pose proof (login_net _ (net now) e p (w_browser w) (w_db w)) as Hn.
    pose proof (login_reload _ _ (server_login_contract now) e p (w_browser w) (w_db w) Hb) as Hr.
    destruct (Browser.login _ _ e p _ _) as [[res b'] d']. simpl in *. split; [done|].
    subst d'. by apply server_wf.
  - split; [by apply logout_reload|done].
  - split; [done|]. rewrite apiCall_net. by apply server_wf.
  - split; [done|]. by apply server_wf.
Qed.

End Invariant.

End App.

(** ** Witnesses *)

Definition demo_db : db := db_with_admin admin123_hash.
Definition demo_admin : admin_row := sample_admin admin123_hash.
Definition demo_browser : browser := reload (mkBrowser ∅ initial_auth).
Definition demo_net (now : Z) := net tag_bcrypt sample_jwt None "" offline mock_offline now.

Lemma demo_db_wf : db_wf demo_db.
Proof.
  constructor; simpl; repeat split; try (repeat constructor; simpl; lia).
  - apply NoDup_singleton.
  - apply NoDup_singleton.
  - intros _. eexists. split; [reflexivity|constructor].
Qed.

(** The browser after a page load and a sign-in at second 1. *)
Definition demo_world : world :=
  act tag_bcrypt sample_jwt None "" offline mock_offline 1000
      (SignIn "admin@wellness.com" "admin123") (mkWorld demo_browser demo_db).

Lemma session_invariant_witness :
  reload (w_browser demo_world) = w_browser demo_world /\ db_wf (w_db demo_world).
Proof.
  apply (session_invariant tag_bcrypt sample_jwt None "" offline mock_offline).
  apply reach_step, reach_init, demo_db_wf.
Defined.

Lemma sign_in_opens_routes_witness :
  Browser.login db (demo_net 1000) "admin@wellness.com" "admin123" demo_browser demo_db =
    (Ok tt, signed_in sample_jwt None demo_admin demo_browser 1000, demo_db) /\
  opens_routes tag_bcrypt sample_jwt None "" offline mock_offline
    (signed_in sample_jwt None demo_admin demo_browser 1000) 1000 (mkPayload 1 "admin@wellness.com").
Proof.
  apply (sign_in_opens_routes tag_bcrypt sample_jwt None "" offline mock_offline demo_db [demo_admin]
           demo_admin 10 "salt" "admin123"); try reflexivity; try discriminate.
  - apply NoDup_singleton.
  - left. reflexivity.
Defined.

Lemma stale_session_witness :
  Browser.login db (demo_net 1000) "admin@wellness.com" "admin123" demo_browser demo_db =
    (Ok tt, signed_in sample_jwt None demo_admin demo_browser 1000, demo_db) /\
  home true (auth (reload (signed_in sample_jwt None demo_admin demo_browser 1000))) = HomeDashboard /\
  forall t1 m u body call d1,
    route m (url_path u) = Found call -> (forall req, guarded (call req)) ->
    (jwt_clock 1000 + expires_in <= jwt_clock t1)%Z ->
    apiCall db (demo_net t1) (token (auth (signed_in sample_jwt None demo_admin demo_browser 1000)))
            m u body d1 = (Err (JsError "Invalid or expired token"), d1).
Proof.
  apply (stale_session tag_bcrypt sample_jwt None "" offline mock_offline demo_db [demo_admin]
           demo_admin 10 "salt" "admin123"); try reflexivity; try discriminate.
  - apply NoDup_singleton.
  - left. reflexivity.
Defined.

(** The clients listing after signing out. *)
Lemma signed_out_witness :
  route "GET" (url_path "/api/clients") = Found CallClientsGet /\
  apiCall db (demo_net 5000) (token (auth (logout demo_browser))) "GET" "/api/clients" None demo_db =
    (Err (JsError "Authentication required"), demo_db) /\
  home true (auth (reload (logout demo_browser))) = HomeLoginForm.
Proof.
  split; [reflexivity|].
  apply (signed_out tag_bcrypt sample_jwt None "" offline mock_offline demo_browser 5000 "GET"
           "/api/clients" None CallClientsGet demo_db); [reflexivity|done].
Defined.

End App.
