(* ===== verification/Form.v ===== *)
(** * The appointment form: src/components/appointment-form.tsx

    [AppointmentForm] keeps the fields of the form ([formData]), a
    loading flag and an error text in React state.  Its effect (lines
    58-70) fills the fields from the appointment being edited: the UTC
    calendar date of its [appointment_date] and the local hour and
    minute.  [handleSubmit] (lines 72-116) reads the two fields back as a
    local date-time, sends the payload with [PUT] (editing) or [POST]
    through [apiCall], and resets the form on success; [handleCancel]
    (lines 118-129) resets it.  The local time zone is the fixed offset
    [tz] of JsDate.v; the other side of the network is the parameter
    [net] of Browser.v. *)

From S2P Require Import Prelude Json JsDate Wire Browser.
Open Scope list_scope.

Module Form.
Import Json JsDate Wire Browser.

(** The [formData] state (lines 46-53).  A field read from an object of
    the API may be [undefined] ([None]). *)
Record form_data := mkFormData {
  clientId : json;
  title : option json;
  description : option json;
  appointmentDate : string;      (** the value of [<input type="date">] *)
  appointmentTime : string;      (** the value of [<input type="time">] *)
  durationMinutes : option json
}.

Record form_state := mkFormState { formData : form_data; isLoading : bool; error : string }.

(** [selectedClientId || ""] *)
Definition or_empty (o : option json) : json :=
  match o with Some v => if json_truthy v then v else JsStr "" | None => JsStr "" end.

(** The empty form (lines 46-53, 101-108 and 119-126). *)
Definition blank (selectedClientId : option json) : form_data :=
  mkFormData (or_empty selectedClientId) (Some (JsStr "")) (Some (JsStr "")) "" "" (Some (JsNum 60)).

Definition initial_form (selectedClientId : option json) : form_state :=
  mkFormState (blank selectedClientId) false "".

(** [new Date(value)]: a string is parsed, [null] is the epoch, a boolean
    or a number is a time value.  An object is parsed from its text
    ("[object Object]", an Invalid Date); the text of an array is not
    modelled (Invalid Date here): the API never sends one. *)
Definition new_Date (o : option json) : option Z :=
  match o with
  | Some (JsStr s) => parse_iso s
  | Some JsNull => Some 0%Z
  | Some (JsBool b) => Some (if b then 1 else 0)%Z
  | Some (JsNum n) => time_clip n
  | _ => None
  end.

(** The effect of lines 58-70.  [toISOString] of an Invalid Date throws a
    [RangeError]. *)
Definition edit_effect (tz : Z) (selectedClientId editingAppointment : option json) (fd : form_data)
  : res js_error form_data :=
  if opt_truthy editingAppointment then
    let v := default JsNull editingAppointment in
    match new_Date (get "appointment_date" v) with
    | None => Err (JsError "Invalid time value")
    | Some date =>
        Ok (mkFormData (or_empty selectedClientId) (get "title" v) (get "description" v)
                       (iso_date date) (local_hhmm tz date) (get "duration_minutes" v))
    end
  else Ok fd.

(** An object literal as [JSON.stringify] writes it: a property whose
    value is [undefined] is left out. *)
Definition js_object (fs : list (string * option json)) : json :=
  JsObj (omap (fun '(k, o) => option_map (pair k) o) fs).

(** [payload] (lines 80-86). *)
Definition payload (fd : form_data) (appointmentDateTime : Z) : json :=
  js_object [("clientId", Some (clientId fd)); ("title", title fd); ("description", description fd);
             ("appointmentDate", Some (JsStr (to_iso_string appointmentDateTime)));
             ("durationMinutes", durationMinutes fd)].

(** [editingAppointment?.id] *)
Definition editing_id (editingAppointment : option json) : option json :=
  match editingAppointment with Some v => get "id" v | None => None end.

Section Submit.
Context `{!JsonCodec}.
Variables (S : Type) (net : http_request -> S -> http_response * S).
(** The local time zone, and the [message] of the [SyntaxError] or
    [TypeError] the engine throws (its text is the engine's). *)
Variables (tz : Z) (builtin_message : js_error -> string).

(** What [handleSubmit] sends (lines 78-98): [None] when the date and time
    fields make an Invalid Date, whose [toISOString] throws. *)
Definition form_request (editingAppointment : option json) (fd : form_data)
  : option (string * string * option string) :=
  match parse_local tz (String.append (appointmentDate fd) (String.append "T" (appointmentTime fd))) with
  | None => None
  | Some t =>
      let body := Some (stringify (payload fd t)) in
      if opt_truthy (editing_id editingAppointment)
      then Some ("PUT", String.append "/api/appointments/" (js_String_opt (editing_id editingAppointment)), body)
      else Some ("POST", "/api/appointments", body)
  end.

(** [handleSubmit] (lines 72-116): the state after it, whether it called
    [onSuccess], and the other side after it. *)
Definition handleSubmit (selectedClientId editingAppointment tok : option json) (fs : form_state) (s : S)
  : form_state * bool * S :=
  let fd := formData fs in
  match form_request editingAppointment fd with
  | None => (mkFormState fd false "Invalid time value", false, s)
  | Some (m, u, body) =>
      match apiCall S net tok m u body s with
      | (Err e, s') => (mkFormState fd false (err_message builtin_message e), false, s')
      | (Ok _, s') => (mkFormState (blank selectedClientId) false "", true, s')
      end
  end.

End Submit.

(** [handleCancel] (lines 118-129); the caller runs [onCancel]. *)
Definition handleCancel (selectedClientId : option json) (fs : form_state) : form_state :=
  mkFormState (blank selectedClientId) (isLoading fs) "".

(** The title of the card and the text of the submit button. *)
Definition card_title (editingAppointment : option json) : string :=
  if opt_truthy editingAppointment then "Edit Appointment" else "Schedule New Appointment".

Definition submit_label (editingAppointment : option json) (loading : bool) : string :=
  if loading then (if opt_truthy editingAppointment then "Updating..." else "Scheduling...")
  else (if opt_truthy editingAppointment then "Update Appointment" else "Schedule Appointment").

(** ** Editing an appointment and saving it unchanged *)

Section Edit.
Context `{!JsonCodec}.
Variables (tz : Z) (selectedClientId : option json) (v : json) (fd : form_data) (t : Z) (id : string).
Hypotheses (Hdate : get "appointment_date" v = Some (JsStr (to_iso_string t)))
           (Hid : get "id" v = Some (JsStr id)) (Hidne : id <> "")
           (Ht : (- max_time <= t <= max_time)%Z) (Hmin : ((t + tz) mod 60000 = 0)%Z).

Lemma get_object_truthy k w : get k v = Some w -> json_truthy v = true.
Proof. by destruct v. Qed.

(** The fields the effect fills in. *)
Definition edited : form_data :=
  mkFormData (or_empty selectedClientId) (get "title" v) (get "description" v)
             (iso_date t) (local_hhmm tz t) (get "duration_minutes" v).

Lemma edit_effect_iso : edit_effect tz selectedClientId (Some v) fd = Ok edited.
Proof.
  unfold edit_effect, opt_truthy. cbv zeta. cbn [option_map]. change (default ?d (Some ?x)) with x.
  change (default ?d (Some ?x)) with x.
  rewrite (get_object_truthy _ _ Hdate), Hdate. cbn [new_Date]. by rewrite parse_iso_to_iso.
Qed.

(** Saving the filled form sends a [PUT] of the instant the two fields
    name: [t] moved by whole days when the local date is not the UTC one. *)
Lemma form_request_edited :
  form_request tz (Some v) edited =
  option_map (fun t' => ("PUT", String.append "/api/appointments/" id, Some (stringify (payload edited t'))))
             (time_clip (t - ms_per_day * ((t mod ms_per_day + tz) / ms_per_day))).
Proof.
  unfold form_request. cbn [appointmentDate appointmentTime edited].
  rewrite parse_local_edit by done.
  destruct (time_clip _) as [t'|]; [|done]. cbn [editing_id option_map]. rewrite Hid.
  unfold opt_truthy. cbn. by rewrite (proj2 (String.eqb_neq id "") Hidne).
Qed.

End Edit.

(** [time_clip] keeps a time value of the valid range. *)
Lemma time_clip_in t : (- max_time <= t <= max_time)%Z -> time_clip t = Some t.
Proof. intros Ht. unfold time_clip. rewrite (proj2 (Z.leb_le _ _)); [done|lia]. Qed.

(** C18 (functional) An admin east of UTC who opens an appointment whose
    local date is the day after its UTC date (an evening appointment in
    UTC, after midnight locally) and saves the form unchanged sends the
    appointment back a whole day earlier: the date field holds the UTC
    date, the time field the local time, and the two are read together as
    a local date-time. *)
Theorem edit_save_day_earlier `{!JsonCodec} tz sel v fd t id :
  get "appointment_date" v = Some (JsStr (to_iso_string t)) ->
  get "id" v = Some (JsStr id) -> id <> "" ->
  (- max_time + ms_per_day <= t <= max_time)%Z -> ((t + tz) mod 60000 = 0)%Z ->
  (0 <= tz < ms_per_day)%Z -> (ms_per_day <= t mod ms_per_day + tz)%Z ->
  exists fd', edit_effect tz sel (Some v) fd = Ok fd' /\
    form_request tz (Some v) fd' =
      Some ("PUT", String.append "/api/appointments/" id, Some (stringify (payload fd' (t - ms_per_day)))).
Proof.
  intros Hd Hi Hne Ht Hm Htz Hlate. eexists. split; [apply (edit_effect_iso tz sel v fd t id); done || lia|].
  rewrite (form_request_edited tz sel v t id) by (done || lia).
  pose proof (Z.mod_pos_bound t ms_per_day ltac:(unfold ms_per_day; lia)).
  replace ((t mod ms_per_day + tz) / ms_per_day)%Z with 1%Z
    by (apply Z.div_unique with (t mod ms_per_day + tz - ms_per_day)%Z; lia).
  rewrite time_clip_in by (unfold ms_per_day in *; lia). by rewrite Z.mul_1_r.
Qed.

(** In the UTC time zone, saving an edited appointment
    unchanged sends back the instant it had (to the minute). *)
Theorem edit_save_utc `{!JsonCodec} sel v fd t id :
  get "appointment_date" v = Some (JsStr (to_iso_string t)) ->
  get "id" v = Some (JsStr id) -> id <> "" ->
  (- max_time <= t <= max_time)%Z -> (t mod 60000 = 0)%Z ->
  exists fd', edit_effect 0 sel (Some v) fd = Ok fd' /\
    form_request 0 (Some v) fd' =
      Some ("PUT", String.append "/api/appointments/" id, Some (stringify (payload fd' t))).
Proof.
  intros Hd Hi Hne Ht Hm. eexists. split; [apply (edit_effect_iso 0 sel v fd t id); done || lia|].
  rewrite (form_request_edited 0 sel v t id) by (rewrite ?Z.add_0_r; done || lia).
  pose proof (Z.mod_pos_bound t ms_per_day ltac:(unfold ms_per_day; lia)).
  rewrite Z.add_0_r, (Z.div_small (t mod ms_per_day)) by lia.
  rewrite Z.mul_0_r, Z.sub_0_r, time_clip_in by done. done.
Qed.

(** The number of whole days the edit moves an instant: the day
    [t mod ms_per_day + tz] falls in, counted from the UTC day of [t]. *)
Lemma edit_days_range t tz :
  (- ms_per_day < tz < ms_per_day)%Z ->
  let k := ((t mod ms_per_day + tz) / ms_per_day)%Z in
  (-1 <= k <= 1)%Z /\ (0 <= tz -> 0 <= k)%Z /\ (tz <= 0 -> k <= 0)%Z.
Proof.
  intros Htz k. pose proof (Z.mod_pos_bound t ms_per_day ltac:(unfold ms_per_day; lia)).
  pose proof (Z.div_mod (t mod ms_per_day + tz) ms_per_day ltac:(unfold ms_per_day; lia)).
  pose proof (Z.mod_pos_bound (t mod ms_per_day + tz) ms_per_day ltac:(unfold ms_per_day; lia)).
  subst k. unfold ms_per_day in *. lia.
Qed.

(** C19 (bounds) For every time-zone offset of less than a day, saving an
    edited appointment unchanged moves it by a whole number [k] of days
    with [-1 <= k <= 1]: never later east of UTC (offset [tz >= 0]) and
    never earlier west of it. *)
Theorem edit_save_shift_bounds `{!JsonCodec} tz sel v fd t id :
  get "appointment_date" v = Some (JsStr (to_iso_string t)) ->
  get "id" v = Some (JsStr id) -> id <> "" ->
  (- max_time + ms_per_day <= t <= max_time - ms_per_day)%Z -> ((t + tz) mod 60000 = 0)%Z ->
  (- ms_per_day < tz < ms_per_day)%Z ->
  exists fd' k, edit_effect tz sel (Some v) fd = Ok fd' /\
    form_request tz (Some v) fd' =
      Some ("PUT", String.append "/api/appointments/" id, Some (stringify (payload fd' (t - ms_per_day * k)))) /\
    (-1 <= k <= 1)%Z /\ (0 <= tz -> 0 <= k)%Z /\ (tz <= 0 -> k <= 0)%Z.
Proof.
  intros Hd Hi Hne Ht Hm Htz. destruct (edit_days_range t tz Htz) as (Hk & Hpos & Hneg).
  assert (Ht' : (- max_time <= t <= max_time)%Z) by (unfold max_time, ms_per_day in *; lia).
  eexists _, _. split; [by apply (edit_effect_iso tz sel v fd t id)|].
  rewrite (form_request_edited tz sel v t id) by assumption.
  rewrite time_clip_in; [auto|].
  destruct (Z.le_gt_cases 0 ((t mod ms_per_day + tz) / ms_per_day)) as [Hk0|Hk0];
    [destruct (Z.le_gt_cases 1 ((t mod ms_per_day + tz) / ms_per_day))|];
    [replace ((t mod ms_per_day + tz) / ms_per_day)%Z with 1%Z by lia
    |replace ((t mod ms_per_day + tz) / ms_per_day)%Z with 0%Z by lia
    |replace ((t mod ms_per_day + tz) / ms_per_day)%Z with (-1)%Z by lia];
    unfold max_time, ms_per_day in *; lia.
Qed.

(** [handleSubmit] always ends with the loading flag cleared; when it
    called [onSuccess] the form is empty again and shows no error, and
    otherwise the fields keep what the admin typed. *)
Theorem handleSubmit_outcome `{!JsonCodec} S net tz msg sel ea tok fs s :
  let '(fs', ok, _) := handleSubmit S net tz msg sel ea tok fs s in
  isLoading fs' = false /\
  (ok = true -> formData fs' = blank sel /\ error fs' = "") /\
  (ok = false -> formData fs' = formData fs).
Proof.
  unfold handleSubmit. destruct (form_request _ _ _) as [[[m u] body]|]; [|done].
  by destruct (apiCall _ _ _ _ _ _ _) as [[e|r] s'].
Qed.

(** ** Concrete runs *)

(** An appointment at 2024-12-31T19:00Z, as the list of appointments
    passes it to the form. *)
Definition evening_appointment : json :=
  JsObj [("id", JsStr "7"); ("title", JsStr "Wellness Consultation");
         ("appointment_date", JsStr (to_iso_string 1735671600000)); ("duration_minutes", JsNum 60)].

(** An appointment at 2024-12-31T03:00Z. *)
Definition early_appointment : json :=
  JsObj [("id", JsStr "8"); ("title", JsStr "Follow-up");
         ("appointment_date", JsStr (to_iso_string 1735614000000)); ("duration_minutes", JsNum 30)].

Lemma edit_save_day_earlier_witness :
  to_iso_string 1735671600000 = "2024-12-31T19:00:00.000Z" /\
  to_iso_string (1735671600000 - ms_per_day) = "2024-12-30T19:00:00.000Z" /\
  exists fd', edit_effect 18000000 None (Some evening_appointment) (blank None) = Ok fd' /\
    form_request 18000000 (Some evening_appointment) fd' =
      Some ("PUT", String.append "/api/appointments/" "7",
            Some (stringify (payload fd' (1735671600000 - ms_per_day)))).
Proof.
  split; [vm_compute; reflexivity|]. split; [vm_compute; reflexivity|].
  apply (edit_save_day_earlier 18000000 None evening_appointment (blank None) 1735671600000 "7");
    [reflexivity|reflexivity|discriminate|unfold max_time, ms_per_day; lia|reflexivity
    |unfold ms_per_day; lia|vm_compute; discriminate].
Defined.

(** West of UTC (UTC-05:00, [tz = -18000000]) an appointment at 03:00Z
    is the evening before locally: its local day is the UTC day [-1], and
    saving it unchanged moves it a day later. *)
Lemma edit_save_shift_bounds_witness :
  ((1735614000000 mod ms_per_day + -18000000) / ms_per_day = -1)%Z /\
  exists fd' k, edit_effect (-18000000) None (Some early_appointment) (blank None) = Ok fd' /\
    form_request (-18000000) (Some early_appointment) fd' =
      Some ("PUT", String.append "/api/appointments/" "8",
            Some (stringify (payload fd' (1735614000000 - ms_per_day * k)))) /\
    (-1 <= k <= 1)%Z /\ (0 <= -18000000 -> 0 <= k)%Z /\ (-18000000 <= 0 -> k <= 0)%Z.
Proof.
  split; [vm_compute; reflexivity|].
  apply (edit_save_shift_bounds (-18000000) None early_appointment (blank None) 1735614000000 "8");
    [reflexivity|reflexivity|discriminate|unfold max_time, ms_per_day; lia|reflexivity
    |unfold ms_per_day; lia].
Defined.

Lemma edit_save_utc_witness :
  exists fd', edit_effect 0 None (Some evening_appointment) (blank None) = Ok fd' /\
    form_request 0 (Some evening_appointment) fd' =
      Some ("PUT", String.append "/api/appointments/" "7", Some (stringify (payload fd' 1735671600000))).
Proof.
  apply (edit_save_utc None evening_appointment (blank None) 1735671600000 "7");
    [reflexivity|reflexivity|discriminate|unfold max_time; lia|reflexivity].
Defined.

End Form.
