(* ===== verification/Lists.v ===== *)
(** * The lists of the dashboard: src/components/client-list.tsx and
      src/components/appointment-list.tsx

    Each list keeps the array the API answered, a loading flag and an
    error text.  Its effect fetches the array with a query built by
    [URLSearchParams] ([fetchClients], [fetchAppointments]); the
    appointment list also deletes an appointment ([handleDelete]) and
    colours the status badge ([getStatusColor]).  The requests go through
    [apiCall] of Browser.v; the theorems follow a request to the route
    and query the Next.js server of Wire.v reads from it. *)

From S2P Require Import Prelude Db Http Json UrlEncoded Queries Api Wire Browser.
Open Scope list_scope.

Module Lists.
Import Schema Http Json UrlEncoded Queries Api Wire Browser.

(** [useState<T[]>([])], [useState(true)], [useState("")]; the array is
    whatever the API put in the field ([undefined] when it is absent). *)
Record list_state := mkListState { items : option json; isLoading : bool; error : string }.

Definition initial_list : list_state := mkListState (Some (JsArr [])) true "".

(** ** Queries *)

(** appointment-list.tsx lines 36-40. *)
Definition appointments_params (clientId : option json) : search_params :=
  (if opt_truthy clientId then [("clientId", js_String_opt clientId)] else []) ++ [("upcoming", "true")].

Definition appointments_url (clientId : option json) : string :=
  String.append "/api/appointments?" (serialize (appointments_params clientId)).

(** client-list.tsx lines 36-39. *)
Definition clients_params (search : string) : search_params :=
  if negb (String.eqb search "") then [("search", search)] else [].

Definition clients_url (search : string) : string :=
  String.append "/api/clients?" (serialize (clients_params search)).

(** [a === b] on the values these components compare (ids); two objects
    are never the same reference here. *)
Definition strict_eq (a b : option json) : bool :=
  match a, b with
  | None, None => true
  | Some JsNull, Some JsNull => true
  | Some (JsBool x), Some (JsBool y) => Bool.eqb x y
  | Some (JsNum x), Some (JsNum y) => Z.eqb x y
  | Some (JsStr x), Some (JsStr y) => String.eqb x y
  | _, _ => false
  end.

(** [appointments.filter((apt) => apt.id !== appointmentId)]: [apt.id]
    of a [null] element throws a [TypeError]. *)
Fixpoint filter_id (l : list json) (appointmentId : option json) : res js_error (list json) :=
  match l with
  | [] => Ok []
  | JsNull :: _ => Err JsTypeError
  | apt :: l' =>
      r ← filter_id l' appointmentId;
      Ok (if strict_eq (get "id" apt) appointmentId then r else apt :: r)
  end.

(** [filter] of a value that is not an array throws a [TypeError]. *)
Definition remove_id (appointments appointmentId : option json) : res js_error json :=
  match appointments with
  | Some (JsArr l) => r ← filter_id l appointmentId; Ok (JsArr r)
  | _ => Err JsTypeError
  end.

Section Fetch.
Context `{!JsonCodec}.
Variables (S : Type) (net : http_request -> S -> http_response * S).
Variable builtin_message : js_error -> string.

(** The body shared by [fetchClients] (client-list.tsx lines 33-47) and
    [fetchAppointments] (appointment-list.tsx lines 33-48): [apiCall(url)]
    without options is a [GET]; [data.field] of [null] throws a
    [TypeError]; [finally] clears the loading flag. *)
Definition fetch_list (field url : string) (tok : option json) (st : list_state) (s : S)
  : list_state * S :=
  match apiCall S net tok "GET" url None s with
  | (Ok JsNull, s') => (mkListState (items st) false (err_message builtin_message JsTypeError), s')
  | (Ok data, s') => (mkListState (get field data) false "", s')
  | (Err e, s') => (mkListState (items st) false (err_message builtin_message e), s')
  end.

Definition fetchClients (tok : option json) (search : string) : list_state -> S -> list_state * S :=
  fetch_list "clients" (clients_url search) tok.

Definition fetchAppointments (tok : option json) (clientId : option json) : list_state -> S -> list_state * S :=
  fetch_list "appointments" (appointments_url clientId) tok.

(** [handleDelete] (appointment-list.tsx lines 54-68).  [confirmed] is
    the answer to [confirm(...)]; [appointments] is the array the
    rendering that created the click handler saw. *)
Definition handleDelete (confirmed : bool) (tok appointments appointmentId : option json)
  (st : list_state) (s : S) : list_state * S :=
  if negb confirmed then (st, s) else
  match apiCall S net tok "DELETE" (String.append "/api/appointments/" (js_String_opt appointmentId)) None s with
  | (Ok _, s') =>
      match remove_id appointments appointmentId with
      | Ok l => (mkListState (Some l) (isLoading st) (error st), s')
      | Err e => (mkListState (items st) (isLoading st) (err_message builtin_message e), s')
      end
  | (Err e, s') => (mkListState (items st) (isLoading st) (err_message builtin_message e), s')
  end.

End Fetch.

(** ** The status badge (appointment-list.tsx lines 70-81) *)

(** [toLowerCase] on the ASCII letters. *)
Definition ascii_lower (c : ascii) : ascii :=
  let n := nat_of_ascii c in if (65 <=? n)%nat && (n <=? 90)%nat then ascii_of_nat (n + 32) else c.

Definition to_lower (s : string) : string :=
  string_of_list_ascii (map ascii_lower (list_ascii_of_string s)).

Definition getStatusColor (status : string) : string :=
  let st := to_lower status in
  if String.eqb st "scheduled" then "bg-blue-100 text-blue-800"
  else if String.eqb st "completed" then "bg-green-100 text-green-800"
  else if String.eqb st "cancelled" then "bg-red-100 text-red-800"
  else "bg-gray-100 text-gray-800".

(** ** The type the list declares for what it receives *)

Definition is_string (o : option json) : bool := match o with Some (JsStr _) => true | _ => false end.
Definition is_number (o : option json) : bool := match o with Some (JsNum _) => true | _ => false end.

(** [interface Appointment] (appointment-list.tsx lines 10-19): the
    fields the list reads, with their TypeScript types. *)
Definition has_type_Appointment (v : json) : bool :=
  match v with
  | JsObj _ =>
      is_string (get "id" v) && is_string (get "title" v) && is_string (get "description" v) &&
      is_string (get "appointment_date" v) && is_number (get "duration_minutes" v) &&
      is_string (get "status" v) && is_string (get "client_name" v) && is_string (get "client_email" v)
  | _ => false
  end.

(** ** The queries reach the routes *)

Lemma list_ascii_of_string_app s1 s2 :
  list_ascii_of_string (String.append s1 s2) = list_ascii_of_string s1 ++ list_ascii_of_string s2.
Proof. induction s1 as [|c s1 IH]; [done|]. exact (f_equal (cons c) IH). Qed.

Lemma split_query_at l1 l2 :
  Forall (fun c => Ascii.eqb c "?" = false) l1 -> split_query (l1 ++ "?"%char :: l2) = (l1, Some l2).
Proof. induction 1 as [|c l1 Hc _ IH]; [done|]. cbn. by rewrite Hc, IH. Qed.

(** A URL [path?query] whose path has no [?]. *)
Lemma url_parts p q :
  Forall (fun c => Ascii.eqb c "?" = false) (list_ascii_of_string p) ->
  url_path (String.append p (String.append "?" q)) = map string_of_list_ascii (split_on "/" (list_ascii_of_string p)) /\
  url_query (String.append p (String.append "?" q)) = parse_query q.
Proof.
  intros Hp. unfold url_path, url_query.
  rewrite list_ascii_of_string_app. change (list_ascii_of_string (String.append "?" q)) with ("?"%char :: list_ascii_of_string q).
  rewrite split_query_at by done. cbn [fst snd]. by rewrite string_of_list_ascii_of_string.
Qed.

(** C24 (refinement) The request each list sends reaches the route that
    answers it, and the handler's [searchParams] read back exactly the
    parameters the component appended: the search text of the client
    list and the client id of the appointment list, whatever characters
    they hold. *)
Theorem list_queries_served search clientId :
  route "GET" (url_path (clients_url search)) = Found CallClientsGet /\
  url_query (clients_url search) = clients_params search /\
  route "GET" (url_path (appointments_url clientId)) = Found CallAppointmentsGet /\
  url_query (appointments_url clientId) = appointments_params clientId.
Proof.
  unfold clients_url, appointments_url.
  change (String.append "/api/clients?" ?x) with (String.append "/api/clients" (String.append "?" x)).
  change (String.append "/api/appointments?" ?x) with (String.append "/api/appointments" (String.append "?" x)).
  destruct (url_parts "/api/clients" (serialize (clients_params search))) as [Hc1 Hc2]; [by repeat constructor|].
  destruct (url_parts "/api/appointments" (serialize (appointments_params clientId))) as [Ha1 Ha2];
    [by repeat constructor|].
  rewrite Hc1, Hc2, Ha1, Ha2, (parse_serialize_pairs (appointments_params clientId))
    by (unfold appointments_params; by destruct (opt_truthy clientId)).
  unfold clients_params. destruct (negb _); [by rewrite parse_serialize_pairs|done].
Qed.

(** ** Deleting an appointment *)

Lemma filter_id_spec l appointmentId :
  Forall (fun apt => apt <> JsNull) l ->
  filter_id l appointmentId = Ok (List.filter (fun apt => negb (strict_eq (get "id" apt) appointmentId)) l).
Proof.
  induction 1 as [|apt l Hapt _ IH]; [done|].
  destruct apt; try done; cbn [filter_id List.filter]; rewrite IH; cbn; by repeat case_match.
Qed.

(** C28 (functional) A confirmed delete that the API accepts shows the
    array the clicked rendering saw, without the appointments of that id
    and with the others in their order; a refresh that finished while
    the request was in flight is overwritten. *)
Theorem handleDelete_removes `{!JsonCodec} S net msg tok l appointmentId st s resp s' :
  apiCall S net tok "DELETE" (String.append "/api/appointments/" (js_String_opt appointmentId)) None s = (Ok resp, s') ->
  Forall (fun apt => apt <> JsNull) l ->
  handleDelete S net msg true tok (Some (JsArr l)) appointmentId st s =
    (mkListState (Some (JsArr (List.filter (fun apt => negb (strict_eq (get "id" apt) appointmentId)) l)))
                 (isLoading st) (error st), s').
Proof.
  intros Hcall Hl. unfold handleDelete. cbn [negb]. rewrite Hcall. unfold remove_id.
  by rewrite filter_id_spec.
Qed.

(** ** Concrete runs *)

(** A server that accepts every request with an empty object. *)
Definition accept_all : http_request -> unit -> http_response * unit :=
  fun _ s => (mkHttpResponse 200 "{}", s).

Definition appt_obj (id : string) : json := JsObj [("id", JsStr id); ("title", JsStr "Check-up")].

(** The list showed appointments 1 and 2 when the delete button of 1 was
    clicked; a refresh added 3 before the [DELETE] returned; the list
    then shows 2 alone. *)
Lemma handleDelete_removes_witness :
  handleDelete unit accept_all (fun _ => "") true None (Some (JsArr [appt_obj "1"; appt_obj "2"]))
    (Some (JsStr "1")) (mkListState (Some (JsArr [appt_obj "1"; appt_obj "2"; appt_obj "3"])) false "") tt =
  (mkListState (Some (JsArr [appt_obj "2"])) false "", tt).
Proof.
  rewrite (handleDelete_removes unit accept_all (fun _ => "") None [appt_obj "1"; appt_obj "2"] (Some (JsStr "1"))
             _ tt (JsObj []) tt); [reflexivity|vm_compute; reflexivity|repeat constructor; discriminate].
Defined.

(** C25 (type) A row of the appointments route has the type the list
    declares exactly when its [description], [status] and
    [duration_minutes] are not SQL [NULL]: the schema allows all three to
    be [NULL], and such a row reaches the list as [null] where it
    declares a string or a number. *)
Theorem enc_view_typed `{!PgTypes} (v : appointment_view) :
  has_type_Appointment (enc_view v) = true <->
  appt_description v.1.1 <> None /\ appt_status v.1.1 <> None /\ appt_duration_minutes v.1.1 <> None.
Proof.
  destruct v as [[r n] e]. destruct r as [i x c t d dt du st ca ua]. cbn.
  destruct d, st, du; cbn; split; intuition congruence.
Qed.

End Lists.
