(* ===== verification/Dashboard.v ===== *)
(** * The dashboard: src/components/dashboard.tsx

    [Dashboard] keeps the clients of its own fetch, the selected client,
    the appointment being edited, a refresh counter and the active tab.
    It passes [handleEditAppointment] to the appointment lists and
    [handleAppointmentSuccess] / [handleCancelEdit] to the appointment
    form, whose effect runs when the appointment being edited changes.
    [page] is the dashboard with its form; [edit_click], [form_submit]
    and [form_cancel] are the interactions that go through both. *)

From S2P Require Import Prelude Db Json Credential Queries Auth Login MockApi Clients Appointments Api Wire Browser App Form.
From stdpp Require Import relations.
Open Scope list_scope.

Module Dashboard.
Import Schema Json Credential Queries Auth Login MockApi Clients Appointments Api Wire Browser App Form.

(** The state hooks of lines 34-38. *)
Record dashboard := mkDashboard {
  clients : option json;
  selectedClient : option json;
  editingAppointment : option json;
  refreshTrigger : Z;
  activeTab : string
}.

Definition initial_dashboard : dashboard := mkDashboard (Some (JsArr [])) None None 0 "overview".

Section Fetch.
Context `{!JsonCodec}.
Variables (S : Type) (net : http_request -> S -> http_response * S).

(** [fetchClients] (lines 44-51): a failure, or the [TypeError] of
    [data.clients] on [null], is only logged. *)
Definition fetchClients (tok : option json) (d : dashboard) (s : S) : dashboard * S :=
  match apiCall S net tok "GET" "/api/clients" None s with
  | (Ok JsNull, s') => (d, s')
  | (Ok data, s') =>
      (mkDashboard (get "clients" data) (selectedClient d) (editingAppointment d) (refreshTrigger d) (activeTab d), s')
  | (Err _, s') => (d, s')
  end.

End Fetch.

(** Lines 53-59. *)
Definition handleAppointmentSuccess (d : dashboard) : dashboard :=
  mkDashboard (clients d) (selectedClient d) None (refreshTrigger d + 1)
              (if String.eqb (activeTab d) "schedule" then "appointments" else activeTab d).

(** Lines 61-64. *)
Definition handleEditAppointment (appointment : json) (d : dashboard) : dashboard :=
  mkDashboard (clients d) (selectedClient d) (Some appointment) (refreshTrigger d) "schedule".

(** Lines 66-69. *)
Definition handleCancelEdit (d : dashboard) : dashboard :=
  mkDashboard (clients d) (selectedClient d) None (refreshTrigger d) "appointments".

(** [onClientSelect={setSelectedClient}] (line 138) and
    [onValueChange={setActiveTab}] (line 92). *)
Definition setSelectedClient (client : json) (d : dashboard) : dashboard :=
  mkDashboard (clients d) (Some client) (editingAppointment d) (refreshTrigger d) (activeTab d).

Definition setActiveTab (tab : string) (d : dashboard) : dashboard :=
  mkDashboard (clients d) (selectedClient d) (editingAppointment d) (refreshTrigger d) tab.

(** [selectedClient?.id] *)
Definition selectedClientId (d : dashboard) : option json :=
  match selectedClient d with Some c => get "id" c | None => None end.

(** The "Total Clients" figure, [clients.length] (line 122): the length
    of an array or a string; nothing for another value. *)
Definition total_clients (d : dashboard) : option Z :=
  match clients d with
  | Some (JsArr l) => Some (Z.of_nat (List.length l))
  | Some (JsStr s) => Some (Z.of_nat (String.length s))
  | _ => None
  end.

(** ** The dashboard with its appointment form *)

(** The form is inside the "schedule" tab: Radix's [TabsContent] mounts
    the content of the active tab only, so the form's state exists while
    that tab is active and starts afresh each time it is shown. *)
Record page := mkPage { dash : dashboard; form : option form_state }.

Definition initial_page : page := mkPage initial_dashboard None.

Definition is_schedule (d : dashboard) : bool := String.eqb (activeTab d) "schedule".

(** The page for a new dashboard state: a fresh form, filled by its
    effect, when the schedule tab is shown; an Invalid Date in the
    effect throws. *)
Definition show (tz : Z) (d : dashboard) : res js_error page :=
  if is_schedule d then
    fd ← edit_effect tz (selectedClientId d) (editingAppointment d) (blank (selectedClientId d));
    Ok (mkPage d (Some (mkFormState fd false "")))
  else Ok (mkPage d None).

(** A click on a tab; the active one changes nothing. *)
Definition tab_click (tz : Z) (tab : string) (p : page) : res js_error page :=
  if String.eqb tab (activeTab (dash p)) then Ok p else show tz (setActiveTab tab (dash p)).

(** The edit button of a list, on one of the other tabs. *)
Definition edit_click (tz : Z) (appointment : json) (p : page) : res js_error page :=
  show tz (handleEditAppointment appointment (dash p)).

(** A click on a client of the client list (the clients tab). *)
Definition client_click (client : json) (p : page) : page :=
  mkPage (setSelectedClient client (dash p)) (form p).

(** The form after the dashboard changed under it. *)
Definition keep_form (d : dashboard) (fs : form_state) : option form_state :=
  if is_schedule d then Some fs else None.

Section Submit.
Context `{!JsonCodec}.
Variables (S : Type) (net : http_request -> S -> http_response * S).
Variables (tz : Z) (builtin_message : js_error -> string).

(** The submit button: [handleSubmit] with the dashboard's props, then
    [onSuccess] ([handleAppointmentSuccess]) when it calls it. *)
Definition form_submit (tok : option json) (p : page) (s : S) : page * S :=
  let d := dash p in
  match form p with
  | None => (p, s)
  | Some fs =>
      let '(fs', ok, s') :=
        handleSubmit S net tz builtin_message (selectedClientId d) (editingAppointment d) tok fs s in
      if ok then let d' := handleAppointmentSuccess d in (mkPage d' (keep_form d' fs'), s')
      else (mkPage d (Some fs'), s')
  end.

End Submit.

(** The cancel button: the form shows it when [editingAppointment ||
    onCancel] (appointment-form.tsx line 242), and the dashboard passes
    [onCancel] only while editing (line 182); [None] when it is absent. *)
Definition form_cancel (p : page) : option page :=
  let d := dash p in
  match form p with
  | Some fs =>
      if opt_truthy (editingAppointment d)
      then let d' := handleCancelEdit d in Some (mkPage d' (keep_form d' (handleCancel (selectedClientId d) fs)))
      else None
  | None => None
  end.

(** ** The interactions of a session *)

Section Steps.
Context `{!JsonCodec}.
Variables (S : Type) (net : http_request -> S -> http_response * S).
Variables (tz : Z) (builtin_message : js_error -> string) (tok : option json).

(** One interaction with the dashboard, with the other side of the
    network; an interaction that throws leaves no state. *)
Inductive ui_step : page * S -> page * S -> Prop :=
| ui_tab tab p p' s : tab_click tz tab p = Ok p' -> ui_step (p, s) (p', s)
| ui_edit a p p' s : edit_click tz a p = Ok p' -> ui_step (p, s) (p', s)
| ui_client c p s : ui_step (p, s) (client_click c p, s)
| ui_submit p s : ui_step (p, s) (form_submit S net tz builtin_message tok p s)
| ui_cancel p p' s : form_cancel p = Some p' -> ui_step (p, s) (p', s)
| ui_fetch p s :
    ui_step (p, s) (mkPage (fetchClients S net tok (dash p) s).1 (form p), (fetchClients S net tok (dash p) s).2).

(** The dashboard after its mount effect's fetch, then any interactions. *)
Inductive ui_reachable : page * S -> Prop :=
| ui_init s : ui_reachable (initial_page, s)
| ui_next c c' : ui_reachable c -> ui_step c c' -> ui_reachable c'.

(** Moving around the dashboard without the form's buttons: the tabs,
    the client list and the mount effect's fetch. *)
Inductive nav_step : page * S -> page * S -> Prop :=
| nav_tab tab p p' s : tab_click tz tab p = Ok p' -> nav_step (p, s) (p', s)
| nav_client c p s : nav_step (p, s) (client_click c p, s)
| nav_fetch p s :
    nav_step (p, s) (mkPage (fetchClients S net tok (dash p) s).1 (form p), (fetchClients S net tok (dash p) s).2).

Lemma nav_ui_step c c' : nav_step c c' -> ui_step c c'.
Proof. destruct 1; [by eapply ui_tab|apply ui_client|apply ui_fetch]. Qed.

Lemma nav_reachable c c' : ui_reachable c -> rtc nav_step c c' -> ui_reachable c'.
Proof. intros Hr Hn. induction Hn as [|c1 c2 c3 H12 _ IH]; [done|]. apply IH. by eapply ui_next, nav_ui_step. Qed.

Lemma nav_step_editing c c' : nav_step c c' -> editingAppointment (dash c'.1) = editingAppointment (dash c.1).
Proof.
  destruct 1 as [tab p p' s Ht| |p s]; cbn; [|done|].
  - unfold tab_click in Ht. destruct (String.eqb _ _); [by simplify_eq|].
    unfold show in Ht. destruct (is_schedule _); [destruct (edit_effect _ _ _ _); cbn in Ht|]; by simplify_eq.
  - unfold fetchClients. by destruct (apiCall _ _ _ _ _ _ _) as [[[]|] ?].
Qed.

(** C20 (safety) Edit mode is sticky: once an appointment is being
    edited, no tab click, client click or refetch of a reachable
    dashboard leaves it; only a successful save or Cancel does.  Whoever
    leaves the schedule tab through the tab bar and comes back finds the
    form still titled "Edit Appointment" and saving with [PUT] to that
    appointment, and cannot schedule a new one without Cancel. *)
Theorem edit_mode_sticky c c' a :
  ui_reachable c -> editingAppointment (dash c.1) = Some a -> json_truthy a = true ->
  rtc nav_step c c' ->
  ui_reachable c' /\ editingAppointment (dash c'.1) = Some a /\
  card_title (editingAppointment (dash c'.1)) = "Edit Appointment" /\
  editing_id (editingAppointment (dash c'.1)) = get "id" a.
Proof.
  intros Hr He Ha Hn. assert (He' : editingAppointment (dash c'.1) = Some a).
  { clear Hr. induction Hn as [|c1 c2 c3 H12 _ IH]; [done|]. apply IH. by rewrite (nav_step_editing _ _ H12). }
  split; [by eapply nav_reachable|]. rewrite He'. unfold card_title, opt_truthy. cbn. by rewrite Ha.
Qed.

End Steps.


(** C21 (functional) Saving the form from the dashboard: when the API
    accepts it, the dashboard leaves edit mode, bumps [refreshTrigger]
    (so every appointment list fetches again) and moves from the
    schedule tab to the appointments tab, which closes the form; when
    it does not, the dashboard is unchanged and the form keeps what the
    admin typed, with the loading flag cleared. *)
Theorem form_submit_outcome `{!JsonCodec} S net tz msg tok p fs s :
  form p = Some fs -> is_schedule (dash p) = true ->
  let '(p', _) := form_submit S net tz msg tok p s in
  (editingAppointment (dash p') = None /\ refreshTrigger (dash p') = (refreshTrigger (dash p) + 1)%Z /\
   activeTab (dash p') = "appointments" /\ form p' = None) \/
  (dash p' = dash p /\ exists fs', form p' = Some fs' /\ formData fs' = formData fs /\ isLoading fs' = false).
Proof.
  intros Hf Hs. unfold form_submit. rewrite Hf.
  pose proof (handleSubmit_outcome S net tz msg (selectedClientId (dash p)) (editingAppointment (dash p)) tok fs s) as Ho.
  destruct (handleSubmit _ _ _ _ _ _ _ fs s) as [[fs' []] s']; destruct Ho as (Hl & Hok & Hko).
  - left. unfold handleAppointmentSuccess, keep_form, is_schedule in *. simpl. by rewrite Hs.
  - right. split; [done|]. exists fs'. split; [done|]. split; [by apply Hko|done].
Qed.

(** ** Concrete runs *)

(** A server that accepts every request with an empty object. *)
Definition answer_ok : http_request -> unit -> http_response * unit :=
  fun _ s => (mkHttpResponse 200 "{}", s).

(** The schedule tab opened from the overview: an empty form. *)
Definition schedule_page : page :=
  mkPage (setActiveTab "schedule" initial_dashboard) (Some (mkFormState (blank None) false "")).

Lemma form_submit_outcome_witness :
  form schedule_page = Some (mkFormState (blank None) false "") /\ is_schedule (dash schedule_page) = true /\
  let '(p', _) := form_submit unit answer_ok 0 (fun _ => "") None schedule_page tt in
  (editingAppointment (dash p') = None /\ refreshTrigger (dash p') = (refreshTrigger (dash schedule_page) + 1)%Z /\
   activeTab (dash p') = "appointments" /\ form p' = None) \/
  (dash p' = dash schedule_page /\ exists fs', form p' = Some fs' /\
     formData fs' = formData (mkFormState (blank None) false "") /\ isLoading fs' = false).
Proof.
  split; [reflexivity|]. split; [reflexivity|].
  exact (form_submit_outcome unit answer_ok 0 (fun _ => "") None schedule_page _ tt eq_refl eq_refl).
Defined.

(** ** The "Total Clients" figure against the server *)

Section Served.
Context `{!PgTypes} `{!JsonCodec}.
Variables (B : Bcrypt) (J : Jwt) (jwt_secret_env : option string).
Variables (baseUrl : string) (fetch_clients : fetch_fn (list MockClient))
          (fetch_appt : fetch_fn MockAppointment).

(** C27 (functional) With the token of a sign-in, the dashboard's "Total Clients"
    shows the number of clients of the first page the clients route
    answers without parameters, at most 10, whatever the number of
    clients in the database; the total the route also answers is not
    used.  The fetch changes no data. *)
Theorem total_clients_first_page `{!JwtLaws J} r rows b t0 t1 dsh d :
  db_clients d = Some rows -> (jwt_clock t1 < jwt_clock t0 + expires_in)%Z ->
  let net := App.net B J jwt_secret_env baseUrl fetch_clients fetch_appt t1 in
  let tok := token (auth (signed_in J jwt_secret_env r b t0)) in
  total_clients (fetchClients db net tok dsh d).1 = Some (Z.min 10 (Z.of_nat (List.length rows))) /\
  (fetchClients db net tok dsh d).2 = d.
Proof.
  intros Hd Ht. cbv zeta. unfold fetchClients, apiCall.
  rewrite (signed_in_opens B J jwt_secret_env baseUrl fetch_clients fetch_appt r b t0 t1
             "GET" "/api/clients" None CallClientsGet d) by done.
  cbn [respond_as].
  destruct (getClients_default baseUrl fetch_clients
              (with_user (to_request t1 (mkHttpRequest "GET" "/api/clients"
                 (auth_header (token (auth (signed_in J jwt_secret_env r b t0)))) None))
                 (mkPayload (admin_id r) (admin_email r)))
              d rows eq_refl Hd) as (pg & Hg & _ & Hl).
  rewrite Hg. cbn. rewrite parse_stringify. cbn. by rewrite length_map, Hl.
Qed.

End Served.

(** Twelve clients; a browser holding the token of a sign-in at second 1. *)
Definition twelve_clients : list client_row :=
  map (fun n => mkClient n None "Client" "client@example.com" None (Z.of_nat n) 0) (seq 1 12).
Definition crowded_db : db :=
  mkDb true (Some twelve_clients) (Some (mkAppointmentsTable [] true)) (Some [sample_admin admin123_hash]) 13 0.

Lemma total_clients_first_page_witness :
  db_clients crowded_db = Some twelve_clients /\ (jwt_clock 60000 < jwt_clock 1000 + expires_in)%Z /\
  total_clients (fetchClients db (App.net tag_bcrypt sample_jwt None "" offline mock_offline 60000)
                   (token (auth (signed_in sample_jwt None (sample_admin admin123_hash) demo_browser 1000)))
                   initial_dashboard crowded_db).1 = Some 10%Z /\
  (fetchClients db (App.net tag_bcrypt sample_jwt None "" offline mock_offline 60000)
     (token (auth (signed_in sample_jwt None (sample_admin admin123_hash) demo_browser 1000)))
     initial_dashboard crowded_db).2 = crowded_db.
Proof.
  assert (Hd : db_clients crowded_db = Some twelve_clients) by reflexivity.
  assert (Ht : (jwt_clock 60000 < jwt_clock 1000 + expires_in)%Z) by (vm_compute; reflexivity).
  split; [exact Hd|]. split; [exact Ht|].
  exact (total_clients_first_page tag_bcrypt sample_jwt None "" offline mock_offline
           (sample_admin admin123_hash) twelve_clients demo_browser 1000 60000 initial_dashboard crowded_db Hd Ht).
Defined.

(** The admin edits the evening appointment, goes to the overview, and
    comes back to the schedule tab. *)
Definition editing_page : page :=
  match edit_click 0 evening_appointment initial_page with Ok p => p | Err _ => initial_page end.
Definition overview_page : page :=
  match tab_click 0 "overview" editing_page with Ok p => p | Err _ => initial_page end.
Definition back_page : page :=
  match tab_click 0 "schedule" overview_page with Ok p => p | Err _ => initial_page end.

Lemma edit_mode_sticky_witness :
  ui_reachable unit answer_ok 0 (fun _ => "") None (editing_page, tt) /\
  editingAppointment (dash editing_page) = Some evening_appointment /\ json_truthy evening_appointment = true /\
  rtc (nav_step unit answer_ok 0 None) (editing_page, tt) (back_page, tt) /\
  (ui_reachable unit answer_ok 0 (fun _ => "") None (back_page, tt) /\
   editingAppointment (dash back_page) = Some evening_appointment /\
   card_title (editingAppointment (dash back_page)) = "Edit Appointment" /\
   editing_id (editingAppointment (dash back_page)) = get "id" evening_appointment).
Proof.
  assert (Hr : ui_reachable unit answer_ok 0 (fun _ => "") None (editing_page, tt)).
  { eapply ui_next; [apply ui_init|]. apply ui_edit with evening_appointment. vm_compute. reflexivity. }
  assert (Hn : rtc (nav_step unit answer_ok 0 None) (editing_page, tt) (back_page, tt)).
  { eapply rtc_l; [apply (nav_tab _ _ _ _ "overview" editing_page overview_page); vm_compute; reflexivity|].
    eapply rtc_l; [apply (nav_tab _ _ _ _ "schedule" overview_page back_page); vm_compute; reflexivity|].
    apply rtc_refl. }
  split; [exact Hr|]. split; [vm_compute; reflexivity|]. split; [reflexivity|]. split; [exact Hn|].
  exact (edit_mode_sticky unit answer_ok 0 (fun _ => "") None (editing_page, tt) (back_page, tt)
           evening_appointment Hr ltac:(vm_compute; reflexivity) eq_refl Hn).
Defined.

End Dashboard.
