(* ===== verification/Views.v ===== *)
(** * What the components render: the JSX of client-list.tsx,
      appointment-list.tsx and appointment-form.tsx

    A component function evaluates its JSX: it reads properties of the
    values in its state, calls [getStatusColor] and [toString], and
    returns elements.  Each [render_*] below is that evaluation, from the
    component's state to a view record holding what the elements show
    (the children as the JSX holds them, the values and flags of the
    inputs and buttons) or to the [TypeError] a property read of [null]
    or [undefined] throws.  React's own refusal of an object as a child
    happens after the evaluation and is not modelled; nor are class names
    other than the status badge's and the selected row's, nor the locale
    formatting of dates ([toLocaleDateString] is kept as the time value
    it formats).  The client list's search field is then followed through
    one keystroke: the state change, the effect that refetches, and the
    renders in between. *)

From S2P Require Import Prelude Db Json Http Queries Appointments Wire Browser JsDate Lists Form.
Open Scope list_scope.

Module Views.
Import Schema Json Http Queries Appointments Wire Browser JsDate Lists Form.

(** ** Reading the values of the state *)

(** [xs.length]: [null] and [undefined] throw; a string and an array
    have their length; an object has its [length] property; a number or
    a boolean has none ([undefined]). *)
Definition js_length (o : option json) : res js_error (option json) :=
  match o with
  | None | Some JsNull => Err JsTypeError
  | Some (JsArr l) => Ok (Some (JsNum (Z.of_nat (List.length l))))
  | Some (JsStr s) => Ok (Some (JsNum (Z.of_nat (String.length s))))
  | Some (JsObj _ as v) => Ok (get "length" v)
  | Some _ => Ok None
  end.

Fixpoint res_map {E A B} (f : A -> res E B) (l : list A) : res E (list B) :=
  match l with
  | [] => Ok []
  | x :: l' => y ← f x; ys ← res_map f l'; Ok (y :: ys)
  end.

(** [xs.map(f)]: only an array has [map]; on anything else the call
    throws a [TypeError]. *)
Definition js_map {B} (f : json -> res js_error B) (o : option json) : res js_error (list B) :=
  match o with
  | Some (JsArr l) => res_map f l
  | _ => Err JsTypeError
  end.

(** A list body: the empty message, or the rows. *)
Inductive body (A : Type) :=
| Empty (message : string)
| Rows (rows : list A).
Arguments Empty {A} message.
Arguments Rows {A} rows.

(** [{error && <div>{error}</div>}] *)
Definition error_box (e : string) : option string := if String.eqb e "" then None else Some e.

(** [{x && <el>{x}</el>}] for a field that is text or [null]. *)
Definition when_truthy (o : option json) : option json := if opt_truthy o then o else None.

(** ** The client list (client-list.tsx lines 58-141) *)

Record client_item := mkClientRow {
  cr_key : option json;
  cr_selected : bool;           (** the [border-blue-500] class *)
  cr_name : option json;
  cr_email : option json;
  cr_phone : option json;       (** the phone line, when [client.phone] is truthy *)
  cr_since : option Z           (** [new Date(client.created_at)] *)
}.

Inductive client_list_view :=
| ClientsLoading                                   (** lines 58-71 *)
| ClientsCard (count : option json) (search : string) (err : option string) (rows : body client_item).

(** One row (lines 106-135): a [null] element throws on [client.id]. *)
Definition render_client (selectedClientId : option json) (client : json) : res js_error client_item :=
  match client with
  | JsNull => Err JsTypeError
  | _ => Ok (mkClientRow (get "id" client) (strict_eq selectedClientId (get "id" client))
                         (get "name" client) (get "email" client) (when_truthy (get "phone" client))
                         (new_Date (get "created_at" client)))
  end.

Definition render_client_list (selectedClientId : option json) (search : string) (st : list_state)
  : res js_error client_list_view :=
  if Lists.isLoading st then Ok ClientsLoading else
  count ← js_length (items st);
  rows ← (if strict_eq count (Some (JsNum 0))
          then Ok (Empty (if String.eqb search "" then "No clients found."
                          else "No clients found matching your search."))
          else rs ← js_map (render_client selectedClientId) (items st); Ok (Rows rs));
  Ok (ClientsCard count search (error_box (Lists.error st)) rows).

(** The search input is on the card, not on the loading view. *)
Definition has_search_input (v : res js_error client_list_view) : bool :=
  match v with Ok (ClientsCard _ _ _ _) => true | _ => false end.

(** The state of [ClientList] (lines 27-30). *)
Record client_list := mkClientList { search : string; listing : list_state }.

Section Search.
Context `{!JsonCodec}.
Variables (S : Type) (net : http_request -> S -> http_response * S).
Variable builtin_message : js_error -> string.
Variables (tok selectedClientId : option json).

Definition render_clients (c : client_list) : res js_error client_list_view :=
  render_client_list selectedClientId (search c) (listing c).

(** [fetchClients] from its first statement: [setIsLoading(true)] is
    rendered before the request resolves; then the resolved state. *)
Definition refetch (c : client_list) (s : S) : list (res js_error client_list_view) * client_list * S :=
  let c1 := mkClientList (search c) (mkListState (items (listing c)) true (Lists.error (listing c))) in
  let '(l2, s') := Lists.fetchClients S net builtin_message tok (search c) (listing c1) s in
  let c2 := mkClientList (search c) l2 in
  ([render_clients c1; render_clients c2], c2, s').

(** A keystroke in the search field (line 87): [setSearch] renders the
    new text; the effect of lines 49-51 runs because [search] changed. *)
Definition keystroke (text : string) (c : client_list) (s : S)
  : list (res js_error client_list_view) * client_list * S :=
  if String.eqb text (search c) then ([], c, s) else
  let c1 := mkClientList text (listing c) in
  let '(vs, c2, s') := refetch c1 s in
  (render_clients c1 :: vs, c2, s').

(** [handleSearch] (lines 53-56): the same fetch, with the text as it is. *)
Definition handleSearch (c : client_list) (s : S) : list (res js_error client_list_view) * client_list * S :=
  refetch c s.

End Search.

(** ** The appointment list (appointment-list.tsx lines 83-165) *)

Record appointment_item := mkAppointmentRow {
  ar_key : option json;
  ar_title : option json;
  ar_badge : string;                         (** [getStatusColor(appointment.status)] *)
  ar_status : option json;
  ar_client : option (option json * option json);  (** name and email, without [clientId] *)
  ar_date : option Z;                        (** [new Date(appointment.appointment_date)] *)
  ar_duration : option json;
  ar_description : option json;              (** when truthy *)
  ar_edit : bool;                            (** the edit button, when [onEdit] is given *)
  ar_delete : option json                    (** the argument of [handleDelete] *)
}.

Inductive appointment_list_view :=
| AppointmentsLoading                        (** lines 83-96 *)
| AppointmentsCard (title : string) (count : option json) (err : option string) (rows : body appointment_item).

(** [status.toLowerCase()]: a string has it; [null] and [undefined]
    throw on the read, a number or a boolean on the call. *)
Definition status_color (status : option json) : res js_error string :=
  match status with
  | Some (JsStr st) => Ok (getStatusColor st)
  | _ => Err JsTypeError
  end.

(** One row (lines 116-159), its reads in the order of the JSX. *)
Definition render_appointment (clientId : option json) (onEdit : bool) (appointment : json)
  : res js_error appointment_item :=
  match appointment with
  | JsNull => Err JsTypeError
  | _ =>
      badge ← status_color (get "status" appointment);
      Ok (mkAppointmentRow (get "id" appointment) (get "title" appointment) badge (get "status" appointment)
            (if opt_truthy clientId then None
             else Some (get "client_name" appointment, get "client_email" appointment))
            (new_Date (get "appointment_date" appointment)) (get "duration_minutes" appointment)
            (when_truthy (get "description" appointment)) onEdit (get "id" appointment))
  end.

Definition render_appointment_list (clientId : option json) (onEdit : bool) (st : list_state)
  : res js_error appointment_list_view :=
  if Lists.isLoading st then Ok AppointmentsLoading else
  count ← js_length (items st);
  rows ← (if strict_eq count (Some (JsNum 0))
          then Ok (Empty (if opt_truthy clientId then "No appointments found for this client."
                          else "No upcoming appointments."))
          else rs ← js_map (render_appointment clientId onEdit) (items st); Ok (Rows rs));
  Ok (AppointmentsCard (if opt_truthy clientId then "Client Appointments" else "Upcoming Appointments")
                       count (error_box (Lists.error st)) rows).

(** ** An appointment without a status *)

Lemma res_map_err {E A B} (f : A -> res E B) (e : E) (l : list A) x :
  (forall y, In y l -> is_ok (f y) = false -> f y = Err e) ->
  In x l -> is_ok (f x) = false -> res_map f l = Err e.
Proof.
  intros Hall. induction l as [|y l IH]; intros Hin Hx; [done|]. cbn.
  destruct (f y) as [b|e'] eqn:Hy.
  - destruct Hin as [<-|Hin]; [by rewrite Hy in Hx|].
    rewrite (IH (fun z Hz => Hall z (or_intror Hz)) Hin Hx). done.
  - by rewrite <- Hy, (Hall y (or_introl eq_refl)) by (by rewrite Hy).
Qed.

(** A row can only fail with a [TypeError]. *)
Lemma render_appointment_error clientId onEdit a :
  is_ok (render_appointment clientId onEdit a) = false -> render_appointment clientId onEdit a = Err JsTypeError.
Proof.
  unfold render_appointment, status_color. destruct a; try done;
    destruct (get "status" _) as [[]|]; done.
Qed.

Lemma get_status_view `{!PgTypes} (v : appointment_view) :
  get "status" (enc_view v) = Some (enc_opt_str (appt_status v.1.1)).
Proof. destruct v as [[r n] e]. reflexivity. Qed.

(** C26 (error) One appointment whose [status] column is SQL [NULL] (the
    schema allows it) makes the appointment list throw a [TypeError] as
    soon as the API's page reaches it: [getStatusColor] calls
    [toLowerCase] on [null], and the whole list fails to render, whatever
    the other appointments and the list's props. *)
Theorem null_status_crashes_list `{!PgTypes} clientId onEdit (vs : list appointment_view) v e :
  In v vs -> appt_status v.1.1 = None ->
  render_appointment_list clientId onEdit (mkListState (Some (JsArr (map enc_view vs))) false e) = Err JsTypeError.
Proof.
  intros Hin Hst. unfold render_appointment_list. cbn [Lists.isLoading items js_length].
  destruct vs as [|w vs]; [done|]. cbn [strict_eq mbind res_bind js_map].
  rewrite (res_map_err _ JsTypeError _ (enc_view v)).
  - destruct (Z.of_nat _ =? 0)%Z eqn:E0; [apply Z.eqb_eq in E0; cbn in E0; lia|done].
  - intros y _. apply render_appointment_error.
  - by apply in_map.
  - unfold render_appointment. rewrite get_status_view, Hst. by destruct (enc_view v).
Qed.

(** ** The appointment form (appointment-form.tsx lines 131-252) *)

Record form_view := mkFormView {
  fv_title : string;                       (** line 134 *)
  fv_error : option string;                (** lines 139-143 *)
  fv_client : json;                        (** the client select's value *)
  fv_client_disabled : bool;               (** [!!selectedClientId] *)
  fv_client_options : list (option json * option json * option json);  (** id, name, email *)
  fv_title_value : option json;
  fv_description : option json;
  fv_date : string;
  fv_date_min : string;                    (** [new Date().toISOString().split("T")[0]] *)
  fv_time : string;
  fv_duration : string;                    (** [formData.durationMinutes.toString()] *)
  fv_submit_disabled : bool;
  fv_submit : string;
  fv_cancel : bool                         (** line 242 *)
}.

(** [<SelectItem key={client.id} value={client.id}>]: a [null] element
    throws on [client.id]. *)
Definition client_option (client : json) : res js_error (option json * option json * option json) :=
  match client with
  | JsNull => Err JsTypeError
  | _ => Ok (get "id" client, get "name" client, get "email" client)
  end.

(** [x.toString()]: [null] and [undefined] throw; anything else is [String(x)]. *)
Definition to_String (o : option json) : res js_error string :=
  match o with
  | None | Some JsNull => Err JsTypeError
  | Some v => Ok (js_String v)
  end.

(** The form at the instant [now] (the clock of [new Date()]). *)
Definition render_form (clients selectedClientId editingAppointment : option json) (onCancel : bool)
  (now : Z) (fs : form_state) : res js_error form_view :=
  let fd := formData fs in
  options ← js_map client_option clients;
  duration ← to_String (durationMinutes fd);
  Ok (mkFormView (card_title editingAppointment) (error_box (Form.error fs)) (clientId fd)
                 (opt_truthy selectedClientId) options (title fd) (description fd) (appointmentDate fd)
                 (iso_date now) (appointmentTime fd) duration (Form.isLoading fs)
                 (submit_label editingAppointment (Form.isLoading fs))
                 (opt_truthy editingAppointment || onCancel)).

(** The handlers of the inputs, [setFormData({ ...formData, k: value })]
    (lines 149, 170, 181, 194, 206). *)
Definition set_clientId (value : string) (fd : form_data) : form_data :=
  mkFormData (JsStr value) (title fd) (description fd) (appointmentDate fd) (appointmentTime fd) (durationMinutes fd).
Definition set_title (value : string) (fd : form_data) : form_data :=
  mkFormData (clientId fd) (Some (JsStr value)) (description fd) (appointmentDate fd) (appointmentTime fd) (durationMinutes fd).
Definition set_description (value : string) (fd : form_data) : form_data :=
  mkFormData (clientId fd) (title fd) (Some (JsStr value)) (appointmentDate fd) (appointmentTime fd) (durationMinutes fd).
Definition set_date (value : string) (fd : form_data) : form_data :=
  mkFormData (clientId fd) (title fd) (description fd) value (appointmentTime fd) (durationMinutes fd).
Definition set_time (value : string) (fd : form_data) : form_data :=
  mkFormData (clientId fd) (title fd) (description fd) (appointmentDate fd) value (durationMinutes fd).

(** Line 216, [Number.parseInt(value)]; [None] when it is [NaN], which
    none of the select's values gives. *)
Definition set_duration (value : string) (fd : form_data) : option form_data :=
  match js_parseInt value with
  | Some n => Some (mkFormData (clientId fd) (title fd) (description fd) (appointmentDate fd)
                               (appointmentTime fd) (Some (JsNum n)))
  | None => None
  end.

(** The values of the duration select (lines 222-226). *)
Definition duration_options : list string := ["30"; "45"; "60"; "90"; "120"].

(** ** Editing an appointment without a duration *)

(** The effect copies [duration_minutes] of the edited object. *)
Lemma edit_effect_duration tz sel fs fd fd' :
  edit_effect tz sel (Some (JsObj fs)) fd = Ok fd' -> durationMinutes fd' = get "duration_minutes" (JsObj fs).
Proof.
  unfold edit_effect, opt_truthy. cbn. destruct (new_Date _); [|discriminate]. by intros [= <-].
Qed.

Lemma get_duration_view `{!PgTypes} (v : appointment_view) :
  get "duration_minutes" (enc_view v) = Some (enc_num (appt_duration_minutes v.1.1)).
Proof. destruct v as [[r n] e]. reflexivity. Qed.

(** C22 (error) Opening an appointment whose [duration_minutes] column is
    SQL [NULL] in the form makes the form throw: the effect copies the
    [null] into [formData], and the next render calls [toString] on it
    (or, when the date does not parse, the effect itself throws).  The
    schedule tab cannot edit such an appointment. *)
Theorem null_duration_crashes_form `{!PgTypes} tz clients sel (w : appointment_view) onCancel now fd ld err :
  appt_duration_minutes w.1.1 = None ->
  exists e, (fd' ← edit_effect tz sel (Some (enc_view w)) fd;
             render_form clients sel (Some (enc_view w)) onCancel now (mkFormState fd' ld err)) = Err e.
Proof.
  intros Hd. destruct (edit_effect tz sel (Some (enc_view w)) fd) as [fd'|e] eqn:He; cbn; [|by eauto].
  assert (Hf : durationMinutes fd' = Some JsNull).
  { destruct w as [[r n] m]. rewrite (edit_effect_duration _ _ _ _ _ He).
    exact (eq_trans (get_duration_view (r, n, m)) (f_equal (fun o => Some (enc_num o)) Hd)). }
  unfold render_form. cbn [formData]. rewrite Hf.
  destruct (js_map client_option clients); cbn; eauto.
Qed.

(** C36 (roundtrip) Choosing a duration in the select stores the number
    of minutes [Number.parseInt] reads from the option: the body the
    form then sends carries [durationMinutes] as that JSON number (30,
    45, 60, 90 or 120, not the option's text), and the form renders the
    number back as the option's value, so the chosen option stays
    selected, whatever the other fields hold. *)
Theorem duration_select_sends_minutes fd :
  Forall2 (fun o n => exists fd', set_duration o fd = Some fd' /\
             (forall t, get "durationMinutes" (payload fd' t) = Some (JsNum n)) /\
             forall clients sel ea onCancel now ld err, is_ok (js_map client_option clients) = true ->
               exists v, render_form clients sel ea onCancel now (mkFormState fd' ld err) = Ok v /\ fv_duration v = o)
    duration_options [30; 45; 60; 90; 120]%Z.
Proof.
  assert (Hr : forall o n, js_parseInt o = Some n -> to_String (Some (JsNum n)) = Ok o ->
            exists fd', set_duration o fd = Some fd' /\
             (forall t, get "durationMinutes" (payload fd' t) = Some (JsNum n)) /\
             forall clients sel ea onCancel now ld err, is_ok (js_map client_option clients) = true ->
               exists v, render_form clients sel ea onCancel now (mkFormState fd' ld err) = Ok v /\ fv_duration v = o).
  { intros o n Hp Hs. unfold set_duration. rewrite Hp. eexists. split; [done|]. split.
    - intros t. unfold payload, js_object. cbn [title description durationMinutes clientId].
      by destruct (Form.title fd), (Form.description fd).
    - intros clients sel ea onCancel now ld err Hc. unfold render_form. cbn [formData durationMinutes].
      destruct (js_map client_option clients); [|done]. cbn [mbind res_bind]. rewrite Hs. by eexists. }
  repeat constructor; eapply Hr; reflexivity.
Qed.


(** ** The earliest date the form accepts *)

Lemma iso_date_day t t' : (t / ms_per_day = t' / ms_per_day)%Z -> iso_date t = iso_date t'.
Proof. intros Ht. unfold iso_date. by rewrite Ht. Qed.

(** West of UTC, in the hours of the local evening when the UTC date has
    already moved on, the [min] of the date input is the local date of
    tomorrow: today's local date cannot be picked. *)
Lemma date_min_west clients sel ea onCancel now tz fs v :
  (- ms_per_day < tz < 0)%Z -> (now mod ms_per_day + tz < 0)%Z ->
  render_form clients sel ea onCancel now fs = Ok v ->
  fv_date_min v = iso_date (now + tz + ms_per_day).
Proof.
  intros Htz Hev. unfold render_form.
  destruct (js_map _ _); cbn [mbind res_bind]; [|discriminate].
  destruct (to_String _); cbn [mbind res_bind]; [|discriminate].
  intros [= <-]. cbn [fv_date_min]. apply iso_date_day.
  pose proof (Z.mod_pos_bound now ms_per_day ltac:(unfold ms_per_day; lia)).
  pose proof (Z.div_mod now ms_per_day ltac:(unfold ms_per_day; lia)).
  apply Z.div_unique with (now mod ms_per_day + tz + ms_per_day)%Z; unfold ms_per_day in *; lia.
Qed.

(** ** The auth context (use-auth.ts lines 81-99, page.tsx lines 8-24) *)

(** [useAuth()]: the value of the nearest [AuthProvider], or an [Error]
    when the component is not under one. *)
Definition useAuth (ctx : option auth_state) : res js_error auth_state :=
  match ctx with
  | Some c => Ok c
  | None => Err (JsError "useAuth must be used within an AuthProvider")
  end.

(** [Home]: [contextValue] is the provider's [auth] state. *)
Definition render_home (ctx : option auth_state) (mounted : bool) : res js_error home_view :=
  a ← useAuth ctx; Ok (home mounted a).

(** ** The search field through a keystroke *)

Lemma fetch_list_done `{!JsonCodec} S net msg field url tok st s :
  Lists.isLoading (fetch_list S net msg field url tok st s).1 = false.
Proof. unfold fetch_list. by repeat case_match. Qed.

(** A list that is not loading renders the card, whatever the search
    text, or throws whatever the search text. *)
Lemma render_client_list_card sel t t' l v :
  Lists.isLoading l = false -> render_client_list sel t l = Ok v ->
  exists count err rows, render_client_list sel t' l = Ok (ClientsCard count t' err rows).
Proof.
  intros Hl. unfold render_client_list. rewrite Hl.
  destruct (js_length (items l)) as [count|e]; cbn; [|discriminate].
  destruct (strict_eq count _); cbn; [by eauto|].
  destruct (js_map _ _); cbn; [by eauto|discriminate].
Qed.

(** C23 (safety) Every keystroke in the search field of the client list
    unmounts the field: the text is rendered on the card, the effect the
    change triggers renders the loading view, which has no search field,
    and the fetch ends with the list no longer loading.  The field the
    admin types in is a new element after each character (its focus is
    lost). *)
Theorem keystroke_unmounts_search `{!JsonCodec} S net msg tok sel text c s v :
  render_client_list sel (search c) (listing c) = Ok v -> Lists.isLoading (listing c) = false ->
  text <> search c ->
  let '(vs, c', _) := keystroke S net msg tok sel text c s in
  exists v1 v3, vs = [Ok v1; Ok ClientsLoading; v3] /\ has_search_input (Ok v1) = true /\
    search c' = text /\ Lists.isLoading (listing c') = false.
Proof.
  intros Hv Hl Hne. unfold keystroke. rewrite (proj2 (String.eqb_neq _ _) Hne).
  destruct (render_client_list_card sel (search c) text (listing c) v Hl Hv) as (count & err & rows & Hr).
  unfold refetch, Lists.fetchClients. cbn [search listing].
  pose proof (fetch_list_done S net msg "clients" (clients_url text) tok
                (mkListState (items (listing c)) true (Lists.error (listing c))) s) as Hd.
  destruct (fetch_list _ _ _ _ _ _ _ _) as [l2 s'].
  eexists _, _. unfold render_clients. cbn [search listing]. rewrite Hr. by split.
Qed.

(** ** Concrete runs *)

(** The overview lists a therapy session and a walk-in booked without a
    status; the list throws. *)
Lemma null_status_crashes_list_witness :
  render_appointment_list None true
    (mkListState (Some (JsArr (map enc_view [(therapy, "Jane Smith", "jane@x.org"); (walk_in, "Sam Lee", "sam@x.org")])))
                 false "") = Err JsTypeError.
Proof.
  apply (null_status_crashes_list None true _ (walk_in, "Sam Lee", "sam@x.org") "");
    [right; left; reflexivity|reflexivity].
Defined.

(** The client list shows no client; the admin types "J". *)
Definition no_clients : client_list := mkClientList "" (mkListState (Some (JsArr [])) false "").

Lemma keystroke_unmounts_search_witness :
  render_client_list None "" (listing no_clients) = Ok (ClientsCard (Some (JsNum 0)) "" None (Empty "No clients found.")) /\
  let '(vs, c', _) := keystroke unit accept_all (fun _ => "") None None "J" no_clients tt in
  exists v1 v3, vs = [Ok v1; Ok ClientsLoading; v3] /\ has_search_input (Ok v1) = true /\
    search c' = "J" /\ Lists.isLoading (listing c') = false.
Proof.
  split; [reflexivity|].
  apply (keystroke_unmounts_search unit accept_all (fun _ => "") None None "J" no_clients tt
           (ClientsCard (Some (JsNum 0)) "" None (Empty "No clients found.")));
    [reflexivity|reflexivity|discriminate].
Defined.

(** The therapist opens the walk-in (no duration) to edit it. *)
Lemma null_duration_crashes_form_witness :
  exists e, (fd' ← edit_effect 0 None (Some (enc_view (walk_in, "Sam Lee", "sam@x.org"))) (blank None);
             render_form (Some (JsArr [])) None (Some (enc_view (walk_in, "Sam Lee", "sam@x.org"))) true 0
               (mkFormState fd' false "")) = Err e.
Proof. apply (null_duration_crashes_form 0 (Some (JsArr [])) None (walk_in, "Sam Lee", "sam@x.org")). reflexivity. Defined.

End Views.
